(** * kivra-sync: authentication handshake and incremental fetch pipeline

    A shallow embedding of the Python sources of kivra-sync
    ([kivra/auth.py], [kivra/api.py], [kivra/models.py], [kivra/receipts.py],
    [kivra/letters.py], [utils/helpers.py], [utils/pdf.py], [kivra_sync.py],
    [storage/filesystem.py], the existence check of [storage/paperless.py]
    and the completion report of [interaction/local.py]) together with the
    properties its specification states and further properties of the code.

    Modelling conventions.
    - Python values are the inductive [pyval]; a [dict] is an association
      list that holds each key once, in insertion order.  Floats do not occur.
    - Calls that leave the process (HTTP requests, the document store, the
      interaction provider, the file system, the clock, the random source)
      are answered by an environment [env].  Each oracle sees the history of
      all earlier interactions, so an environment can be any deterministic,
      stateful collaborator.  Every call is recorded as an [event] together
      with its answer.
    - A computation [M A] maps an environment and a history to an [outcome]
      and the list of events it emitted.  [Raise] carries a Python exception;
      [SystemExit] is what [sys.exit] raises and is not an [Exception].
    - [while True] loops take a fuel argument; [OutOfFuel] is the outcome of
      a loop that needs more iterations than the fuel allows.
    - [print] and logging below WARNING level are not modelled; f-strings are
      kept as a list of literal pieces and interpolated values ([fstring]).
    - The methods of the file-system store are computations [FS fs A] over
      the state [fs] of a file system, given by the operations of the class
      [OperatingSystem]; what a property needs of the file system (that
      making directories and writing files make no path disappear) is the
      class [FilesStay]. *)

From Stdlib Require Import ZArith NArith List String Ascii Bool Lia Arith.
Import ListNotations.
Local Open Scope string_scope.
Local Open Scope list_scope.

Set Implicit Arguments.
Set Warnings "-register-all".

(** ** Python values *)

Inductive pyval : Type :=
| PNone
| PBool (b : bool)
| PInt (n : Z)
| PStr (s : string)
| PBytes (b : string)
| PList (l : list pyval)
| PDict (d : list (string * pyval)).

(** An f-string: literal pieces and interpolated values, in order. *)
Inductive fpart : Type :=
| Lit (s : string)
| Fmt (v : pyval).

Definition fstring := list fpart.

(** An instance of a subclass of [Exception]: its class name and the
    message it was built with.  For exceptions raised by the interpreter
    (AttributeError, TypeError, KeyError, ...) only the class is modelled. *)
Record pyexc : Type := mkExc { exc_class : string; exc_args : fstring }.

Definition AttributeError := mkExc "AttributeError" [].
Definition TypeError := mkExc "TypeError" [].
Definition KeyError := mkExc "KeyError" [].
Definition IndexError := mkExc "IndexError" [].
Definition ValueError := mkExc "ValueError" [].
Definition UnboundLocalError := mkExc "UnboundLocalError" [].
Definition JSONDecodeError := mkExc "JSONDecodeError" [].
Definition BinasciiError := mkExc "binascii.Error" [].
(** [Exception(msg)] *)
Definition Exception_ (msg : fstring) := mkExc "Exception" msg.

Inductive result (A : Type) : Type :=
| Ok (a : A)
| Err (e : pyexc).
Arguments Ok {A} a.
Arguments Err {A} e.

Definition rbind {A B} (r : result A) (k : A -> result B) : result B :=
  match r with
  | Ok a => k a
  | Err e => Err e
  end.

(** bool(v) *)
Definition py_truthy (v : pyval) : bool :=
  match v with
  | PNone => false
  | PBool b => b
  | PInt n => negb (Z.eqb n 0)
  | PStr s => negb (String.eqb s EmptyString)
  | PBytes b => negb (String.eqb b EmptyString)
  | PList l => match l with [] => false | _ => true end
  | PDict d => match d with [] => false | _ => true end
  end.

Fixpoint dict_get (d : list (string * pyval)) (k : string) : option pyval :=
  match d with
  | [] => None
  | (k', v) :: d' => if String.eqb k' k then Some v else dict_get d' k
  end.

(** v.get(k, dflt): only a dict has [get]. *)
Definition py_get (v : pyval) (k : string) (dflt : pyval) : result pyval :=
  match v with
  | PDict d => Ok (match dict_get d k with Some x => x | None => dflt end)
  | _ => Err AttributeError
  end.

(** k in v, for a str key [k]. *)
Fixpoint str_in_list (k : string) (l : list pyval) : bool :=
  match l with
  | [] => false
  | PStr s :: l' => String.eqb s k || str_in_list k l'
  | _ :: l' => str_in_list k l'
  end.

Fixpoint is_substring (k s : string) : bool :=
  if String.prefix k s then true
  else match s with
       | EmptyString => false
       | String _ s' => is_substring k s'
       end.

Definition py_contains (k : string) (v : pyval) : result bool :=
  match v with
  | PDict d => Ok (match dict_get d k with Some _ => true | None => false end)
  | PList l => Ok (str_in_list k l)
  | PStr s => Ok (is_substring k s)
  | _ => Err TypeError
  end.

(** v[k], for a str key [k]. *)
Definition py_getitem (v : pyval) (k : string) : result pyval :=
  match v with
  | PDict d => match dict_get d k with Some x => Ok x | None => Err KeyError end
  | _ => Err TypeError
  end.

Definition chars_of (s : string) : list pyval :=
  map (fun c => PStr (String c EmptyString)) (list_ascii_of_string s).

Definition bytes_of (s : string) : list pyval :=
  map (fun c => PInt (Z.of_N (N_of_ascii c))) (list_ascii_of_string s).

(** The elements [for x in v] visits. *)
Definition py_iter (v : pyval) : result (list pyval) :=
  match v with
  | PList l => Ok l
  | PDict d => Ok (map (fun kv => PStr (fst kv)) d)
  | PStr s => Ok (chars_of s)
  | PBytes b => Ok (bytes_of b)
  | _ => Err TypeError
  end.

(** len(v) *)
Definition py_len (v : pyval) : result Z :=
  match v with
  | PList l => Ok (Z.of_nat (List.length l))
  | PDict d => Ok (Z.of_nat (List.length d))
  | PStr s => Ok (Z.of_nat (String.length s))
  | PBytes b => Ok (Z.of_nat (String.length b))
  | _ => Err TypeError
  end.

(** The number of elements l[:n] keeps of a sequence of length [len]. *)
Definition slice_stop (len : nat) (n : Z) : nat :=
  if (n <? 0)%Z then Z.to_nat (Z.of_nat len + n)
  else Nat.min (Z.to_nat n) len.

(** l[:n] on a list. *)
Definition list_slice_to {A} (l : list A) (n : Z) : list A :=
  firstn (slice_stop (List.length l) n) l.

Definition string_slice_to (s : string) (n : Z) : string :=
  String.substring 0 (slice_stop (String.length s) n) s.

(** v[:n].  Slicing a dict raises (TypeError up to Python 3.11). *)
Definition py_slice_to (v : pyval) (n : Z) : result pyval :=
  match v with
  | PList l => Ok (PList (list_slice_to l n))
  | PStr s => Ok (PStr (string_slice_to s n))
  | PBytes b => Ok (PBytes (string_slice_to b n))
  | _ => Err TypeError
  end.

(** v[-1] *)
Definition py_last (v : pyval) : result pyval :=
  match v with
  | PList l => match rev l with x :: _ => Ok x | [] => Err IndexError end
  | PStr s => match rev (chars_of s) with x :: _ => Ok x | [] => Err IndexError end
  | PBytes b => match rev (bytes_of b) with x :: _ => Ok x | [] => Err IndexError end
  | PDict _ => Err KeyError
  | _ => Err TypeError
  end.

(** v += 1 *)
Definition py_incr (v : pyval) : result pyval :=
  match v with
  | PInt n => Ok (PInt (n + 1))
  | PBool b => Ok (PInt ((if b then 1 else 0) + 1))
  | _ => Err TypeError
  end.

(** v == 'literal' *)
Definition py_eq_str (v : pyval) (s : string) : bool :=
  match v with
  | PStr s' => String.eqb s' s
  | _ => false
  end.

(** ** The world: events, environment, computations *)

Definition headers := list (string * fstring).

(** What [requests] hands back: [json_body] is [None] when [response.json()]
    would fail to parse the body. *)
Record response : Type := mkResponse {
  status_code : Z;
  json_body : option pyval;
  text : string;
  content : string;
  resp_headers : pyval
}.

Inductive level : Type := WARNING | ERROR.

(** A file-system path, as the components given to [os.path.join]. *)
Definition path := list string.

Inductive event : Type :=
| EGet (url : fstring) (h : headers) (r : result response)
| EPost (url : fstring) (body : pyval) (h : headers) (r : result response)
| ESleep (seconds : Z)
| ELog (lvl : level) (msg : fstring) (exc : option pyexc)
| EReportListing (doc_type : string) (listing : pyval) (r : result unit)
| EExists (metadata : pyval) (r : result bool)
| EReportMetadata (data metadata : pyval) (r : result bool)
| EStore (data metadata : pyval) (r : result bool)
| EDisplayQrCode (qr_image_path : path) (r : result unit)
| EReportAuthenticationSuccess (r : result unit)
| ETokenUrlsafe (nbytes : Z) (r : string)
| EQrSave (data : pyval) (p : path) (r : result unit)
| EJsonDump (p : path) (data : pyval) (r : result unit)
| ERemove (p : path) (r : result unit).

Definition history := list event.

Record env : Type := mkEnv {
  (* requests.Session *)
  o_get : history -> fstring -> headers -> result response;
  o_post : history -> fstring -> pyval -> headers -> result response;
  (* an arbitrary DocumentStoreProvider *)
  o_report_listing : history -> string -> pyval -> result unit;
  o_exists : history -> pyval -> result bool;
  o_report_metadata : history -> pyval -> pyval -> result bool;
  o_store : history -> pyval -> pyval -> result bool;
  (* an arbitrary InteractionProvider *)
  o_display_qr_code : history -> path -> result unit;
  o_report_authentication_success : history -> result unit;
  (* secrets.token_urlsafe *)
  o_token_urlsafe : history -> Z -> string;
  (* qrcode: build the image and save it *)
  o_qr_save : history -> pyval -> path -> result unit;
  (* open(path, 'w') followed by json.dump *)
  o_json_dump : history -> path -> pyval -> result unit;
  (* os.remove *)
  o_remove : history -> path -> result unit
}.

Inductive raised : Type :=
| Exception (e : pyexc)
| SystemExit (status : string).

Inductive outcome (A : Type) : Type :=
| Ret (a : A)
| Raise (r : raised)
| OutOfFuel.
Arguments Ret {A} a.
Arguments Raise {A} r.
Arguments OutOfFuel {A}.

Definition M (A : Type) : Type := env -> history -> outcome A * list event.

Definition ret {A} (a : A) : M A := fun _ _ => (Ret a, []).

Definition bind {A B} (m : M A) (k : A -> M B) : M B := fun E h =>
  match m E h with
  | (Ret a, ev) => let (o, ev') := k a E (h ++ ev) in (o, ev ++ ev')
  | (Raise r, ev) => (Raise r, ev)
  | (OutOfFuel, ev) => (OutOfFuel, ev)
  end.

Declare Scope py_scope.
Delimit Scope py_scope with py.
Notation "x <- m ;; k" := (bind m (fun x => k))
  (at level 61, m at next level, right associativity) : py_scope.
Notation "m ;; k" := (bind m (fun _ => k))
  (at level 61, right associativity) : py_scope.
Local Open Scope py_scope.

Definition raise {A} (e : pyexc) : M A := fun _ _ => (Raise (Exception e), []).

(** sys.exit(status) *)
Definition sys_exit {A} (status : string) : M A :=
  fun _ _ => (Raise (SystemExit status), []).

Definition out_of_fuel {A} : M A := fun _ _ => (OutOfFuel, []).

Definition lift {A} (r : result A) : M A :=
  match r with
  | Ok a => ret a
  | Err e => raise e
  end.

(** Ask the environment, record the call with its answer. *)
Definition ask {A} (oracle : env -> history -> result A)
           (record : result A -> event) : M A := fun E h =>
  let r := oracle E h in
  (match r with Ok a => Ret a | Err e => Raise (Exception e) end, [record r]).

Definition emit (e : event) : M unit := fun _ _ => (Ret tt, [e]).

(** try: body / except Exception as e: handler e.
    [SystemExit] is not an [Exception] and passes through. *)
Definition try_except {A} (body : M A) (handler : pyexc -> M A) : M A :=
  fun E h =>
  match body E h with
  | (Raise (Exception e), ev) =>
      let (o, ev') := handler e E (h ++ ev) in (o, ev ++ ev')
  | r => r
  end.

(** try: body / except: pass *)
Definition try_except_all (body : M unit) : M unit := fun E h =>
  match body E h with
  | (Raise _, ev) => (Ret tt, ev)
  | r => r
  end.

Definition logging_error (msg : fstring) (exc : option pyexc) : M unit :=
  emit (ELog ERROR msg exc).

Definition logging_warning (msg : fstring) : M unit :=
  emit (ELog WARNING msg None).

(** time.sleep *)
Definition time_sleep (seconds : Z) : M unit := emit (ESleep seconds).

(** for x in l: acc = body x acc *)
Fixpoint for_each {A B} (l : list A) (body : A -> B -> M B) (acc : B) : M B :=
  match l with
  | [] => ret acc
  | x :: l' => acc' <- body x acc ;; for_each l' body acc'
  end.

(** The events of one kind in a trace. *)
Definition is_store (e : event) : bool :=
  match e with EStore _ _ _ => true | _ => false end.
Definition is_exists (e : event) : bool :=
  match e with EExists _ _ => true | _ => false end.
Definition is_report_metadata (e : event) : bool :=
  match e with EReportMetadata _ _ _ => true | _ => false end.
Definition is_get (e : event) : bool :=
  match e with EGet _ _ _ => true | _ => false end.
Definition is_post (e : event) : bool :=
  match e with EPost _ _ _ _ => true | _ => false end.

(** ** utils/helpers.py *)

Module helpers.

(** s.split('T')[0] *)
Fixpoint split_T_head (s : string) : string :=
  match s with
  | EmptyString => EmptyString
  | String c s' => if Ascii.eqb c "T"%char then EmptyString
                   else String c (split_T_head s')
  end.

(** iso_date.split('T')[0] if iso_date else 'unknown_date' *)
Definition format_date (iso_date : pyval) : result string :=
  if py_truthy iso_date then
    match iso_date with
    | PStr s => Ok (split_T_head s)
    | PBytes _ => Err TypeError
    | _ => Err AttributeError
    end
  else Ok "unknown_date".

End helpers.

(** ** kivra/models.py *)

Module models.

Definition RECEIPTS_QUERY : string :=
"
query Receipts($search: String, $limit: Int, $offset: Int) {
  receiptsV2(search: $search, limit: $limit, offset: $offset) {
    __typename
    total
    offset
    limit
    list {
      ...baseDetailsFields
    }
  }
}

fragment baseDetailsFields on ReceiptBaseDetails {
  __typename
  key
  purchaseDate
  totalAmount {
    formatted
  }
  attributes {
    isCopy
    isExpensed
    isReturn
    isTrashed
  }
  store {
    name
    logo {
      publicUrl
    }
  }
  attachments {
    id
    type
  }
  accessInfo {
    owner {
      isMe
      name
    }
  }
}
".

Definition RECEIPT_DETAILS_QUERY : string :=
"
query ReceiptDetails($key: String!) {
  receiptV2(key: $key) {
    key
    content {
      header {
        totalPurchaseAmount
        subAmounts
        isoDate
        formattedDate
        text
        labels {
          type
          text
        }
        logo {
          publicUrl
        }
      }
      footer {
        text
      }
      items {
        allItems {
          text
          items {
            text
            type
            ... on ProductListItem {
              ...productFields
            }
            ... on GeneralDepositListItem {
              money {
                formatted
              }
              isRefund
              description
              text
            }
            ... on GeneralDiscountListItem {
              money {
                formatted
              }
              isRefund
              text
            }
            ... on GeneralModifierListItem {
              money {
                formatted
              }
              isRefund
              text
            }
          }
        }
        noBonusItems {
          text
          items {
            type
            ... on ProductListItem {
              ...productFields
            }
          }
        }
        returnedItems {
          text
          items {
            type
            ... on ProductReturnListItem {
              name
              money {
                formatted
              }
              quantityCost {
                formatted
              }
              deposits {
                description
                money {
                  formatted
                }
                isRefund
              }
              costModifiers {
                description
                money {
                  formatted
                }
                isRefund
              }
              connectedReceipt {
                receiptKey
                description
                isParentReceipt
              }
              identifiers
              text
            }
          }
        }
      }
      storeInformation {
        text
        storeInformation {
          property
          value
          subRows {
            property
            value
          }
        }
      }
      paymentInformation {
        text
        totals {
          text
          totals {
            property
            value
            subRows {
              property
              value
            }
          }
        }
        paymentMethods {
          text
          methods {
            type
            information {
              property
              value
              subRows {
                property
                value
              }
            }
          }
        }
        customer {
          text
          customer {
            property
            value
            subRows {
              property
              value
            }
          }
        }
        cashRegister {
          text
          cashRegister {
            property
            value
            subRows {
              property
              value
            }
          }
        }
      }
    }
    campaigns {
      image {
        publicUrl
      }
      title
      key
      height
      width
      destinationUrl
    }
    sender {
      name
      key
    }
    attributes {
      isUpdatedWithReturns
    }
  }
}

fragment productFields on ProductListItem {
  name
  money {
    formatted
  }
  quantityCost {
    formatted
  }
  deposits {
    description
    money {
      formatted
    }
    isRefund
  }
  costModifiers {
    description
    money {
      formatted
    }
    isRefund
  }
  identifiers
  text
}
".

Definition LETTERS_QUERY : string :=
"
query ContentList($filter: ContentListFilter!, $senderKey: String, $take: Int!, $after: ID) {
  contents(
    filter: $filter
    senderKey: $senderKey
    take: $take
    after: $after
  ) {
    total
    existsMore
    list {
      ...ContentBaseDetails
    }
  }
}

fragment ContentBaseDetails on IContentBaseDetails {
  __typename
  key
  receivedAt
  attributes {
    isRead
    isTrashed
    isUpload
  }
  sender {
    key
    name
    iconUrl
  }
  subject
  accessInfo {
    owner {
      isMe
      name
    }
  }
}
".

(** The attributes of [KivraReceipt] that are read after construction. *)
Record KivraReceipt : Type := mkKivraReceipt {
  receipt_key : pyval;
  receipt_date : string;
  store_name : pyval
}.

Definition KivraReceipt_get_metadata (self : KivraReceipt)
           (content_type : string) : pyval :=
  PDict [("type", PStr "receipt");
         ("date", PStr (receipt_date self));
         ("store_name", store_name self);
         ("key", receipt_key self);
         ("content_type", PStr content_type)].

Record KivraLetter : Type := mkKivraLetter {
  letter_key : pyval;
  letter_date : string;
  sender_name : pyval;
  part_index : option nat
}.

Definition KivraLetter_get_metadata (self : KivraLetter)
           (content_type : string) : pyval :=
  let metadata := [("type", PStr "letter");
                   ("date", PStr (letter_date self));
                   ("sender_name", sender_name self);
                   ("key", letter_key self);
                   ("content_type", PStr content_type)] in
  match part_index self with
  | Some i => PDict (metadata ++ [("part_index", PInt (Z.of_nat i))])
  | None => PDict metadata
  end.

End models.

(** ** kivra/api.py *)

Module api.

Record KivraApiClient : Type := mkKivraApiClient {
  access_token : pyval;
  actor_key : pyval
}.

Definition graphql_url : fstring := [Lit "https://bff.kivra.com/graphql"].

Definition get_headers (self : KivraApiClient) : headers :=
  [("Content-Type", [Lit "application/json"]);
   ("Accept", [Lit "application/json"]);
   ("Origin", [Lit "https://inbox.kivra.com"]);
   ("Referer", [Lit "https://inbox.kivra.com/"]);
   ("Authorization", [Lit "Bearer "; Fmt (access_token self)]);
   ("X-Actor-Key", [Fmt (actor_key self)]);
   ("X-Actor-Type", [Lit "user"]);
   ("X-Session-Actor", [Lit "user_"; Fmt (actor_key self)]);
   ("X-Kivra-Environment", [Lit "production"]);
   ("User-Agent", [Lit "Mozilla/5.0 (Macintosh; Intel Mac OS X 10_15_7) AppleWebKit/537.36 (KHTML, like Gecko) Chrome/132.0.0.0 Safari/537.36"]);
   ("Accept-Language", [Lit "sv"]);
   ("Cache-Control", [Lit "no-cache"]);
   ("Pragma", [Lit "no-cache"])].

Definition session_get (url : fstring) (h : headers) : M response :=
  ask (fun E hist => o_get E hist url h) (EGet url h).

Definition session_post (url : fstring) (body : pyval) (h : headers)
  : M response :=
  ask (fun E hist => o_post E hist url body h) (EPost url body h).

(** response.json() *)
Definition response_json (r : response) : result pyval :=
  match json_body r with
  | Some v => Ok v
  | None => Err JSONDecodeError
  end.

Definition graphql_query (self : KivraApiClient) (operation_name query : string)
           (variables : pyval) : M pyval :=
  let payload := PDict [("operationName", PStr operation_name);
                        ("query", PStr query);
                        ("variables", variables)] in
  response <- session_post graphql_url payload (get_headers self) ;;
  if negb (status_code response =? 200)%Z then
    logging_error [Lit "GraphQL error: "; Fmt (PInt (status_code response));
                   Lit ", "; Fmt (PStr (text response))] None ;;
    raise (Exception_ [Lit "GraphQL query failed: ";
                       Fmt (PInt (status_code response))])
  else
    data <- lift (response_json response) ;;
    has_errors <- lift (py_contains "errors" data) ;;
    if (has_errors : bool) then
      errors <- lift (py_getitem data "errors") ;;
      logging_error [Lit "GraphQL errors: "; Fmt errors] None ;;
      raise (Exception_ [Lit "GraphQL query returned errors: "; Fmt errors])
    else ret data.

Definition get_pdf (self : KivraApiClient) (url : fstring) : M string :=
  let headers := [("Authorization", [Lit "token "; Fmt (access_token self)]);
                  ("Accept", [Lit "application/pdf"])] in
  response <- session_get url headers ;;
  if negb (status_code response =? 200)%Z then
    logging_error [Lit "Failed to get PDF. Status: ";
                   Fmt (PInt (status_code response))] None ;;
    logging_error (Lit "URL: " :: url) None ;;
    logging_error [Lit "Headers: {'Authorization': 'token ";
                   Fmt (access_token self);
                   Lit "', 'Accept': 'application/pdf'}"] None ;;
    logging_error [Lit "Response headers: "; Fmt (resp_headers response)] None ;;
    logging_error [Lit "Response body: "; Fmt (PStr (text response))] None ;;
    raise (Exception_ [Lit "Failed to get PDF: ";
                       Fmt (PInt (status_code response))])
  else ret (content response).

Definition get_content_details (self : KivraApiClient) (content_key : pyval)
  : M pyval :=
  let content_url := [Lit "https://app.api.kivra.com/v1/content/";
                      Fmt content_key] in
  let headers := [("Authorization", [Lit "token "; Fmt (access_token self)]);
                  ("Accept", [Lit "application/json"])] in
  response <- session_get content_url headers ;;
  if negb (status_code response =? 200)%Z then
    logging_error [Lit "Failed to get content details. Status: ";
                   Fmt (PInt (status_code response))] None ;;
    logging_error (Lit "URL: " :: content_url) None ;;
    logging_error [Lit "Response: "; Fmt (PStr (text response))] None ;;
    raise (Exception_ [Lit "Failed to get content details: ";
                       Fmt (PInt (status_code response))])
  else lift (response_json response).

Definition get_content_file (self : KivraApiClient)
           (content_key file_key : pyval) : M string :=
  let file_url := [Lit "https://app.api.kivra.com/v1/content/";
                   Fmt content_key; Lit "/file/"; Fmt file_key; Lit "/raw"] in
  let headers := [("Authorization", [Lit "token "; Fmt (access_token self)])] in
  response <- session_get file_url headers ;;
  if negb (status_code response =? 200)%Z then
    logging_error [Lit "Failed to get content file. Status: ";
                   Fmt (PInt (status_code response))] None ;;
    logging_error (Lit "URL: " :: file_url) None ;;
    logging_error [Lit "Response: "; Fmt (PStr (text response))] None ;;
    raise (Exception_ [Lit "Failed to get content file: ";
                       Fmt (PInt (status_code response))])
  else ret (content response).

End api.

(** ** storage/ *)

Module storage.

(** storage/base.py: the four operations of a document store. *)
Record DocumentStoreProvider : Type := mkStore {
  report_listing : string -> pyval -> M unit;
  exists_ : pyval -> M bool;
  store : pyval -> pyval -> M bool;
  report_metadata : pyval -> pyval -> M bool
}.

(** A store about which nothing is known: every operation is answered by
    the environment, and may raise. *)
Definition OracleStore : DocumentStoreProvider := {|
  report_listing := fun doc_type listing =>
    ask (fun E h => o_report_listing E h doc_type listing)
        (EReportListing doc_type listing);
  exists_ := fun metadata =>
    ask (fun E h => o_exists E h metadata) (EExists metadata);
  store := fun data metadata =>
    ask (fun E h => o_store E h data metadata) (EStore data metadata);
  report_metadata := fun data metadata =>
    ask (fun E h => o_report_metadata E h data metadata)
        (EReportMetadata data metadata)
|}.

(** storage/filesystem.py *)
Record FileSystemStoreProvider : Type := mkFileSystemStore {
  base_dir : string;
  dry_run : bool
}.

Definition receipts_json_dir (self : FileSystemStoreProvider) : path :=
  [base_dir self; "Receipts"; "json"].

Definition letters_json_dir (self : FileSystemStoreProvider) : path :=
  [base_dir self; "Letters"; "json"].

Definition FileSystem_report_listing (self : FileSystemStoreProvider)
           (doc_type : string) (listing : pyval) : M unit :=
  try_except
    (store_json_dir <-
       lift (if String.eqb doc_type "receipts"
             then Ok (receipts_json_dir self ++ ["receipts.json"])
             else if String.eqb doc_type "letters"
             then Ok (letters_json_dir self ++ ["letters.json"])
             else Err UnboundLocalError) ;;
     ask (fun E h => o_json_dump E h store_json_dir listing)
         (EJsonDump store_json_dir listing))
    (fun e => logging_error [Lit "Error storing document listing: "] (Some e)).

(** The file-system store: [report_listing] as in the source; what
    [exists], [store] and [report_metadata] find on disk is left to the
    environment. *)
Definition FileSystemStore (self : FileSystemStoreProvider)
  : DocumentStoreProvider := {|
  report_listing := FileSystem_report_listing self;
  exists_ := exists_ OracleStore;
  store := store OracleStore;
  report_metadata := report_metadata OracleStore
|}.

(** storage/paperless.py: [report_listing] is [pass]. *)
Definition Paperless_report_listing (doc_type : string) (listing : pyval)
  : M unit := ret tt.

Definition PaperlessStore : DocumentStoreProvider := {|
  report_listing := Paperless_report_listing;
  exists_ := exists_ OracleStore;
  store := store OracleStore;
  report_metadata := report_metadata OracleStore
|}.

End storage.

(** ** kivra/receipts.py *)

Module receipts.
Import helpers models api storage.

Record ReceiptFetcher : Type := mkReceiptFetcher {
  api_client : KivraApiClient;
  document_store : DocumentStoreProvider
}.

Definition _fetch_and_store_pdf (self : ReceiptFetcher) (receipt : KivraReceipt)
  : M bool :=
  try_except
    (let pdf_url := [Lit "https://app.api.kivra.com/v1/user/";
                     Fmt (actor_key (api_client self));
                     Lit "/receipts/"; Fmt (receipt_key receipt)] in
     pdf_content <- get_pdf (api_client self) pdf_url ;;
     let pdf_metadata := KivraReceipt_get_metadata receipt "application/pdf" in
     result <- store (document_store self) (PBytes pdf_content) pdf_metadata ;;
     ret result)
    (fun e =>
       logging_error [Lit "Error fetching PDF for receipt ";
                      Fmt (receipt_key receipt); Lit ": "] (Some e) ;;
       raise e).

(** The [try] statement of [_process_receipt].  [receipts_stored] is
    assigned only by the last statement of the [try] block, so the block
    yields the new value and the handler the old one. *)
Definition process_receipt_try (self : ReceiptFetcher) (receipt : KivraReceipt)
           (json_metadata receipts_stored : pyval) : M pyval :=
  try_except
    (let variables := PDict [("key", receipt_key receipt)] in
     detail_data <- graphql_query (api_client self) "ReceiptDetails"
                                  RECEIPT_DETAILS_QUERY variables ;;
     data <- lift (py_get detail_data "data" (PDict [])) ;;
     receipt_details <- lift (py_get data "receiptV2" (PDict [])) ;;
     report_metadata (document_store self) receipt_details json_metadata ;;
     stored <- _fetch_and_store_pdf self receipt ;;
     if (stored : bool) then lift (py_incr receipts_stored)
     else ret receipts_stored)
    (fun e =>
       logging_error [Lit "Error processing receipt ";
                      Fmt (receipt_key receipt); Lit ": "] (Some e) ;;
       ret receipts_stored).

Definition _process_receipt (self : ReceiptFetcher)
           (receipt_data receipts_stored : pyval) : M pyval :=
  receipt_key <- lift (py_get receipt_data "key" PNone) ;;
  if negb (py_truthy receipt_key) then
    logging_warning [Lit "Receipt missing key, skipping"] ;;
    ret PNone
  else
    purchase_date <- lift (py_get receipt_data "purchaseDate"
                                  (PStr "unknown_date")) ;;
    date <- lift (format_date purchase_date) ;;
    store_obj <- lift (py_get receipt_data "store" (PDict [])) ;;
    store <- lift (py_get store_obj "name" (PStr "unknown_store")) ;;
    let receipt := mkKivraReceipt receipt_key date store in
    let json_metadata := KivraReceipt_get_metadata receipt "application/json" in
    found <- exists_ (document_store self) json_metadata ;;
    if (found : bool) then ret receipts_stored
    else process_receipt_try self receipt json_metadata receipts_stored.

Definition fetch_receipts (self : ReceiptFetcher) (max_count : option Z)
  : M pyval :=
  let variables := PDict [("limit", PInt 20000); ("offset", PInt 0);
                          ("search", PNone)] in
  try_except
    (data <- graphql_query (api_client self) "Receipts" RECEIPTS_QUERY
                           variables ;;
     data' <- lift (py_get data "data" (PDict [])) ;;
     receipts <- lift (py_get data' "receiptsV2" (PDict [])) ;;
     receipt_list <- lift (py_get receipts "list" (PList [])) ;;
     total_receipts <- lift (py_get receipts "total" (PInt 0)) ;;
     report_listing (document_store self) "receipts" receipts ;;
     receipt_list <-
       match max_count with
       | Some n =>
           (* the message printed here evaluates len(receipt_list) *)
           _ <- lift (py_len receipt_list) ;;
           lift (py_slice_to receipt_list n)
       | None => ret receipt_list
       end ;;
     items <- lift (py_iter receipt_list) ;;
     receipts_stored <- for_each items (_process_receipt self) (PInt 0) ;;
     fetched <- lift (py_len receipt_list) ;;
     ret (PDict [("receipts_total", total_receipts);
                 ("receipts_fetched", PInt fetched);
                 ("receipts_stored", receipts_stored)]))
    (fun e =>
       logging_error [Lit "Error fetching receipts: "] (Some e) ;;
       raise e).

End receipts.

(** ** kivra/letters.py *)

Module letters.
Import helpers models api storage.

Record LetterFetcher : Type := mkLetterFetcher {
  api_client : KivraApiClient;
  document_store : DocumentStoreProvider
}.

(** enumerate(l) *)
Definition enumerate {A} (l : list A) : list (nat * A) :=
  combine (seq 0 (List.length l)) l.

(** One iteration of the loop over the parts of a letter: the new value of
    [parts_stored]. *)
Definition process_part (self : LetterFetcher) (letter : KivraLetter)
           (parts : pyval) (ip : nat * pyval) (parts_stored : Z) : M Z :=
  let (part_index, part) := ip in
  content_type <- lift (py_get part "content_type" PNone) ;;
  n <- lift (py_len parts) ;;
  let part_letter :=
    mkKivraLetter (letter_key letter) (letter_date letter) (sender_name letter)
                  (if (1 <? n)%Z then Some part_index else None) in
  if py_eq_str content_type "text/plain" then
    text_content <- lift (py_get part "body" (PStr EmptyString)) ;;
    let text_metadata := KivraLetter_get_metadata part_letter "text/plain" in
    ok <- store (document_store self) text_content text_metadata ;;
    if (ok : bool) then ret (parts_stored + 1)%Z else ret parts_stored
  else if py_eq_str content_type "text/html" then
    html_content <- lift (py_get part "body" PNone) ;;
    let html_metadata := KivraLetter_get_metadata part_letter "text/html" in
    ok <- store (document_store self) html_content html_metadata ;;
    if (ok : bool) then ret (parts_stored + 1)%Z else ret parts_stored
  else if py_eq_str content_type "application/pdf" then
    file_key <- lift (py_get part "key" PNone) ;;
    if negb (py_truthy file_key) then
      logging_warning [Lit "PDF part in letter "; Fmt (letter_key letter);
                       Lit " missing key"] ;;
      ret parts_stored
    else
      try_except
        (pdf_content <- get_content_file (api_client self) (letter_key letter)
                                         file_key ;;
         let pdf_metadata :=
           KivraLetter_get_metadata part_letter "application/pdf" in
         ok <- store (document_store self) (PBytes pdf_content) pdf_metadata ;;
         if (ok : bool) then ret (parts_stored + 1)%Z else ret parts_stored)
        (fun e =>
           logging_error [Lit "Error fetching PDF for letter ";
                          Fmt (letter_key letter); Lit ", file "; Fmt file_key;
                          Lit ": "] (Some e) ;;
           raise e)
  else
    logging_warning [Lit "Unknown content type in letter ";
                     Fmt (letter_key letter); Lit ": "; Fmt content_type] ;;
    ret parts_stored.

Definition _process_letter_parts (self : LetterFetcher) (letter : KivraLetter)
           (content_data : pyval) : M Z :=
  parts <- lift (py_get content_data "parts" (PList [])) ;;
  if negb (py_truthy parts) then
    logging_error [Lit "Letter "; Fmt (letter_key letter);
                   Lit " has no parts"] None ;;
    ret 0%Z
  else
    items <- lift (py_iter parts) ;;
    for_each (enumerate items) (process_part self letter parts) 0%Z.

(** d[k] = v on the items of a dict *)
Fixpoint dict_set (d : list (string * pyval)) (k : string) (v : pyval)
  : list (string * pyval) :=
  match d with
  | [] => [(k, v)]
  | (k', v') :: d' => if String.eqb k' k then (k', v) :: d'
                      else (k', v') :: dict_set d' k v
  end.

(** {**d, k: v} *)
Definition py_dict_with (d : pyval) (k : string) (v : pyval) : result pyval :=
  match d with
  | PDict items => Ok (PDict (dict_set items k v))
  | _ => Err TypeError
  end.

(** The [try] statement of [_process_letter].  [letters_stored] is assigned
    only by the last statement of the [try] block, so the block yields the
    new value and the handler the old one. *)
Definition process_letter_try (self : LetterFetcher) (letter_data : pyval)
           (letter : KivraLetter) (json_metadata letters_stored : pyval)
  : M pyval :=
  try_except
    (content_data <- get_content_details (api_client self)
                                         (letter_key letter) ;;
     letter_data' <- lift (py_dict_with letter_data "content" content_data) ;;
     report_metadata (document_store self) letter_data' json_metadata ;;
     parts_stored <- _process_letter_parts self letter content_data ;;
     if (0 <? parts_stored)%Z then lift (py_incr letters_stored)
     else ret letters_stored)
    (fun e =>
       logging_error [Lit "Error processing letter "; Fmt (letter_key letter);
                      Lit ": "] (Some e) ;;
       ret letters_stored).

Definition _process_letter (self : LetterFetcher)
           (letter_data letters_stored : pyval) : M pyval :=
  letter_key <- lift (py_get letter_data "key" PNone) ;;
  if negb (py_truthy letter_key) then
    logging_warning [Lit "Letter missing key, skipping"] ;;
    ret PNone
  else
    received_at <- lift (py_get letter_data "receivedAt"
                                (PStr "unknown_date")) ;;
    date <- lift (format_date received_at) ;;
    sender_obj <- lift (py_get letter_data "sender" (PDict [])) ;;
    sender <- lift (py_get sender_obj "name" (PStr "unknown_sender")) ;;
    let letter := mkKivraLetter letter_key date sender None in
    let json_metadata := KivraLetter_get_metadata letter "application/json" in
    found <- exists_ (document_store self) json_metadata ;;
    if (found : bool) then ret letters_stored
    else process_letter_try self letter_data letter json_metadata
                            letters_stored.

(** The [while True] loop of [fetch_letters]: the accumulated listing. *)
Fixpoint fetch_pages (fuel : nat) (self : LetterFetcher) (after : pyval)
         (all_letters : list pyval) : M (list pyval) :=
  match fuel with
  | O => out_of_fuel
  | S fuel' =>
      let variables := PDict [("after", after); ("filter", PStr "inbox");
                              ("senderKey", PNone); ("take", PInt 100)] in
      data <- graphql_query (api_client self) "ContentList" LETTERS_QUERY
                            variables ;;
      data' <- lift (py_get data "data" (PDict [])) ;;
      page_content <- lift (py_get data' "contents" (PDict [])) ;;
      page_letters <- lift (py_get page_content "list" (PList [])) ;;
      extension <- lift (py_iter page_letters) ;;
      let all_letters := all_letters ++ extension in
      exists_more <- lift (py_get page_content "existsMore" (PBool false)) ;;
      if negb (py_truthy exists_more) || negb (py_truthy page_letters) then
        ret all_letters
      else
        last_letter <- lift (py_last page_letters) ;;
        after <- lift (py_getitem last_letter "key") ;;
        fetch_pages fuel' self after all_letters
  end.

Definition fetch_letters (fuel : nat) (self : LetterFetcher)
           (max_count : option Z) : M pyval :=
  try_except
    (all_letters <- fetch_pages fuel self PNone [] ;;
     let total_letters := Z.of_nat (List.length all_letters) in
     report_listing (document_store self) "letters" (PList all_letters) ;;
     let all_letters :=
       match max_count with
       | Some n => list_slice_to all_letters n
       | None => all_letters
       end in
     letters_stored <- for_each all_letters (_process_letter self) (PInt 0) ;;
     let fetched :=
       match max_count with
       | Some n => List.length (list_slice_to all_letters n)
       | None => List.length all_letters
       end in
     ret (PDict [("letters_total", PInt total_letters);
                 ("letters_fetched", PInt (Z.of_nat fetched));
                 ("letters_stored", letters_stored)]))
    (fun e =>
       logging_error [Lit "Error fetching letters: "] (Some e) ;;
       raise e).

End letters.

(** ** Python's [base64] module, as far as auth.py uses it *)

Module base64.

Definition standard_alphabet : string :=
  "ABCDEFGHIJKLMNOPQRSTUVWXYZabcdefghijklmnopqrstuvwxyz0123456789+/".

Definition urlsafe_alphabet : string :=
  "ABCDEFGHIJKLMNOPQRSTUVWXYZabcdefghijklmnopqrstuvwxyz0123456789-_".

Definition pad : ascii := "="%char.

(** The character of a 6-bit value. *)
Definition b2a (alphabet : string) (i : N) : ascii :=
  match String.get (N.to_nat i) alphabet with
  | Some c => c
  | None => pad
  end.

Fixpoint index_of (c : ascii) (s : string) : option N :=
  match s with
  | EmptyString => None
  | String c' s' => if Ascii.eqb c c' then Some 0%N
                    else option_map N.succ (index_of c s')
  end.

(** The 6-bit value of a character, if it is one of the alphabet. *)
Definition a2b (alphabet : string) (c : ascii) : option N :=
  index_of c alphabet.

Fixpoint encode_bytes (alphabet : string) (bs : list N) : list ascii :=
  match bs with
  | [] => []
  | [a] => [b2a alphabet (a / 4); b2a alphabet (a mod 4 * 16); pad; pad]
  | [a; b] => [b2a alphabet (a / 4); b2a alphabet (a mod 4 * 16 + b / 16);
               b2a alphabet (b mod 16 * 4); pad]
  | a :: b :: c :: rest =>
      b2a alphabet (a / 4) :: b2a alphabet (a mod 4 * 16 + b / 16)
      :: b2a alphabet (b mod 16 * 4 + c / 64) :: b2a alphabet (c mod 64)
      :: encode_bytes alphabet rest
  end%N.

Definition bytes_to_N (s : string) : list N :=
  map N_of_ascii (list_ascii_of_string s).

Definition N_to_bytes (l : list N) : string :=
  string_of_list_ascii (map ascii_of_N l).

(** base64.urlsafe_b64encode(s) *)
Definition urlsafe_b64encode (s : string) : string :=
  string_of_list_ascii (encode_bytes urlsafe_alphabet (bytes_to_N s)).

(** The state of binascii.a2b_base64 between two input characters. *)
Record a2b_state : Type := mkA2b {
  quad_pos : N;
  leftchar : N;
  pads : N;
  bin_data : list N;
  finished : bool
}.

Definition a2b_init : a2b_state := mkA2b 0 0 0 [] false.

(** One input character of binascii.a2b_base64 without strict mode:
    padding is counted only once two characters of a quad were read and ends
    the input when it completes the quad; a character outside the standard
    alphabet is dropped. *)
Definition a2b_step (st : a2b_state) (this_ch : ascii) : a2b_state :=
  if finished st then st
  else if Ascii.eqb this_ch pad then
    if (2 <=? quad_pos st)%N then
      if (4 <=? quad_pos st + (pads st + 1))%N
      then mkA2b (quad_pos st) (leftchar st) (pads st + 1) (bin_data st) true
      else mkA2b (quad_pos st) (leftchar st) (pads st + 1) (bin_data st) false
    else st
  else
    match a2b standard_alphabet this_ch with
    | None => st
    | Some v =>
        match quad_pos st with
        | 0 => mkA2b 1 v 0 (bin_data st) false
        | 1 => mkA2b 2 (v mod 16) 0
                     (bin_data st ++ [leftchar st * 4 + v / 16]) false
        | 2 => mkA2b 3 (v mod 4) 0
                     (bin_data st ++ [leftchar st * 16 + v / 4]) false
        | _ => mkA2b 0 0 0 (bin_data st ++ [leftchar st * 64 + v]) false
        end%N
    end.

Definition a2b_base64 (s : list ascii) : result (list N) :=
  let st := fold_left a2b_step s a2b_init in
  if negb (finished st) && negb (quad_pos st =? 0)%N then Err BinasciiError
  else Ok (bin_data st).

Definition is_ascii (c : ascii) : bool := (N_of_ascii c <? 128)%N.

(** base64.b64decode(s) for a str [s]: the standard alphabet, no validation. *)
Definition b64decode (s : string) : result string :=
  let cs := list_ascii_of_string s in
  if forallb is_ascii cs then
    rbind (a2b_base64 cs) (fun bs => Ok (N_to_bytes bs))
  else Err ValueError.

(** s.rstrip('=') *)
Fixpoint rstrip_pad (s : string) : string :=
  match s with
  | EmptyString => EmptyString
  | String c s' =>
      match rstrip_pad s' with
      | EmptyString => if Ascii.eqb c pad then EmptyString
                       else String c EmptyString
      | r => String c r
      end
  end.

(** '=' * n *)
Fixpoint pad_string (n : nat) : string :=
  match n with
  | O => EmptyString
  | S n' => String pad (pad_string n')
  end.

End base64.

(** ** interaction/base.py *)

Module interaction.

(** The two operations the authenticator calls. *)
Record InteractionProvider : Type := mkInteraction {
  display_qr_code : path -> M unit;
  report_authentication_success : M unit
}.

(** A provider about which nothing is known. *)
Definition OracleInteraction : InteractionProvider := {|
  display_qr_code := fun p =>
    ask (fun E h => o_display_qr_code E h p) (EDisplayQrCode p);
  report_authentication_success :=
    ask (fun E h => o_report_authentication_success E h)
        EReportAuthenticationSuccess
|}.

End interaction.

(** ** kivra/auth.py *)

Module auth.
Import api interaction.

Record KivraAuth : Type := mkKivraAuth {
  temp_dir : string;
  interaction_provider : InteractionProvider
}.

Definition client_id : string := "14085255171411300228f14dceae786da5a00285fe".

(** secrets.token_urlsafe(32) *)
Definition _generate_code_verifier : M string := fun E h =>
  let v := o_token_urlsafe E h 32 in (Ret v, [ETokenUrlsafe 32 v]).

(** [sha256] is hashlib.sha256(...).digest() on bytes; a verifier is ASCII,
    so encoding it as UTF-8 leaves its bytes unchanged. *)
Definition _generate_code_challenge (sha256 : string -> string)
           (code_verifier : string) : string :=
  let code_challenge := sha256 code_verifier in
  base64.rstrip_pad (base64.urlsafe_b64encode code_challenge).

Definition _initialize_oauth2 (self : KivraAuth) (code_challenge : string)
  : M pyval :=
  let auth_url := [Lit "https://app.api.kivra.com/v2/oauth2/authorize"] in
  let auth_params :=
    PDict [("response_type", PStr "bankid_all");
           ("code_challenge", PStr code_challenge);
           ("code_challenge_method", PStr "S256");
           ("scope", PStr "openid profile");
           ("client_id", PStr client_id);
           ("redirect_uri", PStr "https://inbox.kivra.com/auth/kivra/return")] in
  r <- session_post auth_url auth_params
        [("Content-Type", [Lit "application/json"]);
         ("Accept", [Lit "application/json"]);
         ("User-Agent", [Lit "Mozilla/5.0 (Windows NT 10.0; Win64; x64) AppleWebKit/537.36 (KHTML, like Gecko) Chrome/91.0.4472.124 Safari/537.36"])] ;;
  if negb ((status_code r =? 201)%Z || (status_code r =? 202)%Z) then
    logging_error [Lit "OAuth2 authorization failed. Status: ";
                   Fmt (PInt (status_code r)); Lit ", Response: ";
                   Fmt (PStr (text r))] None ;;
    sys_exit "Could not initialize OAuth2"
  else lift (response_json r).

(** s.split('.') *)
Fixpoint split_dot (s : string) : list string :=
  match s with
  | EmptyString => [EmptyString]
  | String c s' =>
      if Ascii.eqb c "."%char then EmptyString :: split_dot s'
      else match split_dot s' with
           | x :: xs => String c x :: xs
           | [] => [String c EmptyString]
           end
  end.

(** id_token.split('.') *)
Definition py_split_dot (v : pyval) : result (list string) :=
  match v with
  | PStr s => Ok (split_dot s)
  | PBytes _ => Err TypeError
  | _ => Err AttributeError
  end.

(** The identity-token segment with its padding restored, decoded. *)
Definition decode_segment (segment : string) : result string :=
  let padding := base64.pad_string (4 - String.length segment mod 4) in
  base64.b64decode (segment ++ padding).

(** The branch of [_poll_for_auth] taken on status [complete], after the
    success notification: token exchange and identity-token decoding. *)
Definition exchange_token (self : KivraAuth) (json_loads : string -> result pyval)
           (auth_code : pyval) (code_verifier : string) : M pyval :=
  let token_url := [Lit "https://app.api.kivra.com/v2/oauth2/token"] in
  let token_data :=
    PDict [("grant_type", PStr "authorization_code");
           ("code", auth_code);
           ("client_id", PStr client_id);
           ("redirect_uri", PStr "https://inbox.kivra.com/auth/kivra/return");
           ("code_verifier", PStr code_verifier)] in
  token_response <- session_post token_url token_data
                      [("Content-Type", [Lit "application/json"])] ;;
  if negb (status_code token_response =? 200)%Z then
    logging_error [Lit "Failed to fetch token. Status: ";
                   Fmt (PInt (status_code token_response)); Lit ", Response: ";
                   Fmt (PStr (text token_response))] None ;;
    sys_exit "Token retrieval failed"
  else
    token_info <- lift (response_json token_response) ;;
    access_token <- lift (py_get token_info "access_token" PNone) ;;
    id_token <- lift (py_get token_info "id_token" PNone) ;;
    id_token_parts <- lift (py_split_dot id_token) ;;
    match id_token_parts with
    | _ :: segment :: _ =>
        jwt_payload <- lift (decode_segment segment) ;;
        jwt_data <- lift (json_loads jwt_payload) ;;
        actor_key <- lift (py_get jwt_data "kivra_user_id" PNone) ;;
        if negb (py_truthy actor_key) then
          logging_error [Lit "Could not find kivra_user_id in token: ";
                         Fmt jwt_data] None ;;
          sys_exit "Missing kivra_user_id"
        else
          ret (PDict [("access_token", access_token);
                      ("actor_key", actor_key);
                      ("jwt_data", jwt_data)])
    | _ =>
        logging_error [Lit "Invalid id_token structure"] None ;;
        sys_exit "Could not parse id_token"
    end.

Fixpoint _poll_for_auth (fuel : nat) (self : KivraAuth)
         (json_loads : string -> result pyval)
         (next_poll_url auth_code : pyval) (code_verifier : string)
  : M pyval :=
  match fuel with
  | O => out_of_fuel
  | S fuel' =>
      time_sleep 5 ;;
      poll_response <- session_get [Lit "https://app.api.kivra.com";
                                    Fmt next_poll_url] [] ;;
      poll_data <- lift (response_json poll_response) ;;
      status <- lift (py_get poll_data "status" PNone) ;;
      if py_eq_str status "complete" then
        report_authentication_success (interaction_provider self) ;;
        exchange_token self json_loads auth_code code_verifier
      else if py_eq_str status "pending" then
        _poll_for_auth fuel' self json_loads next_poll_url auth_code
                       code_verifier
      else
        logging_error [Lit "Error during polling. Status: "; Fmt status;
                       Lit ", Response: "; Fmt poll_data] None ;;
        sys_exit "BankID authentication failed"
  end.

(** [sha256] and [json_loads] stand for hashlib.sha256(...).digest() and
    json.loads, two pure functions of the Python library. *)
Definition authenticate (fuel : nat) (self : KivraAuth)
           (sha256 : string -> string) (json_loads : string -> result pyval)
           (ssn : string) : M pyval :=
  session_get [Lit "https://app.kivra.com/"] [] ;;
  code_verifier <- _generate_code_verifier ;;
  let code_challenge := _generate_code_challenge sha256 code_verifier in
  auth_data <- _initialize_oauth2 self code_challenge ;;
  qr_code <- lift (py_get auth_data "qr_code" PNone) ;;
  next_poll_url <- lift (py_get auth_data "next_poll_url" PNone) ;;
  auth_code <- lift (py_get auth_data "code" PNone) ;;
  if negb (py_truthy qr_code) || negb (py_truthy auth_code) then
    logging_error [Lit "Missing QR code or auth code in response"] None ;;
    sys_exit "Authentication initialization failed"
  else
    let temp_path := [temp_dir self; "kivra_qr.png"] in
    ask (fun E h => o_qr_save E h qr_code temp_path) (EQrSave qr_code temp_path) ;;
    display_qr_code (interaction_provider self) temp_path ;;
    token_info <- _poll_for_auth fuel self json_loads next_poll_url auth_code
                                 code_verifier ;;
    try_except_all
      (ask (fun E h => o_remove E h temp_path) (ERemove temp_path)) ;;
    ret token_info.

End auth.

(** ** Running a computation, and properties of what it emits *)

Definition run {A} (m : M A) (E : env) : outcome A * list event := m E [].

(** Every event [m] emits satisfies [P], whatever the environment. *)
Definition emits_only {A} (P : event -> bool) (m : M A) : Prop :=
  forall E h, forallb P (snd (m E h)) = true.

(** [m] ends by returning or by raising an [Exception]: it neither exits
    the process nor runs out of fuel. *)
Definition no_exit {A} (m : M A) : Prop :=
  forall E h, match fst (m E h) with
              | Ret _ => True
              | Raise (Exception _) => True
              | _ => False
              end.

(** [m] always returns. *)
Definition returns {A} (m : M A) : Prop :=
  forall E h, exists a, fst (m E h) = Ret a.

(** What a computation returns, when it returns. *)
Definition ret_sat {A} (Q : A -> Prop) (m : M A) : Prop :=
  forall E h a, fst (m E h) = Ret a -> Q a.

Definition count_events (P : event -> bool) (evs : list event) : nat :=
  List.length (filter P evs).

(** A content part was newly persisted: [store] answered [True]. *)
Definition is_stored (e : event) : bool :=
  match e with
  | EStore _ _ (Ok true) => true
  | _ => false
  end.

Definition not_exists (e : event) : bool := negb (is_exists e).

(** ** Environments used in examples *)

Definition json_response (v : pyval) : response :=
  mkResponse 200 (Some v) EmptyString EmptyString (PDict []).

Definition bytes_response (b : string) : response :=
  mkResponse 200 None EmptyString b (PDict []).

Definition status_response (code : Z) : response :=
  mkResponse code None EmptyString EmptyString (PDict []).

(** Everything succeeds; nothing is in the store yet. *)
Definition quiet_env : env := {|
  o_get := fun _ _ _ => Ok (json_response (PDict []));
  o_post := fun _ _ _ _ => Ok (json_response (PDict []));
  o_report_listing := fun _ _ _ => Ok tt;
  o_exists := fun _ _ => Ok false;
  o_report_metadata := fun _ _ _ => Ok true;
  o_store := fun _ _ _ => Ok true;
  o_display_qr_code := fun _ _ => Ok tt;
  o_report_authentication_success := fun _ => Ok tt;
  o_token_urlsafe := fun _ _ => "verifier";
  o_qr_save := fun _ _ _ => Ok tt;
  o_json_dump := fun _ _ _ => Ok tt;
  o_remove := fun _ _ => Ok tt
|}.

Definition with_get (f : history -> fstring -> headers -> result response)
           (E : env) : env :=
  mkEnv f (o_post E) (o_report_listing E) (o_exists E) (o_report_metadata E)
        (o_store E) (o_display_qr_code E) (o_report_authentication_success E)
        (o_token_urlsafe E) (o_qr_save E) (o_json_dump E) (o_remove E).

Definition with_post
           (f : history -> fstring -> pyval -> headers -> result response)
           (E : env) : env :=
  mkEnv (o_get E) f (o_report_listing E) (o_exists E) (o_report_metadata E)
        (o_store E) (o_display_qr_code E) (o_report_authentication_success E)
        (o_token_urlsafe E) (o_qr_save E) (o_json_dump E) (o_remove E).

Definition with_exists (f : history -> pyval -> result bool) (E : env) : env :=
  mkEnv (o_get E) (o_post E) (o_report_listing E) f (o_report_metadata E)
        (o_store E) (o_display_qr_code E) (o_report_authentication_success E)
        (o_token_urlsafe E) (o_qr_save E) (o_json_dump E) (o_remove E).

Definition with_report_listing (f : history -> string -> pyval -> result unit)
           (E : env) : env :=
  mkEnv (o_get E) (o_post E) f (o_exists E) (o_report_metadata E)
        (o_store E) (o_display_qr_code E) (o_report_authentication_success E)
        (o_token_urlsafe E) (o_qr_save E) (o_json_dump E) (o_remove E).

Definition with_json_dump (f : history -> path -> pyval -> result unit)
           (E : env) : env :=
  mkEnv (o_get E) (o_post E) (o_report_listing E) (o_exists E)
        (o_report_metadata E) (o_store E) (o_display_qr_code E)
        (o_report_authentication_success E) (o_token_urlsafe E) (o_qr_save E)
        f (o_remove E).

(** A GraphQL answer [{"data": {field: value}}]. *)
Definition graphql_data (field : string) (value : pyval) : pyval :=
  PDict [("data", PDict [(field, value)])].

(** The operation name and the cursor of a GraphQL request body. *)
Definition operation_of (body : pyval) : pyval :=
  match py_get body "operationName" PNone with Ok v => v | Err _ => PNone end.

Definition cursor_of (body : pyval) : pyval :=
  match py_get body "variables" PNone with
  | Ok vars => match py_get vars "after" PNone with Ok v => v | Err _ => PNone end
  | Err _ => PNone
  end.

Definition the_client : api.KivraApiClient :=
  api.mkKivraApiClient (PStr "token") (PStr "actor").

Definition receipt_fetcher : receipts.ReceiptFetcher :=
  receipts.mkReceiptFetcher the_client storage.OracleStore.

Definition letter_fetcher : letters.LetterFetcher :=
  letters.mkLetterFetcher the_client storage.OracleStore.

(** ** Listed items *)

(** The listed item has no usable key: the field is absent, null or empty. *)
Definition keyless (item : pyval) : Prop :=
  exists k, py_get item "key" PNone = Ok k /\ py_truthy k = false.

(** What the receipt fetcher reads from a listed receipt before it asks the
    store: a non-empty key, the purchase date and the store name. *)
Definition readable_receipt (receipt_data key : pyval) (date : string)
           (store : pyval) : Prop :=
  py_get receipt_data "key" PNone = Ok key /\
  py_truthy key = true /\
  rbind (py_get receipt_data "purchaseDate" (PStr "unknown_date"))
        helpers.format_date = Ok date /\
  rbind (py_get receipt_data "store" (PDict []))
        (fun s => py_get s "name" (PStr "unknown_store")) = Ok store.

(** The JSON-metadata fingerprint of a receipt. *)
Definition receipt_fingerprint (key : pyval) (date : string) (store : pyval)
  : pyval :=
  models.KivraReceipt_get_metadata (models.mkKivraReceipt key date store)
                                   "application/json".

Definition readable_letter (letter_data key : pyval) (date : string)
           (sender : pyval) : Prop :=
  py_get letter_data "key" PNone = Ok key /\
  py_truthy key = true /\
  rbind (py_get letter_data "receivedAt" (PStr "unknown_date"))
        helpers.format_date = Ok date /\
  rbind (py_get letter_data "sender" (PDict []))
        (fun s => py_get s "name" (PStr "unknown_sender")) = Ok sender.

(** The JSON-metadata fingerprint of a letter. *)
Definition letter_fingerprint (key : pyval) (date : string) (sender : pyval)
  : pyval :=
  models.KivraLetter_get_metadata (models.mkKivraLetter key date sender None)
                                  "application/json".

(** The counter after an item: unchanged, or incremented once. *)
Definition counted_at_most_once (before after : pyval) : Prop :=
  after = before \/ py_incr before = Ok after.

(** The store's existence check answers, it does not raise. *)
Definition exists_answers (E : env) : Prop :=
  forall h m, exists b, o_exists E h m = Ok b.

(** A listed item the per-item step can handle before its guarded block:
    it has no key, or its key, date and counterparty can be read. *)
Definition listed_receipt (item : pyval) : Prop :=
  keyless item \/
  exists key date store, readable_receipt item key date store.

Definition listed_letter (item : pyval) : Prop :=
  keyless item \/
  exists key date sender, readable_letter item key date sender.

(** The listed item carries a usable key. *)
Definition has_key (item : pyval) : bool :=
  match py_get item "key" PNone with
  | Ok k => py_truthy k
  | Err _ => false
  end.

(** What [fetch_receipts] reads from the answer to its listing query. *)
Definition receipts_listing (data receipts : pyval) (items : list pyval)
           (total : pyval) : Prop :=
  rbind (py_get data "data" (PDict []))
        (fun d => py_get d "receiptsV2" (PDict [])) = Ok receipts /\
  py_get receipts "list" (PList []) = Ok (PList items) /\
  py_get receipts "total" (PInt 0) = Ok total.

(** The items processed after truncation to [max_count]. *)
Definition truncated (items : list pyval) (max_count : option Z) : list pyval :=
  match max_count with
  | Some n => list_slice_to items n
  | None => items
  end.

Definition receipts_variables : pyval :=
  PDict [("limit", PInt 20000); ("offset", PInt 0); ("search", PNone)].

(** The list phase of [fetch_receipts] succeeded from history [h]: the
    query returned [items] with the server-reported [total], and the listing
    snapshot was handed to the store; [ev] are the events so far. *)
Definition receipts_listed (F : receipts.ReceiptFetcher) (E : env) (h : history)
           (items : list pyval) (total : pyval) (ev : list event) : Prop :=
  exists data ev0 listing ev1,
    api.graphql_query (receipts.api_client F) "Receipts" models.RECEIPTS_QUERY
                      receipts_variables E h = (Ret data, ev0) /\
    receipts_listing data listing items total /\
    storage.report_listing (receipts.document_store F) "receipts" listing E
                           (h ++ ev0) = (Ret tt, ev1) /\
    ev = ev0 ++ ev1.

(** The list phase of [fetch_letters] succeeded from history [h]. *)
Definition letters_listed (fuel : nat) (F : letters.LetterFetcher) (E : env)
           (h : history) (items : list pyval) (ev : list event) : Prop :=
  exists ev0 ev1,
    letters.fetch_pages fuel F PNone [] E h = (Ret items, ev0) /\
    storage.report_listing (letters.document_store F) "letters" (PList items) E
                           (h ++ ev0) = (Ret tt, ev1) /\
    ev = ev0 ++ ev1.

(** The statistics the two fetch operations return. *)
Definition receipt_stats (total : pyval) (fetched : nat) (stored : pyval)
  : pyval :=
  PDict [("receipts_total", total);
         ("receipts_fetched", PInt (Z.of_nat fetched));
         ("receipts_stored", stored)].

Definition letter_stats (total fetched : nat) (stored : pyval) : pyval :=
  PDict [("letters_total", PInt (Z.of_nat total));
         ("letters_fetched", PInt (Z.of_nat fetched));
         ("letters_stored", stored)].

(** The existence check of a readable item, answered [True]. *)
Definition receipt_gate_event (item : pyval) (ev : event) : Prop :=
  exists key date store,
    readable_receipt item key date store /\
    ev = EExists (receipt_fingerprint key date store) (Ok true).

Definition letter_gate_event (item : pyval) (ev : event) : Prop :=
  exists key date sender,
    readable_letter item key date sender /\
    ev = EExists (letter_fingerprint key date sender) (Ok true).

(** *** A small account: three receipts and three letters *)

Definition demo_receipt (key : string) : pyval :=
  PDict [("key", PStr key);
         ("purchaseDate", PStr "2024-03-01T09:30:00Z");
         ("store", PDict [("name", PStr "Grocer")])].

Definition demo_letter (key : string) : pyval :=
  PDict [("key", PStr key);
         ("receivedAt", PStr "2024-03-02T07:00:00Z");
         ("sender", PDict [("name", PStr "Agency")])].

(** A listed item without a key. *)
Definition demo_keyless : pyval :=
  PDict [("purchaseDate", PStr "2024-03-01T09:30:00Z");
         ("receivedAt", PStr "2024-03-02T07:00:00Z")].

Definition demo_parts : pyval :=
  PList [PDict [("content_type", PStr "text/plain"); ("body", PStr "hello")];
         PDict [("content_type", PStr "application/pdf"); ("key", PStr "f1")];
         PDict [("content_type", PStr "text/html"); ("body", PStr "<p>hi</p>")];
         PDict [("content_type", PStr "application/x-unknown")]].

(** One server for both catalogs: the listing queries return [rs] and [ls]
    in a single page, every detail request succeeds, every letter has the
    four parts of [demo_parts]. *)
Definition demo_post (rs ls : list pyval)
  : history -> fstring -> pyval -> headers -> result response :=
  fun _ _ body _ =>
    if py_eq_str (operation_of body) "Receipts" then
      Ok (json_response (graphql_data "receiptsV2"
            (PDict [("total", PInt (Z.of_nat (List.length rs)));
                    ("list", PList rs)])))
    else if py_eq_str (operation_of body) "ContentList" then
      Ok (json_response (graphql_data "contents"
            (PDict [("total", PInt (Z.of_nat (List.length ls)));
                    ("existsMore", PBool false);
                    ("list", PList ls)])))
    else Ok (json_response (graphql_data "receiptV2" (PDict []))).

Definition demo_get : history -> fstring -> headers -> result response :=
  fun _ _ _ =>
    Ok (mkResponse 200 (Some (PDict [("parts", demo_parts)])) EmptyString "%PDF"
                   (PDict [])).

Definition demo_env (rs ls : list pyval) : env :=
  with_post (demo_post rs ls) (with_get demo_get quiet_env).

(** The same account when the store already holds every item. *)
Definition demo_env_all_exist (rs ls : list pyval) : env :=
  with_exists (fun _ _ => Ok true) (demo_env rs ls).

Definition demo_receipts_with_keyless : list pyval :=
  [demo_receipt "r1"; demo_keyless; demo_receipt "r3"].

Definition demo_letters_with_keyless : list pyval :=
  [demo_letter "l1"; demo_keyless; demo_letter "l3"].

Definition readable_receipt_item (item : pyval) : Prop :=
  exists key date store, readable_receipt item key date store.

Definition readable_letter_item (item : pyval) : Prop :=
  exists key date sender, readable_letter item key date sender.

(** The store already holds everything: [exists] always answers [True]. *)
Definition all_exist (E : env) : Prop :=
  forall h m, o_exists E h m = Ok true.

Definition demo_receipts : list pyval :=
  [demo_receipt "r1"; demo_receipt "r2"; demo_receipt "r3"].

Definition demo_letters : list pyval :=
  [demo_letter "l1"; demo_letter "l2"; demo_letter "l3"].

(** The specification's formula for the fetched count:
    min(len(listing), max_count or len(listing)). *)
Definition spec_fetched (len : Z) (max_count : option Z) : Z :=
  Z.min len (match max_count with
             | Some n => if (n =? 0)%Z then len else n
             | None => len
             end).

(** A letters server whose reported total (5) is not the number of letters
    it lists (2). *)
Definition demo_env_total_5 : env :=
  with_post
    (fun _ _ _ _ =>
       Ok (json_response (graphql_data "contents"
             (PDict [("total", PInt 5);
                     ("existsMore", PBool false);
                     ("list", PList [demo_letter "l1"; demo_letter "l2"])]))))
    (with_get demo_get quiet_env).

(** The statistics field [name] of a fetch outcome. *)
Definition stat {A} (name : string) (r : outcome pyval * A) : option pyval :=
  match fst r with
  | Ret (PDict d) => dict_get d name
  | _ => None
  end.

(** ** A letters server that pages by cursor *)

Definition list_variables (after : pyval) : pyval :=
  PDict [("after", after); ("filter", PStr "inbox"); ("senderKey", PNone);
         ("take", PInt 100)].

(** The body of a letters listing request. *)
Definition list_body (after : pyval) : pyval :=
  PDict [("operationName", PStr "ContentList");
         ("query", PStr models.LETTERS_QUERY);
         ("variables", list_variables after)].

Definition page_answer (page : list pyval) (more : bool) (total : Z) : response :=
  json_response (graphql_data "contents"
    (PDict [("total", PInt total); ("existsMore", PBool more);
            ("list", PList page)])).

(** A listing request with cursor [after], answered with [resp]. *)
Definition list_request (client : api.KivraApiClient) (after : pyval)
           (resp : response) : event :=
  EPost api.graphql_url (list_body after) (api.get_headers client) (Ok resp).

Definition item_key (item : pyval) : option string :=
  match py_getitem item "key" with
  | Ok (PStr k) => Some k
  | _ => None
  end.

(** The key of the last item of a page. *)
Definition last_key (page : list pyval) : option string :=
  match rev page with
  | x :: _ => item_key x
  | [] => None
  end.

Definition nonempty {A} (l : list A) : bool :=
  match l with [] => false | _ => true end.

Definition option_string_eqb (a : option string) (b : string) : bool :=
  match a with
  | Some s => String.eqb s b
  | None => false
  end.

Definition first_page (pages : list (list pyval)) : list pyval * bool :=
  match pages with
  | [] => ([], false)
  | p :: rest => (p, nonempty rest)
  end.

(** The page that follows the one whose last item has key [cursor], and
    whether more pages follow it. *)
Fixpoint page_after (pages : list (list pyval)) (cursor : string)
  : list pyval * bool :=
  match pages with
  | [] => ([], false)
  | p :: rest => if option_string_eqb (last_key p) cursor then first_page rest
                 else page_after rest cursor
  end.

Definition serve (pages : list (list pyval)) (cursor : pyval)
  : list pyval * bool :=
  match cursor with
  | PStr k => page_after pages k
  | _ => first_page pages
  end.

(** The server: it answers a listing request by the cursor the request
    carries, and sets existsMore on every page but the last. *)
Definition cursor_server (pages : list (list pyval)) (total : Z)
  : history -> fstring -> pyval -> headers -> result response :=
  fun _ _ body _ =>
    let (page, more) := serve pages (cursor_of body) in
    Ok (page_answer page more total).

(** The listing is split by the cursor protocol: there is at least one page,
    and every page but the last ends with an item whose key is a string that
    no earlier page ended with. *)
Fixpoint cursor_paged_from (seen : list string) (pages : list (list pyval))
  : Prop :=
  match pages with
  | [] => False
  | p :: rest =>
      match rest with
      | [] => True
      | _ :: _ => exists k, last_key p = Some k /\ ~ In k seen /\
                            cursor_paged_from (k :: seen) rest
      end
  end.

Definition cursor_paged (pages : list (list pyval)) : Prop :=
  cursor_paged_from [] pages.

Definition cursor_after (page : list pyval) : pyval :=
  match last_key page with
  | Some k => PStr k
  | None => PNone
  end.

(** The listing requests of a run over [pages] that starts with [cursor]:
    one per page, each carrying the key of the last item of the page before. *)
Fixpoint list_requests (client : api.KivraApiClient) (cursor : pyval)
         (pages : list (list pyval)) (total : Z) : list event :=
  match pages with
  | [] => []
  | p :: rest =>
      list_request client cursor (page_answer p (nonempty rest) total)
      :: list_requests client (cursor_after p) rest total
  end.

Definition not_post (e : event) : bool := negb (is_post e).

(** Three pages of two, two and one letters. *)
Definition demo_pages : list (list pyval) :=
  [[demo_letter "a"; demo_letter "b"];
   [demo_letter "c"; demo_letter "d"];
   [demo_letter "e"]].

(** ** Parts of a letter *)

(** [m] returns its counter [acc] plus the number of events satisfying [P]
    it emitted. *)
Definition tallies (P : event -> bool) (acc : Z) (m : M Z) : Prop :=
  forall E h a ev,
    m E h = (Ret a, ev) -> a = (acc + Z.of_nat (count_events P ev))%Z.

Definition not_stored (e : event) : bool := negb (is_stored e).

(** The metadata of part [index] of a letter with [n] parts. *)
Definition part_metadata (letter : models.KivraLetter) (n : Z) (index : nat)
           (content_type : string) : pyval :=
  models.KivraLetter_get_metadata
    (models.mkKivraLetter (models.letter_key letter) (models.letter_date letter)
                          (models.sender_name letter)
                          (if (1 <? n)%Z then Some index else None))
    content_type.

Definition file_url (content_key file_key : pyval) : fstring :=
  [Lit "https://app.api.kivra.com/v1/content/"; Fmt content_key;
   Lit "/file/"; Fmt file_key; Lit "/raw"].

Definition file_headers (client : api.KivraApiClient) : headers :=
  [("Authorization", [Lit "token "; Fmt (api.access_token client)])].

Definition details_url (content_key : pyval) : fstring :=
  [Lit "https://app.api.kivra.com/v1/content/"; Fmt content_key].

Definition details_headers (client : api.KivraApiClient) : headers :=
  [("Authorization", [Lit "token "; Fmt (api.access_token client)]);
   ("Accept", [Lit "application/json"])].

(** The parts of the specification's example: text/plain, application/pdf,
    text/html and an unknown content type. *)
Definition four_parts (text file_key html : pyval) : pyval :=
  PList [PDict [("content_type", PStr "text/plain"); ("body", text)];
         PDict [("content_type", PStr "application/pdf"); ("key", file_key)];
         PDict [("content_type", PStr "text/html"); ("body", html)];
         PDict [("content_type", PStr "application/x-unknown")]].

(** The per-item guard caught an exception: it logged
    "Error processing letter ...". *)
Definition is_letter_aborted (e : event) : bool :=
  match e with
  | ELog ERROR (Lit s :: _) (Some _) => String.eqb s "Error processing letter "
  | _ => false
  end.

Definition not_aborted (e : event) : bool := negb (is_letter_aborted e).

(** The outcome of a [store] call that closes the handling of a part. *)
Definition stored_part (acc : Z) (data md : pyval) (before : list event)
           (answer : result bool) (on_error : pyexc -> list event)
  : outcome Z * list event :=
  match answer with
  | Ok true => (Ret (acc + 1)%Z, before ++ [EStore data md (Ok true)])
  | Ok false => (Ret acc, before ++ [EStore data md (Ok false)])
  | Err e => (Raise (Exception e),
              before ++ EStore data md (Err e) :: on_error e)
  end.


(** The log of a failed file fetch. *)
Definition file_fetch_log (letter : models.KivraLetter) (file_key : pyval) (e : pyexc)
  : event :=
  ELog ERROR [Lit "Error fetching PDF for letter "; Fmt (models.letter_key letter);
              Lit ", file "; Fmt file_key; Lit ": "] (Some e).


(** The events of the four example parts when every fetch and every store
    succeeds. *)
Definition four_parts_events (client : api.KivraApiClient)
           (letter : models.KivraLetter) (text file_key html : pyval)
           (resp : response) : list event :=
  [EStore text (part_metadata letter 4 0 "text/plain") (Ok true);
   EGet (file_url (models.letter_key letter) file_key) (file_headers client)
        (Ok resp);
   EStore (PBytes (content resp)) (part_metadata letter 4 1 "application/pdf")
          (Ok true);
   EStore html (part_metadata letter 4 2 "text/html") (Ok true);
   ELog WARNING [Lit "Unknown content type in letter ";
                 Fmt (models.letter_key letter); Lit ": ";
                 Fmt (PStr "application/x-unknown")] None].

(** Every GET is answered with [resp]; every store call succeeds; metadata
    reports are answered. *)
Definition serves (E : env) (resp : response) : Prop :=
  (forall h url hd, o_get E h url hd = Ok resp) /\
  (forall h d m, o_store E h d m = Ok true) /\
  (forall h d m, exists b, o_report_metadata E h d m = Ok b).

(** The answer of [demo_get]. *)
Definition demo_response : response :=
  mkResponse 200 (Some (PDict [("parts", demo_parts)])) EmptyString "%PDF" (PDict []).

(** A server on which letter details can be read but every file download
    fails with status 500. *)
Definition demo_get_file_fails
  : history -> fstring -> headers -> result response :=
  fun _ url _ =>
    match url with
    | [_; _] => Ok demo_response
    | _ => Ok (status_response 500)
    end.

Definition demo_env_file_fails : env :=
  with_post (demo_post [demo_receipt "r1"; demo_receipt "r2"]
                       [demo_letter "l1"; demo_letter "l2"])
            (with_get demo_get_file_fails quiet_env).

(** A PDF part that carries no file key. *)
Definition pdf_part_without_key : pyval :=
  PDict [("content_type", PStr "application/pdf")].

Definition demo_letter_object : models.KivraLetter :=
  models.mkKivraLetter (PStr "l1") "2024-03-02" (PStr "Agency") None.

(** ** Failing content fetches *)

Definition pdf_url (client : api.KivraApiClient) (receipt_key : pyval)
  : fstring :=
  [Lit "https://app.api.kivra.com/v1/user/"; Fmt (api.actor_key client);
   Lit "/receipts/"; Fmt receipt_key].

Definition letter_abort_log (letter_key : pyval) (e : pyexc) : event :=
  ELog ERROR [Lit "Error processing letter "; Fmt letter_key; Lit ": "]
       (Some e).

Definition receipt_pdf_log (receipt_key : pyval) (e : pyexc) : event :=
  ELog ERROR [Lit "Error fetching PDF for receipt "; Fmt receipt_key;
              Lit ": "] (Some e).

Definition receipt_abort_log (receipt_key : pyval) (e : pyexc) : event :=
  ELog ERROR [Lit "Error processing receipt "; Fmt receipt_key; Lit ": "]
       (Some e).

(** enumerate(l), counting from [start]. *)
Definition enumerate_from {A} (start : nat) (l : list A) : list (nat * A) :=
  combine (seq start (List.length l)) l.

(** A letter whose second part is a PDF, and a letter without one. *)
Definition demo_two_letters : list pyval :=
  [demo_letter "l1"; demo_letter "l2"].

(** ** The listing snapshot *)

Definition OSError : pyexc := mkExc "OSError" [Lit "disk full"].

Definition demo_file_system_store : storage.FileSystemStoreProvider :=
  storage.mkFileSystemStore "/data/199001011234" false.

(** The account of [demo_env] on a disk that cannot be written. *)
Definition demo_env_disk_full : env :=
  with_json_dump (fun _ _ _ => Err OSError) (demo_env demo_receipts demo_letters).

(** The same account with a store whose [report_listing] raises. *)
Definition demo_env_listing_raises : env :=
  with_report_listing (fun _ _ _ => Err OSError)
                      (demo_env demo_receipts demo_letters).

Definition snapshot_log (e : pyexc) : event :=
  ELog ERROR [Lit "Error storing document listing: "] (Some e).

(** ** The authenticator *)

Definition is_log (e : event) : bool :=
  match e with ELog _ _ _ => true | _ => false end.

Definition is_auth_success (e : event) : bool :=
  match e with EReportAuthenticationSuccess _ => true | _ => false end.

Definition is_display (e : event) : bool :=
  match e with EDisplayQrCode _ _ => true | _ => false end.

Definition is_qr_save (e : event) : bool :=
  match e with EQrSave _ _ _ => true | _ => false end.

Definition home_url : fstring := [Lit "https://app.kivra.com/"].

Definition authorize_url : fstring :=
  [Lit "https://app.api.kivra.com/v2/oauth2/authorize"].

Definition authorize_headers : headers :=
  [("Content-Type", [Lit "application/json"]);
   ("Accept", [Lit "application/json"]);
   ("User-Agent", [Lit "Mozilla/5.0 (Windows NT 10.0; Win64; x64) AppleWebKit/537.36 (KHTML, like Gecko) Chrome/91.0.4472.124 Safari/537.36"])].

Definition authorize_params (code_challenge : string) : pyval :=
  PDict [("response_type", PStr "bankid_all");
         ("code_challenge", PStr code_challenge);
         ("code_challenge_method", PStr "S256");
         ("scope", PStr "openid profile");
         ("client_id", PStr auth.client_id);
         ("redirect_uri", PStr "https://inbox.kivra.com/auth/kivra/return")].

Definition token_url : fstring :=
  [Lit "https://app.api.kivra.com/v2/oauth2/token"].

Definition token_headers : headers :=
  [("Content-Type", [Lit "application/json"])].

Definition token_data (auth_code : pyval) (code_verifier : string) : pyval :=
  PDict [("grant_type", PStr "authorization_code");
         ("code", auth_code);
         ("client_id", PStr auth.client_id);
         ("redirect_uri", PStr "https://inbox.kivra.com/auth/kivra/return");
         ("code_verifier", PStr code_verifier)].

Definition poll_url (next_poll_url : pyval) : fstring :=
  [Lit "https://app.api.kivra.com"; Fmt next_poll_url].

(** One poll: the wait, then the GET and its answer. *)
Definition poll_round (url : fstring) (r : response) : list event :=
  [ESleep 5; EGet url [] (Ok r)].

Definition poll_rounds (url : fstring) (rs : list response) : list event :=
  flat_map (poll_round url) rs.

(** The status a poll answer carries. *)
Definition poll_status (r : response) : option pyval :=
  match json_body r with
  | Some data => match py_get data "status" PNone with
                 | Ok s => Some s
                 | Err _ => None
                 end
  | None => None
  end.

(** From history [h] on, the environment answers the next polls with the
    responses [rs], each of status pending. *)
Fixpoint answers_pending (E : env) (url : fstring) (h : history)
         (rs : list response) : Prop :=
  match rs with
  | [] => True
  | r :: rs' =>
      o_get E (h ++ [ESleep 5]) url [] = Ok r /\
      poll_status r = Some (PStr "pending") /\
      answers_pending E url (h ++ poll_round url r) rs'
  end.

Definition poll_error_log (status poll_data : pyval) : event :=
  ELog ERROR [Lit "Error during polling. Status: "; Fmt status;
              Lit ", Response: "; Fmt poll_data] None.

Definition status_answer (status : string) : response :=
  json_response (PDict [("status", PStr status)]).

(** A poll endpoint that answers pending three times and then complete:
    it counts the polls made so far. *)
Definition demo_poll_get : history -> fstring -> headers -> result response :=
  fun h url _ =>
    match url with
    | [_; _] =>
        if (count_events is_get h <? 3)%nat then Ok (status_answer "pending")
        else Ok (status_answer "complete")
    | _ => Ok (json_response (PDict []))
    end.

Definition demo_auth : auth.KivraAuth :=
  auth.mkKivraAuth "/tmp" interaction.OracleInteraction.

Definition demo_env_polling : env := with_get demo_poll_get quiet_env.

(** An authorization answer that carries a QR code and an authorization
    code but no polling URL. *)
Definition demo_env_no_poll_url : env :=
  with_post (fun _ _ _ _ =>
               Ok (mkResponse 201
                     (Some (PDict [("qr_code", PStr "bankid.qr");
                                   ("code", PStr "authcode")]))
                     EmptyString EmptyString (PDict [])))
            quiet_env.

(** Stand-ins for hashlib.sha256 and json.loads in examples. *)
Definition demo_sha256 (s : string) : string := s.
Definition demo_json_loads (s : string) : result pyval := Err JSONDecodeError.

(** d.get(k) on the items of a dict. *)
Definition dict_value (d : list (string * pyval)) (k : string) : pyval :=
  match dict_get d k with
  | Some v => v
  | None => PNone
  end.

Definition init_failure_log : event :=
  ELog ERROR [Lit "Missing QR code or auth code in response"] None.

(** ** Padding-stripped base64url segments *)

(** The two characters in which the URL-safe alphabet differs from the
    standard one. *)
Definition is_dash (c : ascii) : bool :=
  Ascii.eqb c "-"%char || Ascii.eqb c "_"%char.

Definition dash_free (s : string) : bool :=
  forallb (fun c => negb (is_dash c)) (list_ascii_of_string s).

(** A byte string as a padding-stripped base64url segment: the way the
    challenge is derived from a digest, and the way an identity token
    carries its payload. *)
Definition segment_of (s : string) : string :=
  base64.rstrip_pad (base64.urlsafe_b64encode s).

(** The characters of a base64 encoding without its padding. *)
Fixpoint encode_nopad (alphabet : string) (bs : list N) : list ascii :=
  match bs with
  | [] => []
  | [a] => [base64.b2a alphabet (a / 4); base64.b2a alphabet (a mod 4 * 16)]
  | [a; b] => [base64.b2a alphabet (a / 4);
               base64.b2a alphabet (a mod 4 * 16 + b / 16);
               base64.b2a alphabet (b mod 16 * 4)]
  | a :: b :: c :: rest =>
      base64.b2a alphabet (a / 4)
      :: base64.b2a alphabet (a mod 4 * 16 + b / 16)
      :: base64.b2a alphabet (b mod 16 * 4 + c / 64)
      :: base64.b2a alphabet (c mod 64)
      :: encode_nopad alphabet rest
  end%N.

(** A character that [base64.a2b_step] reads as data. *)
Definition is_data (c : ascii) : bool :=
  negb (Ascii.eqb c base64.pad)
  && match base64.a2b base64.standard_alphabet c with
     | Some _ => true
     | None => false
     end.

(** What is missing to the next quad boundary, in sixths of a byte. *)
Definition quad_debt (quad_pos : N) : nat :=
  match quad_pos with
  | 0%N => 0
  | 1%N => 3
  | 2%N => 2
  | _ => 1
  end.

(** What one sextet satisfies for both alphabets. *)
Definition sextet_ok (i : N) : bool :=
  let u := base64.b2a base64.urlsafe_alphabet i in
  let s := base64.b2a base64.standard_alphabet i in
  (is_dash u || Ascii.eqb u s)
  && negb (Ascii.eqb u base64.pad) && negb (Ascii.eqb s base64.pad)
  && base64.is_ascii u
  && match base64.a2b base64.standard_alphabet s with
     | Some j => (j =? i)%N
     | None => false
     end.

(** hashlib.sha256(b"abc").digest(), the first test vector of FIPS 180. *)
Definition abc_digest : string :=
  base64.N_to_bytes
    [186; 120; 22; 191; 143; 1; 207; 234; 65; 65; 64; 222; 93; 174; 34; 35;
     176; 3; 97; 163; 150; 23; 122; 156; 180; 16; 255; 97; 242; 0; 21; 173]%N.

Definition double_quote : string := String (ascii_of_nat 34) EmptyString.

(** The JSON text of an object with the one member kivra_user_id, whose
    value is the string 15? *)
Definition demo_token_payload : string :=
  "{" ++ double_quote ++ "kivra_user_id" ++ double_quote ++ ":"
      ++ double_quote ++ "15?" ++ double_quote ++ "}".

(** An identity token whose payload segment is that of
    [demo_token_payload], and a token endpoint that answers with it. *)
Definition demo_id_token : string :=
  "eyJhbGciOiJSUzI1NiJ9.eyJraXZyYV91c2VyX2lkIjoiMTU_In0.c2ln".

Definition demo_env_token : env :=
  with_post (fun _ _ _ _ =>
               Ok (json_response
                     (PDict [("access_token", PStr "token");
                             ("id_token", PStr demo_id_token)])))
            quiet_env.

(** ** Requests of the API client *)

(** The body of a GraphQL request. *)
Definition graphql_payload (operation_name query : string) (variables : pyval)
  : pyval :=
  PDict [("operationName", PStr operation_name);
         ("query", PStr query);
         ("variables", variables)].

(** The headers of a receipt PDF request. *)
Definition pdf_headers (client : api.KivraApiClient) : headers :=
  [("Authorization", [Lit "token "; Fmt (api.access_token client)]);
   ("Accept", [Lit "application/pdf"])].

(** Two Python values are the same value, structurally. *)
Fixpoint pyval_same (a b : pyval) : bool :=
  match a, b with
  | PNone, PNone => true
  | PBool x, PBool y => Bool.eqb x y
  | PInt x, PInt y => Z.eqb x y
  | PStr x, PStr y => String.eqb x y
  | PBytes x, PBytes y => String.eqb x y
  | PList x, PList y =>
      (fix same_list (x y : list pyval) : bool :=
         match x, y with
         | [], [] => true
         | a :: x', b :: y' => pyval_same a b && same_list x' y'
         | _, _ => false
         end) x y
  | PDict x, PDict y =>
      (fix same_items (x y : list (string * pyval)) : bool :=
         match x, y with
         | [], [] => true
         | (k, a) :: x', (k', b) :: y' =>
             String.eqb k k' && pyval_same a b && same_items x' y'
         | _, _ => false
         end) x y
  | _, _ => false
  end.

(** The header of a request, by name. *)
Fixpoint header_get (h : headers) (name : string) : option fstring :=
  match h with
  | [] => None
  | (n, v) :: h' => if String.eqb n name then Some v else header_get h' name
  end.

(** The URL starts with one of the two Kivra hosts the client talks to. *)
Definition kivra_url (url : fstring) : bool :=
  match url with
  | Lit s :: _ => String.prefix "https://app.api.kivra.com/" s
                  || String.eqb s "https://bff.kivra.com/graphql"
  | _ => false
  end.

(** The Authorization header is the client's access token under one of the
    two schemes the Kivra hosts take. *)
Definition carries_token (client : api.KivraApiClient) (h : headers) : bool :=
  match header_get h "Authorization" with
  | Some [Lit scheme; Fmt v] =>
      (String.eqb scheme "token " || String.eqb scheme "Bearer ")
      && pyval_same v (api.access_token client)
  | _ => false
  end.

(** An event that is not a request, or a request to Kivra that carries the
    client's token. *)
Definition kivra_request (client : api.KivraApiClient) (e : event) : bool :=
  match e with
  | EGet url h _ => kivra_url url && carries_token client h
  | EPost url _ h _ => kivra_url url && carries_token client h
  | _ => true
  end.

(** ** utils/helpers.py: file names *)

(** A computation that only logs and raises: its result and its log. *)
Definition Logged (A : Type) : Type := result A * list event.

Definition lret {A} (a : A) : Logged A := (Ok a, []).

Definition lraise {A} (e : pyexc) : Logged A := (Err e, []).

Definition lbind {A B} (m : Logged A) (k : A -> Logged B) : Logged B :=
  match m with
  | (Ok a, ev) => let (r, ev') := k a in (r, ev ++ ev')
  | (Err e, ev) => (Err e, ev)
  end.

Definition llog (lvl : level) (msg : fstring) (exc : option pyexc)
  : Logged unit := (Ok tt, [ELog lvl msg exc]).

Module clean.

(** string.ascii_letters + string.digits behind the punctuation that is
    allowed *)
Definition valid_filename_chars : string :=
  "-_.() abcdefghijklmnopqrstuvwxyzABCDEFGHIJKLMNOPQRSTUVWXYZ0123456789".

Definition char_limit : Z := 255.

(** s.replace(r, '_') for a one-character [r] *)
Fixpoint replace_char (r : ascii) (s : string) : string :=
  match s with
  | EmptyString => EmptyString
  | String c s' => String (if Ascii.eqb c r then "_"%char else c)
                          (replace_char r s')
  end.

(** c in whitelist *)
Fixpoint char_in (c : ascii) (whitelist : string) : bool :=
  match whitelist with
  | EmptyString => false
  | String w whitelist' => Ascii.eqb c w || char_in c whitelist'
  end.

(** ''.join(c for c in s if c in whitelist) *)
Fixpoint keep_whitelisted (whitelist s : string) : string :=
  match s with
  | EmptyString => EmptyString
  | String c s' => if char_in c whitelist
                   then String c (keep_whitelisted whitelist s')
                   else keep_whitelisted whitelist s'
  end.

(** The loop [for r in replace: filename = filename.replace(r, '_')].  Only
    a str has a [replace] that takes str arguments; when [replace] is empty
    the loop body is not reached. *)
Definition replace_all (filename : pyval) (replace : string) : result pyval :=
  match replace with
  | EmptyString => Ok filename
  | _ =>
      match filename with
      | PStr s => Ok (PStr (fold_left (fun s r => replace_char r s)
                                      (list_ascii_of_string replace) s))
      | PBytes _ => Err TypeError
      | _ => Err AttributeError
      end
  end.

(** [ascii_fold] is
    unicodedata.normalize('NFKD', s).encode('ASCII', 'ignore').decode(),
    a pure function of the Python library; it takes a str only.
    [logging.warn] is taken as the alias of [logging.warning] it is in the
    interpreters that have it (up to Python 3.12). *)
Definition clean_filename (ascii_fold : string -> string) (filename : pyval)
           (whitelist replace : string) : Logged string :=
  lbind (match replace_all filename replace with
         | Ok v => lret v
         | Err e => lraise e
         end) (fun filename =>
  lbind (match filename with
         | PStr s => lret (ascii_fold s)
         | _ => lraise TypeError
         end) (fun cleaned_filename =>
  let cleaned_filename := keep_whitelisted whitelist cleaned_filename in
  lbind (if (char_limit <? Z.of_nat (String.length cleaned_filename))%Z
         then llog WARNING
                   [Lit "Warning, filename truncated because it was over ";
                    Fmt (PInt char_limit);
                    Lit ". Filenames may no longer be unique"] None
         else lret tt) (fun _ =>
  lret (string_slice_to cleaned_filename char_limit)))).

End clean.

(** The characters of [s] all satisfy [P]. *)
Fixpoint string_forall (P : ascii -> bool) (s : string) : bool :=
  match s with
  | EmptyString => true
  | String c s' => P c && string_forall P s'
  end.

(** The character does not occur in [s]. *)
Definition free_of (c : ascii) (s : string) : bool :=
  string_forall (fun x => negb (Ascii.eqb x c)) s.

(** A name of 300 characters. *)
Definition demo_long_name : string :=
  string_of_list_ascii (repeat "a"%char 300).

(** ** Items the per-item step cannot read, and what is written to the store *)

(** What [_process_receipt] reads before its guarded block fails with [e]:
    the item has no [get], or it has a key and its date or store name cannot
    be read. *)
Definition unreadable_receipt (item : pyval) (e : pyexc) : Prop :=
  py_get item "key" PNone = Err e \/
  exists key,
    py_get item "key" PNone = Ok key /\ py_truthy key = true /\
    rbind (rbind (py_get item "purchaseDate" (PStr "unknown_date"))
                 helpers.format_date)
          (fun _ => rbind (py_get item "store" (PDict []))
                          (fun s => py_get s "name" (PStr "unknown_store")))
    = Err e.

Definition unreadable_letter (item : pyval) (e : pyexc) : Prop :=
  py_get item "key" PNone = Err e \/
  exists key,
    py_get item "key" PNone = Ok key /\ py_truthy key = true /\
    rbind (rbind (py_get item "receivedAt" (PStr "unknown_date"))
                 helpers.format_date)
          (fun _ => rbind (py_get item "sender" (PDict []))
                          (fun s => py_get s "name" (PStr "unknown_sender")))
    = Err e.

(** The store is asked to keep something of an item. *)
Definition is_write (e : event) : bool :=
  is_store e || is_report_metadata e.

Definition not_write (e : event) : bool := negb (is_write e).

(** A listed receipt whose store is null, and a listed letter whose sender
    is null. *)
Definition demo_receipt_null_store (key : string) : pyval :=
  PDict [("key", PStr key);
         ("purchaseDate", PStr "2024-03-01T09:30:00Z");
         ("store", PNone)].

Definition demo_letter_null_sender (key : string) : pyval :=
  PDict [("key", PStr key);
         ("receivedAt", PStr "2024-03-02T07:00:00Z");
         ("sender", PNone)].

(** A letters server that answers every listing request with the same page
    and always announces more. *)
Definition endless_server (page : list pyval) (total : Z)
  : history -> fstring -> pyval -> headers -> result response :=
  fun _ _ _ _ => Ok (page_answer page true total).

(** Content details without parts. *)
Definition demo_env_no_parts : env :=
  with_get (fun _ _ _ => Ok (json_response (PDict [("subject", PStr "Hej")])))
           (demo_env [] [demo_letter "l1"]).

(** ** The challenge and the identity token *)

(** A character of the URL-safe base64 alphabet. *)
Definition url_safe (c : ascii) : bool :=
  match base64.a2b base64.urlsafe_alphabet c with
  | Some _ => true
  | None => false
  end.

(** An identity token: header, payload and signature segments, joined by
    dots; the payload segment is the padding-stripped base64url encoding of
    the payload. *)
Definition id_token_of (header payload signature : string) : string :=
  (header ++ "." ++ segment_of payload ++ "." ++ signature)%string.

(** What the token exchange returns. *)
Definition token_result (access_token actor_key jwt_data : pyval) : pyval :=
  PDict [("access_token", access_token);
         ("actor_key", actor_key);
         ("jwt_data", jwt_data)].

(** An authorization endpoint that refuses, and one that accepts and a
    token endpoint that answers with [demo_good_token]. *)
Definition demo_env_refused : env :=
  with_post (fun _ _ _ _ => Ok (status_response 403)) quiet_env.

Definition demo_good_payload : string :=
  "{" ++ double_quote ++ "kivra_user_id" ++ double_quote ++ ":"
      ++ double_quote ++ "15" ++ double_quote ++ "}".

Definition demo_good_token : string :=
  id_token_of "eyJhbGciOiJSUzI1NiJ9" demo_good_payload "c2ln".

Definition demo_good_json_loads (s : string) : result pyval :=
  if String.eqb s demo_good_payload
  then Ok (PDict [("kivra_user_id", PStr "15")])
  else Err JSONDecodeError.

Definition demo_token_answer : response :=
  json_response (PDict [("access_token", PStr "token");
                        ("id_token", PStr demo_good_token)]).

Definition demo_authorize_answer : response :=
  mkResponse 201
    (Some (PDict [("qr_code", PStr "bankid.qr");
                  ("next_poll_url", PStr "/v2/oauth2/poll/1");
                  ("code", PStr "authcode")]))
    EmptyString EmptyString (PDict []).

(** The whole account: authorization, one poll that is complete, the token,
    and the listings of [demo_env]. *)
Definition demo_env_account (rs ls : list pyval) : env :=
  with_post (fun h url body hd =>
               match url with
               | [Lit "https://app.api.kivra.com/v2/oauth2/authorize"] =>
                   Ok demo_authorize_answer
               | [Lit "https://app.api.kivra.com/v2/oauth2/token"] =>
                   Ok demo_token_answer
               | _ => demo_post rs ls h url body hd
               end)
    (with_get (fun h url hd =>
                 match url with
                 | [Lit "https://app.api.kivra.com"; Fmt _] =>
                     Ok (json_response (PDict [("status", PStr "complete")]))
                 | _ => demo_get h url hd
                 end)
              quiet_env).

(** ** interaction/: reporting the completion *)

Module providers.

(** interaction/base.py: a provider has, beside the two operations the
    authenticator calls, the operation that reports the statistics of a
    run. *)
Record Provider : Type := mkProvider {
  for_auth : interaction.InteractionProvider;
  report_completion : pyval -> M unit
}.

(** interaction/local.py: [report_completion] prints; what it reads of the
    statistics, in the order it reads it. *)
Definition Local_report_completion (stats : pyval) : M unit :=
  receipts_fetched <- lift (py_getitem stats "receipts_fetched") ;;
  receipts_total <- lift (py_getitem stats "receipts_total") ;;
  letters_fetched <- lift (py_getitem stats "letters_fetched") ;;
  letters_total <- lift (py_getitem stats "letters_total") ;;
  receipts_stored <- lift (py_get stats "receipts_stored" (PInt 0)) ;;
  letters_stored <- lift (py_get stats "letters_stored" (PInt 0)) ;;
  ret tt.

(** The local provider; how it shows the QR image and what it prints on
    success is left to the environment. *)
Definition LocalInteractionProvider : Provider := {|
  for_auth := interaction.OracleInteraction;
  report_completion := Local_report_completion
|}.

End providers.

(** ** kivra_sync.py *)

Module kivra_sync.
Import providers.

(** The command-line arguments [fetch_documents] reads. *)
Record Args : Type := mkArgs {
  ssn : string;
  fetch_receipts : bool;
  fetch_letters : bool;
  max_receipts : Z;
  max_letters : Z
}.

(** stats.update(other) for the dict a fetcher returned.  For a value that
    is no dict this raises TypeError, as Python does for None or a number;
    an iterable of pairs is not modelled. *)
Definition py_update (stats other : pyval) : result pyval :=
  match stats, other with
  | PDict items, PDict new =>
      Ok (PDict (fold_left (fun acc kv => letters.dict_set acc (fst kv) (snd kv))
                           new items))
  | _, _ => Err TypeError
  end.

(** None if n == 0 else n *)
Definition limit_of (n : Z) : option Z :=
  if (n =? 0)%Z then None else Some n.

Definition initial_stats : pyval :=
  PDict [("receipts_total", PInt 0);
         ("receipts_fetched", PInt 0);
         ("receipts_stored", PInt 0);
         ("letters_total", PInt 0);
         ("letters_fetched", PInt 0);
         ("letters_stored", PInt 0)].

(** The two loops inside, the polling and the pagination, have a fuel
    each. *)
Definition fetch_documents (poll_fuel page_fuel : nat)
           (sha256 : string -> string) (json_loads : string -> result pyval)
           (args : Args) (interaction_provider : Provider)
           (document_store : storage.DocumentStoreProvider)
           (temp_dir : string) : M Z :=
  try_except
    (let auth := auth.mkKivraAuth temp_dir (for_auth interaction_provider) in
     token_info <- auth.authenticate poll_fuel auth sha256 json_loads
                                     (ssn args) ;;
     access_token <- lift (py_getitem token_info "access_token") ;;
     actor_key <- lift (py_getitem token_info "actor_key") ;;
     let api_client := api.mkKivraApiClient access_token actor_key in
     let stats := initial_stats in
     stats <-
       (if fetch_receipts args then
          let receipt_fetcher :=
            receipts.mkReceiptFetcher api_client document_store in
          receipt_stats <- receipts.fetch_receipts receipt_fetcher
                             (limit_of (max_receipts args)) ;;
          lift (py_update stats receipt_stats)
        else ret stats) ;;
     stats <-
       (if fetch_letters args then
          let letter_fetcher :=
            letters.mkLetterFetcher api_client document_store in
          letter_stats <- letters.fetch_letters page_fuel letter_fetcher
                            (limit_of (max_letters args)) ;;
          lift (py_update stats letter_stats)
        else ret stats) ;;
     report_completion interaction_provider stats ;;
     ret 0%Z)
    (fun e =>
       logging_error [Lit "Error: "] (Some e) ;;
       ret 1%Z).

End kivra_sync.

(** The statistics handed to [report_completion] after both fetches. *)
Definition run_stats (receipts_total : pyval) (receipts_fetched : nat)
           (receipts_stored : pyval) (letters_total letters_fetched : nat)
           (letters_stored : pyval) : pyval :=
  PDict [("receipts_total", receipts_total);
         ("receipts_fetched", PInt (Z.of_nat receipts_fetched));
         ("receipts_stored", receipts_stored);
         ("letters_total", PInt (Z.of_nat letters_total));
         ("letters_fetched", PInt (Z.of_nat letters_fetched));
         ("letters_stored", letters_stored)].

(** How a run of [fetch_documents] can end: with exit code 0 or 1, with
    sys.exit, or never, never with an exception. *)
Definition exit_code_or_exit (o : outcome Z) : Prop :=
  match o with
  | Ret z => z = 0%Z \/ z = 1%Z
  | Raise (Exception _) => False
  | Raise (SystemExit _) => True
  | OutOfFuel => True
  end.

Definition demo_args : kivra_sync.Args :=
  kivra_sync.mkArgs "199001011234" true true 0 2.

Definition demo_account : env := demo_env_account demo_receipts demo_letters.

(** The account of [demo_env_account] while the receipts listing is down. *)
Definition demo_env_receipts_down : env :=
  with_post (fun h url body hd =>
               if py_eq_str (operation_of body) "Receipts"
               then Ok (status_response 500)
               else o_post (demo_env_account [] demo_letters) h url body hd)
            (demo_env_account [] demo_letters).

(** A listing request for letters. *)
Definition is_list_request (e : event) : bool :=
  match e with
  | EPost _ body _ _ => py_eq_str (operation_of body) "ContentList"
  | _ => false
  end.

(** ** storage/filesystem.py on a file system *)

(** What the file-system store asks of the operating system and of the
    libraries it calls.  [fs] is the state of the file system; an operation
    that fails may have changed it. *)
Class OperatingSystem (fs : Type) : Type := {
  (** os.makedirs(path, exist_ok=True) *)
  makedirs : string -> fs -> result unit * fs;
  (** os.path.exists(path) *)
  path_exists : string -> fs -> bool;
  (** with open(path, 'wb' if binary else 'w') as f: f.write(data) *)
  write_file : string -> bool -> pyval -> fs -> result unit * fs;
  (** with open(path, 'w') as f: json.dump(data, f, ...) *)
  json_dump_file : string -> pyval -> fs -> result unit * fs;
  (** str(v), as an f-string formats [v] *)
  py_str : pyval -> string;
  (** unicodedata.normalize('NFKD', s).encode('ASCII', 'ignore').decode() *)
  ascii_fold : string -> string;
  (** weasyprint: HTML(string=html).write_pdf(buffer); buffer.getvalue() *)
  weasyprint : pyval -> result string
}.

(** A computation on the file system: its result, the file system it
    leaves, and its log. *)
Definition FS (fs A : Type) : Type := fs -> result A * fs * list event.

Definition fret {fs A} (a : A) : FS fs A := fun s => (Ok a, s, []).

Definition fraise {fs A} (e : pyexc) : FS fs A := fun s => (Err e, s, []).

Definition fbind {fs A B} (m : FS fs A) (k : A -> FS fs B) : FS fs B :=
  fun s =>
    match m s with
    | (Ok a, s', ev) => let '(r, s'', ev') := k a s' in (r, s'', ev ++ ev')
    | (Err e, s', ev) => (Err e, s', ev)
    end.

Definition flift {fs A} (r : result A) : FS fs A := fun s => (r, s, []).

Definition flogged {fs A} (m : Logged A) : FS fs A := fun s => (fst m, s, snd m).

(** An operation of the operating system. *)
Definition fos {fs A} (op : fs -> result A * fs) : FS fs A :=
  fun s => let (r, s') := op s in (r, s', []).

(** try: body / except Exception as e: handler e.  What the body did to the
    file system before it raised stays done. *)
Definition ftry {fs A} (body : FS fs A) (handler : pyexc -> FS fs A)
  : FS fs A :=
  fun s =>
    match body s with
    | (Err e, s', ev) => let '(r, s'', ev') := handler e s' in (r, s'', ev ++ ev')
    | r => r
    end.

Definition flog_error {fs} (msg : fstring) (exc : option pyexc) : FS fs unit :=
  fun s => (Ok tt, s, [ELog ERROR msg exc]).

Definition flog_warning {fs} (msg : fstring) : FS fs unit :=
  fun s => (Ok tt, s, [ELog WARNING msg None]).

(** posixpath.join(a, b) *)
Definition path_join (a b : string) : string :=
  if String.prefix "/" b then b
  else if String.eqb a EmptyString then b
  else if String.eqb (String.substring (String.length a - 1) 1 a) "/"
       then (a ++ b)%string
       else (a ++ "/" ++ b)%string.

(** utils/pdf.py: html_to_pdf returns the PDF, or None after logging. *)
Definition html_to_pdf {fs} `{OperatingSystem fs} (html_content : pyval)
  : FS fs pyval :=
  match weasyprint html_content with
  | Ok pdf => fret (PBytes pdf)
  | Err e => fbind (flog_error [Lit "Error converting HTML to PDF: "] (Some e))
                   (fun _ => fret PNone)
  end.

Module filesystem.
Import storage.

Section Store.
Context {fs : Type} `{OperatingSystem fs}.

Local Notation "x <- m ;; k" := (fbind m (fun x => k))
  (at level 61, m at next level, right associativity).
Local Notation "m ;; k" := (fbind m (fun _ => k))
  (at level 61, right associativity).

Definition receipts_dir (self : FileSystemStoreProvider) : string :=
  path_join (base_dir self) "Receipts".
Definition receipts_json_dir (self : FileSystemStoreProvider) : string :=
  path_join (receipts_dir self) "json".
Definition letters_dir (self : FileSystemStoreProvider) : string :=
  path_join (base_dir self) "Letters".
Definition letters_json_dir (self : FileSystemStoreProvider) : string :=
  path_join (letters_dir self) "json".

Definition _ensure_directories (self : FileSystemStoreProvider) : FS fs unit :=
  fos (makedirs (base_dir self)) ;;
  fos (makedirs (receipts_dir self)) ;;
  fos (makedirs (receipts_json_dir self)) ;;
  fos (makedirs (letters_dir self)) ;;
  fos (makedirs (letters_json_dir self)).

(** (directory_path, json_dir_path, filename_base) *)
Definition _get_filepath (self : FileSystemStoreProvider) (metadata : pyval)
  : FS fs (string * string * string) :=
  doc_type <- flift (py_get metadata "type" PNone) ;;
  date <- flift (py_get metadata "date" (PStr "unknown_date")) ;;
  if py_eq_str doc_type "receipt" then
    store_name <- flift (py_get metadata "store_name"
                                (PStr "unknown_store")) ;;
    safe_store <- flogged (clean.clean_filename ascii_fold store_name
                             clean.valid_filename_chars " ") ;;
    let store_dir := path_join (receipts_dir self) safe_store in
    let store_json_dir := path_join (receipts_json_dir self) safe_store in
    fos (makedirs store_dir) ;;
    fos (makedirs store_json_dir) ;;
    key <- flift (py_get metadata "key" PNone) ;;
    let filename_base :=
      (py_str date ++ "_" ++ safe_store ++ "_" ++ py_str key)%string in
    fret (store_dir, store_json_dir, filename_base)
  else if py_eq_str doc_type "letter" then
    sender_name <- flift (py_get metadata "sender_name"
                                 (PStr "unknown_sender")) ;;
    safe_sender <- flogged (clean.clean_filename ascii_fold sender_name
                              clean.valid_filename_chars " ") ;;
    let sender_dir := path_join (letters_dir self) safe_sender in
    let sender_json_dir := path_join (letters_json_dir self) safe_sender in
    fos (makedirs sender_dir) ;;
    fos (makedirs sender_json_dir) ;;
    key <- flift (py_get metadata "key" PNone) ;;
    let filename_base :=
      (py_str date ++ "_" ++ safe_sender ++ "_" ++ py_str key)%string in
    part_index <- flift (py_get metadata "part_index" PNone) ;;
    match part_index with
    | PNone => fret (sender_dir, sender_json_dir, filename_base)
    | _ =>
        part_index <- flift (py_get metadata "part_index" PNone) ;;
        fret (sender_dir, sender_json_dir,
              (filename_base ++ "_part" ++ py_str part_index)%string)
    end
  else
    fraise (mkExc "ValueError" [Lit "Unknown document type: "; Fmt doc_type]).

Definition exists_ (self : FileSystemStoreProvider) (metadata : pyval)
  : FS fs bool :=
  ftry
    (paths <- _get_filepath self metadata ;;
     let '(file_dir, json_dir, filename_base) := paths in
     content_type <- flift (py_get metadata "content_type" PNone) ;;
     if py_eq_str content_type "application/json" then
       fos (fun s => (Ok (path_exists
                            (path_join json_dir (filename_base ++ ".json")) s),
                      s))
     else
       content_type <- flift (py_get metadata "content_type"
                                     (PStr EmptyString)) ;;
       if py_eq_str content_type "application/pdf" then
         fos (fun s => (Ok (path_exists
                              (path_join file_dir (filename_base ++ ".pdf")) s),
                        s))
       else if py_eq_str content_type "text/plain" then
         fos (fun s => (Ok (path_exists
                              (path_join file_dir (filename_base ++ ".txt")) s),
                        s))
       else if py_eq_str content_type "text/html" then
         fos (fun s => (Ok (path_exists
                              (path_join file_dir
                                         (filename_base ++ "_html.pdf")) s),
                        s))
       else fret false)
    (fun e =>
       flog_error [Lit "Error checking if document exists: "] (Some e) ;;
       fret false).

Definition report_metadata (self : FileSystemStoreProvider)
           (data metadata : pyval) : FS fs bool :=
  ftry
    (paths <- _get_filepath self metadata ;;
     let '(dir_path, json_dir, filename_base) := paths in
     let json_path := path_join json_dir (filename_base ++ ".json") in
     if dry_run self then fret true
     else
       fos (json_dump_file json_path data) ;;
       fret true)
    (fun e =>
       flog_error [Lit "Error storing document metadata: "] (Some e) ;;
       fret false).

Definition store (self : FileSystemStoreProvider) (data metadata : pyval)
  : FS fs bool :=
  ftry
    (paths <- _get_filepath self metadata ;;
     let '(dir_path, json_dir, filename_base) := paths in
     content_type <- flift (py_get metadata "content_type"
                                   (PStr EmptyString)) ;;
     if py_eq_str content_type "application/pdf" then
       let file_path := path_join dir_path (filename_base ++ ".pdf") in
       if dry_run self then fret true
       else fos (write_file file_path true data) ;; fret true
     else if py_eq_str content_type "text/plain" then
       let file_path := path_join dir_path (filename_base ++ ".txt") in
       if dry_run self then fret true
       else fos (write_file file_path false data) ;; fret true
     else if py_eq_str content_type "text/html" then
       pdf_data <- html_to_pdf data ;;
       if py_truthy pdf_data then
         let file_path := path_join dir_path (filename_base ++ "_html.pdf") in
         if dry_run self then fret true
         else fos (write_file file_path true pdf_data) ;; fret true
       else
         let file_path := path_join dir_path (filename_base ++ "_html.html") in
         if dry_run self then fret true
         else fos (write_file file_path false data) ;; fret false
     else
       flog_warning [Lit "Unsupported content type: "; Fmt content_type] ;;
       fret false)
    (fun e =>
       flog_error [Lit "Error storing document: "] (Some e) ;;
       fret false).

End Store.
End filesystem.

(** No path of [s] is missing in [s']. *)
Definition keeps {fs} `{OperatingSystem fs} (s s' : fs) : Prop :=
  forall p, path_exists p s = true -> path_exists p s' = true.

(** A file system on which what was written exists, and on which the
    operations of the store make nothing disappear. *)
Class FilesStay (fs : Type) `{OperatingSystem fs} : Prop := {
  written_exists : forall p binary data s s',
      write_file p binary data s = (Ok tt, s') -> path_exists p s' = true;
  dumped_exists : forall p data s s',
      json_dump_file p data s = (Ok tt, s') -> path_exists p s' = true;
  makedirs_keeps : forall p s, keeps s (snd (makedirs p s));
  write_keeps : forall p binary data s,
      keeps s (snd (write_file p binary data s));
  dump_keeps : forall p data s, keeps s (snd (json_dump_file p data s))
}.

(** The result, the file system and the log of a run. *)
Definition fs_result {fs A} (r : result A * fs * list event) : result A :=
  fst (fst r).
Definition fs_state {fs A} (r : result A * fs * list event) : fs :=
  snd (fst r).
Definition fs_log {fs A} (r : result A * fs * list event) : list event :=
  snd r.

(** *** A small file system: the paths that exist *)

#[local] Instance demo_os : OperatingSystem (list string) := {|
  makedirs := fun p s => (Ok tt, p :: s);
  path_exists := fun p s => existsb (String.eqb p) s;
  write_file := fun p _ _ s => (Ok tt, p :: s);
  json_dump_file := fun p _ s => (Ok tt, p :: s);
  py_str := fun v => match v with PStr s => s | _ => "None" end;
  ascii_fold := fun s => s;
  weasyprint := fun _ => Err (mkExc "OSError" [])
|}.

Definition demo_store : storage.FileSystemStoreProvider :=
  storage.mkFileSystemStore "/data" false.

Definition demo_dry_store : storage.FileSystemStoreProvider :=
  storage.mkFileSystemStore "/data" true.

(** ** storage/paperless.py: the existence check *)

Module paperless.
Import api.

(** The attributes the existence check reads; [api_url] is stored without
    its trailing slashes. *)
Record PaperlessNgxStoreProvider : Type := mkPaperless {
  api_url : string;
  api_token : string;
  dry_run : bool
}.

(** The headers the session was given at construction. *)
Definition session_headers (self : PaperlessNgxStoreProvider) : headers :=
  [("Authorization", [Lit "Token "; Fmt (PStr (api_token self))]);
   ("Accept", [Lit "application/json"])].

(** The URL of the document search: requests appends the one parameter,
    original_filename__icontains, as the query string. *)
Definition search_url (self : PaperlessNgxStoreProvider) (doc_key : pyval)
  : fstring :=
  [Fmt (PStr (api_url self)); Lit "/documents/";
   Lit "?original_filename__icontains="; Fmt doc_key].

(** v > 0 *)
Definition py_gt_zero (v : pyval) : result bool :=
  match v with
  | PInt n => Ok (0 <? n)%Z
  | PBool b => Ok b
  | _ => Err TypeError
  end.

Definition exists_ (self : PaperlessNgxStoreProvider) (metadata : pyval)
  : M bool :=
  try_except
    (doc_type <- lift (py_get metadata "type" PNone) ;;
     doc_key <- lift (py_get metadata "key" PNone) ;;
     if negb (py_truthy doc_key) then ret false
     else
       response <- session_get (search_url self doc_key)
                               (session_headers self) ;;
       if negb (status_code response =? 200)%Z then
         logging_error [Lit "Failed to search documents by filename: ";
                        Fmt (PInt (status_code response)); Lit ", Response: ";
                        Fmt (PStr (text response))] None ;;
         ret false
       else
         data <- lift (response_json response) ;;
         count <- lift (py_getitem data "count") ;;
         found <- lift (py_gt_zero count) ;;
         ret found)
    (fun e =>
       logging_error
         [Lit "Error checking if document exists in paperless-ngx: "]
         (Some e) ;;
       ret false).

(** The metadata is not kept by this store. *)
Definition report_metadata (data metadata : pyval) : M bool := ret true.

End paperless.

Definition demo_paperless : paperless.PaperlessNgxStoreProvider :=
  paperless.mkPaperless "http://localhost:8000/api" "secret" false.

(** A paperless server that knows one document. *)
Definition demo_env_paperless : env :=
  with_get (fun _ _ _ => Ok (json_response (PDict [("count", PInt 1)])))
           quiet_env.

(** * Properties *)

Unset Implicit Arguments.

(** ** How computations run *)

Section Running.
Context {A B : Type}.

Lemma pair_fst_snd (p : outcome B * list event) (ev : list event) :
  (let (o, ev') := p in (o, ev ++ ev')) = (fst p, ev ++ snd p).
Proof. destruct p; reflexivity. Qed.

Lemma bind_ret (m : M A) (k : A -> M B) E h a ev :
  m E h = (Ret a, ev) ->
  bind m k E h = (fst (k a E (h ++ ev)), ev ++ snd (k a E (h ++ ev))).
Proof. intros H. unfold bind. rewrite H. apply pair_fst_snd. Qed.

Lemma bind_raise (m : M A) (k : A -> M B) E h r ev :
  m E h = (Raise r, ev) -> bind m k E h = (Raise r, ev).
Proof. intros H. unfold bind. rewrite H. reflexivity. Qed.

Lemma bind_out_of_fuel (m : M A) (k : A -> M B) E h ev :
  m E h = (OutOfFuel, ev) -> bind m k E h = (OutOfFuel, ev).
Proof. intros H. unfold bind. rewrite H. reflexivity. Qed.

Lemma ret_bind (a : A) (k : A -> M B) E h : bind (ret a) k E h = k a E h.
Proof.
  unfold bind, ret. rewrite app_nil_r. destruct (k a E h); reflexivity.
Qed.

Lemma lift_ok_bind (a : A) (k : A -> M B) E h :
  bind (lift (Ok a)) k E h = k a E h.
Proof. apply ret_bind. Qed.

Lemma lift_err_bind (e : pyexc) (k : A -> M B) E h :
  bind (lift (Err e)) k E h = (Raise (Exception e), []).
Proof. reflexivity. Qed.

Lemma ask_bind (oracle : env -> history -> result A) record (k : A -> M B) E h :
  bind (ask oracle record) k E h =
  match oracle E h with
  | Ok a => (fst (k a E (h ++ [record (Ok a)])),
             record (Ok a) :: snd (k a E (h ++ [record (Ok a)])))
  | Err e => (Raise (Exception e), [record (Err e)])
  end.
Proof.
  unfold bind, ask. destruct (oracle E h); [apply pair_fst_snd | reflexivity].
Qed.

End Running.

Lemma emit_bind {B} (e : event) (k : unit -> M B) E h :
  bind (emit e) k E h = (fst (k tt E (h ++ [e])), e :: snd (k tt E (h ++ [e]))).
Proof. unfold bind, emit. rewrite pair_fst_snd. reflexivity. Qed.

Lemma try_except_ret {A} (body : M A) handler E h a ev :
  body E h = (Ret a, ev) -> try_except body handler E h = (Ret a, ev).
Proof. intros H. unfold try_except. rewrite H. reflexivity. Qed.

Lemma try_except_caught {A} (body : M A) handler E h e ev :
  body E h = (Raise (Exception e), ev) ->
  try_except body handler E h =
  (fst (handler e E (h ++ ev)), ev ++ snd (handler e E (h ++ ev))).
Proof. intros H. unfold try_except. rewrite H. apply pair_fst_snd. Qed.

Lemma surjective_run {A} (p : outcome A * list event) : p = (fst p, snd p).
Proof. destruct p; reflexivity. Qed.

(** ** Compositional facts about the events and outcomes of a computation *)

Section Emits.
Variable P : event -> bool.

Lemma emits_ret {A} (a : A) : emits_only P (ret a).
Proof. intros E h. reflexivity. Qed.

Lemma emits_raise {A} e : emits_only P (@raise A e).
Proof. intros E h. reflexivity. Qed.

Lemma emits_sys_exit {A} s : emits_only P (@sys_exit A s).
Proof. intros E h. reflexivity. Qed.

Lemma emits_lift {A} (r : result A) : emits_only P (lift r).
Proof. destruct r; [apply emits_ret | apply emits_raise]. Qed.

Lemma emits_emit e : P e = true -> emits_only P (emit e).
Proof. intros H E h. simpl. rewrite H. reflexivity. Qed.

Lemma emits_ask {A} oracle (record : result A -> event) :
  (forall r, P (record r) = true) -> emits_only P (ask oracle record).
Proof. intros H E h. simpl. rewrite H. reflexivity. Qed.

Lemma emits_bind {A B} (m : M A) (k : A -> M B) :
  emits_only P m -> (forall a, emits_only P (k a)) -> emits_only P (bind m k).
Proof.
  intros Hm Hk E h. unfold bind. specialize (Hm E h).
  destruct (m E h) as [[a | r |] ev]; simpl in *; auto.
  specialize (Hk a E (h ++ ev)). destruct (k a E (h ++ ev)) as [o ev'].
  simpl in *. rewrite forallb_app, Hm, Hk. reflexivity.
Qed.

Lemma emits_try_except {A} (body : M A) handler :
  emits_only P body -> (forall e, emits_only P (handler e)) ->
  emits_only P (try_except body handler).
Proof.
  intros Hb Hh E h. unfold try_except. specialize (Hb E h).
  destruct (body E h) as [[a | [e | s] |] ev]; simpl in *; auto.
  specialize (Hh e E (h ++ ev)). destruct (handler e E (h ++ ev)) as [o ev'].
  simpl in *. rewrite forallb_app, Hb, Hh. reflexivity.
Qed.

Lemma emits_for_each {A B} (l : list A) (body : A -> B -> M B) :
  (forall x acc, emits_only P (body x acc)) ->
  forall acc, emits_only P (for_each l body acc).
Proof.
  intros Hb. induction l as [| x l IH]; intros acc; simpl.
  - apply emits_ret.
  - apply emits_bind; auto.
Qed.

End Emits.

Section NoExit.

Lemma no_exit_ret {A} (a : A) : no_exit (ret a).
Proof. intros E h. exact I. Qed.

Lemma no_exit_raise {A} e : no_exit (@raise A e).
Proof. intros E h. exact I. Qed.

Lemma no_exit_lift {A} (r : result A) : no_exit (lift r).
Proof. destruct r; [apply no_exit_ret | apply no_exit_raise]. Qed.

Lemma no_exit_emit e : no_exit (emit e).
Proof. intros E h. exact I. Qed.

Lemma no_exit_ask {A} oracle (record : result A -> event) :
  no_exit (ask oracle record).
Proof. intros E h. simpl. destruct (oracle E h); exact I. Qed.

Lemma no_exit_bind {A B} (m : M A) (k : A -> M B) :
  no_exit m -> (forall a, no_exit (k a)) -> no_exit (bind m k).
Proof.
  intros Hm Hk E h. unfold bind. specialize (Hm E h).
  destruct (m E h) as [[a | [e | s] |] ev]; simpl in *; auto.
  specialize (Hk a E (h ++ ev)). destruct (k a E (h ++ ev)) as [o ev'].
  exact Hk.
Qed.

Lemma no_exit_try_except {A} (body : M A) handler :
  no_exit body -> (forall e, no_exit (handler e)) ->
  no_exit (try_except body handler).
Proof.
  intros Hb Hh E h. unfold try_except. specialize (Hb E h).
  destruct (body E h) as [[a | [e | s] |] ev]; simpl in *; auto.
  specialize (Hh e E (h ++ ev)). destruct (handler e E (h ++ ev)) as [o ev'].
  exact Hh.
Qed.

Lemma no_exit_for_each {A B} (l : list A) (body : A -> B -> M B) :
  (forall x acc, no_exit (body x acc)) ->
  forall acc, no_exit (for_each l body acc).
Proof.
  intros Hb. induction l as [| x l IH]; intros acc; simpl.
  - apply no_exit_ret.
  - apply no_exit_bind; auto.
Qed.

(** A guarded block whose handler returns always returns. *)
Lemma try_except_returns {A} (body : M A) handler :
  no_exit body -> (forall e, returns (handler e)) ->
  returns (try_except body handler).
Proof.
  intros Hb Hh E h. unfold try_except. specialize (Hb E h).
  destruct (body E h) as [[a | [e | s] |] ev]; simpl in *; try contradiction.
  - eauto.
  - destruct (Hh e E (h ++ ev)) as [a Ha].
    destruct (handler e E (h ++ ev)) as [o ev']. simpl in *. eauto.
Qed.

End NoExit.

Section RetSat.
Context {A : Type}.
Variable Q : A -> Prop.

Lemma ret_sat_ret (a : A) : Q a -> ret_sat Q (ret a).
Proof. intros H E h a' Ha. simpl in Ha. congruence. Qed.

Lemma ret_sat_raise e : ret_sat Q (@raise A e).
Proof. intros E h a Ha. discriminate. Qed.

Lemma ret_sat_lift (r : result A) :
  (forall a, r = Ok a -> Q a) -> ret_sat Q (lift r).
Proof.
  intros H. destruct r; [apply ret_sat_ret; auto | apply ret_sat_raise].
Qed.

Lemma ret_sat_bind {B} (m : M B) (k : B -> M A) :
  (forall b, ret_sat Q (k b)) -> ret_sat Q (bind m k).
Proof.
  intros Hk E h a. unfold bind.
  destruct (m E h) as [[b | r |] ev]; simpl; try discriminate.
  specialize (Hk b E (h ++ ev) a). destruct (k b E (h ++ ev)). exact Hk.
Qed.

Lemma ret_sat_try_except (body : M A) handler :
  ret_sat Q body -> (forall e, ret_sat Q (handler e)) ->
  ret_sat Q (try_except body handler).
Proof.
  intros Hb Hh E h a. unfold try_except. specialize (Hb E h).
  destruct (body E h) as [[b | [e | s] |] ev]; simpl in *; try discriminate.
  - auto.
  - specialize (Hh e E (h ++ ev) a). destruct (handler e E (h ++ ev)).
    exact Hh.
Qed.

End RetSat.

(** ** Tactics that walk through a program *)

Ltac prog_unfold :=
  unfold api.get_content_details, api.get_content_file, api.get_pdf,
    api.graphql_query, api.session_get, api.session_post,
    logging_error, logging_warning, time_sleep,
    letters._process_letter_parts, letters.process_part,
    receipts._fetch_and_store_pdf.

Ltac no_exit_tac :=
  repeat first
    [ apply no_exit_ret | apply no_exit_raise | apply no_exit_lift
    | apply no_exit_emit | apply no_exit_ask
    | apply no_exit_bind; [ | intros ]
    | apply no_exit_try_except; [ | intros ]
    | apply no_exit_for_each; intros
    | progress prog_unfold
    | progress simpl
    | match goal with
      | |- no_exit (if ?b then _ else _) => destruct b
      | |- no_exit (match ?x with _ => _ end) => destruct x
      end ].

Ltac emits_tac :=
  repeat first
    [ apply emits_ret | apply emits_raise | apply emits_lift
    | apply emits_sys_exit
    | apply emits_emit; reflexivity
    | apply emits_ask; intros; reflexivity
    | apply emits_bind; [ | intros ]
    | apply emits_try_except; [ | intros ]
    | apply emits_for_each; intros
    | progress prog_unfold
    | progress simpl
    | match goal with
      | |- emits_only _ (if ?b then _ else _) => destruct b
      | |- emits_only _ (match ?x with _ => _ end) => destruct x
      end ].

Ltac counts_tac :=
  repeat first
    [ apply ret_sat_ret; left; reflexivity
    | apply ret_sat_lift; intros; right; assumption
    | apply ret_sat_bind; intros
    | match goal with
      | |- ret_sat _ (if ?b then _ else _) => destruct b
      end ].

Lemma rbind_ok {A B} (r : result A) (k : A -> result B) b :
  rbind r k = Ok b -> exists a, r = Ok a /\ k a = Ok b.
Proof. destruct r; simpl; intros H; [eauto | discriminate]. Qed.

Lemma counted_from_none c : counted_at_most_once PNone c -> c = PNone.
Proof. intros [H | H]; [exact H | discriminate]. Qed.

(** ** One listed letter *)

Section OneLetter.
Import letters models storage.
Variable client : api.KivraApiClient.
Let F := mkLetterFetcher client OracleStore.

Lemma process_letter_keyless item stored E h :
  keyless item ->
  _process_letter F item stored E h =
  (Ret PNone, [ELog WARNING [Lit "Letter missing key, skipping"] None]).
Proof.
  intros [k [Hk Ht]]. unfold _process_letter.
  rewrite Hk, lift_ok_bind, Ht. reflexivity.
Qed.

Lemma process_letter_readable item key date sender stored E h :
  readable_letter item key date sender ->
  let md := letter_fingerprint key date sender in
  let h' := h ++ [EExists md (Ok false)] in
  let guarded := process_letter_try F item (mkKivraLetter key date sender None)
                                    md stored in
  _process_letter F item stored E h =
  match o_exists E h md with
  | Ok true => (Ret stored, [EExists md (Ok true)])
  | Ok false => (fst (guarded E h'), EExists md (Ok false) :: snd (guarded E h'))
  | Err e => (Raise (Exception e), [EExists md (Err e)])
  end.
Proof.
  intros (Hk & Ht & Hd & Hs).
  apply rbind_ok in Hd. destruct Hd as (r & Hr & Hd).
  apply rbind_ok in Hs. destruct Hs as (s & Hs & Hn).
  unfold _process_letter.
  rewrite Hk, lift_ok_bind, Ht. cbn [negb].
  rewrite Hr, lift_ok_bind, Hd, lift_ok_bind, Hs, lift_ok_bind, Hn, lift_ok_bind.
  simpl exists_. rewrite ask_bind. unfold letter_fingerprint.
  destruct (o_exists E h _) as [[|] | e]; reflexivity.
Qed.

Lemma letter_try_no_exists item letter md stored :
  emits_only not_exists (process_letter_try F item letter md stored).
Proof. unfold process_letter_try. emits_tac. Qed.

Lemma letter_try_returns item letter md stored :
  returns (process_letter_try F item letter md stored).
Proof.
  unfold process_letter_try. apply try_except_returns.
  - no_exit_tac.
  - intros e E h. unfold logging_error. rewrite emit_bind. simpl. eauto.
Qed.

Lemma letter_try_counts item letter md stored :
  ret_sat (counted_at_most_once stored)
          (process_letter_try F item letter md stored).
Proof.
  unfold process_letter_try. apply ret_sat_try_except; [| intros e]; counts_tac.
Qed.

(** Past the existence check a listed letter never makes the step raise. *)
Lemma process_letter_returns item stored E h :
  listed_letter item -> exists_answers E ->
  exists c, fst (_process_letter F item stored E h) = Ret c /\
            (c = PNone \/ counted_at_most_once stored c).
Proof.
  intros [Hk | (key & date & sender & Hr)] Hex.
  - rewrite process_letter_keyless by exact Hk. simpl. eauto.
  - rewrite (process_letter_readable item key date sender stored E h Hr). cbv zeta.
    destruct (Hex h (letter_fingerprint key date sender)) as [b Hb].
    rewrite Hb. destruct b; simpl.
    + exists stored. split; [reflexivity | right; left; reflexivity].
    + match goal with |- context [fst (?m E ?hh)] =>
        destruct (letter_try_returns item
                    (mkKivraLetter key date sender None)
                    (letter_fingerprint key date sender) stored E hh)
          as [c Hc];
        pose proof (letter_try_counts item _ _ stored E hh c Hc) as Hq
      end.
      exists c. split; [exact Hc | right; exact Hq].
Qed.

Lemma process_letter_none item E h :
  listed_letter item -> exists_answers E ->
  fst (_process_letter F item PNone E h) = Ret PNone.
Proof.
  intros Hl Hex. destruct (process_letter_returns item PNone E h Hl Hex)
    as (c & Hc & [Hn | Hn]).
  - congruence.
  - apply counted_from_none in Hn. congruence.
Qed.

End OneLetter.

(** ** One listed receipt *)

Section OneReceipt.
Import receipts models storage.
Variable client : api.KivraApiClient.
Let F := mkReceiptFetcher client OracleStore.

Lemma process_receipt_keyless item stored E h :
  keyless item ->
  _process_receipt F item stored E h =
  (Ret PNone, [ELog WARNING [Lit "Receipt missing key, skipping"] None]).
Proof.
  intros [k [Hk Ht]]. unfold _process_receipt.
  rewrite Hk, lift_ok_bind, Ht. reflexivity.
Qed.

Lemma process_receipt_readable item key date store stored E h :
  readable_receipt item key date store ->
  let md := receipt_fingerprint key date store in
  let h' := h ++ [EExists md (Ok false)] in
  let guarded := process_receipt_try F (mkKivraReceipt key date store)
                                     md stored in
  _process_receipt F item stored E h =
  match o_exists E h md with
  | Ok true => (Ret stored, [EExists md (Ok true)])
  | Ok false => (fst (guarded E h'), EExists md (Ok false) :: snd (guarded E h'))
  | Err e => (Raise (Exception e), [EExists md (Err e)])
  end.
Proof.
  intros (Hk & Ht & Hd & Hs).
  apply rbind_ok in Hd. destruct Hd as (r & Hr & Hd).
  apply rbind_ok in Hs. destruct Hs as (s & Hs & Hn).
  unfold _process_receipt.
  rewrite Hk, lift_ok_bind, Ht. cbn [negb].
  rewrite Hr, lift_ok_bind, Hd, lift_ok_bind, Hs, lift_ok_bind, Hn, lift_ok_bind.
  simpl exists_. rewrite ask_bind. unfold receipt_fingerprint.
  destruct (o_exists E h _) as [[|] | e]; reflexivity.
Qed.

Lemma receipt_try_no_exists receipt md stored :
  emits_only not_exists (process_receipt_try F receipt md stored).
Proof. unfold process_receipt_try. emits_tac. Qed.

Lemma receipt_try_returns receipt md stored :
  returns (process_receipt_try F receipt md stored).
Proof.
  unfold process_receipt_try. apply try_except_returns.
  - no_exit_tac.
  - intros e E h. unfold logging_error. rewrite emit_bind. simpl. eauto.
Qed.

Lemma receipt_try_counts receipt md stored :
  ret_sat (counted_at_most_once stored)
          (process_receipt_try F receipt md stored).
Proof.
  unfold process_receipt_try. apply ret_sat_try_except; [| intros e]; counts_tac.
Qed.

Lemma process_receipt_returns item stored E h :
  listed_receipt item -> exists_answers E ->
  exists c, fst (_process_receipt F item stored E h) = Ret c /\
            (c = PNone \/ counted_at_most_once stored c).
Proof.
  intros [Hk | (key & date & store & Hr)] Hex.
  - rewrite process_receipt_keyless by exact Hk. simpl. eauto.
  - rewrite (process_receipt_readable item key date store stored E h Hr).
    cbv zeta.
    destruct (Hex h (receipt_fingerprint key date store)) as [b Hb].
    rewrite Hb. destruct b; simpl.
    + exists stored. split; [reflexivity | right; left; reflexivity].
    + match goal with |- context [fst (?m E ?hh)] =>
        destruct (receipt_try_returns (mkKivraReceipt key date store)
                    (receipt_fingerprint key date store) stored E hh)
          as [c Hc];
        pose proof (receipt_try_counts _ _ stored E hh c Hc) as Hq
      end.
      exists c. split; [exact Hc | right; exact Hq].
Qed.

End OneReceipt.

(** ** The loop over the listing *)

Section Loop.
Variable step : pyval -> pyval -> M pyval.
Variable listed : pyval -> Prop.
Variable E : env.

Hypothesis step_returns : forall item stored h,
  listed item ->
  exists c, fst (step item stored E h) = Ret c /\
            (c = PNone \/ counted_at_most_once stored c).

Hypothesis step_keyless : forall item stored h,
  keyless item -> fst (step item stored E h) = Ret PNone.

Lemma for_each_cons (item : pyval) items acc h c ev :
  step item acc E h = (Ret c, ev) ->
  for_each (item :: items) step acc E h =
  (fst (for_each items step c E (h ++ ev)),
   ev ++ snd (for_each items step c E (h ++ ev))).
Proof. intros H. simpl. apply bind_ret. exact H. Qed.

Lemma loop_returns items :
  Forall listed items ->
  forall acc h, exists c, fst (for_each items step acc E h) = Ret c.
Proof.
  induction 1 as [| item items Hi _ IH]; intros acc h.
  - exists acc. reflexivity.
  - destruct (step_returns item acc h Hi) as (c & Hc & _).
    rewrite (for_each_cons item items acc h c _ (eq_trans (surjective_run _)
               (f_equal2 pair Hc eq_refl))).
    simpl. apply IH.
Qed.

Lemma loop_none items :
  Forall listed items ->
  forall h, fst (for_each items step PNone E h) = Ret PNone.
Proof.
  induction 1 as [| item items Hi _ IH]; intros h.
  - reflexivity.
  - destruct (step_returns item PNone h Hi) as (c & Hc & Hq).
    assert (c = PNone) as ->
        by (destruct Hq as [Hq | Hq]; [exact Hq | exact (counted_from_none _ Hq)]).
    rewrite (for_each_cons item items PNone h PNone _ (eq_trans (surjective_run _)
               (f_equal2 pair Hc eq_refl))).
    simpl. apply IH.
Qed.

Lemma loop_keyless items item :
  Forall listed items -> In item items -> keyless item ->
  forall acc h, fst (for_each items step acc E h) = Ret PNone.
Proof.
  intros Hall Hin Hk. induction Hall as [| x items Hx Hall IH]; intros acc h.
  - contradiction.
  - destruct Hin as [-> | Hin].
    + rewrite (for_each_cons item items acc h PNone _ (eq_trans (surjective_run _)
                 (f_equal2 pair (step_keyless item acc h Hk) eq_refl))).
      simpl. apply loop_none. exact Hall.
    + destruct (step_returns x acc h Hx) as (c & Hc & _).
      rewrite (for_each_cons x items acc h c _ (eq_trans (surjective_run _)
                 (f_equal2 pair Hc eq_refl))).
      simpl. apply IH. exact Hin.
Qed.

End Loop.

(** ** The fetch operations, phase by phase *)

Section FetchReceipts.
Import receipts models storage.
Variable F : ReceiptFetcher.

Lemma fetch_receipts_completes max_count E h data ev0 receipts items total
      ev1 stored ev2 :
  api.graphql_query (api_client F) "Receipts" RECEIPTS_QUERY
                    receipts_variables E h = (Ret data, ev0) ->
  receipts_listing data receipts items total ->
  report_listing (document_store F) "receipts" receipts E (h ++ ev0)
  = (Ret tt, ev1) ->
  for_each (truncated items max_count) (_process_receipt F) (PInt 0) E
           ((h ++ ev0) ++ ev1) = (Ret stored, ev2) ->
  fetch_receipts F max_count E h =
  (Ret (PDict [("receipts_total", total);
               ("receipts_fetched",
                PInt (Z.of_nat (List.length (truncated items max_count))));
               ("receipts_stored", stored)]),
   ev0 ++ ev1 ++ ev2).
Proof.
  intros Hq (Hd & Hl & Ht) Hr Hloop.
  apply rbind_ok in Hd. destruct Hd as (d & Hd & Hd').
  unfold fetch_receipts. apply try_except_ret.
  fold receipts_variables.
  rewrite (bind_ret _ _ E h data ev0 Hq).
  rewrite Hd, lift_ok_bind, Hd', lift_ok_bind, Hl, lift_ok_bind, Ht, lift_ok_bind.
  rewrite (bind_ret _ _ E (h ++ ev0) tt ev1 Hr).
  match goal with |- context [bind ?m _ E ((h ++ ev0) ++ ev1)] =>
    assert (m E ((h ++ ev0) ++ ev1)
            = (Ret (PList (truncated items max_count)), [])) as Htr
  end.
  { destruct max_count as [n |]; [| reflexivity].
    cbn [py_len]. rewrite lift_ok_bind. reflexivity. }
  rewrite (bind_ret _ _ E _ _ [] Htr). rewrite app_nil_r.
  cbn [py_iter]. rewrite lift_ok_bind.
  rewrite (bind_ret _ _ E _ stored ev2 Hloop).
  cbn [py_len]. rewrite lift_ok_bind.
  cbn [fst snd ret app]. rewrite ?app_nil_r. reflexivity.
Qed.

Lemma fetch_receipts_report_raises max_count E h data ev0 receipts items total
      ev1 e :
  api.graphql_query (api_client F) "Receipts" RECEIPTS_QUERY
                    receipts_variables E h = (Ret data, ev0) ->
  receipts_listing data receipts items total ->
  report_listing (document_store F) "receipts" receipts E (h ++ ev0)
  = (Raise (Exception e), ev1) ->
  fetch_receipts F max_count E h =
  (Raise (Exception e),
   (ev0 ++ ev1) ++ [ELog ERROR [Lit "Error fetching receipts: "] (Some e)]).
Proof.
  intros Hq (Hd & Hl & Ht) Hr.
  apply rbind_ok in Hd. destruct Hd as (d & Hd & Hd').
  unfold fetch_receipts. fold receipts_variables.
  erewrite try_except_caught.
  2:{ rewrite (bind_ret _ _ E h data ev0 Hq).
      rewrite Hd, lift_ok_bind, Hd', lift_ok_bind, Hl, lift_ok_bind,
        Ht, lift_ok_bind.
      rewrite (bind_raise _ _ E (h ++ ev0) _ ev1 Hr). reflexivity. }
  unfold logging_error. rewrite emit_bind. reflexivity.
Qed.

End FetchReceipts.

Section FetchLetters.
Import letters models storage.
Variable F : LetterFetcher.

Lemma fetch_letters_completes fuel max_count E h listing ev0 ev1 stored ev2 :
  fetch_pages fuel F PNone [] E h = (Ret listing, ev0) ->
  report_listing (document_store F) "letters" (PList listing) E (h ++ ev0)
  = (Ret tt, ev1) ->
  for_each (truncated listing max_count) (_process_letter F) (PInt 0) E
           ((h ++ ev0) ++ ev1) = (Ret stored, ev2) ->
  fetch_letters fuel F max_count E h =
  (Ret (PDict [("letters_total", PInt (Z.of_nat (List.length listing)));
               ("letters_fetched",
                PInt (Z.of_nat (List.length
                  (truncated (truncated listing max_count) max_count))));
               ("letters_stored", stored)]),
   ev0 ++ ev1 ++ ev2).
Proof.
  intros Hp Hr Hloop.
  unfold fetch_letters. apply try_except_ret.
  rewrite (bind_ret _ _ E h listing ev0 Hp).
  rewrite (bind_ret _ _ E (h ++ ev0) tt ev1 Hr).
  fold (truncated listing max_count).
  rewrite (bind_ret _ _ E _ stored ev2 Hloop).
  cbn [fst snd ret app]. rewrite ?app_nil_r.
  destruct max_count; reflexivity.
Qed.

Lemma fetch_letters_report_raises fuel max_count E h listing ev0 ev1 e :
  fetch_pages fuel F PNone [] E h = (Ret listing, ev0) ->
  report_listing (document_store F) "letters" (PList listing) E (h ++ ev0)
  = (Raise (Exception e), ev1) ->
  fetch_letters fuel F max_count E h =
  (Raise (Exception e),
   (ev0 ++ ev1) ++ [ELog ERROR [Lit "Error fetching letters: "] (Some e)]).
Proof.
  intros Hp Hr. unfold fetch_letters.
  erewrite try_except_caught.
  2:{ rewrite (bind_ret _ _ E h listing ev0 Hp).
      rewrite (bind_raise _ _ E (h ++ ev0) _ ev1 Hr). reflexivity. }
  unfold logging_error. rewrite emit_bind. reflexivity.
Qed.

End FetchLetters.

(** ** Restating the phase lemmas over [receipts_listed] and [letters_listed] *)

Lemma fetch_receipts_stats F max_count E h items total ev stored ev2 :
  receipts_listed F E h items total ev ->
  for_each (truncated items max_count) (receipts._process_receipt F) (PInt 0) E
           (h ++ ev) = (Ret stored, ev2) ->
  receipts.fetch_receipts F max_count E h =
  (Ret (receipt_stats total (List.length (truncated items max_count)) stored),
   ev ++ ev2).
Proof.
  intros (data & ev0 & listing & ev1 & Hq & Hl & Hr & ->) Hloop.
  rewrite app_assoc in Hloop.
  rewrite (fetch_receipts_completes F max_count E h data ev0 listing items total
             ev1 stored ev2 Hq Hl Hr Hloop).
  rewrite app_assoc. reflexivity.
Qed.

Lemma fetch_letters_stats fuel F max_count E h items ev stored ev2 :
  letters_listed fuel F E h items ev ->
  for_each (truncated items max_count) (letters._process_letter F) (PInt 0) E
           (h ++ ev) = (Ret stored, ev2) ->
  letters.fetch_letters fuel F max_count E h =
  (Ret (letter_stats (List.length items)
          (List.length (truncated (truncated items max_count) max_count))
          stored),
   ev ++ ev2).
Proof.
  intros (ev0 & ev1 & Hp & Hr & ->) Hloop.
  rewrite app_assoc in Hloop.
  rewrite (fetch_letters_completes F fuel max_count E h items ev0 ev1 stored ev2
             Hp Hr Hloop).
  rewrite app_assoc. reflexivity.
Qed.

Lemma run_of_fst {A} (p : outcome A * list event) (o : outcome A) :
  fst p = o -> p = (o, snd p).
Proof. intros <-. apply surjective_run. Qed.

Lemma for_each_app {A B} (l1 l2 : list A) (body : A -> B -> M B) acc E h a ev :
  for_each l1 body acc E h = (Ret a, ev) ->
  for_each (l1 ++ l2) body acc E h =
  (fst (for_each l2 body a E (h ++ ev)), ev ++ snd (for_each l2 body a E (h ++ ev))).
Proof.
  revert acc h a ev. induction l1 as [| x l1 IH]; intros acc h a ev H.
  - simpl in H. inversion H. subst. simpl. rewrite app_nil_r.
    apply surjective_run.
  - simpl in *. unfold bind in *.
    destruct (body x acc E h) as [[acc' | r |] ev0]; try discriminate.
    destruct (for_each l1 body acc' E (h ++ ev0)) as [o ev1] eqn:H1.
    inversion H. subst. rewrite (IH acc' (h ++ ev0) a ev1 H1).
    rewrite <- !app_assoc. reflexivity.
Qed.

Lemma for_each_raises {A B} (x : A) (l : list A) (body : A -> B -> M B)
      acc E h r ev :
  body x acc E h = (Raise r, ev) ->
  for_each (x :: l) body acc E h = (Raise r, ev).
Proof. intros H. simpl. apply bind_raise. exact H. Qed.

Lemma for_each_raises_after {A B} (before after : list A) (bad : A)
      (body : A -> B -> M B) acc E h a ev r ev' :
  for_each before body acc E h = (Ret a, ev) ->
  body bad a E (h ++ ev) = (Raise r, ev') ->
  for_each (before ++ bad :: after) body acc E h = (Raise r, ev ++ ev').
Proof.
  intros Hb Hr. rewrite (for_each_app before (bad :: after) body acc E h a ev Hb).
  rewrite (for_each_raises bad after body a E (h ++ ev) r ev' Hr).
  reflexivity.
Qed.

Lemma fetch_receipts_loop_raises F max_count E h items total rev e ev2 :
  receipts_listed F E h items total rev ->
  for_each (truncated items max_count) (receipts._process_receipt F) (PInt 0) E
           (h ++ rev) = (Raise (Exception e), ev2) ->
  receipts.fetch_receipts F max_count E h =
  (Raise (Exception e),
   (rev ++ ev2) ++ [ELog ERROR [Lit "Error fetching receipts: "] (Some e)]).
Proof.
  intros (data & ev0 & listing & ev1 & Hq & (Hd & Hl & Ht) & Hr & ->) Hloop.
  apply rbind_ok in Hd. destruct Hd as (d & Hd & Hd').
  rewrite app_assoc in Hloop.
  unfold receipts.fetch_receipts. fold receipts_variables.
  erewrite try_except_caught.
  2:{ rewrite (bind_ret _ _ E h data ev0 Hq).
      rewrite Hd, lift_ok_bind, Hd', lift_ok_bind, Hl, lift_ok_bind,
        Ht, lift_ok_bind.
      rewrite (bind_ret _ _ E (h ++ ev0) tt ev1 Hr).
      match goal with |- context [bind ?m _ E ((h ++ ev0) ++ ev1)] =>
        assert (m E ((h ++ ev0) ++ ev1)
                = (Ret (PList (truncated items max_count)), [])) as Htr
      end.
      { destruct max_count as [n |]; [| reflexivity].
        cbn [py_len]. rewrite lift_ok_bind. reflexivity. }
      rewrite (bind_ret _ _ E _ _ [] Htr). rewrite app_nil_r.
      cbn [py_iter]. rewrite lift_ok_bind.
      rewrite (bind_raise _ _ E _ _ ev2 Hloop).
      cbn [fst snd app]. rewrite ?app_nil_r. reflexivity. }
  unfold logging_error. rewrite emit_bind. cbn [fst snd ret raise].
  rewrite <- !app_assoc. reflexivity.
Qed.

Lemma fetch_letters_loop_raises fuel F max_count E h items lev e ev2 :
  letters_listed fuel F E h items lev ->
  for_each (truncated items max_count) (letters._process_letter F) (PInt 0) E
           (h ++ lev) = (Raise (Exception e), ev2) ->
  letters.fetch_letters fuel F max_count E h =
  (Raise (Exception e),
   (lev ++ ev2) ++ [ELog ERROR [Lit "Error fetching letters: "] (Some e)]).
Proof.
  intros (ev0 & ev1 & Hp & Hr & ->) Hloop.
  rewrite app_assoc in Hloop.
  unfold letters.fetch_letters.
  erewrite try_except_caught.
  2:{ rewrite (bind_ret _ _ E h items ev0 Hp).
      rewrite (bind_ret _ _ E (h ++ ev0) tt ev1 Hr).
      fold (truncated items max_count).
      rewrite (bind_raise _ _ E _ _ ev2 Hloop).
      cbn [fst snd app]. reflexivity. }
  unfold logging_error. rewrite emit_bind. cbn [fst snd ret raise].
  rewrite <- !app_assoc. reflexivity.
Qed.

(** ** The three kinds of listed item *)

Section ItemKinds.
Import receipts letters models storage.
Variable client : api.KivraApiClient.
Let RF := mkReceiptFetcher client OracleStore.
Let LF := mkLetterFetcher client OracleStore.

Lemma receipt_step_unreadable item stored E h e :
  unreadable_receipt item e ->
  _process_receipt RF item stored E h = (Raise (Exception e), []).
Proof.
  unfold _process_receipt.
  intros [Hk | (key & Hk & Ht & Hr)]; rewrite Hk; [reflexivity |].
  rewrite lift_ok_bind, Ht. cbn [negb].
  destruct (py_get item "purchaseDate" (PStr "unknown_date")) as [d | e'];
    [| cbn in Hr; injection Hr as <-; reflexivity].
  rewrite lift_ok_bind. cbn [rbind] in Hr.
  destruct (helpers.format_date d) as [date | e'];
    [| cbn in Hr; injection Hr as <-; reflexivity].
  rewrite lift_ok_bind. cbn [rbind] in Hr.
  destruct (py_get item "store" (PDict [])) as [s | e'];
    [| cbn in Hr; injection Hr as <-; reflexivity].
  rewrite lift_ok_bind. cbn [rbind] in Hr. rewrite Hr. reflexivity.
Qed.

Lemma letter_step_unreadable item stored E h e :
  unreadable_letter item e ->
  _process_letter LF item stored E h = (Raise (Exception e), []).
Proof.
  unfold _process_letter.
  intros [Hk | (key & Hk & Ht & Hr)]; rewrite Hk; [reflexivity |].
  rewrite lift_ok_bind, Ht. cbn [negb].
  destruct (py_get item "receivedAt" (PStr "unknown_date")) as [d | e'];
    [| cbn in Hr; injection Hr as <-; reflexivity].
  rewrite lift_ok_bind. cbn [rbind] in Hr.
  destruct (helpers.format_date d) as [date | e'];
    [| cbn in Hr; injection Hr as <-; reflexivity].
  rewrite lift_ok_bind. cbn [rbind] in Hr.
  destruct (py_get item "sender" (PDict [])) as [s | e'];
    [| cbn in Hr; injection Hr as <-; reflexivity].
  rewrite lift_ok_bind. cbn [rbind] in Hr. rewrite Hr. reflexivity.
Qed.

(** A listed item has no key, or cannot be read, or can be read. *)
Lemma receipt_kinds (item : pyval) :
  keyless item
  \/ (exists e, unreadable_receipt item e)
  \/ (exists key date store, readable_receipt item key date store).
Proof.
  unfold keyless, unreadable_receipt, readable_receipt.
  destruct (py_get item "key" PNone) as [k | e] eqn:Hk;
    [| right; left; exists e; left; reflexivity].
  destruct (py_truthy k) eqn:Ht; [| left; exists k; auto].
  right.
  destruct (rbind (py_get item "purchaseDate" (PStr "unknown_date"))
                  helpers.format_date) as [date | e] eqn:Hd.
  - destruct (rbind (py_get item "store" (PDict []))
                    (fun s => py_get s "name" (PStr "unknown_store")))
      as [store | e] eqn:Hs.
    + right. exists k, date, store. auto.
    + left. exists e. right. exists k. auto.
  - left. exists e. right. exists k. auto.
Qed.

Lemma letter_kinds (item : pyval) :
  keyless item
  \/ (exists e, unreadable_letter item e)
  \/ (exists key date sender, readable_letter item key date sender).
Proof.
  unfold keyless, unreadable_letter, readable_letter.
  destruct (py_get item "key" PNone) as [k | e] eqn:Hk;
    [| right; left; exists e; left; reflexivity].
  destruct (py_truthy k) eqn:Ht; [| left; exists k; auto].
  right.
  destruct (rbind (py_get item "receivedAt" (PStr "unknown_date"))
                  helpers.format_date) as [date | e] eqn:Hd.
  - destruct (rbind (py_get item "sender" (PDict []))
                    (fun s => py_get s "name" (PStr "unknown_sender")))
      as [sender | e] eqn:Hs.
    + right. exists k, date, sender. auto.
    + left. exists e. right. exists k. auto.
  - left. exists e. right. exists k. auto.
Qed.

Lemma keyless_has_no_key item : keyless item -> has_key item = false.
Proof. intros (k & Hk & Ht). unfold has_key. rewrite Hk. exact Ht. Qed.

Lemma readable_receipt_has_key item key date store :
  readable_receipt item key date store -> has_key item = true.
Proof. intros (Hk & Ht & _). unfold has_key. rewrite Hk. exact Ht. Qed.

Lemma readable_letter_has_key item key date sender :
  readable_letter item key date sender -> has_key item = true.
Proof. intros (Hk & Ht & _). unfold has_key. rewrite Hk. exact Ht. Qed.

End ItemKinds.

(** ** A step that was handed [None] as the counter *)

Section CounterNone.
Import receipts letters models storage.
Variable client : api.KivraApiClient.
Variable n : Z.
Let RF := mkReceiptFetcher client OracleStore.
Let LF := mkLetterFetcher client OracleStore.

(** [m1] does what [m0] does, with [None] where [m0] has the counter [n]
    and a TypeError where [m0] increments it. *)
Let twin (m0 m1 : M pyval) : Prop :=
  forall E h,
    match m0 E h with
    | (Ret c, ev) =>
        (c = PInt n /\ m1 E h = (Ret PNone, ev))
        \/ (c = PInt (n + 1) /\ m1 E h = (Raise (Exception TypeError), ev))
    | (o, ev) => m1 E h = (o, ev)
    end.

Lemma twin_bind {A} (m : M A) (k0 k1 : A -> M pyval) :
  (forall a, twin (k0 a) (k1 a)) -> twin (bind m k0) (bind m k1).
Proof.
  intros Hk E h. unfold bind.
  destruct (m E h) as [[a | r |] ev]; [| reflexivity | reflexivity].
  specialize (Hk a E (h ++ ev)).
  destruct (k0 a E (h ++ ev)) as [[c | r |] ev0].
  - destruct Hk as [[-> Hk] | [-> Hk]]; rewrite Hk; [left | right]; auto.
  - rewrite Hk. reflexivity.
  - rewrite Hk. reflexivity.
Qed.

Lemma twin_final (b : bool) :
  twin (if b then lift (py_incr (PInt n)) else ret (PInt n))
       (if b then lift (py_incr PNone) else ret PNone).
Proof. intros E h. destruct b; cbn; [right | left]; auto. Qed.

Lemma twin_try (body0 body1 : M pyval) (msg : fstring) E h :
  twin body0 body1 ->
  let T0 := try_except body0
              (fun e => logging_error msg (Some e) ;; ret (PInt n)) E h in
  let T1 := try_except body1
              (fun e => logging_error msg (Some e) ;; ret PNone) E h in
  (fst T0 = Ret (PInt n) -> T1 = (Ret PNone, snd T0))
  /\ (fst T0 = Ret (PInt (n + 1)) ->
      T1 = (Ret PNone, snd T0 ++ [ELog ERROR msg (Some TypeError)])).
Proof.
  intros Ht T0 T1. subst T0 T1. unfold try_except. specialize (Ht E h).
  destruct (body0 E h) as [[c | [e | s] |] ev].
  - destruct Ht as [[-> Ht] | [-> Ht]]; rewrite Ht; cbn.
    + split; [reflexivity | intros H; injection H; lia].
    + split; [intros H; injection H; lia | reflexivity].
  - rewrite Ht. cbn. split; [reflexivity | intros H; injection H; lia].
  - rewrite Ht. cbn. split; discriminate.
  - rewrite Ht. cbn. split; discriminate.
Qed.

Lemma receipt_step_counter_none item E h :
  let r0 := _process_receipt RF item (PInt n) E h in
  let r := _process_receipt RF item PNone E h in
  (fst r0 = Ret (PInt n) -> r = (Ret PNone, snd r0))
  /\ (fst r0 = Ret (PInt (n + 1)) ->
      exists key,
        py_get item "key" PNone = Ok key
        /\ r = (Ret PNone,
                snd r0 ++ [ELog ERROR [Lit "Error processing receipt ";
                                       Fmt key; Lit ": "]
                                (Some TypeError)])).
Proof.
  cbv zeta.
  destruct (receipt_kinds item) as [Hk | [(e & Hu) | (key & date & store & Hr)]].
  - subst RF. rewrite !(process_receipt_keyless client item _ E h Hk).
    split; discriminate.
  - subst RF. rewrite !(receipt_step_unreadable client item _ E h e Hu).
    split; discriminate.
  - subst RF.
    rewrite !(process_receipt_readable client item key date store _ E h Hr).
    cbv zeta.
    destruct (o_exists E h (receipt_fingerprint key date store))
      as [[|] | e]; cbn [fst snd].
    + split; [reflexivity | intros H; injection H; lia].
    + unfold process_receipt_try. cbn [receipt_key].
      match goal with
      | |- context [try_except ?b0 _ E ?hh] =>
          match goal with
          | |- context [try_except ?b1 (fun e => _ ;; ret PNone) E hh] =>
              destruct (twin_try b0 b1
                          [Lit "Error processing receipt "; Fmt key; Lit ": "]
                          E hh) as [H1 H2]
          end
      end.
      { repeat (apply twin_bind; intros). apply twin_final. }
      split.
      * intros H. rewrite (H1 H). reflexivity.
      * intros H. exists key. split; [exact (proj1 Hr) |].
        rewrite (H2 H). reflexivity.
    + split; discriminate.
Qed.

Lemma letter_step_counter_none item E h :
  let r0 := _process_letter LF item (PInt n) E h in
  let r := _process_letter LF item PNone E h in
  (fst r0 = Ret (PInt n) -> r = (Ret PNone, snd r0))
  /\ (fst r0 = Ret (PInt (n + 1)) ->
      exists key,
        py_get item "key" PNone = Ok key
        /\ r = (Ret PNone,
                snd r0 ++ [ELog ERROR [Lit "Error processing letter ";
                                       Fmt key; Lit ": "]
                                (Some TypeError)])).
Proof.
  cbv zeta.
  destruct (letter_kinds item) as [Hk | [(e & Hu) | (key & date & sender & Hr)]].
  - subst LF. rewrite !(process_letter_keyless client item _ E h Hk).
    split; discriminate.
  - subst LF. rewrite !(letter_step_unreadable client item _ E h e Hu).
    split; discriminate.
  - subst LF.
    rewrite !(process_letter_readable client item key date sender _ E h Hr).
    cbv zeta.
    destruct (o_exists E h (letter_fingerprint key date sender))
      as [[|] | e]; cbn [fst snd].
    + split; [reflexivity | intros H; injection H; lia].
    + unfold process_letter_try. cbn [letter_key].
      match goal with
      | |- context [try_except ?b0 _ E ?hh] =>
          match goal with
          | |- context [try_except ?b1 (fun e => _ ;; ret PNone) E hh] =>
              destruct (twin_try b0 b1
                          [Lit "Error processing letter "; Fmt key; Lit ": "]
                          E hh) as [H1 H2]
          end
      end.
      { repeat (apply twin_bind; intros). apply twin_final. }
      split.
      * intros H. rewrite (H1 H). reflexivity.
      * intros H. exists key. split; [exact (proj1 Hr) |].
        rewrite (H2 H). reflexivity.
    + split; discriminate.
Qed.

End CounterNone.

(** ** The existence checks of a step and of the loop *)

Lemma filter_exists_none evs :
  forallb not_exists evs = true -> filter is_exists evs = [].
Proof.
  induction evs as [| e evs IH]; simpl; [reflexivity |].
  unfold not_exists at 1. destruct (is_exists e); simpl; [discriminate |].
  exact IH.
Qed.

Lemma receipt_gate client item key date store stored E h :
  readable_receipt item key date store ->
  let RF := receipts.mkReceiptFetcher client storage.OracleStore in
  let md := receipt_fingerprint key date store in
  let r := receipts._process_receipt RF item stored E h in
  filter is_exists (snd r) = [EExists md (o_exists E h md)] /\
  (o_exists E h md = Ok true -> r = (Ret stored, [EExists md (Ok true)])).
Proof.
  intros Hr RF md r. subst r RF.
  rewrite (process_receipt_readable client item key date store stored E h Hr).
  cbv zeta. fold md. destruct (o_exists E h md) as [[|] | e]; simpl.
  - split; [reflexivity | intros _; reflexivity].
  - split; [| discriminate]. f_equal. apply filter_exists_none.
    apply receipt_try_no_exists.
  - split; [reflexivity | discriminate].
Qed.

Lemma letter_gate client item key date sender stored E h :
  readable_letter item key date sender ->
  let LF := letters.mkLetterFetcher client storage.OracleStore in
  let md := letter_fingerprint key date sender in
  let r := letters._process_letter LF item stored E h in
  filter is_exists (snd r) = [EExists md (o_exists E h md)] /\
  (o_exists E h md = Ok true -> r = (Ret stored, [EExists md (Ok true)])).
Proof.
  intros Hr LF md r. subst r LF.
  rewrite (process_letter_readable client item key date sender stored E h Hr).
  cbv zeta. fold md. destruct (o_exists E h md) as [[|] | e]; simpl.
  - split; [reflexivity | intros _; reflexivity].
  - split; [| discriminate]. f_equal. apply filter_exists_none.
    apply letter_try_no_exists.
  - split; [reflexivity | discriminate].
Qed.

Lemma count_events_app P (l1 l2 : list event) :
  count_events P (l1 ++ l2) = count_events P l1 + count_events P l2.
Proof. unfold count_events. rewrite filter_app, length_app. reflexivity. Qed.

Lemma receipt_step_checks client item stored E h :
  listed_receipt item ->
  count_events is_exists
    (snd (receipts._process_receipt
            (receipts.mkReceiptFetcher client storage.OracleStore)
            item stored E h))
  = if has_key item then 1 else 0.
Proof.
  intros [Hk | (key & date & store & Hr)].
  - rewrite (process_receipt_keyless client item stored E h Hk).
    rewrite (keyless_has_no_key item Hk). reflexivity.
  - rewrite (readable_receipt_has_key item key date store Hr).
    unfold count_events.
    rewrite (proj1 (receipt_gate client item key date store stored E h Hr)).
    reflexivity.
Qed.

Lemma letter_step_checks client item stored E h :
  listed_letter item ->
  count_events is_exists
    (snd (letters._process_letter
            (letters.mkLetterFetcher client storage.OracleStore)
            item stored E h))
  = if has_key item then 1 else 0.
Proof.
  intros [Hk | (key & date & sender & Hr)].
  - rewrite (process_letter_keyless client item stored E h Hk).
    rewrite (keyless_has_no_key item Hk). reflexivity.
  - rewrite (readable_letter_has_key item key date sender Hr).
    unfold count_events.
    rewrite (proj1 (letter_gate client item key date sender stored E h Hr)).
    reflexivity.
Qed.

Section LoopChecks.
Variable step : pyval -> pyval -> M pyval.
Variable listed : pyval -> Prop.
Variable E : env.

Hypothesis step_returns : forall item stored h,
  listed item ->
  exists c, fst (step item stored E h) = Ret c /\
            (c = PNone \/ counted_at_most_once stored c).

Hypothesis step_checks : forall item stored h,
  listed item ->
  count_events is_exists (snd (step item stored E h))
  = if has_key item then 1 else 0.

Lemma loop_checks items :
  Forall listed items ->
  forall acc h,
    count_events is_exists (snd (for_each items step acc E h))
    = List.length (filter has_key items).
Proof.
  induction 1 as [| item items Hi _ IH]; intros acc h.
  - reflexivity.
  - destruct (step_returns item acc h Hi) as (c & Hc & _).
    rewrite (for_each_cons step E item items acc h c _
               (eq_trans (surjective_run _) (f_equal2 pair Hc eq_refl))).
    cbn [snd]. rewrite count_events_app, IH, (step_checks item acc h Hi).
    cbn [filter]. destruct (has_key item); reflexivity.
Qed.

End LoopChecks.

(** ** C10: an item without a key turns the counter into [None] *)

(** C10, as the code has it.  A listed item that lacks a usable 'key' makes
    the per-item step log a warning and return None instead of the counter
    it was given, without any call.  A step that is handed None does what it
    does when handed a number, and returns None: where it would have left the
    counter as it was it emits the same events, and where it would have
    incremented it the increment raises TypeError inside the guarded block,
    which is logged there.  So when a keyless item is among the items the
    fetch processes, every processed item is keyless or readable and the
    existence check answers, the fetch completes and reports None as the
    stored count; every processed item that has a key has still been checked
    against the store, once.  Each fetcher on its own. *)
Theorem C10_keyless_item_turns_counter_into_none
        client E fuel max_count h :
  let RF := receipts.mkReceiptFetcher client storage.OracleStore in
  let LF := letters.mkLetterFetcher client storage.OracleStore in
  (forall item stored h',
      keyless item ->
      receipts._process_receipt RF item stored E h'
      = (Ret PNone, [ELog WARNING [Lit "Receipt missing key, skipping"] None])
      /\ letters._process_letter LF item stored E h'
         = (Ret PNone, [ELog WARNING [Lit "Letter missing key, skipping"] None]))
  /\ (forall item n h',
         let r0 := receipts._process_receipt RF item (PInt n) E h' in
         let r := receipts._process_receipt RF item PNone E h' in
         (fst r0 = Ret (PInt n) -> r = (Ret PNone, snd r0))
         /\ (fst r0 = Ret (PInt (n + 1)) ->
             exists key,
               py_get item "key" PNone = Ok key
               /\ r = (Ret PNone,
                       snd r0 ++ [ELog ERROR [Lit "Error processing receipt ";
                                              Fmt key; Lit ": "]
                                       (Some TypeError)])))
  /\ (forall item n h',
         let r0 := letters._process_letter LF item (PInt n) E h' in
         let r := letters._process_letter LF item PNone E h' in
         (fst r0 = Ret (PInt n) -> r = (Ret PNone, snd r0))
         /\ (fst r0 = Ret (PInt (n + 1)) ->
             exists key,
               py_get item "key" PNone = Ok key
               /\ r = (Ret PNone,
                       snd r0 ++ [ELog ERROR [Lit "Error processing letter ";
                                              Fmt key; Lit ": "]
                                       (Some TypeError)])))
  /\ (forall item h',
         exists_answers E ->
         (listed_receipt item ->
          fst (receipts._process_receipt RF item PNone E h') = Ret PNone)
         /\ (listed_letter item ->
             fst (letters._process_letter LF item PNone E h') = Ret PNone))
  /\ (forall ritems total rev ritem,
         exists_answers E ->
         receipts_listed RF E h ritems total rev ->
         Forall listed_receipt (truncated ritems max_count) ->
         In ritem (truncated ritems max_count) -> keyless ritem ->
         let loop := for_each (truncated ritems max_count)
                              (receipts._process_receipt RF) (PInt 0) E
                              (h ++ rev) in
         receipts.fetch_receipts RF max_count E h
         = (Ret (receipt_stats total
                   (List.length (truncated ritems max_count)) PNone),
            rev ++ snd loop)
         /\ count_events is_exists (snd loop)
            = List.length (filter has_key (truncated ritems max_count)))
  /\ (forall litems lev litem,
         exists_answers E ->
         letters_listed fuel LF E h litems lev ->
         Forall listed_letter (truncated litems max_count) ->
         In litem (truncated litems max_count) -> keyless litem ->
         let loop := for_each (truncated litems max_count)
                              (letters._process_letter LF) (PInt 0) E
                              (h ++ lev) in
         letters.fetch_letters fuel LF max_count E h
         = (Ret (letter_stats (List.length litems)
                   (List.length
                      (truncated (truncated litems max_count) max_count))
                   PNone),
            lev ++ snd loop)
         /\ count_events is_exists (snd loop)
            = List.length (filter has_key (truncated litems max_count))).
Proof.
  intros RF LF. subst RF LF.
  set (RF := receipts.mkReceiptFetcher client storage.OracleStore).
  set (LF := letters.mkLetterFetcher client storage.OracleStore).
  split; [| split; [| split; [| split; [| split]]]].
  - intros item stored h' Hk. split.
    + apply process_receipt_keyless. exact Hk.
    + apply process_letter_keyless. exact Hk.
  - intros item n h'. apply receipt_step_counter_none.
  - intros item n h'. apply letter_step_counter_none.
  - intros item h' Hex. split; intros Hi.
    + destruct (process_receipt_returns client item PNone E h' Hi Hex)
        as (c & Hc & [Hn | Hn]); [subst c; exact Hc |].
      apply counted_from_none in Hn. subst c. exact Hc.
    + apply process_letter_none; assumption.
  - intros ritems total rev ritem Hex Hrl Hall Hin Hk loop. subst loop. split.
    + apply fetch_receipts_stats; [exact Hrl |].
      apply run_of_fst.
      apply (loop_keyless (receipts._process_receipt RF) listed_receipt E)
        with (item := ritem); try assumption.
      * intros item stored h' Hi.
        apply process_receipt_returns; assumption.
      * intros item stored h' Hk'. unfold RF.
        rewrite process_receipt_keyless by exact Hk'. reflexivity.
    + apply (loop_checks (receipts._process_receipt RF) listed_receipt E);
        [| | exact Hall].
      * intros item stored h' Hi.
        apply process_receipt_returns; assumption.
      * intros item stored h' Hi. apply receipt_step_checks. exact Hi.
  - intros litems lev litem Hex Hll Hall Hin Hk loop. subst loop. split.
    + apply fetch_letters_stats; [exact Hll |].
      apply run_of_fst.
      apply (loop_keyless (letters._process_letter LF) listed_letter E)
        with (item := litem); try assumption.
      * intros item stored h' Hi.
        apply process_letter_returns; assumption.
      * intros item stored h' Hk'. unfold LF.
        rewrite process_letter_keyless by exact Hk'. reflexivity.
    + apply (loop_checks (letters._process_letter LF) listed_letter E);
        [| | exact Hall].
      * intros item stored h' Hi.
        apply process_letter_returns; assumption.
      * intros item stored h' Hi. apply letter_step_checks. exact Hi.
Qed.

Ltac solve_listed :=
  repeat (apply Forall_cons;
          [ first [ left; eexists; split; reflexivity
                  | right; do 3 eexists; repeat split; reflexivity ] | ]);
  apply Forall_nil.

Ltac solve_listed_phase :=
  first [ do 4 eexists; repeat split; vm_compute; reflexivity
        | do 2 eexists; repeat split; vm_compute; reflexivity ].

Lemma C10_witness :
  let E := demo_env demo_receipts_with_keyless demo_letters_with_keyless in
  exists rev lev,
    (exists_answers E /\
     receipts_listed receipt_fetcher E [] demo_receipts_with_keyless (PInt 3) rev /\
     Forall listed_receipt (truncated demo_receipts_with_keyless None) /\
     In demo_keyless (truncated demo_receipts_with_keyless None) /\
     keyless demo_keyless /\
     letters_listed 1 letter_fetcher E [] demo_letters_with_keyless lev /\
     Forall listed_letter (truncated demo_letters_with_keyless None) /\
     In demo_keyless (truncated demo_letters_with_keyless None)) /\
    (receipts.fetch_receipts receipt_fetcher None E [] =
     (Ret (receipt_stats (PInt 3) 3 PNone),
      rev ++ snd (for_each demo_receipts_with_keyless
                           (receipts._process_receipt receipt_fetcher)
                           (PInt 0) E ([] ++ rev))) /\
     count_events is_exists
       (snd (for_each demo_receipts_with_keyless
                      (receipts._process_receipt receipt_fetcher)
                      (PInt 0) E ([] ++ rev))) = 2) /\
    (letters.fetch_letters 1 letter_fetcher None E [] =
     (Ret (letter_stats 3 3 PNone),
      lev ++ snd (for_each demo_letters_with_keyless
                           (letters._process_letter letter_fetcher)
                           (PInt 0) E ([] ++ lev))) /\
     count_events is_exists
       (snd (for_each demo_letters_with_keyless
                      (letters._process_letter letter_fetcher)
                      (PInt 0) E ([] ++ lev))) = 2).
Proof.
  intros E.
  assert (H1 : exists_answers E) by (intros h m; exists false; reflexivity).
  assert (H2 : { rev | receipts_listed receipt_fetcher E []
                         demo_receipts_with_keyless (PInt 3) rev }).
  { eexists. solve_listed_phase. }
  assert (H3 : Forall listed_receipt (truncated demo_receipts_with_keyless None))
    by solve_listed.
  assert (H4 : In demo_keyless (truncated demo_receipts_with_keyless None))
    by (simpl; auto).
  assert (H5 : keyless demo_keyless) by (eexists; split; reflexivity).
  assert (H6 : { lev | letters_listed 1 letter_fetcher E []
                         demo_letters_with_keyless lev }).
  { eexists. solve_listed_phase. }
  assert (H7 : Forall listed_letter (truncated demo_letters_with_keyless None))
    by solve_listed.
  assert (H8 : In demo_keyless (truncated demo_letters_with_keyless None))
    by (simpl; auto).
  destruct H2 as [rev H2]. destruct H6 as [lev H6].
  exists rev, lev. split; [repeat split; assumption |].
  destruct (C10_keyless_item_turns_counter_into_none the_client E 1 None [])
    as (_ & _ & _ & _ & Hr & Hl).
  split.
  - exact (Hr demo_receipts_with_keyless (PInt 3) rev demo_keyless
              H1 H2 H3 H4 H5).
  - exact (Hl demo_letters_with_keyless lev demo_keyless H1 H6 H7 H8 H5).
Defined.

(** C10 as stated fails.  A listing that contains an item without a key
    does not make the stored count None when that item is cut off by
    max_count: the fetch then reports a number.  And when the listing also
    contains an item that has a key but cannot be read (its store or sender
    is null), the fetch does not complete: it raises. *)
Lemma C10_counterexample :
  let cut_receipts :=
    run (receipts.fetch_receipts receipt_fetcher (Some 1%Z))
        (demo_env [demo_receipt "r1"; demo_keyless] []) in
  let cut_letters :=
    run (letters.fetch_letters 1 letter_fetcher (Some 1%Z))
        (demo_env [] [demo_letter "l1"; demo_keyless]) in
  let bad_receipts :=
    run (receipts.fetch_receipts receipt_fetcher None)
        (demo_env [demo_keyless; demo_receipt_null_store "r2"] []) in
  let bad_letters :=
    run (letters.fetch_letters 1 letter_fetcher None)
        (demo_env [] [demo_keyless; demo_letter_null_sender "l2"]) in
  keyless demo_keyless /\
  (stat "receipts_stored" cut_receipts = Some (PInt 1) /\
   stat "receipts_stored" cut_receipts <> Some PNone) /\
  (stat "letters_stored" cut_letters = Some (PInt 1) /\
   stat "letters_stored" cut_letters <> Some PNone) /\
  fst bad_receipts = Raise (Exception AttributeError) /\
  fst bad_letters = Raise (Exception AttributeError).
Proof.
  intros cut_receipts cut_letters bad_receipts bad_letters.
  assert (Hr : stat "receipts_stored" cut_receipts = Some (PInt 1))
    by (vm_compute; reflexivity).
  assert (Hl : stat "letters_stored" cut_letters = Some (PInt 1))
    by (vm_compute; reflexivity).
  split; [eexists; split; reflexivity |].
  split; [split; [exact Hr | rewrite Hr; discriminate] |].
  split; [split; [exact Hl | rewrite Hl; discriminate] |].
  split; vm_compute; reflexivity.
Qed.

(** ** C1: the idempotency gate *)

Lemma receipts_all_skipped client E items :
  all_exist E -> Forall readable_receipt_item items ->
  forall acc h, exists evs,
    for_each items (receipts._process_receipt
                      (receipts.mkReceiptFetcher client storage.OracleStore))
             acc E h = (Ret acc, evs) /\
    Forall2 receipt_gate_event items evs.
Proof.
  intros Hex Hall. induction Hall as [| item items (key & date & store & Hr) _ IH];
    intros acc h.
  - exists []. split; [reflexivity | constructor].
  - destruct (receipt_gate client item key date store acc E h Hr) as [_ Hskip].
    specialize (Hskip (Hex h _)).
    destruct (IH acc (h ++ [EExists (receipt_fingerprint key date store) (Ok true)]))
      as (evs & Hevs & Hrel).
    exists (EExists (receipt_fingerprint key date store) (Ok true) :: evs). split.
    + simpl for_each. rewrite (bind_ret _ _ E h acc _ Hskip), Hevs. reflexivity.
    + constructor; [| exact Hrel]. exists key, date, store. split; auto.
Qed.

Lemma letters_all_skipped client E items :
  all_exist E -> Forall readable_letter_item items ->
  forall acc h, exists evs,
    for_each items (letters._process_letter
                      (letters.mkLetterFetcher client storage.OracleStore))
             acc E h = (Ret acc, evs) /\
    Forall2 letter_gate_event items evs.
Proof.
  intros Hex Hall. induction Hall as [| item items (key & date & sender & Hr) _ IH];
    intros acc h.
  - exists []. split; [reflexivity | constructor].
  - destruct (letter_gate client item key date sender acc E h Hr) as [_ Hskip].
    specialize (Hskip (Hex h _)).
    destruct (IH acc (h ++ [EExists (letter_fingerprint key date sender) (Ok true)]))
      as (evs & Hevs & Hrel).
    exists (EExists (letter_fingerprint key date sender) (Ok true) :: evs). split.
    + simpl for_each. rewrite (bind_ret _ _ E h acc _ Hskip), Hevs. reflexivity.
    + constructor; [| exact Hrel]. exists key, date, sender. split; auto.
Qed.

(** C1, as the code has it.  For every listed item that can be read (it
    carries a non-empty key, and its date and the name of its store or sender
    can be read), the per-item step asks the store whether the item exists
    exactly once, with the JSON-metadata fingerprint and nothing else; when
    the store answers true the item is skipped: the step emits that single
    existence check (no detail fetch, no report_metadata, no store call) and
    leaves the counter as it was.  The other items are never checked: an
    item without a key is skipped with a warning, and an item that cannot be
    read makes the step raise before any call; every item is of one of the
    three kinds.  Consequently, when every processed item can be read and the
    store answers true each time, the run consists of one existence check
    per item, in listing order, and its stored count is 0.  Each fetcher on
    its own. *)
Theorem C1_idempotency_gate client E fuel max_count h :
  let RF := receipts.mkReceiptFetcher client storage.OracleStore in
  let LF := letters.mkLetterFetcher client storage.OracleStore in
  (forall item key date store stored h',
      readable_receipt item key date store ->
      let md := receipt_fingerprint key date store in
      let r := receipts._process_receipt RF item stored E h' in
      filter is_exists (snd r) = [EExists md (o_exists E h' md)] /\
      (o_exists E h' md = Ok true -> r = (Ret stored, [EExists md (Ok true)]))) /\
  (forall item key date sender stored h',
      readable_letter item key date sender ->
      let md := letter_fingerprint key date sender in
      let r := letters._process_letter LF item stored E h' in
      filter is_exists (snd r) = [EExists md (o_exists E h' md)] /\
      (o_exists E h' md = Ok true -> r = (Ret stored, [EExists md (Ok true)]))) /\
  (forall item stored h',
      (keyless item ->
       receipts._process_receipt RF item stored E h'
       = (Ret PNone, [ELog WARNING [Lit "Receipt missing key, skipping"] None])) /\
      (forall e, unreadable_receipt item e ->
       receipts._process_receipt RF item stored E h'
       = (Raise (Exception e), [])) /\
      (keyless item \/ (exists e, unreadable_receipt item e) \/
       exists key date store, readable_receipt item key date store)) /\
  (forall item stored h',
      (keyless item ->
       letters._process_letter LF item stored E h'
       = (Ret PNone, [ELog WARNING [Lit "Letter missing key, skipping"] None])) /\
      (forall e, unreadable_letter item e ->
       letters._process_letter LF item stored E h'
       = (Raise (Exception e), [])) /\
      (keyless item \/ (exists e, unreadable_letter item e) \/
       exists key date sender, readable_letter item key date sender)) /\
  (forall ritems total rev,
   receipts_listed RF E h ritems total rev ->
   all_exist E ->
   Forall readable_receipt_item (truncated ritems max_count) ->
   exists evs,
     receipts.fetch_receipts RF max_count E h =
     (Ret (receipt_stats total (List.length (truncated ritems max_count))
                         (PInt 0)), rev ++ evs) /\
     Forall2 receipt_gate_event (truncated ritems max_count) evs) /\
  (forall litems lev,
   letters_listed fuel LF E h litems lev ->
   all_exist E ->
   Forall readable_letter_item (truncated litems max_count) ->
   exists evs,
     letters.fetch_letters fuel LF max_count E h =
     (Ret (letter_stats (List.length litems)
             (List.length (truncated (truncated litems max_count) max_count))
             (PInt 0)), lev ++ evs) /\
     Forall2 letter_gate_event (truncated litems max_count) evs).
Proof.
  intros RF LF. subst RF LF.
  split; [| split; [| split; [| split; [| split]]]].
  - intros item key date store stored h' Hr.
    exact (receipt_gate client item key date store stored E h' Hr).
  - intros item key date sender stored h' Hr.
    exact (letter_gate client item key date sender stored E h' Hr).
  - intros item stored h'. split; [| split].
    + apply process_receipt_keyless.
    + intros e. apply receipt_step_unreadable.
    + apply receipt_kinds.
  - intros item stored h'. split; [| split].
    + apply process_letter_keyless.
    + intros e. apply letter_step_unreadable.
    + apply letter_kinds.
  - intros ritems total rev Hrl Hex Hall.
    destruct (receipts_all_skipped client E _ Hex Hall (PInt 0) (h ++ rev))
      as (evs & Hevs & Hrel).
    exists evs. split; [| exact Hrel].
    apply fetch_receipts_stats; assumption.
  - intros litems lev Hll Hex Hall.
    destruct (letters_all_skipped client E _ Hex Hall (PInt 0) (h ++ lev))
      as (evs & Hevs & Hrel).
    exists evs. split; [| exact Hrel].
    apply fetch_letters_stats; assumption.
Qed.

Ltac solve_readable :=
  repeat (apply Forall_cons;
          [ do 3 eexists; repeat split; reflexivity | ]);
  apply Forall_nil.

Lemma C1_witness :
  let E := demo_env_all_exist demo_receipts demo_letters in
  exists rev lev,
    (receipts_listed receipt_fetcher E [] demo_receipts (PInt 3) rev /\
     letters_listed 1 letter_fetcher E [] demo_letters lev /\
     all_exist E /\
     Forall readable_receipt_item (truncated demo_receipts (Some 2%Z)) /\
     Forall readable_letter_item (truncated demo_letters (Some 2%Z))) /\
    (exists evs,
        receipts.fetch_receipts receipt_fetcher (Some 2%Z) E [] =
        (Ret (receipt_stats (PInt 3) 2 (PInt 0)), rev ++ evs) /\
        Forall2 receipt_gate_event (truncated demo_receipts (Some 2%Z)) evs) /\
    (exists evs,
        letters.fetch_letters 1 letter_fetcher (Some 2%Z) E [] =
        (Ret (letter_stats 3 2 (PInt 0)), lev ++ evs) /\
        Forall2 letter_gate_event (truncated demo_letters (Some 2%Z)) evs).
Proof.
  intros E.
  assert (H1 : { rev | receipts_listed receipt_fetcher E [] demo_receipts
                         (PInt 3) rev }).
  { eexists. solve_listed_phase. }
  assert (H2 : { lev | letters_listed 1 letter_fetcher E [] demo_letters lev }).
  { eexists. solve_listed_phase. }
  assert (H3 : all_exist E) by (intros h m; reflexivity).
  assert (H4 : Forall readable_receipt_item (truncated demo_receipts (Some 2%Z)))
    by solve_readable.
  assert (H5 : Forall readable_letter_item (truncated demo_letters (Some 2%Z)))
    by solve_readable.
  destruct H1 as [rev H1]. destruct H2 as [lev H2].
  exists rev, lev. split; [repeat split; assumption |].
  destruct (C1_idempotency_gate the_client E 1 (Some 2%Z) [])
    as (_ & _ & _ & _ & Hr & Hl).
  split; [exact (Hr demo_receipts (PInt 3) rev H1 H3 H4)
         | exact (Hl demo_letters lev H2 H3 H5)].
Defined.

(** C1 as stated fails on a listed item without a key: the store is never
    asked about it, and although the store answers true to every question,
    the stored count of the run is None, not 0.  It fails as well on a
    listed item that has a key but a null store or sender: the step raises
    before it asks the store, and the fetch raises with it. *)
Lemma C1_counterexample :
  let E := demo_env_all_exist demo_receipts_with_keyless
                              demo_letters_with_keyless in
  let E' := demo_env_all_exist [demo_receipt_null_store "r2"]
                               [demo_letter_null_sender "l2"] in
  all_exist E /\
  count_events is_exists
    (snd (receipts._process_receipt receipt_fetcher demo_keyless (PInt 0) E []))
  <> 1%nat /\
  count_events is_exists
    (snd (letters._process_letter letter_fetcher demo_keyless (PInt 0) E []))
  <> 1%nat /\
  fst (run (receipts.fetch_receipts receipt_fetcher None) E)
  = Ret (receipt_stats (PInt 3) 3 PNone) /\
  fst (run (receipts.fetch_receipts receipt_fetcher None) E)
  <> Ret (receipt_stats (PInt 3) 3 (PInt 0)) /\
  fst (run (letters.fetch_letters 1 letter_fetcher None) E)
  = Ret (letter_stats 3 3 PNone) /\
  fst (run (letters.fetch_letters 1 letter_fetcher None) E)
  <> Ret (letter_stats 3 3 (PInt 0)) /\
  (all_exist E' /\
   has_key (demo_receipt_null_store "r2") = true /\
   has_key (demo_letter_null_sender "l2") = true /\
   receipts._process_receipt receipt_fetcher (demo_receipt_null_store "r2")
                             (PInt 0) E' []
   = (Raise (Exception AttributeError), []) /\
   letters._process_letter letter_fetcher (demo_letter_null_sender "l2")
                           (PInt 0) E' []
   = (Raise (Exception AttributeError), []) /\
   fst (run (receipts.fetch_receipts receipt_fetcher None) E')
   = Raise (Exception AttributeError) /\
   count_events is_exists
     (snd (run (receipts.fetch_receipts receipt_fetcher None) E')) = 0%nat /\
   fst (run (letters.fetch_letters 1 letter_fetcher None) E')
   = Raise (Exception AttributeError) /\
   count_events is_exists
     (snd (run (letters.fetch_letters 1 letter_fetcher None) E')) = 0%nat).
Proof.
  intros E E'. split; [intros h m; reflexivity |].
  assert (Hr : fst (run (receipts.fetch_receipts receipt_fetcher None) E)
               = Ret (receipt_stats (PInt 3) 3 PNone)) by (vm_compute; reflexivity).
  assert (Hl : fst (run (letters.fetch_letters 1 letter_fetcher None) E)
               = Ret (letter_stats 3 3 PNone)) by (vm_compute; reflexivity).
  repeat apply conj.
  - vm_compute. discriminate.
  - vm_compute. discriminate.
  - exact Hr.
  - rewrite Hr. discriminate.
  - exact Hl.
  - rewrite Hl. discriminate.
  - intros h m. reflexivity.
  - reflexivity.
  - reflexivity.
  - vm_compute. reflexivity.
  - vm_compute. reflexivity.
  - vm_compute. reflexivity.
  - vm_compute. reflexivity.
  - vm_compute. reflexivity.
  - vm_compute. reflexivity.
Qed.

(** ** C3: totals and truncation *)

Lemma slice_length_nonneg {A} (l : list A) (n : Z) :
  (0 <= n)%Z ->
  Z.of_nat (List.length (list_slice_to l n)) = Z.min (Z.of_nat (List.length l)) n.
Proof.
  intros Hn. unfold list_slice_to, slice_stop.
  destruct (Z.ltb_spec n 0); [lia |].
  rewrite length_firstn. lia.
Qed.

Lemma slice_twice_nonneg {A} (l : list A) (n : Z) :
  (0 <= n)%Z -> list_slice_to (list_slice_to l n) n = list_slice_to l n.
Proof.
  intros Hn. unfold list_slice_to, slice_stop.
  destruct (Z.ltb_spec n 0); [lia |].
  rewrite length_firstn. apply firstn_all2.
  rewrite length_firstn. lia.
Qed.

Lemma receipts_listed_snapshot client E h items total ev :
  receipts_listed (receipts.mkReceiptFetcher client storage.OracleStore)
                  E h items total ev ->
  exists ev0 listing,
    ev = ev0 ++ [EReportListing "receipts" listing (Ok tt)] /\
    py_get listing "list" (PList []) = Ok (PList items) /\
    py_get listing "total" (PInt 0) = Ok total.
Proof.
  intros (data & ev0 & listing & ev1 & Hq & (_ & Hl & Ht) & Hr & ->).
  exists ev0, listing. split; [| split; assumption].
  f_equal. simpl in Hr. unfold ask in Hr.
  destruct (o_report_listing E (h ++ ev0) "receipts" listing) as [[] | e];
    [| discriminate].
  congruence.
Qed.

Lemma letters_listed_snapshot fuel client E h items ev :
  letters_listed fuel (letters.mkLetterFetcher client storage.OracleStore)
                 E h items ev ->
  exists ev0, ev = ev0 ++ [EReportListing "letters" (PList items) (Ok tt)].
Proof.
  intros (ev0 & ev1 & Hp & Hr & ->).
  exists ev0. f_equal. simpl in Hr. unfold ask in Hr.
  destruct (o_report_listing E (h ++ ev0) "letters" (PList items)) as [[] | e];
    [| discriminate].
  congruence.
Qed.

(** C3, as the code has it.  Whatever [max_count] is, the receipts total is
    the total the server reported in its listing answer and the letters total
    is the number of letters accumulated by the list phase.  The fetched
    count is the length of the listing when [max_count] is None and
    min(len(listing), max_count) when it is a non-negative integer.  The
    listing is cut only after it was accumulated and handed, in full, to the
    store as the listing snapshot: those events precede every per-item
    event, and the per-item events are those of the truncated listing.  Each
    fetcher on its own: what is said of one does not depend on how the other
    fares. *)
Theorem C3_truncation_independence client E fuel max_count h :
  let RF := receipts.mkReceiptFetcher client storage.OracleStore in
  let LF := letters.mkLetterFetcher client storage.OracleStore in
  let rrun := receipts.fetch_receipts RF max_count E h in
  let lrun := letters.fetch_letters fuel LF max_count E h in
  (forall ritems total rev rstored rev2,
      receipts_listed RF E h ritems total rev ->
      for_each (truncated ritems max_count) (receipts._process_receipt RF)
               (PInt 0) E (h ++ rev) = (Ret rstored, rev2) ->
      stat "receipts_total" rrun = Some total /\
      (max_count = None ->
       stat "receipts_fetched" rrun
       = Some (PInt (Z.of_nat (List.length ritems)))) /\
      (forall n, max_count = Some n -> (0 <= n)%Z ->
       stat "receipts_fetched" rrun
       = Some (PInt (Z.min (Z.of_nat (List.length ritems)) n))) /\
      (exists ev0 listing,
          snd rrun = (ev0 ++ [EReportListing "receipts" listing (Ok tt)])
                     ++ rev2 /\
          py_get listing "list" (PList []) = Ok (PList ritems))) /\
  (forall litems lev lstored lev2,
      letters_listed fuel LF E h litems lev ->
      for_each (truncated litems max_count) (letters._process_letter LF)
               (PInt 0) E (h ++ lev) = (Ret lstored, lev2) ->
      stat "letters_total" lrun = Some (PInt (Z.of_nat (List.length litems))) /\
      (max_count = None ->
       stat "letters_fetched" lrun
       = Some (PInt (Z.of_nat (List.length litems)))) /\
      (forall n, max_count = Some n -> (0 <= n)%Z ->
       stat "letters_fetched" lrun
       = Some (PInt (Z.min (Z.of_nat (List.length litems)) n))) /\
      (exists ev0,
          snd lrun = (ev0 ++ [EReportListing "letters" (PList litems) (Ok tt)])
                     ++ lev2)).
Proof.
  intros RF LF rrun lrun. subst rrun lrun RF LF. split.
  - intros ritems total rev rstored rev2 Hrl Hrloop.
    rewrite (fetch_receipts_stats _ max_count E h ritems total rev rstored rev2
               Hrl Hrloop).
    unfold stat. cbn [fst snd receipt_stats dict_get].
    split; [| split; [| split]].
    + reflexivity.
    + intros ->. reflexivity.
    + intros n -> Hn. cbn [truncated].
      rewrite !slice_length_nonneg by exact Hn. reflexivity.
    + destruct (receipts_listed_snapshot client E h ritems total rev Hrl)
        as (ev0 & listing & -> & Hl & _).
      exists ev0, listing. split; [reflexivity | exact Hl].
  - intros litems lev lstored lev2 Hll Hlloop.
    rewrite (fetch_letters_stats fuel _ max_count E h litems lev lstored lev2
               Hll Hlloop).
    unfold stat. cbn [fst snd letter_stats dict_get].
    split; [| split; [| split]].
    + reflexivity.
    + intros ->. reflexivity.
    + intros n -> Hn. cbn [truncated].
      rewrite slice_twice_nonneg by exact Hn.
      rewrite !slice_length_nonneg by exact Hn. reflexivity.
    + destruct (letters_listed_snapshot fuel client E h litems lev Hll)
        as (ev0 & ->).
      exists ev0. reflexivity.
Qed.

Lemma C3_witness :
  let E := demo_env demo_receipts demo_letters in
  let rrun := receipts.fetch_receipts receipt_fetcher (Some 2%Z) E [] in
  let lrun := letters.fetch_letters 1 letter_fetcher (Some 2%Z) E [] in
  exists rev rstored rev2 lev lstored lev2,
    (receipts_listed receipt_fetcher E [] demo_receipts (PInt 3) rev /\
     for_each (truncated demo_receipts (Some 2%Z))
              (receipts._process_receipt receipt_fetcher) (PInt 0) E ([] ++ rev)
     = (Ret rstored, rev2) /\
     letters_listed 1 letter_fetcher E [] demo_letters lev /\
     for_each (truncated demo_letters (Some 2%Z))
              (letters._process_letter letter_fetcher) (PInt 0) E ([] ++ lev)
     = (Ret lstored, lev2)) /\
    (stat "receipts_total" rrun = Some (PInt 3) /\
     stat "letters_total" lrun = Some (PInt 3)) /\
    (stat "receipts_fetched" rrun = Some (PInt 2) /\
     stat "letters_fetched" lrun = Some (PInt 2)).
Proof.
  intros E rrun lrun. do 6 eexists.
  match goal with |- ?Hyps /\ _ => assert (Hh : Hyps) end.
  { split; [solve_listed_phase |].
    split; [vm_compute; reflexivity |].
    split; [solve_listed_phase |].
    vm_compute; reflexivity. }
  split; [exact Hh |].
  destruct Hh as (H1 & H2 & H3 & H4).
  destruct (C3_truncation_independence the_client E 1 (Some 2%Z) [])
    as (Hr & Hl).
  destruct (Hr _ _ _ _ _ H1 H2) as (Hrt & _ & Hrf & _).
  destruct (Hl _ _ _ _ H3 H4) as (Hlt & _ & Hlf & _).
  split; [exact (conj Hrt Hlt) |].
  split; [apply (Hrf 2%Z eq_refl); lia | apply (Hlf 2%Z eq_refl); lia].
Defined.

(** C3 as stated fails.  With max_count = 0 the fetch reports 0 fetched
    items where the formula gives the length of the listing; with
    max_count = -1 it reports one item less than the listing where the
    formula gives -1; and the letters total is the number of letters listed,
    here 2, where the server reported a total of 5. *)
Lemma C3_counterexample :
  let E := demo_env demo_receipts demo_letters in
  let at_zero := run (receipts.fetch_receipts receipt_fetcher (Some 0%Z)) E in
  let at_minus_one :=
    run (receipts.fetch_receipts receipt_fetcher (Some (-1)%Z)) E in
  let letters_run :=
    run (letters.fetch_letters 1 letter_fetcher None) demo_env_total_5 in
  (stat "receipts_fetched" at_zero = Some (PInt 0) /\
   stat "receipts_fetched" at_zero
   <> Some (PInt (spec_fetched (Z.of_nat (List.length demo_receipts))
                               (Some 0%Z)))) /\
  (stat "receipts_fetched" at_minus_one = Some (PInt 2) /\
   stat "receipts_fetched" at_minus_one
   <> Some (PInt (spec_fetched (Z.of_nat (List.length demo_receipts))
                               (Some (-1)%Z)))) /\
  (stat "letters_total" letters_run = Some (PInt 2) /\
   stat "letters_total" letters_run <> Some (PInt 5)).
Proof.
  intros E at_zero at_minus_one letters_run.
  assert (H0 : stat "receipts_fetched" at_zero = Some (PInt 0))
    by (vm_compute; reflexivity).
  assert (H1 : stat "receipts_fetched" at_minus_one = Some (PInt 2))
    by (vm_compute; reflexivity).
  assert (H2 : stat "letters_total" letters_run = Some (PInt 2))
    by (vm_compute; reflexivity).
  repeat apply conj; try assumption.
  - rewrite H0. vm_compute. discriminate.
  - rewrite H1. vm_compute. discriminate.
  - rewrite H2. discriminate.
Qed.

(** ** C2: pagination *)

Ltac run_pure :=
  repeat first
    [ rewrite lift_ok_bind
    | rewrite ret_bind
    | progress cbn [py_get dict_get String.eqb Ascii.eqb Bool.eqb py_iter
                    py_contains py_truthy negb orb andb] ].

Section Pagination.
Import letters storage.
Variable client : api.KivraApiClient.
Let LF := mkLetterFetcher client OracleStore.

Lemma graphql_query_ok op q vars E h resp data :
  let body := PDict [("operationName", PStr op); ("query", PStr q);
                     ("variables", vars)] in
  o_post E h api.graphql_url body (api.get_headers client) = Ok resp ->
  status_code resp = 200%Z -> json_body resp = Some data ->
  py_contains "errors" data = Ok false ->
  api.graphql_query client op q vars E h =
  (Ret data, [EPost api.graphql_url body (api.get_headers client) (Ok resp)]).
Proof.
  intros body Ho Hs Hj He. unfold api.graphql_query, api.session_post.
  fold body. rewrite ask_bind, Ho, Hs. cbn [Z.eqb Pos.eqb negb].
  unfold api.response_json. rewrite Hj, lift_ok_bind, He, lift_ok_bind.
  reflexivity.
Qed.

Lemma list_query_ok after E h page more total :
  o_post E h api.graphql_url (list_body after) (api.get_headers client)
  = Ok (page_answer page more total) ->
  api.graphql_query client "ContentList" models.LETTERS_QUERY
                    (list_variables after) E h =
  (Ret (graphql_data "contents"
          (PDict [("total", PInt total); ("existsMore", PBool more);
                  ("list", PList page)])),
   [list_request client after (page_answer page more total)]).
Proof.
  intros Ho. apply graphql_query_ok; [exact Ho | reflexivity ..].
Qed.

Lemma fetch_pages_last fuel after acc E h page total :
  o_post E h api.graphql_url (list_body after) (api.get_headers client)
  = Ok (page_answer page false total) ->
  fetch_pages (S fuel) LF after acc E h =
  (Ret (acc ++ page), [list_request client after (page_answer page false total)]).
Proof.
  intros Ho. cbn [fetch_pages]. fold (list_variables after).
  cbn [api_client LF].
  rewrite (bind_ret _ _ E h _ _ (list_query_ok after E h page false total Ho)).
  unfold graphql_data. run_pure. reflexivity.
Qed.

Lemma last_key_last page k :
  last_key page = Some k ->
  exists x, py_last (PList page) = Ok x /\ py_getitem x "key" = Ok (PStr k) /\
            py_truthy (PList page) = true.
Proof.
  unfold last_key, py_last. intros H.
  destruct page as [| y page]; [discriminate |].
  destruct (rev (y :: page)) as [| x l]; [discriminate |].
  exists x. split; [reflexivity |]. split; [| reflexivity].
  unfold item_key in H. destruct (py_getitem x "key") as [[] |]; congruence.
Qed.

Lemma fetch_pages_more fuel after acc E h page total k :
  o_post E h api.graphql_url (list_body after) (api.get_headers client)
  = Ok (page_answer page true total) ->
  last_key page = Some k ->
  let req := list_request client after (page_answer page true total) in
  fetch_pages (S fuel) LF after acc E h =
  (fst (fetch_pages fuel LF (PStr k) (acc ++ page) E (h ++ [req])),
   req :: snd (fetch_pages fuel LF (PStr k) (acc ++ page) E (h ++ [req]))).
Proof.
  intros Ho Hk req. destruct (last_key_last page k Hk) as (x & Hx & Hkey & Ht).
  cbn [fetch_pages]. fold (list_variables after).
  cbn [api_client LF].
  rewrite (bind_ret _ _ E h _ _ (list_query_ok after E h page true total Ho)).
  unfold graphql_data. run_pure.
  destruct page as [| y page]; [discriminate |]. cbn [negb orb].
  rewrite Hx, lift_ok_bind, Hkey, lift_ok_bind. reflexivity.
Qed.

Lemma page_after_found done p rest k :
  (forall d, In d done -> last_key d <> Some k) ->
  last_key p = Some k ->
  page_after (done ++ p :: rest) k = first_page rest.
Proof.
  intros Hd Hp. induction done as [| d done IH]; simpl.
  - rewrite Hp. simpl. rewrite String.eqb_refl. reflexivity.
  - assert (Hne : option_string_eqb (last_key d) k = false).
    { destruct (last_key d) as [s |] eqn:Hs; [| reflexivity]. simpl.
      apply String.eqb_neq. intros ->. apply (Hd d); [left; reflexivity |].
      exact Hs. }
    rewrite Hne. apply IH. intros d' Hin. apply Hd. right. exact Hin.
Qed.

Lemma fetch_pages_from base total remaining :
  forall done seen cursor acc h fuel,
  let E := with_post (cursor_server (done ++ remaining) total) base in
  (forall d, In d done -> exists k, last_key d = Some k /\ In k seen) ->
  cursor_paged_from seen remaining ->
  serve (done ++ remaining) cursor = first_page remaining ->
  (List.length remaining <= fuel)%nat ->
  fetch_pages fuel LF cursor acc E h =
  (Ret (acc ++ List.concat remaining), list_requests client cursor remaining total).
Proof.
  induction remaining as [| p rest IH]; intros done seen cursor acc h fuel E
    Hdone Hpaged Hserve Hfuel; [contradiction |].
  destruct fuel as [| fuel]; [simpl in Hfuel; lia |].
  assert (Ho : forall more, nonempty rest = more ->
            o_post E h api.graphql_url (list_body cursor)
                   (api.get_headers client)
            = Ok (page_answer p more total)).
  { intros more <-. subst E. cbn [o_post with_post]. unfold cursor_server.
    change (cursor_of (list_body cursor)) with cursor.
    rewrite Hserve. reflexivity. }
  destruct rest as [| q rest].
  - rewrite (fetch_pages_last fuel cursor acc E h p total (Ho false eq_refl)).
    simpl. rewrite app_nil_r. reflexivity.
  - destruct Hpaged as (k & Hk & Hseen & Hpaged).
    rewrite (fetch_pages_more fuel cursor acc E h p total k (Ho true eq_refl) Hk).
    assert (Hrec := IH (done ++ [p]) (k :: seen) (PStr k) (acc ++ p)
                       (h ++ [list_request client cursor
                                (page_answer p true total)]) fuel).
    cbv zeta in Hrec. rewrite <- app_assoc in Hrec. simpl app in Hrec.
    subst E. rewrite Hrec.
    + cbn [fst snd list_requests List.concat nonempty]. unfold cursor_after.
      rewrite Hk, <- app_assoc. reflexivity.
    + intros d Hin. apply in_app_or in Hin. destruct Hin as [Hin | [<- | []]].
      * destruct (Hdone d Hin) as (k' & Hk' & Hin'). exists k'.
        split; [exact Hk' | right; exact Hin'].
      * exists k. split; [exact Hk | left; reflexivity].
    + exact Hpaged.
    + cbn [serve]. apply page_after_found; [| exact Hk].
      intros d Hin Heq. destruct (Hdone d Hin) as (k' & Hk' & Hin').
      rewrite Hk' in Heq. injection Heq as ->. contradiction.
    + simpl in Hfuel. simpl. lia.
Qed.

Lemma list_requests_length cursor pages total :
  List.length (list_requests client cursor pages total) = List.length pages.
Proof.
  revert cursor. induction pages as [| p rest IH]; intros cursor; simpl;
    [reflexivity | rewrite IH; reflexivity].
Qed.

Lemma list_requests_posts cursor pages total :
  filter is_post (list_requests client cursor pages total)
  = list_requests client cursor pages total.
Proof.
  revert cursor. induction pages as [| p rest IH]; intros cursor; simpl;
    [reflexivity | rewrite IH; reflexivity].
Qed.

End Pagination.

Lemma try_bind_ret {A B} (m : M A) (k : A -> M B) handler E h a ev :
  m E h = (Ret a, ev) ->
  try_except (bind m k) handler E h =
  (fst (try_except (k a) handler E (h ++ ev)),
   ev ++ snd (try_except (k a) handler E (h ++ ev))).
Proof.
  intros H. unfold try_except, bind. rewrite H.
  destruct (k a E (h ++ ev)) as [[b | [e | s] |] ev']; try reflexivity.
  rewrite <- app_assoc.
  destruct (handler e E (h ++ ev ++ ev')) as [o ev'']. simpl.
  rewrite app_assoc. reflexivity.
Qed.

Ltac emits_items_tac :=
  repeat first
    [ apply emits_ret | apply emits_raise | apply emits_lift
    | apply emits_sys_exit
    | apply emits_emit; reflexivity
    | apply emits_ask; intros; reflexivity
    | apply emits_bind; [ | intros ]
    | apply emits_try_except; [ | intros ]
    | apply emits_for_each; intros
    | progress unfold letters._process_letter, letters.process_letter_try,
        receipts._process_receipt, receipts.process_receipt_try
    | progress prog_unfold
    | progress simpl
    | match goal with
      | |- emits_only _ (if ?b then _ else _) => destruct b
      | |- emits_only _ (match ?x with _ => _ end) => destruct x
      end ].

Lemma count_app P (l1 l2 : list event) :
  count_events P (l1 ++ l2) = (count_events P l1 + count_events P l2)%nat.
Proof. unfold count_events. rewrite filter_app, length_app. reflexivity. Qed.

Lemma count_none P (l : list event) :
  forallb (fun e => negb (P e)) l = true -> count_events P l = 0%nat.
Proof.
  unfold count_events. induction l as [| e l IH]; simpl; [reflexivity |].
  destruct (P e); simpl; [discriminate | exact IH].
Qed.

(** C2.  When the server splits the letters listing into N pages by the
    cursor protocol (it answers a request by the cursor it carries, the
    cursor of a page being the key of the last item of the page before, and
    sets existsMore on every page but the last), fetch_letters issues exactly
    N listing requests, each with the cursor of the page before, and the
    accumulated listing, which is handed to the store as the listing
    snapshot, is the concatenation of the pages in server order; it is the
    listing a single unpaginated answer with the same items produces. *)
Theorem C2_pagination_completeness client base pages total fuel max_count h :
  let LF := letters.mkLetterFetcher client storage.OracleStore in
  let E := with_post (cursor_server pages total) base in
  let E1 := with_post (cursor_server [List.concat pages] total) base in
  cursor_paged pages -> (List.length pages <= fuel)%nat ->
  letters.fetch_pages fuel LF PNone [] E h
  = (Ret (List.concat pages), list_requests client PNone pages total) /\
  List.length (list_requests client PNone pages total) = List.length pages /\
  count_events is_post (snd (letters.fetch_letters fuel LF max_count E h))
  = List.length pages /\
  (exists r rest,
      snd (letters.fetch_letters fuel LF max_count E h)
      = list_requests client PNone pages total
        ++ EReportListing "letters" (PList (List.concat pages)) r :: rest) /\
  letters.fetch_pages fuel LF PNone [] E1 h
  = (Ret (List.concat pages),
     [list_request client PNone (page_answer (List.concat pages) false total)]).
Proof.
  intros LF E E1 Hpaged Hfuel.
  assert (Hpages : letters.fetch_pages fuel LF PNone [] E h
            = (Ret (List.concat pages), list_requests client PNone pages total)).
  { apply (fetch_pages_from client base total pages [] [] PNone [] h fuel);
      [intros d [] | exact Hpaged | reflexivity | exact Hfuel]. }
  split; [exact Hpages |].
  split; [apply list_requests_length |].
  unfold letters.fetch_letters.
  rewrite (try_bind_ret _ _ _ E h _ _ Hpages).
  match goal with |- context [snd (try_except ?body ?handler E ?hh)] =>
    assert (Hrest : emits_only not_post (try_except body handler))
      by emits_items_tac;
    specialize (Hrest E hh);
    assert (Hfirst : exists r rest, snd (try_except body handler E hh)
              = EReportListing "letters" (PList (List.concat pages)) r :: rest)
  end.
  { unfold try_except. cbn [storage.report_listing storage.OracleStore
                            letters.document_store LF].
    rewrite ask_bind.
    match goal with |- context [o_report_listing E ?hh ?k ?l] =>
      destruct (o_report_listing E hh k l) as [[] | e] end.
    - match goal with |- context [fst ?p] => destruct p as [[a | [e | s] |] ev'] end;
        cbn [fst snd]; eauto.
      match goal with |- context [let (_, _) := ?p in _] =>
        destruct p as [o ev''] end.
      cbn [snd app]. eauto.
    - match goal with |- context [let (_, _) := ?p in _] =>
        destruct p as [o ev''] end.
      cbn [snd app]. eauto. }
  split; [| split].
  - cbn [snd]. rewrite count_app. unfold count_events at 1.
    rewrite list_requests_posts, list_requests_length.
    rewrite (count_none is_post _ Hrest). lia.
  - destruct Hfirst as (r & rest & Hfirst). exists r, rest.
    cbn [snd]. rewrite Hfirst. reflexivity.
  - destruct pages as [| p0 pages0]; [contradiction |].
    destruct fuel as [| fuel']; [simpl in Hfuel; lia |].
    pose proof (fetch_pages_from client base total
                  [List.concat (p0 :: pages0)] [] [] PNone [] h (S fuel')) as H1.
    cbv zeta in H1. cbn [app] in H1. subst E1 LF. rewrite H1;
      [| intros d [] | exact I | reflexivity | simpl; lia].
    cbn [List.concat app list_requests nonempty]. rewrite app_nil_r.
    reflexivity.
Qed.

Lemma C2_witness :
  let E := with_post (cursor_server demo_pages 5) quiet_env in
  (cursor_paged demo_pages /\ (List.length demo_pages <= 3)%nat) /\
  letters.fetch_pages 3 letter_fetcher PNone [] E []
  = (Ret (List.concat demo_pages), list_requests the_client PNone demo_pages 5) /\
  count_events is_post (snd (letters.fetch_letters 3 letter_fetcher None E []))
  = 3%nat.
Proof.
  intros E.
  assert (H1 : cursor_paged demo_pages).
  { unfold cursor_paged, demo_pages. cbn [cursor_paged_from].
    exists "b". split; [reflexivity |]. split; [intros [] |].
    exists "d". split; [reflexivity |]. split; [| exact I].
    intros [H | []]. discriminate H. }
  assert (H2 : (List.length demo_pages <= 3)%nat) by (simpl; lia).
  split; [split; assumption |].
  destruct (C2_pagination_completeness the_client quiet_env demo_pages 5 3 None
              [] H1 H2) as (Ha & _ & Hb & _).
  split; [exact Ha | exact Hb].
Defined.

(** ** C4: the parts of a letter *)

Section Tallies.
Variable P : event -> bool.

Lemma tallies_ret acc : tallies P acc (ret acc).
Proof. intros E h a ev H. inversion H. simpl. lia. Qed.

Lemma tallies_raise acc e : tallies P acc (raise e).
Proof. intros E h a ev H. discriminate. Qed.

Lemma tallies_bind_quiet {A} acc (m : M A) (k : A -> M Z) :
  emits_only (fun e => negb (P e)) m -> (forall x, tallies P acc (k x)) ->
  tallies P acc (bind m k).
Proof.
  intros Hm Hk E h a ev. unfold bind. specialize (Hm E h).
  destruct (m E h) as [[x | r |] ev0]; try discriminate.
  specialize (Hk x E (h ++ ev0) a). destruct (k x E (h ++ ev0)) as [o ev1].
  intros H. inversion H. subst. rewrite count_app.
  rewrite (count_none P ev0 Hm). apply Hk. reflexivity.
Qed.

Lemma tallies_try_reraise acc (body : M Z) handler :
  tallies P acc body ->
  (forall e E h, exists r ev, handler e E h = (Raise r, ev)) ->
  tallies P acc (try_except body handler).
Proof.
  intros Hb Hh E h a ev. unfold try_except. specialize (Hb E h a).
  destruct (body E h) as [[x | [e | s] |] ev0]; try discriminate.
  - exact (Hb ev).
  - destruct (Hh e E (h ++ ev0)) as (r & ev1 & Hr). rewrite Hr. discriminate.
Qed.

Lemma tallies_for_each {A} (l : list A) (body : A -> Z -> M Z) :
  (forall x acc, tallies P acc (body x acc)) ->
  forall acc, tallies P acc (for_each l body acc).
Proof.
  intros Hb. induction l as [| x l IH]; intros acc; simpl.
  - apply tallies_ret.
  - intros E h a ev. unfold bind. specialize (Hb x acc E h).
    destruct (body x acc E h) as [[acc' | r |] ev0]; try discriminate.
    specialize (IH acc' E (h ++ ev0) a).
    destruct (for_each l body acc' E (h ++ ev0)) as [o ev1].
    intros H. inversion H. subst. rewrite count_app.
    rewrite (IH ev1 eq_refl), (Hb acc' ev0 eq_refl). lia.
Qed.

End Tallies.

Lemma tallies_store acc data md :
  tallies is_stored acc
    (bind (storage.store storage.OracleStore data md)
          (fun ok : bool => if ok then ret (acc + 1)%Z else ret acc)).
Proof.
  intros E h a ev. simpl storage.store. rewrite ask_bind.
  destruct (o_store E h data md) as [[|] | e]; intros H; inversion H;
    unfold count_events; simpl; lia.
Qed.

Ltac quiet_tac :=
  repeat first
    [ apply emits_ret | apply emits_raise | apply emits_lift
    | apply emits_emit; reflexivity
    | apply emits_ask; intros; reflexivity
    | apply emits_bind; [ | intros ]
    | progress prog_unfold
    | match goal with
      | |- emits_only _ (if ?b then _ else _) => destruct b
      end ].

Section Parts.
Import letters models storage.
Variable client : api.KivraApiClient.
Let LF := mkLetterFetcher client OracleStore.

Lemma process_part_tallies letter parts ip acc :
  tallies is_stored acc (process_part LF letter parts ip acc).
Proof.
  unfold process_part. destruct ip as [i part].
  apply tallies_bind_quiet; [apply emits_lift | intros ct].
  apply tallies_bind_quiet; [apply emits_lift | intros n].
  cbn [document_store api_client LF].
  destruct (py_eq_str ct "text/plain").
  { apply tallies_bind_quiet; [apply emits_lift | intros body].
    apply tallies_store. }
  destruct (py_eq_str ct "text/html").
  { apply tallies_bind_quiet; [apply emits_lift | intros body].
    apply tallies_store. }
  destruct (py_eq_str ct "application/pdf").
  { apply tallies_bind_quiet; [apply emits_lift | intros fk].
    destruct (negb (py_truthy fk)).
    - apply tallies_bind_quiet; [quiet_tac | intros _; apply tallies_ret].
    - apply tallies_try_reraise.
      + apply tallies_bind_quiet; [quiet_tac | intros content].
        apply tallies_store.
      + intros e E h. unfold logging_error. rewrite emit_bind. simpl. eauto. }
  apply tallies_bind_quiet; [quiet_tac | intros _; apply tallies_ret].
Qed.

Lemma process_letter_parts_tallies letter content_data :
  tallies is_stored 0 (_process_letter_parts LF letter content_data).
Proof.
  unfold _process_letter_parts.
  apply tallies_bind_quiet; [apply emits_lift | intros parts].
  destruct (negb (py_truthy parts)).
  - apply tallies_bind_quiet; [quiet_tac | intros _; apply tallies_ret].
  - apply tallies_bind_quiet; [apply emits_lift | intros items].
    apply tallies_for_each. intros ip acc. apply process_part_tallies.
Qed.

End Parts.

Section Dispatch.
Import letters models storage.
Variable client : api.KivraApiClient.
Let LF := mkLetterFetcher client OracleStore.

Lemma part_text letter parts i part acc E h n body :
  py_get part "content_type" PNone = Ok (PStr "text/plain") ->
  py_len parts = Ok n ->
  py_get part "body" (PStr EmptyString) = Ok body ->
  let md := part_metadata letter n i "text/plain" in
  process_part LF letter parts (i, part) acc E h =
  stored_part acc body md [] (o_store E h body md) (fun _ => []).
Proof.
  intros Hct Hn Hb md. unfold process_part.
  rewrite Hct, lift_ok_bind, Hn, lift_ok_bind.
  cbn [py_eq_str String.eqb Ascii.eqb Bool.eqb].
  rewrite Hb, lift_ok_bind. cbn [document_store LF store OracleStore].
  rewrite ask_bind. fold (part_metadata letter n i "text/plain"). fold md.
  unfold stored_part. destruct (o_store E h body md) as [[|] | e]; reflexivity.
Qed.

Lemma part_html letter parts i part acc E h n body :
  py_get part "content_type" PNone = Ok (PStr "text/html") ->
  py_len parts = Ok n ->
  py_get part "body" PNone = Ok body ->
  let md := part_metadata letter n i "text/html" in
  process_part LF letter parts (i, part) acc E h =
  stored_part acc body md [] (o_store E h body md) (fun _ => []).
Proof.
  intros Hct Hn Hb md. unfold process_part.
  rewrite Hct, lift_ok_bind, Hn, lift_ok_bind.
  cbn [py_eq_str String.eqb Ascii.eqb Bool.eqb].
  rewrite Hb, lift_ok_bind. cbn [document_store LF store OracleStore].
  rewrite ask_bind. fold (part_metadata letter n i "text/html"). fold md.
  unfold stored_part. destruct (o_store E h body md) as [[|] | e]; reflexivity.
Qed.

Lemma get_content_file_ok content_key file_key E h resp :
  o_get E h (file_url content_key file_key) (file_headers client) = Ok resp ->
  status_code resp = 200%Z ->
  api.get_content_file client content_key file_key E h =
  (Ret (content resp),
   [EGet (file_url content_key file_key) (file_headers client) (Ok resp)]).
Proof.
  intros Ho Hs. unfold api.get_content_file, api.session_get.
  fold (file_url content_key file_key). fold (file_headers client).
  rewrite ask_bind, Ho, Hs. reflexivity.
Qed.

Lemma get_content_file_raises content_key file_key E h e :
  o_get E h (file_url content_key file_key) (file_headers client) = Err e ->
  api.get_content_file client content_key file_key E h =
  (Raise (Exception e),
   [EGet (file_url content_key file_key) (file_headers client) (Err e)]).
Proof.
  intros Ho. unfold api.get_content_file, api.session_get.
  fold (file_url content_key file_key). fold (file_headers client).
  rewrite ask_bind, Ho. reflexivity.
Qed.

Lemma part_pdf letter parts i part acc E h n file_key resp :
  py_get part "content_type" PNone = Ok (PStr "application/pdf") ->
  py_len parts = Ok n ->
  py_get part "key" PNone = Ok file_key -> py_truthy file_key = true ->
  let get := EGet (file_url (letter_key letter) file_key) (file_headers client)
                  (Ok resp) in
  o_get E h (file_url (letter_key letter) file_key) (file_headers client)
  = Ok resp ->
  status_code resp = 200%Z ->
  let md := part_metadata letter n i "application/pdf" in
  process_part LF letter parts (i, part) acc E h =
  stored_part acc (PBytes (content resp)) md [get]
              (o_store E (h ++ [get]) (PBytes (content resp)) md)
              (fun e => [file_fetch_log letter file_key e]).
Proof.
  intros Hct Hn Hk Ht get Ho Hs md. unfold process_part.
  rewrite Hct, lift_ok_bind, Hn, lift_ok_bind.
  cbn [py_eq_str String.eqb Ascii.eqb Bool.eqb].
  rewrite Hk, lift_ok_bind, Ht. cbn [negb api_client LF].
  unfold try_except.
  rewrite (bind_ret _ _ E h _ _
             (get_content_file_ok (letter_key letter) file_key E h resp Ho Hs)).
  cbn [document_store LF store OracleStore]. rewrite ask_bind.
  fold (part_metadata letter n i "application/pdf"). fold md. fold get.
  unfold stored_part.
  destruct (o_store E (h ++ [get]) (PBytes (content resp)) md) as [[|] | e];
    reflexivity.
Qed.

(** A failed file fetch: the part raises, after logging. *)
Lemma part_pdf_fetch_raises letter parts i part acc E h n file_key e :
  py_get part "content_type" PNone = Ok (PStr "application/pdf") ->
  py_len parts = Ok n ->
  py_get part "key" PNone = Ok file_key -> py_truthy file_key = true ->
  o_get E h (file_url (letter_key letter) file_key) (file_headers client)
  = Err e ->
  process_part LF letter parts (i, part) acc E h =
  (Raise (Exception e),
   [EGet (file_url (letter_key letter) file_key) (file_headers client) (Err e);
    file_fetch_log letter file_key e]).
Proof.
  intros Hct Hn Hk Ht Ho. unfold process_part.
  rewrite Hct, lift_ok_bind, Hn, lift_ok_bind.
  cbn [py_eq_str String.eqb Ascii.eqb Bool.eqb].
  rewrite Hk, lift_ok_bind, Ht. cbn [negb api_client LF].
  unfold try_except.
  rewrite (bind_raise _ _ E h _ _
             (get_content_file_raises (letter_key letter) file_key E h e Ho)).
  unfold logging_error. rewrite emit_bind. reflexivity.
Qed.

Lemma part_pdf_without_key letter parts i part acc E h n file_key :
  py_get part "content_type" PNone = Ok (PStr "application/pdf") ->
  py_len parts = Ok n ->
  py_get part "key" PNone = Ok file_key -> py_truthy file_key = false ->
  process_part LF letter parts (i, part) acc E h =
  (Ret acc, [ELog WARNING [Lit "PDF part in letter "; Fmt (letter_key letter);
                           Lit " missing key"] None]).
Proof.
  intros Hct Hn Hk Ht. unfold process_part.
  rewrite Hct, lift_ok_bind, Hn, lift_ok_bind.
  cbn [py_eq_str String.eqb Ascii.eqb Bool.eqb].
  rewrite Hk, lift_ok_bind, Ht. reflexivity.
Qed.

Lemma part_unknown letter parts i part acc E h n ct :
  py_get part "content_type" PNone = Ok ct ->
  py_len parts = Ok n ->
  py_eq_str ct "text/plain" = false ->
  py_eq_str ct "text/html" = false ->
  py_eq_str ct "application/pdf" = false ->
  process_part LF letter parts (i, part) acc E h =
  (Ret acc, [ELog WARNING [Lit "Unknown content type in letter ";
                           Fmt (letter_key letter); Lit ": "; Fmt ct] None]).
Proof.
  intros Hct Hn H1 H2 H3. unfold process_part.
  rewrite Hct, lift_ok_bind, Hn, lift_ok_bind, H1, H2, H3. reflexivity.
Qed.

End Dispatch.

Section LetterCounting.
Import letters models storage.
Variable client : api.KivraApiClient.
Let LF := mkLetterFetcher client OracleStore.

Lemma four_parts_stored letter content_data text file_key html E h resp :
  py_get content_data "parts" (PList []) = Ok (four_parts text file_key html) ->
  py_truthy file_key = true ->
  (forall h' url hd, o_get E h' url hd = Ok resp) ->
  status_code resp = 200%Z ->
  (forall h' d m, o_store E h' d m = Ok true) ->
  _process_letter_parts LF letter content_data E h =
  (Ret 3%Z, four_parts_events client letter text file_key html resp).
Proof.
  intros Hp Ht Hget Hs Hstore. unfold LF, _process_letter_parts.
  rewrite Hp, lift_ok_bind. unfold four_parts.
  cbn [py_truthy negb py_iter]. rewrite lift_ok_bind.
  cbn [enumerate List.length seq combine for_each].
  erewrite bind_ret.
  2:{ erewrite part_text by reflexivity. rewrite Hstore. reflexivity. }
  erewrite bind_ret.
  2:{ erewrite part_pdf;
        [ rewrite Hstore; reflexivity | reflexivity | reflexivity | reflexivity
        | exact Ht | apply Hget | exact Hs ]. }
  erewrite bind_ret.
  2:{ erewrite part_html by reflexivity. rewrite Hstore. reflexivity. }
  erewrite bind_ret.
  2:{ erewrite part_unknown by reflexivity. reflexivity. }
  reflexivity.
Qed.

Lemma readable_letter_is_dict item key date sender :
  readable_letter item key date sender -> exists d, item = PDict d.
Proof.
  intros (Hk & _). destruct item; try discriminate. eauto.
Qed.

Lemma get_content_details_ok content_key E h resp data :
  o_get E h (details_url content_key) (details_headers client) = Ok resp ->
  status_code resp = 200%Z -> json_body resp = Some data ->
  api.get_content_details client content_key E h =
  (Ret data,
   [EGet (details_url content_key) (details_headers client) (Ok resp)]).
Proof.
  intros Ho Hs Hj. unfold api.get_content_details, api.session_get.
  fold (details_url content_key). fold (details_headers client).
  rewrite ask_bind, Ho, Hs. cbn [Z.eqb Pos.eqb negb].
  unfold api.response_json. rewrite Hj. reflexivity.
Qed.

(** What the guarded block of a letter returns, against the number of
    parts it persisted. *)
Lemma letter_try_body_relates item letter md s E h c ev :
  (content_data <- api.get_content_details client (letter_key letter) ;;
   letter_data' <- lift (py_dict_with item "content" content_data) ;;
   report_metadata OracleStore letter_data' md ;;
   parts_stored <- _process_letter_parts LF letter content_data ;;
   if (0 <? parts_stored)%Z then lift (py_incr (PInt s)) else ret (PInt s))
    E h = (Ret c, ev) ->
  (c = PInt (s + 1) /\ (1 <= count_events is_stored ev)%nat) \/
  (c = PInt s /\ count_events is_stored ev = 0%nat).
Proof.
  unfold bind at 1.
  destruct (api.get_content_details client (letter_key letter) E h)
    as [[cd | r |] ev0] eqn:H0; try discriminate.
  assert (Hq0 : count_events is_stored ev0 = 0%nat).
  { apply count_none.
    assert (Hq : emits_only not_stored
                   (api.get_content_details client (letter_key letter)))
      by emits_tac.
    specialize (Hq E h). rewrite H0 in Hq. exact Hq. }
  destruct (py_dict_with item "content" cd) as [ld | e].
  2:{ rewrite lift_err_bind. discriminate. }
  rewrite lift_ok_bind. cbn [report_metadata OracleStore]. rewrite ask_bind.
  destruct (o_report_metadata E (h ++ ev0) ld md) as [b | e]; [| discriminate].
  match goal with
  | |- context [bind (_process_letter_parts LF letter cd) ?k E ?hh] =>
      destruct (_process_letter_parts LF letter cd E hh) as [[n | r |] ev1] eqn:Hp;
      [ rewrite (bind_ret _ k E hh n ev1 Hp)
      | rewrite (bind_raise _ k E hh r ev1 Hp); discriminate
      | rewrite (bind_out_of_fuel _ k E hh ev1 Hp); discriminate ];
      pose proof (process_letter_parts_tallies client letter cd E hh n ev1 Hp)
        as Ht
  end.
  simpl in Ht.
  destruct (Z.ltb_spec 0 n) as [Hn | Hn]; cbn [py_incr lift ret fst snd app];
    intros H; inversion H; subst; clear H;
    rewrite app_nil_r, count_app, Hq0;
    change (EReportMetadata ld md (Ok b) :: ev1)
      with ([EReportMetadata ld md (Ok b)] ++ ev1);
    rewrite count_app;
    change (count_events is_stored [EReportMetadata ld md (Ok b)]) with 0%nat;
    [left | right]; split; try reflexivity; lia.
Qed.

Lemma letter_try_counting item letter md s E h :
  let r := process_letter_try LF item letter md (PInt s) E h in
  (fst r = Ret (PInt s) \/ fst r = Ret (PInt (s + 1))) /\
  (fst r = Ret (PInt (s + 1)) <->
   (1 <= count_events is_stored (snd r))%nat /\
   count_events is_letter_aborted (snd r) = 0%nat).
Proof.
  intros r. subst r. unfold process_letter_try.
  match goal with |- context [try_except ?b ?hd E h] =>
    set (body := b); set (handler := hd);
    assert (Hne : no_exit body) by (subst body; no_exit_tac);
    assert (Hna : emits_only not_aborted body) by (subst body; emits_tac);
    assert (Hrel := letter_try_body_relates item letter md s E h)
  end.
  cbn [document_store api_client LF] in Hrel. fold body in Hrel.
  specialize (Hne E h). specialize (Hna E h).
  destruct (body E h) as [[c | [e | x] |] ev] eqn:Hb;
    cbn [fst snd] in Hne, Hna; try contradiction.
  - rewrite (try_except_ret body handler E h c ev Hb). cbn [fst snd].
    destruct (Hrel c ev Hb) as [(-> & Hc) | (-> & Hc)].
    + split; [right; reflexivity |]. split; [intros _ | reflexivity].
      split; [exact Hc | apply count_none; exact Hna].
    + split; [left; reflexivity |]. split.
      * intros H. injection H as H. lia.
      * intros [H _]. lia.
  - rewrite (try_except_caught body handler E h e ev Hb).
    subst handler. unfold logging_error. rewrite emit_bind.
    cbn [fst snd ret]. split; [left; reflexivity |]. split.
    + intros H. injection H as H. lia.
    + intros [_ H]. rewrite count_app in H.
      unfold count_events at 2 in H. simpl in H. lia.
Qed.

End LetterCounting.

Section LetterExample.
Import letters models storage.
Variable client : api.KivraApiClient.
Let LF := mkLetterFetcher client OracleStore.

Lemma four_parts_letter item key date sender s E h resp content_data
      text file_key html :
  readable_letter item key date sender ->
  o_exists E h (letter_fingerprint key date sender) = Ok false ->
  serves E resp -> status_code resp = 200%Z ->
  json_body resp = Some content_data ->
  py_get content_data "parts" (PList []) = Ok (four_parts text file_key html) ->
  py_truthy file_key = true ->
  let r := _process_letter LF item (PInt s) E h in
  fst r = Ret (PInt (s + 1)) /\
  filter is_store (snd r) =
  filter is_store (four_parts_events client
                     (mkKivraLetter key date sender None)
                     text file_key html resp) /\
  count_events is_stored (snd r) = 3%nat.
Proof.
  intros Hr Hex (Hget & Hstore & Hmeta) Hs Hj Hp Ht r. subst r.
  destruct (readable_letter_is_dict item key date sender Hr) as [d ->].
  unfold LF.
  rewrite (process_letter_readable client (PDict d) key date sender (PInt s)
             E h Hr).
  cbv zeta. rewrite Hex. unfold process_letter_try.
  cbn [letter_key api_client document_store].
  destruct (Hmeta ((h ++ [EExists (letter_fingerprint key date sender)
                                  (Ok false)])
                   ++ [EGet (details_url key) (details_headers client)
                            (Ok resp)])
                  (PDict (dict_set d "content" content_data))
                  (letter_fingerprint key date sender)) as [ok Hok].
  erewrite try_except_ret.
  2:{ erewrite bind_ret
        by (apply get_content_details_ok; [apply Hget | exact Hs | exact Hj]).
      cbn [py_dict_with]. rewrite lift_ok_bind.
      cbn [report_metadata OracleStore]. rewrite ask_bind.
      rewrite Hok.
      erewrite bind_ret
        by (apply four_parts_stored with (resp := resp); eassumption).
      cbn [Z.ltb Z.compare py_incr lift ret fst snd app]. reflexivity. }
  cbn [fst snd]. split; [reflexivity |]. split; reflexivity.
Qed.

End LetterExample.

(** C4, as the code has it.  Parts are dispatched by their declared content
    type: the body of a text/plain or text/html part is handed to the store
    as it is; an application/pdf part that carries a file key triggers one
    file fetch by that key, whose content is then handed to the store; a PDF
    part without a key and a part of any other content type are skipped with
    a warning.  For the parts [text/plain, application/pdf, text/html,
    application/x-unknown], when the fetch and the store calls succeed,
    exactly three parts are stored and the item is counted.  An item is
    counted at most once, and it is counted iff at least one store call of
    its parts answered true and its processing was not aborted by an
    exception (a part stored before a failing part stays stored but does not
    make the item count); persisting the metadata alone never counts. *)
Theorem C4_part_dispatch client E :
  let LF := letters.mkLetterFetcher client storage.OracleStore in
  (forall letter parts i part acc h n,
      py_len parts = Ok n ->
      let md := part_metadata letter n i in
      let run := letters.process_part LF letter parts (i, part) acc E h in
      (forall body,
          py_get part "content_type" PNone = Ok (PStr "text/plain") ->
          py_get part "body" (PStr EmptyString) = Ok body ->
          run = stored_part acc body (md "text/plain") []
                            (o_store E h body (md "text/plain")) (fun _ => [])) /\
      (forall body,
          py_get part "content_type" PNone = Ok (PStr "text/html") ->
          py_get part "body" PNone = Ok body ->
          run = stored_part acc body (md "text/html") []
                            (o_store E h body (md "text/html")) (fun _ => [])) /\
      (forall file_key resp,
          py_get part "content_type" PNone = Ok (PStr "application/pdf") ->
          py_get part "key" PNone = Ok file_key -> py_truthy file_key = true ->
          let get := EGet (file_url (models.letter_key letter) file_key)
                          (file_headers client) (Ok resp) in
          o_get E h (file_url (models.letter_key letter) file_key)
                (file_headers client) = Ok resp ->
          status_code resp = 200%Z ->
          run = stored_part acc (PBytes (content resp)) (md "application/pdf")
                  [get]
                  (o_store E (h ++ [get]) (PBytes (content resp))
                           (md "application/pdf"))
                  (fun e => [file_fetch_log letter file_key e])) /\
      (forall file_key,
          py_get part "content_type" PNone = Ok (PStr "application/pdf") ->
          py_get part "key" PNone = Ok file_key -> py_truthy file_key = false ->
          fst run = Ret acc /\ count_events is_store (snd run) = 0%nat /\
          count_events is_get (snd run) = 0%nat) /\
      (forall ct,
          py_get part "content_type" PNone = Ok ct ->
          py_eq_str ct "text/plain" = false ->
          py_eq_str ct "text/html" = false ->
          py_eq_str ct "application/pdf" = false ->
          fst run = Ret acc /\ count_events is_store (snd run) = 0%nat /\
          count_events is_get (snd run) = 0%nat)) /\
  (forall item key date sender s h resp content_data text file_key html,
      readable_letter item key date sender ->
      o_exists E h (letter_fingerprint key date sender) = Ok false ->
      serves E resp -> status_code resp = 200%Z ->
      json_body resp = Some content_data ->
      py_get content_data "parts" (PList [])
      = Ok (four_parts text file_key html) ->
      py_truthy file_key = true ->
      let r := letters._process_letter LF item (PInt s) E h in
      fst r = Ret (PInt (s + 1)) /\
      filter is_store (snd r) =
      filter is_store (four_parts_events client
                         (models.mkKivraLetter key date sender None)
                         text file_key html resp) /\
      count_events is_stored (snd r) = 3%nat) /\
  (forall item key date sender s h,
      readable_letter item key date sender ->
      o_exists E h (letter_fingerprint key date sender) = Ok false ->
      let r := letters._process_letter LF item (PInt s) E h in
      (fst r = Ret (PInt s) \/ fst r = Ret (PInt (s + 1))) /\
      (fst r = Ret (PInt (s + 1)) <->
       (1 <= count_events is_stored (snd r))%nat /\
       count_events is_letter_aborted (snd r) = 0%nat)).
Proof.
  intros LF. subst LF. split; [| split].
  - intros letter parts i part acc h n Hn md run. subst md run.
    split; [| split; [| split; [| split]]].
    + intros body Hct Hb. apply part_text; assumption.
    + intros body Hct Hb. apply part_html; assumption.
    + intros fk resp Hct Hk Ht get Ho Hs. apply part_pdf; assumption.
    + intros fk Hct Hk Ht.
      rewrite (part_pdf_without_key client letter parts i part acc E h n fk
                 Hct Hn Hk Ht).
      repeat split.
    + intros ct Hct H1 H2 H3.
      rewrite (part_unknown client letter parts i part acc E h n ct
                 Hct Hn H1 H2 H3).
      repeat split.
  - intros item key date sender s h resp content_data text fk html
      Hr Hex Hsv Hs Hj Hp Ht.
    exact (four_parts_letter client item key date sender s E h resp
             content_data text fk html Hr Hex Hsv Hs Hj Hp Ht).
  - intros item key date sender s h Hr Hex r. subst r.
    rewrite (process_letter_readable client item key date sender (PInt s)
               E h Hr).
    cbv zeta. rewrite Hex. cbn [fst snd].
    match goal with |- context [letters.process_letter_try ?F ?a ?b ?c ?d E ?hh] =>
      pose proof (letter_try_counting client a b c s E hh) as Hc;
      cbv zeta in Hc;
      set (g := letters.process_letter_try F a b c d E hh) in *
    end.
    destruct Hc as [H1 H2]. split; [exact H1 |].
    change (count_events is_stored (?e :: snd g))
      with (count_events is_stored (snd g)).
    change (count_events is_letter_aborted (?e :: snd g))
      with (count_events is_letter_aborted (snd g)).
    exact H2.
Qed.

Lemma C4_witness :
  let E := demo_env [] [demo_letter "l1"] in
  let r := letters._process_letter letter_fetcher (demo_letter "l1") (PInt 0)
                                   E [] in
  (readable_letter (demo_letter "l1") (PStr "l1") "2024-03-02" (PStr "Agency") /\
   o_exists E [] (letter_fingerprint (PStr "l1") "2024-03-02" (PStr "Agency"))
   = Ok false /\
   serves E demo_response /\
   py_truthy (PStr "f1") = true) /\
  fst r = Ret (PInt 1) /\
  count_events is_stored (snd r) = 3%nat /\
  (fst r = Ret (PInt 1) <->
   (1 <= count_events is_stored (snd r))%nat /\
   count_events is_letter_aborted (snd r) = 0%nat).
Proof.
  intros E r.
  assert (H1 : readable_letter (demo_letter "l1") (PStr "l1") "2024-03-02"
                               (PStr "Agency")) by (repeat split).
  assert (H2 : o_exists E [] (letter_fingerprint (PStr "l1") "2024-03-02"
                                                 (PStr "Agency")) = Ok false)
    by reflexivity.
  assert (H3 : serves E demo_response).
  { split; [| split]; intros; [reflexivity | reflexivity |].
    exists true. reflexivity. }
  assert (H4 : py_truthy (PStr "f1") = true) by reflexivity.
  split; [exact (conj H1 (conj H2 (conj H3 H4))) |].
  destruct (C4_part_dispatch the_client E) as (_ & Hb & Hc).
  destruct (Hb (demo_letter "l1") (PStr "l1") "2024-03-02" (PStr "Agency") 0%Z
               [] demo_response (PDict [("parts", demo_parts)])
               (PStr "hello") (PStr "f1") (PStr "<p>hi</p>")
               H1 H2 H3 eq_refl eq_refl eq_refl H4) as (Hb1 & _ & Hb3).
  destruct (Hc (demo_letter "l1") (PStr "l1") "2024-03-02" (PStr "Agency") 0%Z
               [] H1 H2) as (_ & Hc2).
  split; [exact Hb1 |]. split; [exact Hb3 | exact Hc2].
Defined.

(** C4 as stated fails.  When the file of the PDF part cannot be fetched,
    the text/plain part before it was persisted (its store call answered
    true), yet the item is not counted; and a PDF part without a file key
    triggers no file fetch and no store call. *)
Lemma C4_counterexample :
  let r := letters._process_letter letter_fetcher (demo_letter "l1") (PInt 0)
                                   demo_env_file_fails [] in
  let p := letters.process_part letter_fetcher demo_letter_object
             (PList [pdf_part_without_key]) (0%nat, pdf_part_without_key) 0%Z
             quiet_env [] in
  (fst r = Ret (PInt 0) /\
   count_events is_stored (snd r) = 1%nat /\
   ~ (fst r = Ret (PInt 1) <-> (1 <= count_events is_stored (snd r))%nat)) /\
  (fst p = Ret 0%Z /\
   count_events is_get (snd p) = 0%nat /\
   count_events is_store (snd p) = 0%nat).
Proof.
  intros r p.
  assert (H1 : fst r = Ret (PInt 0)) by (vm_compute; reflexivity).
  assert (H2 : count_events is_stored (snd r) = 1%nat)
    by (vm_compute; reflexivity).
  split; [split; [exact H1 | split; [exact H2 |]] |].
  - intros [_ H]. rewrite H2 in H. specialize (H (le_n 1)).
    rewrite H1 in H. discriminate H.
  - repeat split.
Qed.

(** ** C5: a failing content fetch is fatal to its item only *)

Lemma enumerate_from_app {A} (l1 l2 : list A) start :
  enumerate_from start (l1 ++ l2) =
  enumerate_from start l1 ++ enumerate_from (start + List.length l1) l2.
Proof.
  revert start. induction l1 as [| x l1 IH]; intros start.
  - simpl. rewrite Nat.add_0_r. reflexivity.
  - unfold enumerate_from in *. simpl. f_equal.
    rewrite (IH (S start)). simpl. rewrite Nat.add_succ_r. reflexivity.
Qed.

Section FatalToItem.
Import letters receipts models storage.
Variable client : api.KivraApiClient.
Let LF := mkLetterFetcher client OracleStore.
Let RF := mkReceiptFetcher client OracleStore.

Lemma part_pdf_file_raises letter parts i part acc E h n file_key r evf :
  py_get part "content_type" PNone = Ok (PStr "application/pdf") ->
  py_len parts = Ok n ->
  py_get part "key" PNone = Ok file_key -> py_truthy file_key = true ->
  api.get_content_file client (letter_key letter) file_key E h
  = (Raise (Exception r), evf) ->
  process_part LF letter parts (i, part) acc E h =
  (Raise (Exception r), evf ++ [file_fetch_log letter file_key r]).
Proof.
  intros Hct Hn Hk Ht Hf. unfold process_part.
  rewrite Hct, lift_ok_bind, Hn, lift_ok_bind.
  cbn [py_eq_str String.eqb Ascii.eqb Bool.eqb].
  rewrite Hk, lift_ok_bind, Ht. cbn [negb letters.api_client LF].
  erewrite try_except_caught by (apply bind_raise; exact Hf).
  unfold logging_error. rewrite emit_bind. reflexivity.
Qed.

(** The parts before a PDF part whose file cannot be fetched are processed,
    the parts after it are not. *)
Lemma letter_parts_abort letter content_data before pdf after file_key
      E h nb evb r evf :
  let parts := PList (before ++ pdf :: after) in
  py_get content_data "parts" (PList []) = Ok parts ->
  for_each (enumerate before) (process_part LF letter parts) 0%Z E h
  = (Ret nb, evb) ->
  py_get pdf "content_type" PNone = Ok (PStr "application/pdf") ->
  py_get pdf "key" PNone = Ok file_key -> py_truthy file_key = true ->
  api.get_content_file client (letter_key letter) file_key E (h ++ evb)
  = (Raise (Exception r), evf) ->
  _process_letter_parts LF letter content_data E h =
  (Raise (Exception r), evb ++ evf ++ [file_fetch_log letter file_key r]).
Proof.
  intros parts Hp Hb Hct Hk Ht Hf. unfold _process_letter_parts.
  rewrite Hp, lift_ok_bind.
  assert (Htruthy : py_truthy parts = true)
    by (unfold parts; destruct before; reflexivity).
  rewrite Htruthy. cbn [negb]. unfold parts at 1. cbn [py_iter].
  rewrite lift_ok_bind.
  change (enumerate (before ++ pdf :: after))
    with (enumerate_from 0 (before ++ pdf :: after)).
  rewrite enumerate_from_app.
  change (enumerate_from 0 before) with (enumerate before).
  rewrite (for_each_app _ _ _ 0%Z E h nb evb Hb).
  unfold enumerate_from. cbn [List.length seq combine].
  erewrite for_each_raises
    by (eapply part_pdf_file_raises; try eassumption; reflexivity).
  reflexivity.
Qed.

Lemma letter_item_abort item key date sender stored E h
      content_data evd b before pdf after file_key nb evb r evf :
  let md := letter_fingerprint key date sender in
  let letter := mkKivraLetter key date sender None in
  let parts := PList (before ++ pdf :: after) in
  let h1 := h ++ [EExists md (Ok false)] in
  readable_letter item key date sender ->
  o_exists E h md = Ok false ->
  api.get_content_details client key E h1 = (Ret content_data, evd) ->
  forall item',
  py_dict_with item "content" content_data = Ok item' ->
  let meta := EReportMetadata item' md (Ok b) in
  o_report_metadata E (h1 ++ evd) item' md = Ok b ->
  py_get content_data "parts" (PList []) = Ok parts ->
  for_each (enumerate before) (process_part LF letter parts) 0%Z E
           ((h1 ++ evd) ++ [meta]) = (Ret nb, evb) ->
  py_get pdf "content_type" PNone = Ok (PStr "application/pdf") ->
  py_get pdf "key" PNone = Ok file_key -> py_truthy file_key = true ->
  api.get_content_file client key file_key E (((h1 ++ evd) ++ [meta]) ++ evb)
  = (Raise (Exception r), evf) ->
  _process_letter LF item stored E h =
  (Ret stored,
   EExists md (Ok false)
   :: evd ++ meta :: evb ++ evf
      ++ [file_fetch_log letter file_key r; letter_abort_log key r]).
Proof.
  intros md letter parts h1 Hr Hex Hd item' Hw meta Hm Hp Hb Hct Hk Ht Hf.
  unfold LF.
  rewrite (process_letter_readable client item key date sender stored E h Hr).
  cbv zeta. fold md. rewrite Hex. unfold process_letter_try.
  cbn [letter_key letters.api_client letters.document_store]. fold h1.
  erewrite try_except_caught.
  2:{ rewrite (bind_ret _ _ E h1 _ _ Hd).
      rewrite Hw, lift_ok_bind. cbn [report_metadata OracleStore].
      rewrite ask_bind, Hm. fold meta.
      erewrite bind_raise
        by (eapply letter_parts_abort with (before := before) (after := after);
            eassumption).
      reflexivity. }
  unfold logging_error. rewrite emit_bind.
  cbn [fst snd ret app]. rewrite ?app_nil_r.
  repeat (rewrite <- app_assoc; cbn [app]). reflexivity.
Qed.

Lemma receipt_item_abort item key date store stored E h
      detail_data evq data details b r evf :
  let md := receipt_fingerprint key date store in
  let h1 := h ++ [EExists md (Ok false)] in
  readable_receipt item key date store ->
  o_exists E h md = Ok false ->
  api.graphql_query client "ReceiptDetails" RECEIPT_DETAILS_QUERY
                    (PDict [("key", key)]) E h1 = (Ret detail_data, evq) ->
  py_get detail_data "data" (PDict []) = Ok data ->
  py_get data "receiptV2" (PDict []) = Ok details ->
  let meta := EReportMetadata details md (Ok b) in
  o_report_metadata E (h1 ++ evq) details md = Ok b ->
  api.get_pdf client (pdf_url client key) E ((h1 ++ evq) ++ [meta])
  = (Raise (Exception r), evf) ->
  _process_receipt RF item stored E h =
  (Ret stored,
   EExists md (Ok false)
   :: evq ++ meta :: evf ++ [receipt_pdf_log key r; receipt_abort_log key r]).
Proof.
  intros md h1 Hr Hex Hq Hd Hd' meta Hm Hf. unfold RF.
  rewrite (process_receipt_readable client item key date store stored E h Hr).
  cbv zeta. fold md. rewrite Hex. unfold process_receipt_try.
  cbn [receipt_key receipts.api_client receipts.document_store]. fold h1.
  erewrite try_except_caught.
  2:{ rewrite (bind_ret _ _ E h1 _ _ Hq).
      rewrite Hd, lift_ok_bind, Hd', lift_ok_bind.
      cbn [report_metadata OracleStore].
      rewrite ask_bind, Hm. fold meta.
      erewrite bind_raise.
      2:{ unfold _fetch_and_store_pdf.
          cbn [receipt_key receipts.api_client receipts.document_store].
          fold (pdf_url client key).
          erewrite try_except_caught by (apply bind_raise; exact Hf).
          unfold logging_error. rewrite emit_bind. reflexivity. }
      reflexivity. }
  unfold logging_error. rewrite emit_bind.
  cbn [fst snd ret app]. rewrite ?app_nil_r.
  repeat (rewrite <- app_assoc; cbn [app]). reflexivity.
Qed.

End FatalToItem.

(** C5.  A PDF content-fetch failure while the parts of an item are
    processed aborts that item only.  For a letter: the parts before the
    failing PDF part have been processed and their events (their store calls
    among them) stand as they are, the parts after it are not processed, the
    failure is logged and caught by the per-item guard, and the per-item step
    returns the counter unchanged.  For a receipt the same holds of its single
    PDF.  The loop then goes on with the next item of the listing, and as long
    as the store's existence check answers, the fetch returns statistics for
    the whole run. *)
Theorem C5_fetch_failure_is_fatal_to_item_only client E :
  let LF := letters.mkLetterFetcher client storage.OracleStore in
  let RF := receipts.mkReceiptFetcher client storage.OracleStore in
  (forall item key date sender stored h content_data evd b before pdf after
          file_key nb evb r evf item' rest,
      let md := letter_fingerprint key date sender in
      let letter := models.mkKivraLetter key date sender None in
      let parts := PList (before ++ pdf :: after) in
      let h1 := h ++ [EExists md (Ok false)] in
      let meta := EReportMetadata item' md (Ok b) in
      readable_letter item key date sender ->
      o_exists E h md = Ok false ->
      api.get_content_details client key E h1 = (Ret content_data, evd) ->
      letters.py_dict_with item "content" content_data = Ok item' ->
      o_report_metadata E (h1 ++ evd) item' md = Ok b ->
      py_get content_data "parts" (PList []) = Ok parts ->
      for_each (letters.enumerate before) (letters.process_part LF letter parts)
               0%Z E ((h1 ++ evd) ++ [meta]) = (Ret nb, evb) ->
      py_get pdf "content_type" PNone = Ok (PStr "application/pdf") ->
      py_get pdf "key" PNone = Ok file_key -> py_truthy file_key = true ->
      api.get_content_file client key file_key E
                           (((h1 ++ evd) ++ [meta]) ++ evb)
      = (Raise (Exception r), evf) ->
      let evs := EExists md (Ok false)
                 :: evd ++ meta :: evb ++ evf
                    ++ [file_fetch_log letter file_key r;
                        letter_abort_log key r] in
      letters._process_letter LF item stored E h = (Ret stored, evs) /\
      for_each (item :: rest) (letters._process_letter LF) stored E h =
      (fst (for_each rest (letters._process_letter LF) stored E (h ++ evs)),
       evs ++ snd (for_each rest (letters._process_letter LF) stored E
                            (h ++ evs)))) /\
  (forall item key date store stored h detail_data evq data details b r evf
          rest,
      let md := receipt_fingerprint key date store in
      let h1 := h ++ [EExists md (Ok false)] in
      let meta := EReportMetadata details md (Ok b) in
      readable_receipt item key date store ->
      o_exists E h md = Ok false ->
      api.graphql_query client "ReceiptDetails" models.RECEIPT_DETAILS_QUERY
                        (PDict [("key", key)]) E h1 = (Ret detail_data, evq) ->
      py_get detail_data "data" (PDict []) = Ok data ->
      py_get data "receiptV2" (PDict []) = Ok details ->
      o_report_metadata E (h1 ++ evq) details md = Ok b ->
      api.get_pdf client (pdf_url client key) E ((h1 ++ evq) ++ [meta])
      = (Raise (Exception r), evf) ->
      let evs := EExists md (Ok false)
                 :: evq ++ meta :: evf
                    ++ [receipt_pdf_log key r; receipt_abort_log key r] in
      receipts._process_receipt RF item stored E h = (Ret stored, evs) /\
      for_each (item :: rest) (receipts._process_receipt RF) stored E h =
      (fst (for_each rest (receipts._process_receipt RF) stored E (h ++ evs)),
       evs ++ snd (for_each rest (receipts._process_receipt RF) stored E
                            (h ++ evs)))) /\
  (exists_answers E ->
   forall fuel max_count h items lev,
     letters_listed fuel LF E h items lev ->
     Forall listed_letter (truncated items max_count) ->
     exists stored evs,
       letters.fetch_letters fuel LF max_count E h =
       (Ret (letter_stats (List.length items)
               (List.length (truncated (truncated items max_count) max_count))
               stored), lev ++ evs)) /\
  (exists_answers E ->
   forall max_count h items total rev,
     receipts_listed RF E h items total rev ->
     Forall listed_receipt (truncated items max_count) ->
     exists stored evs,
       receipts.fetch_receipts RF max_count E h =
       (Ret (receipt_stats total (List.length (truncated items max_count))
                           stored), rev ++ evs)).
Proof.
  intros LF RF. subst LF RF. split; [| split; [| split]].
  - intros item key date sender stored h content_data evd b before pdf after
      file_key nb evb r evf item' rest md letter parts h1 meta
      Hr Hex Hd Hw Hm Hp Hb Hct Hk Ht Hf evs.
    assert (Hstep : letters._process_letter
                      (letters.mkLetterFetcher client storage.OracleStore)
                      item stored E h = (Ret stored, evs)).
    { exact (letter_item_abort client item key date sender stored E h
               content_data evd b before pdf after file_key nb evb r evf
               Hr Hex Hd item' Hw Hm Hp Hb Hct Hk Ht Hf). }
    split; [exact Hstep |]. simpl for_each. apply bind_ret. exact Hstep.
  - intros item key date store stored h detail_data evq data details b r evf
      rest md h1 meta Hr Hex Hq Hd Hd' Hm Hf evs.
    assert (Hstep : receipts._process_receipt
                      (receipts.mkReceiptFetcher client storage.OracleStore)
                      item stored E h = (Ret stored, evs)).
    { exact (receipt_item_abort client item key date store stored E h
               detail_data evq data details b r evf Hr Hex Hq Hd Hd' Hm Hf). }
    split; [exact Hstep |]. simpl for_each. apply bind_ret. exact Hstep.
  - intros Hex fuel max_count h items lev Hl Hall.
    destruct (loop_returns
                (letters._process_letter
                   (letters.mkLetterFetcher client storage.OracleStore))
                listed_letter E
                (fun item stored h' Hi =>
                   process_letter_returns client item stored E h' Hi Hex)
                (truncated items max_count) Hall (PInt 0) (h ++ lev))
      as [stored Hs].
    eexists. eexists. apply fetch_letters_stats; [exact Hl |].
    apply run_of_fst. exact Hs.
  - intros Hex max_count h items total rev Hl Hall.
    destruct (loop_returns
                (receipts._process_receipt
                   (receipts.mkReceiptFetcher client storage.OracleStore))
                listed_receipt E
                (fun item stored h' Hi =>
                   process_receipt_returns client item stored E h' Hi Hex)
                (truncated items max_count) Hall (PInt 0) (h ++ rev))
      as [stored Hs].
    eexists. eexists. apply fetch_receipts_stats; [exact Hl |].
    apply run_of_fst. exact Hs.
Qed.

Lemma C5_witness :
  let E := demo_env_file_fails in
  let l1 := demo_letter "l1" in
  let r1 := demo_receipt "r1" in
  (exists_answers E /\
   readable_letter l1 (PStr "l1") "2024-03-02" (PStr "Agency") /\
   readable_receipt r1 (PStr "r1") "2024-03-01" (PStr "Grocer") /\
   Forall listed_letter (truncated demo_two_letters None)) /\
  fst (letters._process_letter letter_fetcher l1 (PInt 0) E []) = Ret (PInt 0) /\
  fst (receipts._process_receipt receipt_fetcher r1 (PInt 0) E [])
  = Ret (PInt 0) /\
  (exists stored evs,
      fst (letters.fetch_letters 1 letter_fetcher None E [])
      = Ret (letter_stats 2 2 stored) /\
      snd (letters.fetch_letters 1 letter_fetcher None E []) = evs).
Proof.
  intros E l1 r1.
  assert (H1 : exists_answers E) by (intros h m; exists false; reflexivity).
  assert (H2 : readable_letter l1 (PStr "l1") "2024-03-02" (PStr "Agency"))
    by (repeat split).
  assert (H3 : readable_receipt r1 (PStr "r1") "2024-03-01" (PStr "Grocer"))
    by (repeat split).
  assert (H4 : Forall listed_letter (truncated demo_two_letters None))
    by solve_listed.
  split; [exact (conj H1 (conj H2 (conj H3 H4))) |].
  destruct (C5_fetch_failure_is_fatal_to_item_only the_client E)
    as (Hl & Hr & Hfl & _).
  split; [| split].
  - assert (Hx : exists evs,
               letters._process_letter letter_fetcher l1 (PInt 0) E []
               = (Ret (PInt 0), evs)).
    { eexists. eapply proj1.
      eapply (Hl l1 (PStr "l1") "2024-03-02" (PStr "Agency") (PInt 0) []
                 (PDict [("parts", demo_parts)]) _ _
                 [PDict [("content_type", PStr "text/plain");
                         ("body", PStr "hello")]]
                 (PDict [("content_type", PStr "application/pdf");
                         ("key", PStr "f1")])
                 [PDict [("content_type", PStr "text/html");
                         ("body", PStr "<p>hi</p>")];
                  PDict [("content_type", PStr "application/x-unknown")]]
                 (PStr "f1") _ _ _ _ _ [demo_letter "l2"]);
        [ exact H2 | reflexivity | vm_compute; reflexivity | reflexivity
        | reflexivity | reflexivity | vm_compute; reflexivity | reflexivity
        | reflexivity | reflexivity | vm_compute; reflexivity ]. }
    destruct Hx as [evs Hx]. rewrite Hx. reflexivity.
  - assert (Hx : exists evs,
               receipts._process_receipt receipt_fetcher r1 (PInt 0) E []
               = (Ret (PInt 0), evs)).
    { eexists. eapply proj1.
      eapply (Hr r1 (PStr "r1") "2024-03-01" (PStr "Grocer") (PInt 0) []
                 _ _ _ _ _ _ _ [demo_receipt "r2"]);
        [ exact H3 | reflexivity | vm_compute; reflexivity | reflexivity
        | reflexivity | reflexivity | vm_compute; reflexivity ]. }
    destruct Hx as [evs Hx]. rewrite Hx. reflexivity.
  - assert (H5 : { lev | letters_listed 1 letter_fetcher E [] demo_two_letters
                           lev }).
    { eexists. solve_listed_phase. }
    destruct H5 as [lev H5].
    destruct (Hfl H1 1%nat None [] demo_two_letters lev H5 H4)
      as (stored & evs & Hrun).
    exists stored, (lev ++ evs). unfold letter_fetcher. rewrite Hrun.
    split; reflexivity.
Defined.

(** ** C6: the listing snapshot *)

Section Snapshot.
Import storage.

Lemma fs_report_listing_returns fs doc_type listing E h :
  exists evs, FileSystem_report_listing fs doc_type listing E h = (Ret tt, evs).
Proof.
  unfold FileSystem_report_listing, try_except.
  destruct (String.eqb doc_type "receipts").
  - rewrite lift_ok_bind. unfold ask.
    destruct (o_json_dump E h _ listing) as [[] | e]; simpl; eauto.
  - destruct (String.eqb doc_type "letters").
    + rewrite lift_ok_bind. unfold ask.
      destruct (o_json_dump E h _ listing) as [[] | e]; simpl; eauto.
    + rewrite lift_err_bind. simpl. eauto.
Qed.

Lemma fs_report_listing_receipts_fail fs listing E h e :
  let p := receipts_json_dir fs ++ ["receipts.json"] in
  o_json_dump E h p listing = Err e ->
  FileSystem_report_listing fs "receipts" listing E h =
  (Ret tt, [EJsonDump p listing (Err e); snapshot_log e]).
Proof.
  intros p Ho. unfold FileSystem_report_listing, try_except.
  cbn [String.eqb Ascii.eqb Bool.eqb]. rewrite lift_ok_bind. unfold ask.
  fold p. rewrite Ho. reflexivity.
Qed.

Lemma fs_report_listing_letters_fail fs listing E h e :
  let p := letters_json_dir fs ++ ["letters.json"] in
  o_json_dump E h p listing = Err e ->
  FileSystem_report_listing fs "letters" listing E h =
  (Ret tt, [EJsonDump p listing (Err e); snapshot_log e]).
Proof.
  intros p Ho. unfold FileSystem_report_listing, try_except.
  cbn [String.eqb Ascii.eqb Bool.eqb]. rewrite lift_ok_bind. unfold ask.
  fold p. rewrite Ho. reflexivity.
Qed.

Lemma shipped_report_listing_returns fs S doc_type listing E h :
  S = FileSystemStore fs \/ S = PaperlessStore ->
  exists evs, report_listing S doc_type listing E h = (Ret tt, evs).
Proof.
  intros [-> | ->].
  - apply fs_report_listing_returns.
  - exists []. reflexivity.
Qed.

End Snapshot.

Lemma no_exit_ends {A} (m : M A) E h :
  no_exit m ->
  (exists a ev, m E h = (Ret a, ev))
  \/ (exists e ev, m E h = (Raise (Exception e), ev)).
Proof.
  intros Hm. specialize (Hm E h).
  destruct (m E h) as [[a | [e | s] |] ev]; simpl in Hm;
    [left | right | contradiction | contradiction]; eauto.
Qed.

Lemma shipped_receipts_loop_ends client fs S items acc E h :
  S = storage.FileSystemStore fs \/ S = storage.PaperlessStore ->
  let loop := for_each items
                (receipts._process_receipt (receipts.mkReceiptFetcher client S))
                acc E h in
  (exists stored ev, loop = (Ret stored, ev))
  \/ (exists e ev, loop = (Raise (Exception e), ev)).
Proof.
  intros HS loop. subst loop. apply no_exit_ends.
  apply no_exit_for_each. intros item c.
  unfold receipts._process_receipt, receipts.process_receipt_try.
  destruct HS as [-> | ->]; no_exit_tac.
Qed.

Lemma shipped_letters_loop_ends client fs S items acc E h :
  S = storage.FileSystemStore fs \/ S = storage.PaperlessStore ->
  let loop := for_each items
                (letters._process_letter (letters.mkLetterFetcher client S))
                acc E h in
  (exists stored ev, loop = (Ret stored, ev))
  \/ (exists e ev, loop = (Raise (Exception e), ev)).
Proof.
  intros HS loop. subst loop. apply no_exit_ends.
  apply no_exit_for_each. intros item c.
  unfold letters._process_letter, letters.process_letter_try.
  destruct HS as [-> | ->]; no_exit_tac.
Qed.

Lemma shipped_store_receipts client fs S E max_count h data ev0 listing items
      total :
  S = storage.FileSystemStore fs \/ S = storage.PaperlessStore ->
  let RF := receipts.mkReceiptFetcher client S in
  api.graphql_query client "Receipts" models.RECEIPTS_QUERY
                    receipts_variables E h = (Ret data, ev0) ->
  receipts_listing data listing items total ->
  exists ev1,
    storage.report_listing S "receipts" listing E (h ++ ev0) = (Ret tt, ev1) /\
    (forall stored ev2,
        for_each (truncated items max_count) (receipts._process_receipt RF)
                 (PInt 0) E ((h ++ ev0) ++ ev1) = (Ret stored, ev2) ->
        receipts.fetch_receipts RF max_count E h =
        (Ret (receipt_stats total (List.length (truncated items max_count))
                            stored), ev0 ++ ev1 ++ ev2)) /\
    (forall e ev2,
        for_each (truncated items max_count) (receipts._process_receipt RF)
                 (PInt 0) E ((h ++ ev0) ++ ev1) = (Raise (Exception e), ev2) ->
        receipts.fetch_receipts RF max_count E h =
        (Raise (Exception e),
         (ev0 ++ ev1 ++ ev2)
         ++ [ELog ERROR [Lit "Error fetching receipts: "] (Some e)])) /\
    ((exists stored ev2,
         for_each (truncated items max_count) (receipts._process_receipt RF)
                  (PInt 0) E ((h ++ ev0) ++ ev1) = (Ret stored, ev2))
     \/ (exists e ev2,
            for_each (truncated items max_count) (receipts._process_receipt RF)
                     (PInt 0) E ((h ++ ev0) ++ ev1)
            = (Raise (Exception e), ev2))).
Proof.
  intros HS RF Hq Hl.
  destruct (shipped_report_listing_returns fs S "receipts" listing E (h ++ ev0)
              HS) as [ev1 Hr].
  exists ev1. split; [exact Hr | split; [| split]].
  3: exact (shipped_receipts_loop_ends client fs S _ _ E _ HS).
  - intros stored ev2 Hloop.
    exact (fetch_receipts_completes RF max_count E h data ev0 listing items
             total ev1 stored ev2 Hq Hl Hr Hloop).
  - intros e ev2 Hloop.
    rewrite (app_assoc ev0 ev1 ev2).
    apply (fetch_receipts_loop_raises RF max_count E h items total (ev0 ++ ev1)
             e ev2).
    + exists data, ev0, listing, ev1. auto.
    + rewrite app_assoc. exact Hloop.
Qed.

Lemma shipped_store_letters client fs S E fuel max_count h items ev0 :
  S = storage.FileSystemStore fs \/ S = storage.PaperlessStore ->
  let LF := letters.mkLetterFetcher client S in
  letters.fetch_pages fuel LF PNone [] E h = (Ret items, ev0) ->
  exists ev1,
    storage.report_listing S "letters" (PList items) E (h ++ ev0)
    = (Ret tt, ev1) /\
    (forall stored ev2,
        for_each (truncated items max_count) (letters._process_letter LF)
                 (PInt 0) E ((h ++ ev0) ++ ev1) = (Ret stored, ev2) ->
        letters.fetch_letters fuel LF max_count E h =
        (Ret (letter_stats (List.length items)
                (List.length (truncated (truncated items max_count) max_count))
                stored), ev0 ++ ev1 ++ ev2)) /\
    (forall e ev2,
        for_each (truncated items max_count) (letters._process_letter LF)
                 (PInt 0) E ((h ++ ev0) ++ ev1) = (Raise (Exception e), ev2) ->
        letters.fetch_letters fuel LF max_count E h =
        (Raise (Exception e),
         (ev0 ++ ev1 ++ ev2)
         ++ [ELog ERROR [Lit "Error fetching letters: "] (Some e)])) /\
    ((exists stored ev2,
         for_each (truncated items max_count) (letters._process_letter LF)
                  (PInt 0) E ((h ++ ev0) ++ ev1) = (Ret stored, ev2))
     \/ (exists e ev2,
            for_each (truncated items max_count) (letters._process_letter LF)
                     (PInt 0) E ((h ++ ev0) ++ ev1)
            = (Raise (Exception e), ev2))).
Proof.
  intros HS LF Hp.
  destruct (shipped_report_listing_returns fs S "letters" (PList items) E
              (h ++ ev0) HS) as [ev1 Hr].
  exists ev1. split; [exact Hr | split; [| split]].
  3: exact (shipped_letters_loop_ends client fs S _ _ E _ HS).
  - intros stored ev2 Hloop.
    exact (fetch_letters_completes LF fuel max_count E h items ev0 ev1 stored
             ev2 Hp Hr Hloop).
  - intros e ev2 Hloop.
    rewrite (app_assoc ev0 ev1 ev2).
    apply (fetch_letters_loop_raises fuel LF max_count E h items (ev0 ++ ev1)
             e ev2).
    + exists ev0, ev1. auto.
    + rewrite app_assoc. exact Hloop.
Qed.

(** C6, as the code has it.  A failure to persist the listing snapshot does
    not abort the run because the shipped stores do not let it out of
    report_listing: the file-system store catches every exception raised
    while it writes the snapshot, logs it and returns, and the paperless
    store's report_listing does nothing.  With either store the call
    returns, the fetch goes on to the per-item processing and ends as that
    processing ends, in one of two ways: with its statistics when the loop
    over the items completes, with the exception (logged and raised again)
    when the loop raises.  The fetchers themselves do not guard the call:
    when report_listing raises, the fetch logs the error and raises it
    again. *)
Theorem C6_listing_snapshot_failure client fs E :
  let RF := receipts.mkReceiptFetcher client (storage.FileSystemStore fs) in
  let LF := letters.mkLetterFetcher client (storage.FileSystemStore fs) in
  (forall doc_type listing h,
      exists evs,
        storage.FileSystem_report_listing fs doc_type listing E h
        = (Ret tt, evs)) /\
  (forall listing h e,
      let p := storage.receipts_json_dir fs ++ ["receipts.json"] in
      o_json_dump E h p listing = Err e ->
      storage.FileSystem_report_listing fs "receipts" listing E h =
      (Ret tt, [EJsonDump p listing (Err e); snapshot_log e])) /\
  (forall listing h e,
      let p := storage.letters_json_dir fs ++ ["letters.json"] in
      o_json_dump E h p listing = Err e ->
      storage.FileSystem_report_listing fs "letters" listing E h =
      (Ret tt, [EJsonDump p listing (Err e); snapshot_log e])) /\
  (forall doc_type listing h,
      storage.Paperless_report_listing doc_type listing E h = (Ret tt, [])) /\
  (forall max_count h data ev0 listing items total e stored ev2,
      let p := storage.receipts_json_dir fs ++ ["receipts.json"] in
      let ev1 := [EJsonDump p listing (Err e); snapshot_log e] in
      api.graphql_query client "Receipts" models.RECEIPTS_QUERY
                        receipts_variables E h = (Ret data, ev0) ->
      receipts_listing data listing items total ->
      o_json_dump E (h ++ ev0) p listing = Err e ->
      for_each (truncated items max_count) (receipts._process_receipt RF)
               (PInt 0) E ((h ++ ev0) ++ ev1) = (Ret stored, ev2) ->
      receipts.fetch_receipts RF max_count E h =
      (Ret (receipt_stats total (List.length (truncated items max_count))
                          stored), ev0 ++ ev1 ++ ev2)) /\
  (forall fuel max_count h items ev0 e stored ev2,
      let p := storage.letters_json_dir fs ++ ["letters.json"] in
      let ev1 := [EJsonDump p (PList items) (Err e); snapshot_log e] in
      letters.fetch_pages fuel LF PNone [] E h = (Ret items, ev0) ->
      o_json_dump E (h ++ ev0) p (PList items) = Err e ->
      for_each (truncated items max_count) (letters._process_letter LF)
               (PInt 0) E ((h ++ ev0) ++ ev1) = (Ret stored, ev2) ->
      letters.fetch_letters fuel LF max_count E h =
      (Ret (letter_stats (List.length items)
              (List.length (truncated (truncated items max_count) max_count))
              stored), ev0 ++ ev1 ++ ev2)) /\
  (forall S max_count h data ev0 listing items total,
      S = storage.FileSystemStore fs \/ S = storage.PaperlessStore ->
      let F := receipts.mkReceiptFetcher client S in
      api.graphql_query client "Receipts" models.RECEIPTS_QUERY
                        receipts_variables E h = (Ret data, ev0) ->
      receipts_listing data listing items total ->
      exists ev1,
        storage.report_listing S "receipts" listing E (h ++ ev0)
        = (Ret tt, ev1) /\
        (forall stored ev2,
            for_each (truncated items max_count) (receipts._process_receipt F)
                     (PInt 0) E ((h ++ ev0) ++ ev1) = (Ret stored, ev2) ->
            receipts.fetch_receipts F max_count E h =
            (Ret (receipt_stats total
                    (List.length (truncated items max_count)) stored),
             ev0 ++ ev1 ++ ev2)) /\
        (forall e ev2,
            for_each (truncated items max_count) (receipts._process_receipt F)
                     (PInt 0) E ((h ++ ev0) ++ ev1)
            = (Raise (Exception e), ev2) ->
            receipts.fetch_receipts F max_count E h =
            (Raise (Exception e),
             (ev0 ++ ev1 ++ ev2)
             ++ [ELog ERROR [Lit "Error fetching receipts: "] (Some e)])) /\
        ((exists stored ev2,
             for_each (truncated items max_count) (receipts._process_receipt F)
                      (PInt 0) E ((h ++ ev0) ++ ev1) = (Ret stored, ev2))
         \/ (exists e ev2,
                for_each (truncated items max_count) (receipts._process_receipt F)
                         (PInt 0) E ((h ++ ev0) ++ ev1)
                = (Raise (Exception e), ev2)))) /\
  (forall S fuel max_count h items ev0,
      S = storage.FileSystemStore fs \/ S = storage.PaperlessStore ->
      let F := letters.mkLetterFetcher client S in
      letters.fetch_pages fuel F PNone [] E h = (Ret items, ev0) ->
      exists ev1,
        storage.report_listing S "letters" (PList items) E (h ++ ev0)
        = (Ret tt, ev1) /\
        (forall stored ev2,
            for_each (truncated items max_count) (letters._process_letter F)
                     (PInt 0) E ((h ++ ev0) ++ ev1) = (Ret stored, ev2) ->
            letters.fetch_letters fuel F max_count E h =
            (Ret (letter_stats (List.length items)
                    (List.length
                       (truncated (truncated items max_count) max_count))
                    stored), ev0 ++ ev1 ++ ev2)) /\
        (forall e ev2,
            for_each (truncated items max_count) (letters._process_letter F)
                     (PInt 0) E ((h ++ ev0) ++ ev1)
            = (Raise (Exception e), ev2) ->
            letters.fetch_letters fuel F max_count E h =
            (Raise (Exception e),
             (ev0 ++ ev1 ++ ev2)
             ++ [ELog ERROR [Lit "Error fetching letters: "] (Some e)])) /\
        ((exists stored ev2,
             for_each (truncated items max_count) (letters._process_letter F)
                      (PInt 0) E ((h ++ ev0) ++ ev1) = (Ret stored, ev2))
         \/ (exists e ev2,
                for_each (truncated items max_count) (letters._process_letter F)
                         (PInt 0) E ((h ++ ev0) ++ ev1)
                = (Raise (Exception e), ev2)))) /\
  (forall (F : receipts.ReceiptFetcher) max_count h data ev0 listing items
          total ev1 e,
      api.graphql_query (receipts.api_client F) "Receipts"
                        models.RECEIPTS_QUERY receipts_variables E h
      = (Ret data, ev0) ->
      receipts_listing data listing items total ->
      storage.report_listing (receipts.document_store F) "receipts" listing E
                             (h ++ ev0) = (Raise (Exception e), ev1) ->
      receipts.fetch_receipts F max_count E h =
      (Raise (Exception e),
       (ev0 ++ ev1) ++ [ELog ERROR [Lit "Error fetching receipts: "] (Some e)])) /\
  (forall (F : letters.LetterFetcher) fuel max_count h items ev0 ev1 e,
      letters.fetch_pages fuel F PNone [] E h = (Ret items, ev0) ->
      storage.report_listing (letters.document_store F) "letters" (PList items)
                             E (h ++ ev0) = (Raise (Exception e), ev1) ->
      letters.fetch_letters fuel F max_count E h =
      (Raise (Exception e),
       (ev0 ++ ev1) ++ [ELog ERROR [Lit "Error fetching letters: "] (Some e)])).
Proof.
  intros RF LF. subst RF LF.
  split; [| split; [| split; [| split; [| split; [| split; [| split;
    [| split; [| split]]]]]]]].
  - intros. apply fs_report_listing_returns.
  - intros listing h e p Ho. apply fs_report_listing_receipts_fail. exact Ho.
  - intros listing h e p Ho. apply fs_report_listing_letters_fail. exact Ho.
  - reflexivity.
  - intros max_count h data ev0 listing items total e stored ev2 p ev1
      Hq Hl Ho Hloop.
    apply (fetch_receipts_completes
             (receipts.mkReceiptFetcher client (storage.FileSystemStore fs))
             max_count E h data ev0 listing items
             total ev1 stored ev2 Hq Hl); [| exact Hloop].
    apply fs_report_listing_receipts_fail. exact Ho.
  - intros fuel max_count h items ev0 e stored ev2 p ev1 Hp Ho Hloop.
    apply (fetch_letters_completes
             (letters.mkLetterFetcher client (storage.FileSystemStore fs))
             fuel max_count E h items ev0 ev1 stored
             ev2 Hp); [| exact Hloop].
    apply fs_report_listing_letters_fail. exact Ho.
  - intros S max_count h data ev0 listing items total HS F Hq Hl.
    exact (shipped_store_receipts client fs S E max_count h data ev0 listing
             items total HS Hq Hl).
  - intros S fuel max_count h items ev0 HS F Hp.
    exact (shipped_store_letters client fs S E fuel max_count h items ev0
             HS Hp).
  - intros F max_count h data ev0 listing items total ev1 e Hq Hl Hr.
    exact (fetch_receipts_report_raises F max_count E h data ev0 listing items
             total ev1 e Hq Hl Hr).
  - intros F fuel max_count h items ev0 ev1 e Hp Hr.
    exact (fetch_letters_report_raises F fuel max_count E h items ev0 ev1 e
             Hp Hr).
Qed.

Lemma C6_witness :
  let E := demo_env_disk_full in
  let RF := receipts.mkReceiptFetcher the_client
              (storage.FileSystemStore demo_file_system_store) in
  let LF := letters.mkLetterFetcher the_client
              (storage.FileSystemStore demo_file_system_store) in
  let RP := receipts.mkReceiptFetcher the_client storage.PaperlessStore in
  (forall h p listing, o_json_dump E h p listing = Err OSError) /\
  fst (receipts.fetch_receipts RF None E [])
  = Ret (receipt_stats (PInt 3) 3 (PInt 3)) /\
  fst (letters.fetch_letters 1 LF None E [])
  = Ret (letter_stats 3 3 (PInt 3)) /\
  count_events is_exists (snd (receipts.fetch_receipts RF None E [])) = 3%nat /\
  fst (receipts.fetch_receipts RP None E [])
  = Ret (receipt_stats (PInt 3) 3 (PInt 3)).
Proof.
  intros E RF LF RP.
  assert (H1 : forall h p listing, o_json_dump E h p listing = Err OSError)
    by reflexivity.
  split; [exact H1 |].
  destruct (C6_listing_snapshot_failure the_client demo_file_system_store E)
    as (_ & _ & _ & _ & Hr & Hl & Hs & _).
  assert (Hrr : exists ev,
             receipts.fetch_receipts RF None E []
             = (Ret (receipt_stats (PInt 3) 3 (PInt 3)), ev) /\
             count_events is_exists ev = 3%nat).
  { eexists. split.
    - eapply (Hr None [] _ _ _ demo_receipts (PInt 3) OSError);
        [ vm_compute; reflexivity
        | repeat split
        | apply H1
        | vm_compute; reflexivity ].
    - vm_compute. reflexivity. }
  assert (Hll : exists ev,
             letters.fetch_letters 1 LF None E []
             = (Ret (letter_stats 3 3 (PInt 3)), ev)).
  { eexists.
    eapply (Hl 1%nat None [] demo_letters _ OSError);
      [ vm_compute; reflexivity | apply H1 | vm_compute; reflexivity ]. }
  assert (Hpp : exists ev,
             receipts.fetch_receipts RP None E []
             = (Ret (receipt_stats (PInt 3) 3 (PInt 3)), ev)).
  { assert (Hq : exists data ev0 listing,
               api.graphql_query the_client "Receipts" models.RECEIPTS_QUERY
                                 receipts_variables E [] = (Ret data, ev0) /\
               receipts_listing data listing demo_receipts (PInt 3))
      by (do 3 eexists; split; [vm_compute; reflexivity | repeat split]).
    destruct Hq as (data & ev0 & listing & Hq & Hlst).
    destruct (Hs storage.PaperlessStore None [] data ev0 listing demo_receipts
                 (PInt 3) (or_intror eq_refl) Hq Hlst)
      as (ev1 & Hev1 & Hok & _).
    injection Hev1 as <-.
    eexists. apply Hok. vm_compute. reflexivity. }
  destruct Hrr as (ev & Hrr & Hc). destruct Hll as (ev' & Hll).
  destruct Hpp as (ev'' & Hpp).
  rewrite Hrr, Hll, Hpp. repeat split. exact Hc.
Defined.

(** C6 as stated fails: when the store's report_listing call raises, the
    fetch raises too; it asks the store about no item and returns no
    statistics.  And with the shipped stores, whose report_listing does not
    raise, a fetch whose snapshot could not be written still raises when a
    listed item cannot be read. *)
Lemma C6_counterexample :
  let E := demo_env_listing_raises in
  let rrun := run (receipts.fetch_receipts receipt_fetcher None) E in
  let lrun := run (letters.fetch_letters 1 letter_fetcher None) E in
  let E' := with_json_dump (fun _ _ _ => Err OSError)
              (demo_env [demo_receipt_null_store "r2"] []) in
  (forall h kind listing, o_report_listing E h kind listing = Err OSError) /\
  fst rrun = Raise (Exception OSError) /\
  count_events is_exists (snd rrun) = 0%nat /\
  fst lrun = Raise (Exception OSError) /\
  count_events is_exists (snd lrun) = 0%nat /\
  fst (run (receipts.fetch_receipts
              (receipts.mkReceiptFetcher the_client
                 (storage.FileSystemStore demo_file_system_store)) None) E')
  = Raise (Exception AttributeError) /\
  fst (run (receipts.fetch_receipts
              (receipts.mkReceiptFetcher the_client storage.PaperlessStore)
              None) E')
  = Raise (Exception AttributeError).
Proof.
  intros E rrun lrun E'. split; [reflexivity |].
  repeat apply conj; vm_compute; reflexivity.
Qed.

(** ** C8: the polling loop *)

Lemma bind_prefix {A B} (m : M A) (k : A -> M B) E h :
  exists rest, snd (bind m k E h) = snd (m E h) ++ rest.
Proof.
  unfold bind. destruct (m E h) as [[a | r |] ev]; simpl.
  - destruct (k a E (h ++ ev)) as [o ev']. simpl. eauto.
  - exists []. rewrite app_nil_r. reflexivity.
  - exists []. rewrite app_nil_r. reflexivity.
Qed.

Lemma forallb_count P (l : list event) :
  forallb P l = true -> count_events P l = List.length l.
Proof.
  unfold count_events. induction l as [| e l IH]; simpl; [reflexivity |].
  destruct (P e); simpl; [| discriminate]. intros H. rewrite IH by exact H.
  reflexivity.
Qed.

Section Polling.
Import auth interaction.
Variable temp : string.
Variable json_loads : string -> result pyval.
Let self := mkKivraAuth temp OracleInteraction.

Lemma poll_status_json r s :
  poll_status r = Some s ->
  exists data, api.response_json r = Ok data /\ py_get data "status" PNone = Ok s.
Proof.
  unfold poll_status, api.response_json.
  destruct (json_body r) as [data |]; [| discriminate].
  destruct (py_get data "status" PNone) as [s' |] eqn:Hs; [| discriminate].
  intros H. injection H as ->. eauto.
Qed.

Lemma poll_pending fuel next_poll_url auth_code code_verifier E h r :
  o_get E (h ++ [ESleep 5]) (poll_url next_poll_url) [] = Ok r ->
  poll_status r = Some (PStr "pending") ->
  let round := poll_round (poll_url next_poll_url) r in
  let rest := _poll_for_auth fuel self json_loads next_poll_url auth_code
                             code_verifier E (h ++ round) in
  _poll_for_auth (S fuel) self json_loads next_poll_url auth_code code_verifier
                 E h = (fst rest, round ++ snd rest).
Proof.
  intros Ho Hs round rest. destruct (poll_status_json r _ Hs) as (data & Hj & Hd).
  cbn [_poll_for_auth]. unfold time_sleep. rewrite emit_bind.
  unfold api.session_get. fold (poll_url next_poll_url).
  rewrite ask_bind, Ho. rewrite Hj, lift_ok_bind, Hd, lift_ok_bind.
  cbn [py_eq_str String.eqb Ascii.eqb Bool.eqb fst snd].
  subst rest round. unfold poll_round. rewrite <- app_assoc. reflexivity.
Qed.

Lemma poll_pending_rounds next_poll_url auth_code code_verifier E rs :
  forall fuel h,
  answers_pending E (poll_url next_poll_url) h rs ->
  let rounds := poll_rounds (poll_url next_poll_url) rs in
  let rest := _poll_for_auth fuel self json_loads next_poll_url auth_code
                             code_verifier E (h ++ rounds) in
  _poll_for_auth (List.length rs + fuel) self json_loads next_poll_url auth_code
                 code_verifier E h = (fst rest, rounds ++ snd rest).
Proof.
  induction rs as [| r rs IH]; intros fuel h Hans rounds rest.
  - subst rest rounds. simpl. rewrite app_nil_r. apply surjective_run.
  - destruct Hans as (Ho & Hs & Hans).
    change (List.length (r :: rs) + fuel)%nat
      with (S (List.length rs + fuel)).
    rewrite (poll_pending _ next_poll_url auth_code code_verifier E h r Ho Hs).
    rewrite (IH fuel _ Hans). cbn [fst snd]. subst rest rounds.
    unfold poll_rounds. cbn [flat_map]. rewrite <- !app_assoc. reflexivity.
Qed.

Lemma exchange_token_events auth_code code_verifier E h :
  exists r logs,
    snd (exchange_token self json_loads auth_code code_verifier E h)
    = EPost token_url (token_data auth_code code_verifier) token_headers r
      :: logs /\
    forallb is_log logs = true.
Proof.
  unfold exchange_token, api.session_post.
  fold token_url. fold (token_data auth_code code_verifier). fold token_headers.
  rewrite ask_bind.
  destruct (o_post E h token_url (token_data auth_code code_verifier)
                   token_headers) as [resp | e].
  - eexists. eexists. split; [reflexivity |]. cbn [snd].
    match goal with |- forallb is_log (snd (?m E ?hh)) = true =>
      assert (Hm : emits_only is_log m) by emits_tac; exact (Hm E hh) end.
  - eexists. exists []. split; reflexivity.
Qed.

Lemma poll_complete fuel next_poll_url auth_code code_verifier E h r :
  o_get E (h ++ [ESleep 5]) (poll_url next_poll_url) [] = Ok r ->
  poll_status r = Some (PStr "complete") ->
  let round := poll_round (poll_url next_poll_url) r in
  let run := _poll_for_auth (S fuel) self json_loads next_poll_url auth_code
                            code_verifier E h in
  match o_report_authentication_success E (h ++ round) with
  | Ok _ =>
      exists post logs,
        snd run = round ++ EReportAuthenticationSuccess (Ok tt)
                           :: EPost token_url
                                    (token_data auth_code code_verifier)
                                    token_headers post
                           :: logs /\
        forallb is_log logs = true
  | Err e =>
      run = (Raise (Exception e), round ++ [EReportAuthenticationSuccess (Err e)])
  end.
Proof.
  intros Ho Hs round run. destruct (poll_status_json r _ Hs) as (data & Hj & Hd).
  subst run. cbn [_poll_for_auth]. unfold time_sleep. rewrite emit_bind.
  unfold api.session_get. fold (poll_url next_poll_url).
  rewrite ask_bind, Ho. rewrite Hj, lift_ok_bind, Hd, lift_ok_bind.
  cbn [py_eq_str String.eqb Ascii.eqb Bool.eqb fst snd].
  cbn [report_authentication_success interaction_provider self
       OracleInteraction].
  rewrite ask_bind. rewrite <- app_assoc. cbn [app].
  subst round. unfold poll_round.
  destruct (o_report_authentication_success E _) as [[] | e].
  - cbn [fst snd app]. fold self.
    match goal with |- context [exchange_token self json_loads ?c ?v E ?hh] =>
      destruct (exchange_token_events c v E hh) as (post & logs & Hev & Hlogs);
      rewrite Hev
    end.
    exists post, logs. split; [reflexivity | exact Hlogs].
  - reflexivity.
Qed.

Lemma poll_other fuel next_poll_url auth_code code_verifier E h r s data :
  o_get E (h ++ [ESleep 5]) (poll_url next_poll_url) [] = Ok r ->
  json_body r = Some data -> py_get data "status" PNone = Ok s ->
  py_eq_str s "complete" = false -> py_eq_str s "pending" = false ->
  _poll_for_auth (S fuel) self json_loads next_poll_url auth_code code_verifier
                 E h =
  (Raise (SystemExit "BankID authentication failed"),
   poll_round (poll_url next_poll_url) r ++ [poll_error_log s data]).
Proof.
  intros Ho Hj Hd Hc Hp.
  cbn [_poll_for_auth]. unfold time_sleep. rewrite emit_bind.
  unfold api.session_get. fold (poll_url next_poll_url).
  rewrite ask_bind, Ho. unfold api.response_json.
  rewrite Hj, lift_ok_bind, Hd, lift_ok_bind, Hc, Hp.
  unfold logging_error. rewrite emit_bind. reflexivity.
Qed.

End Polling.

Lemma poll_rounds_app url rs r :
  poll_rounds url (rs ++ [r]) = poll_rounds url rs ++ poll_round url r.
Proof.
  unfold poll_rounds. rewrite flat_map_app. reflexivity.
Qed.

Lemma poll_rounds_quiet url rs :
  count_events is_auth_success (poll_rounds url rs) = 0%nat /\
  count_events is_post (poll_rounds url rs) = 0%nat.
Proof.
  induction rs as [| r rs [IH1 IH2]]; [split; reflexivity |].
  unfold poll_rounds in *. cbn [flat_map].
  rewrite !count_app, IH1, IH2. split; reflexivity.
Qed.

Lemma logs_quiet logs :
  forallb is_log logs = true ->
  count_events is_auth_success logs = 0%nat.
Proof.
  intros H. apply count_none. induction logs as [| e logs IH];
    [reflexivity |].
  simpl in *. destruct e; try discriminate. simpl. apply IH. exact H.
Qed.

(** C8.  Every poll is preceded by a wait of 5 time units.  As long as the
    answers carry status pending the loop polls again, however many they are.
    On the first answer with status complete the Interaction Provider's
    authentication-success notification is invoked, once, and only after it
    has returned is the token-exchange POST issued; nothing but logging
    follows the POST in the loop.  An answer whose status is neither pending
    nor complete ends the loop with sys.exit, after logging. *)
Theorem C8_polling_state_machine temp json_loads next_poll_url auth_code
        code_verifier E h rs last fuel :
  let self := auth.mkKivraAuth temp interaction.OracleInteraction in
  let url := poll_url next_poll_url in
  let rounds := poll_rounds url (rs ++ [last]) in
  let run := auth._poll_for_auth (List.length rs + S fuel) self json_loads
               next_poll_url auth_code code_verifier E h in
  answers_pending E url h rs ->
  o_get E ((h ++ poll_rounds url rs) ++ [ESleep 5]) url [] = Ok last ->
  (poll_status last = Some (PStr "complete") ->
   match o_report_authentication_success E (h ++ rounds) with
   | Ok _ =>
       exists post logs,
         snd run = rounds ++ EReportAuthenticationSuccess (Ok tt)
                   :: EPost token_url (token_data auth_code code_verifier)
                            token_headers post
                   :: logs /\
         forallb is_log logs = true /\
         count_events is_auth_success (snd run) = 1%nat
   | Err e =>
       run = (Raise (Exception e),
              rounds ++ [EReportAuthenticationSuccess (Err e)])
   end) /\
  (forall s data,
      json_body last = Some data -> py_get data "status" PNone = Ok s ->
      py_eq_str s "complete" = false -> py_eq_str s "pending" = false ->
      run = (Raise (SystemExit "BankID authentication failed"),
             rounds ++ [poll_error_log s data])).
Proof.
  intros self url rounds run Hans Hlast. subst run rounds self.
  rewrite (poll_pending_rounds temp json_loads next_poll_url auth_code
             code_verifier E rs (S fuel) h Hans).
  cbv zeta. rewrite poll_rounds_app. fold url.
  set (h' := h ++ poll_rounds url rs) in *.
  split.
  - intros Hc.
    pose proof (poll_complete temp json_loads fuel next_poll_url auth_code
                  code_verifier E h' last Hlast Hc) as Hp.
    cbv zeta in Hp. fold url in Hp.
    replace (h ++ poll_rounds url rs ++ poll_round url last)
      with (h' ++ poll_round url last)
      by (subst h'; rewrite <- app_assoc; reflexivity).
    destruct (o_report_authentication_success E (h' ++ poll_round url last))
      as [[] | e].
    + destruct Hp as (post & logs & Hev & Hlogs).
      exists post, logs. cbn [snd]. rewrite Hev, <- app_assoc.
      split; [reflexivity |]. split; [exact Hlogs |].
      rewrite !count_app.
      destruct (poll_rounds_quiet url rs) as [-> _].
      change (EReportAuthenticationSuccess (Ok tt)
              :: EPost token_url (token_data auth_code code_verifier)
                       token_headers post :: logs)
        with ([EReportAuthenticationSuccess (Ok tt);
               EPost token_url (token_data auth_code code_verifier)
                     token_headers post] ++ logs).
      rewrite count_app, (logs_quiet logs Hlogs). reflexivity.
    + rewrite Hp. cbn [fst snd]. rewrite <- app_assoc. reflexivity.
  - intros s data Hj Hd Hc Hp.
    rewrite (poll_other temp json_loads fuel next_poll_url auth_code
               code_verifier E h' last s data Hlast Hj Hd Hc Hp).
    cbn [fst snd]. fold url. rewrite <- app_assoc. reflexivity.
Qed.

Lemma C8_witness :
  let E := demo_env_polling in
  let pending := status_answer "pending" in
  let complete := status_answer "complete" in
  let url := poll_url (PStr "/poll/1") in
  let run := auth._poll_for_auth 4 demo_auth demo_json_loads (PStr "/poll/1")
               (PStr "authcode") "verifier" E [] in
  (answers_pending E url [] [pending; pending; pending] /\
   o_get E (([] ++ poll_rounds url [pending; pending; pending]) ++ [ESleep 5])
         url [] = Ok complete /\
   poll_status complete = Some (PStr "complete")) /\
  exists post logs,
    snd run = poll_rounds url [pending; pending; pending; complete]
              ++ EReportAuthenticationSuccess (Ok tt)
              :: EPost token_url (token_data (PStr "authcode") "verifier")
                       token_headers post
              :: logs /\
    forallb is_log logs = true /\
    count_events is_auth_success (snd run) = 1%nat.
Proof.
  intros E pending complete url run.
  assert (H1 : answers_pending E url [] [pending; pending; pending])
    by (repeat split).
  assert (H2 : o_get E (([] ++ poll_rounds url [pending; pending; pending])
                        ++ [ESleep 5]) url [] = Ok complete) by reflexivity.
  assert (H3 : poll_status complete = Some (PStr "complete")) by reflexivity.
  split; [exact (conj H1 (conj H2 H3)) |].
  destruct (C8_polling_state_machine "/tmp" demo_json_loads (PStr "/poll/1")
              (PStr "authcode") "verifier" E [] [pending; pending; pending]
              complete 0 H1 H2) as [Hc _].
  exact (Hc H3).
Defined.

(** ** C7: validation of the authorization answer *)

Section Initialization.
Import auth interaction.
Variable temp : string.
Variable sha256 : string -> string.
Variable json_loads : string -> result pyval.
Let self := mkKivraAuth temp OracleInteraction.

Lemma initialize_ok code_challenge E h resp data :
  o_post E h authorize_url (authorize_params code_challenge) authorize_headers
  = Ok resp ->
  status_code resp = 201%Z \/ status_code resp = 202%Z ->
  json_body resp = Some data ->
  _initialize_oauth2 self code_challenge E h =
  (Ret data,
   [EPost authorize_url (authorize_params code_challenge) authorize_headers
          (Ok resp)]).
Proof.
  intros Ho Hs Hj. unfold _initialize_oauth2, api.session_post.
  fold authorize_url. fold (authorize_params code_challenge).
  fold authorize_headers. rewrite ask_bind, Ho.
  assert (Hst : negb ((status_code resp =? 201)%Z || (status_code resp =? 202)%Z)
                = false) by (destruct Hs as [-> | ->]; reflexivity).
  rewrite Hst. unfold api.response_json. rewrite Hj. reflexivity.
Qed.

(** [authenticate] up to the validation of the authorization answer. *)
Lemma authenticate_prefix fuel ssn E h r0 resp d :
  let h1 := h ++ [EGet home_url [] (Ok r0)] in
  let verifier := o_token_urlsafe E h1 32 in
  let challenge := _generate_code_challenge sha256 verifier in
  let pre := [EGet home_url [] (Ok r0); ETokenUrlsafe 32 verifier;
              EPost authorize_url (authorize_params challenge)
                    authorize_headers (Ok resp)] in
  let qr_code := dict_value d "qr_code" in
  let next_poll_url := dict_value d "next_poll_url" in
  let auth_code := dict_value d "code" in
  let temp_path := [temp; "kivra_qr.png"] in
  let continue : M pyval :=
    if negb (py_truthy qr_code) || negb (py_truthy auth_code) then
      logging_error [Lit "Missing QR code or auth code in response"] None ;;
      sys_exit "Authentication initialization failed"
    else
      ask (fun E h => o_qr_save E h qr_code temp_path)
          (EQrSave qr_code temp_path) ;;
      display_qr_code OracleInteraction temp_path ;;
      token_info <- _poll_for_auth fuel self json_loads next_poll_url
                                   auth_code verifier ;;
      try_except_all
        (ask (fun E h => o_remove E h temp_path) (ERemove temp_path)) ;;
      ret token_info in
  o_get E h home_url [] = Ok r0 ->
  o_post E (h1 ++ [ETokenUrlsafe 32 verifier]) authorize_url
         (authorize_params challenge) authorize_headers = Ok resp ->
  status_code resp = 201%Z \/ status_code resp = 202%Z ->
  json_body resp = Some (PDict d) ->
  authenticate fuel self sha256 json_loads ssn E h =
  (fst (continue E (h ++ pre)), pre ++ snd (continue E (h ++ pre))).
Proof.
  intros h1 verifier challenge pre qr_code next_poll_url auth_code temp_path
    continue Hg Hp Hs Hj.
  unfold authenticate, api.session_get. fold home_url.
  rewrite ask_bind, Hg. fold h1.
  rewrite (bind_ret _ _ E h1 verifier [ETokenUrlsafe 32 verifier] eq_refl).
  fold challenge.
  rewrite (bind_ret _ _ E _ _ _
             (initialize_ok challenge E _ resp (PDict d) Hp Hs Hj)).
  cbn [py_get]. rewrite !lift_ok_bind.
  fold (dict_value d "qr_code") (dict_value d "next_poll_url")
       (dict_value d "code").
  fold qr_code next_poll_url auth_code temp_path.
  cbn [interaction_provider self]. fold self. fold continue.
  cbn [fst snd]. subst pre h1. rewrite <- !app_assoc. reflexivity.
Qed.

End Initialization.

Lemma poll_first_events temp json_loads fuel next_poll_url auth_code
      code_verifier E h :
  exists rest,
    snd (auth._poll_for_auth (S fuel)
           (auth.mkKivraAuth temp interaction.OracleInteraction) json_loads
           next_poll_url auth_code code_verifier E h)
    = ESleep 5
      :: EGet (poll_url next_poll_url) []
              (o_get E (h ++ [ESleep 5]) (poll_url next_poll_url) [])
      :: rest.
Proof.
  cbn [auth._poll_for_auth]. unfold time_sleep. rewrite emit_bind.
  unfold api.session_get. fold (poll_url next_poll_url). rewrite ask_bind.
  destruct (o_get E (h ++ [ESleep 5]) (poll_url next_poll_url) []) as [r | e];
    cbn [snd]; eauto.
Qed.

(** C7, as the code has it.  After a successful authorization
    initialization request (status 201 or 202, a JSON object as body) the
    authenticator exits, with "Authentication initialization failed", when
    the scannable code or the authorization code is absent or empty, and it
    has then neither saved nor displayed a QR image nor polled.  When both are
    present it goes on: it saves the QR image, and once that and the display
    succeeded it polls the URL formed from the polling URL of the answer,
    which it does not check: an absent polling URL is formatted as None. *)
Theorem C7_authorization_initialization
        fuel temp sha256 json_loads ssn E h r0 resp d :
  let self := auth.mkKivraAuth temp interaction.OracleInteraction in
  let h1 := h ++ [EGet home_url [] (Ok r0)] in
  let verifier := o_token_urlsafe E h1 32 in
  let challenge := auth._generate_code_challenge sha256 verifier in
  let pre := [EGet home_url [] (Ok r0); ETokenUrlsafe 32 verifier;
              EPost authorize_url (authorize_params challenge)
                    authorize_headers (Ok resp)] in
  let qr_code := dict_value d "qr_code" in
  let next_poll_url := dict_value d "next_poll_url" in
  let auth_code := dict_value d "code" in
  let temp_path := [temp; "kivra_qr.png"] in
  let run := auth.authenticate fuel self sha256 json_loads ssn E h in
  o_get E h home_url [] = Ok r0 ->
  o_post E (h1 ++ [ETokenUrlsafe 32 verifier]) authorize_url
         (authorize_params challenge) authorize_headers = Ok resp ->
  status_code resp = 201%Z \/ status_code resp = 202%Z ->
  json_body resp = Some (PDict d) ->
  (py_truthy qr_code = false \/ py_truthy auth_code = false ->
   run = (Raise (SystemExit "Authentication initialization failed"),
          pre ++ [init_failure_log])) /\
  (py_truthy qr_code = true -> py_truthy auth_code = true ->
   exists rest,
     snd run = pre ++ EQrSave qr_code temp_path
                              (o_qr_save E (h ++ pre) qr_code temp_path)
                      :: rest) /\
  (py_truthy qr_code = true -> py_truthy auth_code = true ->
   let saved := EQrSave qr_code temp_path (Ok tt) in
   let shown := EDisplayQrCode temp_path (Ok tt) in
   o_qr_save E (h ++ pre) qr_code temp_path = Ok tt ->
   o_display_qr_code E ((h ++ pre) ++ [saved]) temp_path = Ok tt ->
   (0 < fuel)%nat ->
   exists poll rest,
     snd run = pre ++ saved :: shown :: ESleep 5
                   :: EGet (poll_url next_poll_url) [] poll :: rest).
Proof.
  intros self h1 verifier challenge pre qr_code next_poll_url auth_code
    temp_path run Hg Hp Hs Hj. subst run self.
  rewrite (authenticate_prefix temp sha256 json_loads fuel ssn E h r0 resp d
             Hg Hp Hs Hj).
  cbv zeta. fold h1 verifier challenge pre qr_code next_poll_url auth_code
    temp_path.
  split; [| split].
  - intros Hbad.
    assert (Hb : negb (py_truthy qr_code) || negb (py_truthy auth_code) = true)
      by (destruct Hbad as [-> | ->]; [reflexivity | apply orb_true_r]).
    rewrite Hb. unfold logging_error. rewrite emit_bind. reflexivity.
  - intros Hq Hc. rewrite Hq, Hc. cbn [negb orb snd].
    rewrite ask_bind.
    destruct (o_qr_save E (h ++ pre) qr_code temp_path) as [[] | e];
      cbn [snd]; eauto.
  - intros Hq Hc Hsave Hshow Hfuel.
    destruct fuel as [| fuel']; [lia |].
    rewrite Hq, Hc. cbn [negb orb snd].
    rewrite ask_bind, Hsave. cbn [snd].
    cbn [interaction.display_qr_code interaction.OracleInteraction].
    rewrite ask_bind, Hshow. cbn [snd].
    match goal with |- context [bind ?m ?k E ?hh] =>
      destruct (bind_prefix m k E hh) as [rest Hrest]; rewrite Hrest;
      destruct (poll_first_events temp json_loads fuel' next_poll_url
                  auth_code verifier E hh) as [rest' Hrest'];
      rewrite Hrest'
    end.
    eexists. eexists. cbn [app]. reflexivity.
Qed.

Lemma C7_witness :
  let E := demo_env_no_poll_url in
  let r0 := json_response (PDict []) in
  let resp := mkResponse 201
                (Some (PDict [("qr_code", PStr "bankid.qr");
                              ("code", PStr "authcode")])) EmptyString EmptyString (PDict []) in
  let d := [("qr_code", PStr "bankid.qr"); ("code", PStr "authcode")] in
  let challenge := auth._generate_code_challenge demo_sha256 "verifier" in
  let pre := [EGet home_url [] (Ok r0); ETokenUrlsafe 32 "verifier";
              EPost authorize_url (authorize_params challenge)
                    authorize_headers (Ok resp)] in
  let temp_path := ["/tmp"; "kivra_qr.png"] in
  let run := auth.authenticate 1 demo_auth demo_sha256 demo_json_loads
                               "199001011234" E [] in
  (o_get E [] home_url [] = Ok r0 /\
   o_post E [EGet home_url [] (Ok r0); ETokenUrlsafe 32 "verifier"]
          authorize_url (authorize_params challenge) authorize_headers
   = Ok resp /\
   status_code resp = 201%Z /\
   py_truthy (dict_value d "qr_code") = true /\
   py_truthy (dict_value d "code") = true) /\
  exists poll rest,
    snd run = pre ++ EQrSave (PStr "bankid.qr") temp_path (Ok tt)
                  :: EDisplayQrCode temp_path (Ok tt) :: ESleep 5
                  :: EGet (poll_url PNone) [] poll :: rest.
Proof.
  intros E r0 resp d challenge pre temp_path run.
  split; [repeat split |].
  exact (proj2 (proj2
    (C7_authorization_initialization 1 "/tmp" demo_sha256 demo_json_loads
       "199001011234" E [] r0 resp d eq_refl eq_refl (or_introl eq_refl)
       eq_refl))
    eq_refl eq_refl eq_refl eq_refl (le_n 1)).
Defined.

(** C7 as stated fails: the authorization answer carries no polling URL,
    yet the authenticator does not stop at the validation; it displays the QR
    code and polls the URL formed from the absent value. *)
Lemma C7_counterexample :
  let E := demo_env_no_poll_url in
  let r0 := json_response (PDict []) in
  let run := auth.authenticate 1 demo_auth demo_sha256 demo_json_loads
                               "199001011234" E [] in
  dict_get [("qr_code", PStr "bankid.qr"); ("code", PStr "authcode")]
           "next_poll_url" = None /\
  fst run <> Raise (SystemExit "Authentication initialization failed") /\
  filter is_display (snd run) = [EDisplayQrCode ["/tmp"; "kivra_qr.png"] (Ok tt)] /\
  filter is_get (snd run)
  = [EGet home_url [] (Ok r0); EGet (poll_url PNone) [] (Ok r0)].
Proof.
  intros E r0 run. split; [reflexivity |]. split; [| split].
  - vm_compute. discriminate.
  - vm_compute. reflexivity.
  - vm_compute. reflexivity.
Qed.

(** ** Base64 segments: the challenge and the identity token *)

Ltac byte_lia := zify; Z.to_euclidean_division_equations; lia.

Lemma triple_ind (A : Type) (P : list A -> Prop) :
  P [] -> (forall a, P [a]) -> (forall a b, P [a; b]) ->
  (forall a b c rest, P rest -> P (a :: b :: c :: rest)) ->
  forall l, P l.
Proof.
  intros H0 H1 H2 H3.
  fix IH 1.
  intros [|a [|b [|c rest]]].
  - exact H0.
  - apply H1.
  - apply H2.
  - apply H3. apply IH.
Qed.

Lemma sextets_ok (i : N) : (i < 64)%N -> sextet_ok i = true.
Proof.
  intros Hi.
  assert (H : forallb sextet_ok (map N.of_nat (seq 0 64)) = true)
    by (vm_compute; reflexivity).
  rewrite forallb_forall in H. apply H.
  apply in_map_iff. exists (N.to_nat i). split.
  - apply N2Nat.id.
  - apply in_seq. lia.
Qed.

Lemma sextet_facts (i : N) :
  (i < 64)%N ->
  (is_dash (base64.b2a base64.urlsafe_alphabet i) = false ->
   base64.b2a base64.urlsafe_alphabet i
   = base64.b2a base64.standard_alphabet i)
  /\ Ascii.eqb (base64.b2a base64.urlsafe_alphabet i) base64.pad = false
  /\ Ascii.eqb (base64.b2a base64.standard_alphabet i) base64.pad = false
  /\ base64.is_ascii (base64.b2a base64.urlsafe_alphabet i) = true
  /\ base64.a2b base64.standard_alphabet
       (base64.b2a base64.standard_alphabet i) = Some i.
Proof.
  intros Hi. pose proof (sextets_ok i Hi) as H. unfold sextet_ok in H.
  cbv zeta in H.
  apply andb_prop in H. destruct H as [H H5].
  apply andb_prop in H. destruct H as [H H4].
  apply andb_prop in H. destruct H as [H H3].
  apply andb_prop in H. destruct H as [H1 H2].
  repeat apply conj.
  - intros Hd. rewrite Hd in H1. cbn [orb] in H1.
    apply Ascii.eqb_eq. exact H1.
  - apply negb_true_iff. exact H2.
  - apply negb_true_iff. exact H3.
  - exact H4.
  - destruct (base64.a2b base64.standard_alphabet
                (base64.b2a base64.standard_alphabet i)) as [j|];
      [|discriminate].
    apply N.eqb_eq in H5. congruence.
Qed.

(** One data character of the standard alphabet in [base64.a2b_step]. *)
Lemma a2b_step_data (q l p : N) (out : list N) (i : N) :
  (i < 64)%N ->
  base64.a2b_step (base64.mkA2b q l p out false)
                  (base64.b2a base64.standard_alphabet i)
  = match q with
    | 0 => base64.mkA2b 1 i 0 out false
    | 1 => base64.mkA2b 2 (i mod 16) 0 (out ++ [l * 4 + i / 16]) false
    | 2 => base64.mkA2b 3 (i mod 4) 0 (out ++ [l * 16 + i / 4]) false
    | _ => base64.mkA2b 0 0 0 (out ++ [l * 64 + i]) false
    end%N.
Proof.
  intros Hi. destruct (sextet_facts i Hi) as (_ & _ & Hp & _ & Ha).
  unfold base64.a2b_step.
  cbn [base64.finished base64.quad_pos base64.leftchar base64.bin_data].
  rewrite Hp, Ha. reflexivity.
Qed.

Lemma a2b_quad (a b c : N) (out : list N) :
  (a < 256)%N -> (b < 256)%N -> (c < 256)%N ->
  fold_left base64.a2b_step
    [base64.b2a base64.standard_alphabet (a / 4);
     base64.b2a base64.standard_alphabet (a mod 4 * 16 + b / 16);
     base64.b2a base64.standard_alphabet (b mod 16 * 4 + c / 64);
     base64.b2a base64.standard_alphabet (c mod 64)]
    (base64.mkA2b 0 0 0 out false)
  = base64.mkA2b 0 0 0 (out ++ [a; b; c]) false.
Proof.
  intros Ha Hb Hc. cbn [fold_left].
  rewrite (a2b_step_data 0 0 0 out) by byte_lia.
  rewrite (a2b_step_data 1) by byte_lia.
  rewrite (a2b_step_data 2) by byte_lia.
  rewrite (a2b_step_data 3) by byte_lia.
  rewrite <- !app_assoc. cbn [app].
  f_equal. f_equal. f_equal; [|f_equal; [|f_equal]]; byte_lia.
Qed.

Lemma a2b_pair (a : N) (out : list N) :
  (a < 256)%N ->
  fold_left base64.a2b_step
    [base64.b2a base64.standard_alphabet (a / 4);
     base64.b2a base64.standard_alphabet (a mod 4 * 16)]
    (base64.mkA2b 0 0 0 out false)
  = base64.mkA2b 2 ((a mod 4 * 16) mod 16) 0 (out ++ [a]) false.
Proof.
  intros Ha. cbn [fold_left].
  rewrite (a2b_step_data 0 0 0 out) by byte_lia.
  rewrite (a2b_step_data 1) by byte_lia.
  f_equal. f_equal. f_equal. byte_lia.
Qed.

Lemma a2b_triple (a b : N) (out : list N) :
  (a < 256)%N -> (b < 256)%N ->
  fold_left base64.a2b_step
    [base64.b2a base64.standard_alphabet (a / 4);
     base64.b2a base64.standard_alphabet (a mod 4 * 16 + b / 16);
     base64.b2a base64.standard_alphabet (b mod 16 * 4)]
    (base64.mkA2b 0 0 0 out false)
  = base64.mkA2b 3 ((b mod 16 * 4) mod 4) 0 (out ++ [a; b]) false.
Proof.
  intros Ha Hb. cbn [fold_left].
  rewrite (a2b_step_data 0 0 0 out) by byte_lia.
  rewrite (a2b_step_data 1) by byte_lia.
  rewrite (a2b_step_data 2) by byte_lia.
  rewrite <- app_assoc. cbn [app].
  f_equal. f_equal. f_equal; [|f_equal]; byte_lia.
Qed.

Lemma list_ascii_of_string_app (s t : string) :
  list_ascii_of_string (s ++ t)
  = list_ascii_of_string s ++ list_ascii_of_string t.
Proof.
  induction s as [|c s IH]; cbn; [reflexivity|]. rewrite IH. reflexivity.
Qed.

Lemma length_string_of_list_ascii (l : list ascii) :
  String.length (string_of_list_ascii l) = List.length l.
Proof.
  induction l as [|c l IH]; cbn; [reflexivity|]. rewrite IH. reflexivity.
Qed.

Lemma length_list_ascii_of_string (s : string) :
  List.length (list_ascii_of_string s) = String.length s.
Proof.
  induction s as [|c s IH]; cbn; [reflexivity|]. rewrite IH. reflexivity.
Qed.

Lemma list_ascii_of_pad_string (n : nat) :
  list_ascii_of_string (base64.pad_string n) = repeat base64.pad n.
Proof.
  induction n as [|n IH]; cbn; [reflexivity|]. rewrite IH. reflexivity.
Qed.

Lemma N_to_bytes_to_N (s : string) :
  base64.N_to_bytes (base64.bytes_to_N s) = s.
Proof.
  unfold base64.N_to_bytes, base64.bytes_to_N. rewrite map_map.
  rewrite (map_ext _ (fun c => c)) by apply ascii_N_embedding.
  rewrite map_id. apply string_of_list_ascii_of_string.
Qed.

Lemma bytes_to_N_bounded (s : string) :
  Forall (fun b => (b < 256)%N) (base64.bytes_to_N s).
Proof.
  unfold base64.bytes_to_N. apply Forall_forall. intros b Hb.
  apply in_map_iff in Hb. destruct Hb as (c & <- & _).
  apply N_ascii_bounded.
Qed.

Lemma length_bytes_to_N (s : string) :
  List.length (base64.bytes_to_N s) = String.length s.
Proof.
  unfold base64.bytes_to_N. rewrite length_map.
  apply length_list_ascii_of_string.
Qed.

Lemma length_N_to_bytes (l : list N) :
  String.length (base64.N_to_bytes l) = List.length l.
Proof.
  unfold base64.N_to_bytes. rewrite length_string_of_list_ascii.
  apply length_map.
Qed.

Lemma sextet_not_pad (i : N) :
  (i < 64)%N ->
  Ascii.eqb (base64.b2a base64.urlsafe_alphabet i) base64.pad = false.
Proof. intros Hi. apply (sextet_facts i Hi). Qed.

Lemma sextet_ascii (i : N) :
  (i < 64)%N ->
  base64.is_ascii (base64.b2a base64.urlsafe_alphabet i) = true.
Proof. intros Hi. apply (sextet_facts i Hi). Qed.

(** [rstrip('=')] keeps a character that is not the padding character. *)
Lemma rstrip_pad_keep (c : ascii) (s : string) :
  Ascii.eqb c base64.pad = false ->
  base64.rstrip_pad (String c s) = String c (base64.rstrip_pad s).
Proof.
  intros Hc. cbn [base64.rstrip_pad].
  destruct (base64.rstrip_pad s); [rewrite Hc|]; reflexivity.
Qed.

(** Stripping the padding of an encoding leaves its data characters. *)
Lemma rstrip_encode (bs : list N) :
  Forall (fun b => (b < 256)%N) bs ->
  base64.rstrip_pad
    (string_of_list_ascii (base64.encode_bytes base64.urlsafe_alphabet bs))
  = string_of_list_ascii (encode_nopad base64.urlsafe_alphabet bs).
Proof.
  induction bs as [|a|a b|a b c rest IH] using triple_ind; intros Hbs.
  - reflexivity.
  - inversion Hbs as [|? ? Ha _]; subst.
    cbn [base64.encode_bytes encode_nopad string_of_list_ascii].
    rewrite !rstrip_pad_keep by (apply sextet_not_pad; byte_lia).
    reflexivity.
  - inversion Hbs as [|? ? Ha Hbs']; subst.
    inversion Hbs' as [|? ? Hb _]; subst.
    cbn [base64.encode_bytes encode_nopad string_of_list_ascii].
    rewrite !rstrip_pad_keep by (apply sextet_not_pad; byte_lia).
    reflexivity.
  - inversion Hbs as [|? ? Ha Hbs']; subst.
    inversion Hbs' as [|? ? Hb Hbs'']; subst.
    inversion Hbs'' as [|? ? Hc Hrest]; subst.
    cbn [base64.encode_bytes encode_nopad string_of_list_ascii].
    rewrite !rstrip_pad_keep by (apply sextet_not_pad; byte_lia).
    rewrite (IH Hrest). reflexivity.
Qed.

Lemma segment_of_nopad (s : string) :
  segment_of s
  = string_of_list_ascii
      (encode_nopad base64.urlsafe_alphabet (base64.bytes_to_N s)).
Proof.
  unfold segment_of, base64.urlsafe_b64encode.
  apply rstrip_encode. apply bytes_to_N_bounded.
Qed.

(** The data characters are ASCII. *)
Lemma encode_nopad_ascii (bs : list N) :
  Forall (fun b => (b < 256)%N) bs ->
  forallb base64.is_ascii (encode_nopad base64.urlsafe_alphabet bs) = true.
Proof.
  induction bs as [|a|a b|a b c rest IH] using triple_ind; intros Hbs.
  - reflexivity.
  - inversion Hbs as [|? ? Ha _]; subst.
    cbn [encode_nopad forallb].
    rewrite !sextet_ascii by byte_lia.
    reflexivity.
  - inversion Hbs as [|? ? Ha Hbs']; subst.
    inversion Hbs' as [|? ? Hb _]; subst.
    cbn [encode_nopad forallb].
    rewrite !sextet_ascii by byte_lia.
    reflexivity.
  - inversion Hbs as [|? ? Ha Hbs']; subst.
    inversion Hbs' as [|? ? Hb Hbs'']; subst.
    inversion Hbs'' as [|? ? Hc Hrest]; subst.
    cbn [encode_nopad forallb].
    rewrite !sextet_ascii by byte_lia.
    rewrite (IH Hrest). reflexivity.
Qed.

Ltac to_standard H :=
  repeat match type of H with
  | (negb (is_dash (base64.b2a base64.urlsafe_alphabet ?i)) && _)%bool = true =>
      let H1 := fresh "Hdash" in
      let Hi := fresh "Hi" in
      apply andb_prop in H; destruct H as [H1 H];
      apply negb_true_iff in H1;
      assert (Hi : (i < 64)%N) by byte_lia;
      rewrite (proj1 (sextet_facts i Hi) H1); clear Hi H1
  end.

Lemma quad_length_mod (A : Type) (a b c d : A) (l : list A) :
  List.length (a :: b :: c :: d :: l) mod 4 = List.length l mod 4.
Proof.
  cbn [List.length].
  replace (S (S (S (S (List.length l))))) with (List.length l + 1 * 4) by lia.
  apply Nat.Div0.mod_add.
Qed.

(** Decoding the data characters of an encoding that avoids [-] and [_]
    gives the encoded bytes back, and stops inside a quad exactly where the
    encoding does. *)
Lemma decode_nopad (bs : list N) :
  Forall (fun b => (b < 256)%N) bs ->
  forallb (fun c => negb (is_dash c))
          (encode_nopad base64.urlsafe_alphabet bs) = true ->
  forall out, exists q l,
    fold_left base64.a2b_step (encode_nopad base64.urlsafe_alphabet bs)
              (base64.mkA2b 0 0 0 out false)
    = base64.mkA2b q l 0 (out ++ bs) false
    /\ q = N.of_nat
             (List.length (encode_nopad base64.urlsafe_alphabet bs) mod 4)
    /\ q <> 1%N.
Proof.
  induction bs as [|a|a b|a b c rest IH] using triple_ind;
    intros Hbs Hfree out.
  - exists 0%N, 0%N. cbn. rewrite app_nil_r.
    repeat apply conj; [reflexivity|reflexivity|discriminate].
  - inversion Hbs as [|? ? Ha _]; subst.
    cbn [encode_nopad forallb] in Hfree |- *. to_standard Hfree.
    exists 2%N, ((a mod 4 * 16) mod 16)%N.
    repeat apply conj; [|reflexivity|discriminate].
    apply a2b_pair. exact Ha.
  - inversion Hbs as [|? ? Ha Hbs']; subst.
    inversion Hbs' as [|? ? Hb _]; subst.
    cbn [encode_nopad forallb] in Hfree |- *. to_standard Hfree.
    exists 3%N, ((b mod 16 * 4) mod 4)%N.
    repeat apply conj; [|reflexivity|discriminate].
    apply a2b_triple; assumption.
  - inversion Hbs as [|? ? Ha Hbs']; subst.
    inversion Hbs' as [|? ? Hb Hbs'']; subst.
    inversion Hbs'' as [|? ? Hc Hrest]; subst.
    cbn [encode_nopad forallb] in Hfree |- *. to_standard Hfree.
    destruct (IH Hrest Hfree (out ++ [a; b; c])) as (q & l & Hq & Hm & Hne).
    exists q, l. rewrite quad_length_mod.
    repeat apply conj; [|exact Hm|exact Hne].
    rewrite (fold_left_app base64.a2b_step
               [base64.b2a base64.standard_alphabet (a / 4);
                base64.b2a base64.standard_alphabet (a mod 4 * 16 + b / 16);
                base64.b2a base64.standard_alphabet (b mod 16 * 4 + c / 64);
                base64.b2a base64.standard_alphabet (c mod 64)]
               (encode_nopad base64.urlsafe_alphabet rest)).
    rewrite (a2b_quad a b c out Ha Hb Hc), Hq.
    rewrite <- app_assoc. reflexivity.
Qed.

Lemma forallb_repeat (A : Type) (f : A -> bool) (x : A) (n : nat) :
  f x = true -> forallb f (repeat x n) = true.
Proof.
  intros Hx. induction n as [|n IH]; cbn; [reflexivity|].
  rewrite Hx, IH. reflexivity.
Qed.

(** The padding-restoring decode of [auth.py] on the data characters of an
    encoding. *)
Lemma decode_segment_nopad (bs : list N) :
  Forall (fun b => (b < 256)%N) bs ->
  auth.decode_segment
    (string_of_list_ascii (encode_nopad base64.urlsafe_alphabet bs))
  = rbind (base64.a2b_base64
             (encode_nopad base64.urlsafe_alphabet bs
              ++ repeat base64.pad
                   (4 - List.length
                          (encode_nopad base64.urlsafe_alphabet bs) mod 4)))
          (fun out => Ok (base64.N_to_bytes out)).
Proof.
  intros Hbs. unfold auth.decode_segment, base64.b64decode. cbv zeta.
  rewrite list_ascii_of_string_app, list_ascii_of_string_of_list_ascii,
    list_ascii_of_pad_string, length_string_of_list_ascii.
  rewrite forallb_app, (encode_nopad_ascii bs Hbs),
    (forallb_repeat _ _ _ _ (eq_refl : base64.is_ascii base64.pad = true)).
  reflexivity.
Qed.

(** Where the segment contains neither [-] nor [_], restoring the padding
    and decoding recovers the encoded bytes. *)
Lemma decode_segment_dash_free (s : string) :
  dash_free (segment_of s) = true ->
  auth.decode_segment (segment_of s) = Ok s.
Proof.
  rewrite segment_of_nopad. unfold dash_free.
  rewrite list_ascii_of_string_of_list_ascii. intros Hfree.
  pose proof (bytes_to_N_bounded s) as Hbs.
  rewrite (decode_segment_nopad _ Hbs).
  destruct (decode_nopad _ Hbs Hfree []) as (q & l & Hq & Hm & Hne).
  unfold base64.a2b_base64, base64.a2b_init. cbv zeta.
  rewrite fold_left_app, Hq.
  cbn [app].
  assert (Hlt : List.length
                  (encode_nopad base64.urlsafe_alphabet (base64.bytes_to_N s))
                mod 4 < 4) by (apply Nat.mod_upper_bound; lia).
  pose proof (N_to_bytes_to_N s) as Hback.
  destruct (List.length
              (encode_nopad base64.urlsafe_alphabet (base64.bytes_to_N s))
            mod 4) as [|[|[|[|m]]]]; subst q;
    remember (base64.bytes_to_N s) as bs.
  - cbn. exact (f_equal _ Hback).
  - exfalso. apply Hne. reflexivity.
  - cbn. exact (f_equal _ Hback).
  - cbn. exact (f_equal _ Hback).
  - lia.
Qed.

(** One character moves [base64.a2b_step] by at most six bits, and only a
    data character moves it at all. *)
Lemma a2b_step_count (st : base64.a2b_state) (c : ascii) :
  (base64.quad_pos st <= 3)%N ->
  (base64.quad_pos (base64.a2b_step st c) <= 3)%N
  /\ 4 * List.length (base64.bin_data (base64.a2b_step st c))
     + quad_debt (base64.quad_pos (base64.a2b_step st c))
     <= 4 * List.length (base64.bin_data st)
        + quad_debt (base64.quad_pos st)
        + (if is_data c then 3 else 0).
Proof.
  destruct st as [q l p out fin]. cbn [base64.quad_pos]. intros Hq.
  unfold base64.a2b_step, is_data.
  cbn [base64.finished base64.quad_pos base64.leftchar base64.bin_data
       base64.pads].
  destruct fin; [cbn; lia|].
  destruct (Ascii.eqb c base64.pad).
  - destruct (2 <=? q)%N; [|cbn; lia].
    destruct (4 <=? q + (p + 1))%N; cbn; lia.
  - cbn [negb andb].
    destruct (base64.a2b base64.standard_alphabet c) as [v|]; [|cbn; lia].
    assert (Hcases : q = 0%N \/ q = 1%N \/ q = 2%N \/ q = 3%N) by lia.
    destruct Hcases as [-> | [-> | [-> | ->]]];
      cbn [base64.quad_pos base64.bin_data quad_debt];
      rewrite ?length_app; cbn [List.length]; lia.
Qed.

Lemma a2b_fold_count (l : list ascii) (st : base64.a2b_state) :
  (base64.quad_pos st <= 3)%N ->
  4 * List.length (base64.bin_data (fold_left base64.a2b_step l st))
  <= 4 * List.length (base64.bin_data st) + quad_debt (base64.quad_pos st)
     + 3 * List.length (filter is_data l).
Proof.
  revert st. induction l as [|c l IH]; intros st Hq.
  - cbn. lia.
  - cbn [fold_left filter].
    destruct (a2b_step_count st c Hq) as [Hq' Hstep].
    specialize (IH (base64.a2b_step st c) Hq').
    destruct (is_data c); cbn [List.length]; lia.
Qed.

(** A decoding has at most six bits for each data character read. *)
Lemma a2b_base64_length (l : list ascii) (out : list N) :
  base64.a2b_base64 l = Ok out ->
  4 * List.length out <= 3 * List.length (filter is_data l).
Proof.
  unfold base64.a2b_base64. cbv zeta. intros H.
  pose proof (a2b_fold_count l base64.a2b_init) as Hc.
  cbn [base64.a2b_init base64.quad_pos base64.bin_data quad_debt List.length]
    in Hc.
  destruct (negb _ && negb _)%bool; [discriminate|].
  injection H as <-. apply Hc. lia.
Qed.

Lemma is_dash_not_data (c : ascii) : is_dash c = true -> is_data c = false.
Proof.
  unfold is_dash. intros H. apply orb_prop in H.
  destruct H as [H | H]; apply Ascii.eqb_eq in H; subst c; reflexivity.
Qed.

Lemma filter_length_bound (A : Type) (f : A -> bool) (l : list A) :
  List.length (filter f l) <= List.length l.
Proof.
  induction l as [|x l IH]; cbn; [lia|].
  destruct (f x); cbn; lia.
Qed.

(** A [-] or [_] in the input is one data character less. *)
Lemma data_of_dashed (l : list ascii) :
  forallb (fun c => negb (is_dash c)) l = false ->
  List.length (filter is_data l) < List.length l.
Proof.
  induction l as [|c l IH]; cbn [forallb filter List.length];
    [discriminate|].
  intros H. apply andb_false_iff in H. destruct H as [H | H].
  - apply negb_false_iff in H. rewrite (is_dash_not_data c H).
    pose proof (filter_length_bound _ is_data l). lia.
  - specialize (IH H). destruct (is_data c); cbn [List.length]; lia.
Qed.

Lemma data_of_padding (n : nat) : filter is_data (repeat base64.pad n) = [].
Proof. induction n as [|n IH]; cbn; [reflexivity|exact IH]. Qed.

(** Four characters encode three bytes; the last quad may lack one or two. *)
Lemma encode_nopad_length (alphabet : string) (bs : list N) :
  3 * List.length (encode_nopad alphabet bs) <= 4 * List.length bs + 2.
Proof.
  induction bs as [|a|a b|a b c rest IH] using triple_ind;
    cbn [encode_nopad List.length]; lia.
Qed.

(** Where the segment contains a [-] or a [_], restoring the padding and
    decoding does not recover the encoded bytes. *)
Lemma decode_segment_dashed (s : string) :
  auth.decode_segment (segment_of s) = Ok s ->
  dash_free (segment_of s) = true.
Proof.
  rewrite segment_of_nopad. unfold dash_free.
  rewrite list_ascii_of_string_of_list_ascii.
  pose proof (bytes_to_N_bounded s) as Hbs.
  rewrite (decode_segment_nopad _ Hbs). intros Hdec.
  destruct (base64.a2b_base64 _) as [out|e] eqn:Hout; [|discriminate].
  cbn [rbind] in Hdec. injection Hdec as Hs.
  apply a2b_base64_length in Hout.
  rewrite filter_app, data_of_padding, app_nil_r in Hout.
  pose proof (length_N_to_bytes out) as Hlen. rewrite Hs in Hlen.
  pose proof (length_bytes_to_N s) as Hlen'.
  pose proof (encode_nopad_length base64.urlsafe_alphabet
                (base64.bytes_to_N s)) as Henc.
  destruct (forallb _ _) eqn:Hfree; [reflexivity|].
  apply data_of_dashed in Hfree. lia.
Qed.

(** C9 (challenge derivation determinism and round trip).  The challenge is
    a function of the verifier alone: the padding-stripped base64url segment
    of the verifier's SHA-256 digest.  The decode applied to the payload of
    the identity token restores the padding and then reads the standard
    alphabet, so it recovers the bytes of a padding-stripped base64url
    segment exactly when the segment contains neither [-] nor [_].  The
    digest of the verifier abc and the payload with the user id 15? have a
    segment with such a character: decoding either raises binascii.Error
    instead of returning the bytes, and the token exchange that receives an
    identity token with this payload ends with that exception. *)
Theorem C9_challenge_round_trip
        (sha256 : string -> string) (json_loads : string -> result pyval)
        (v s : string) :
  auth._generate_code_challenge sha256 v = segment_of (sha256 v)
  /\ (auth.decode_segment (segment_of s) = Ok s
      <-> dash_free (segment_of s) = true)
  /\ segment_of abc_digest = "ungWv48Bz-pBQUDeXa4iI7ADYaOWF3qctBD_YfIAFa0"
  /\ auth.decode_segment (segment_of abc_digest) = Err BinasciiError
  /\ segment_of demo_token_payload = "eyJraXZyYV91c2VyX2lkIjoiMTU_In0"
  /\ auth.decode_segment (segment_of demo_token_payload) = Err BinasciiError
  /\ auth.split_dot demo_id_token
     = ["eyJhbGciOiJSUzI1NiJ9"; segment_of demo_token_payload; "c2ln"]
  /\ fst (run (auth.exchange_token demo_auth json_loads (PStr "authcode")
                                   "verifier")
              demo_env_token)
     = Raise (Exception BinasciiError).
Proof.
  repeat apply conj.
  - reflexivity.
  - apply decode_segment_dashed.
  - apply decode_segment_dash_free.
  - vm_compute. reflexivity.
  - vm_compute. reflexivity.
  - vm_compute. reflexivity.
  - vm_compute. reflexivity.
  - vm_compute. reflexivity.
  - vm_compute. reflexivity.
Qed.

Lemma C9_witness :
  dash_free (segment_of "kivra_user_id") = true
  /\ auth.decode_segment (segment_of "kivra_user_id") = Ok "kivra_user_id".
Proof.
  assert (Hfree : dash_free (segment_of "kivra_user_id") = true)
    by (vm_compute; reflexivity).
  split; [exact Hfree|].
  exact (proj2 (proj1 (proj2
           (C9_challenge_round_trip demo_sha256 demo_json_loads
              "verifier" "kivra_user_id"))) Hfree).
Defined.

(** * Further properties of the code *)

(** ** kivra/api.py *)

(** X1.  graphql_query hands back the JSON of the answer exactly when the one
    POST it issues is answered with status 200 and a JSON body without an
    'errors' member; it has then emitted nothing but that request. *)
Theorem graphql_query_returns_iff client operation_name query variables
        E h data ev :
  api.graphql_query client operation_name query variables E h = (Ret data, ev)
  <->
  exists r,
    o_post E h api.graphql_url
           (graphql_payload operation_name query variables)
           (api.get_headers client) = Ok r
    /\ status_code r = 200%Z
    /\ json_body r = Some data
    /\ py_contains "errors" data = Ok false
    /\ ev = [EPost api.graphql_url
                   (graphql_payload operation_name query variables)
                   (api.get_headers client) (Ok r)].
Proof.
  unfold api.graphql_query, api.session_post, graphql_payload. cbv zeta.
  rewrite ask_bind.
  destruct (o_post E h api.graphql_url _ (api.get_headers client))
    as [r | e]; [| split; [discriminate | intros (r & Hr & _); discriminate]].
  destruct (status_code r =? 200)%Z eqn:Hs; cbn [negb].
  - apply Z.eqb_eq in Hs. unfold api.response_json.
    destruct (json_body r) as [d |] eqn:Hj.
    + rewrite lift_ok_bind.
      destruct (py_contains "errors" d) as [[|] | e] eqn:Hc.
      * rewrite lift_ok_bind. split.
        -- destruct (py_getitem d "errors"); cbn; discriminate.
        -- intros (r' & Hr & _ & Hd & Hc' & _).
           injection Hr as <-. congruence.
      * rewrite lift_ok_bind. cbn [ret fst snd]. split.
        -- intros H. injection H as <- <-. exists r. auto.
        -- intros (r' & Hr & _ & Hd & _ & ->). injection Hr as <-.
           congruence.
      * cbn. split; [discriminate |].
        intros (r' & Hr & _ & Hd & Hc' & _). injection Hr as <-. congruence.
    + cbn. split; [discriminate |].
      intros (r' & Hr & _ & Hd & _). injection Hr as <-. congruence.
  - apply Z.eqb_neq in Hs. unfold logging_error. rewrite emit_bind. cbn.
    split; [discriminate |].
    intros (r' & Hr & Hs' & _). injection Hr as <-. contradiction.
Qed.

(** X2.  The three REST fetchers hand back the body of the answer exactly when
    the one GET they issue is answered with status 200 (and, for the content
    details, with a JSON body); they have then emitted nothing but that
    request. *)
Theorem rest_fetchers_return_iff client E h :
  (forall url c ev,
      api.get_pdf client url E h = (Ret c, ev) <->
      exists r,
        o_get E h url (pdf_headers client) = Ok r
        /\ status_code r = 200%Z /\ c = content r
        /\ ev = [EGet url (pdf_headers client) (Ok r)])
  /\ (forall content_key file_key c ev,
      api.get_content_file client content_key file_key E h = (Ret c, ev) <->
      exists r,
        o_get E h (file_url content_key file_key) (file_headers client) = Ok r
        /\ status_code r = 200%Z /\ c = content r
        /\ ev = [EGet (file_url content_key file_key) (file_headers client)
                      (Ok r)])
  /\ (forall content_key d ev,
      api.get_content_details client content_key E h = (Ret d, ev) <->
      exists r,
        o_get E h (details_url content_key) (details_headers client) = Ok r
        /\ status_code r = 200%Z /\ json_body r = Some d
        /\ ev = [EGet (details_url content_key) (details_headers client)
                      (Ok r)]).
Proof.
  repeat apply conj.
  - intros url c ev.
    unfold api.get_pdf, api.session_get, pdf_headers. cbv zeta.
    rewrite ask_bind.
    destruct (o_get E h url _) as [r | e];
      [| split; [discriminate | intros (r & Hr & _); discriminate]].
    destruct (status_code r =? 200)%Z eqn:Hs; cbn [negb].
    + apply Z.eqb_eq in Hs. cbn [ret fst snd]. split.
      * intros H. injection H as <- <-. exists r. auto.
      * intros (r' & Hr & _ & -> & ->). injection Hr as <-. reflexivity.
    + apply Z.eqb_neq in Hs. unfold logging_error.
      rewrite !emit_bind. cbn. split; [discriminate |].
      intros (r' & Hr & Hs' & _). injection Hr as <-. contradiction.
  - intros content_key file_key c ev.
    unfold api.get_content_file, api.session_get, file_url, file_headers.
    cbv zeta. rewrite ask_bind.
    destruct (o_get E h _ _) as [r | e];
      [| split; [discriminate | intros (r & Hr & _); discriminate]].
    destruct (status_code r =? 200)%Z eqn:Hs; cbn [negb].
    + apply Z.eqb_eq in Hs. cbn [ret fst snd]. split.
      * intros H. injection H as <- <-. exists r. auto.
      * intros (r' & Hr & _ & -> & ->). injection Hr as <-. reflexivity.
    + apply Z.eqb_neq in Hs. unfold logging_error.
      rewrite !emit_bind. cbn. split; [discriminate |].
      intros (r' & Hr & Hs' & _). injection Hr as <-. contradiction.
  - intros content_key d ev.
    unfold api.get_content_details, api.session_get, details_url,
      details_headers.
    cbv zeta. rewrite ask_bind.
    destruct (o_get E h _ _) as [r | e];
      [| split; [discriminate | intros (r & Hr & _); discriminate]].
    destruct (status_code r =? 200)%Z eqn:Hs; cbn [negb].
    + apply Z.eqb_eq in Hs. unfold api.response_json.
      destruct (json_body r) as [d' |] eqn:Hj; cbn.
      * split.
        -- intros H. injection H as <- <-. exists r. auto.
        -- intros (r' & Hr & _ & Hd & ->). injection Hr as <-. congruence.
      * split; [discriminate |].
        intros (r' & Hr & _ & Hd & _). injection Hr as <-. congruence.
    + apply Z.eqb_neq in Hs. unfold logging_error.
      rewrite !emit_bind. cbn. split; [discriminate |].
      intros (r' & Hr & Hs' & _). injection Hr as <-. contradiction.
Qed.

Lemma graphql_query_returns_iff_witness :
  exists data ev,
    api.graphql_query (api.mkKivraApiClient (PStr "token") (PStr "15"))
                      "Receipts" "query" PNone (demo_env demo_receipts []) []
    = (Ret data, ev)
    /\ py_contains "errors" data = Ok false
    /\ List.length ev = 1.
Proof.
  do 2 eexists. split; [| split].
  - apply graphql_query_returns_iff. eexists.
    repeat apply conj; reflexivity.
  - reflexivity.
  - reflexivity.
Defined.

Lemma rest_fetchers_return_iff_witness :
  api.get_pdf (api.mkKivraApiClient (PStr "token") (PStr "15"))
              [Lit "https://app.api.kivra.com/v1/receipt.pdf"]
              (demo_env [] []) []
  = (Ret "%PDF"%string,
     [EGet [Lit "https://app.api.kivra.com/v1/receipt.pdf"]
           (pdf_headers (api.mkKivraApiClient (PStr "token") (PStr "15")))
           (demo_get [] [] [])]).
Proof.
  apply (proj1 (rest_fetchers_return_iff
                  (api.mkKivraApiClient (PStr "token") (PStr "15"))
                  (demo_env [] []) [])).
  eexists. repeat apply conj; reflexivity.
Defined.

Lemma pyval_same_refl (v : pyval) : pyval_same v v = true.
Proof.
  revert v. fix IH 1. intros [| b | n | s | s | l | d]; cbn.
  - reflexivity.
  - destruct b; reflexivity.
  - apply Z.eqb_refl.
  - apply String.eqb_refl.
  - apply String.eqb_refl.
  - induction l as [| a l IHl]; [reflexivity |].
    rewrite (IH a). exact IHl.
  - induction d as [| [k a] d IHd]; [reflexivity |].
    rewrite String.eqb_refl, (IH a). exact IHd.
Qed.

Lemma emits_out_of_fuel {A} (P : event -> bool) : emits_only P (@out_of_fuel A).
Proof. intros E h. reflexivity. Qed.

Ltac kivra_tac :=
  repeat first
    [ apply emits_ret | apply emits_raise | apply emits_lift
    | apply emits_sys_exit | apply emits_out_of_fuel
    | apply emits_emit; reflexivity
    | apply emits_ask; intros;
      cbn; rewrite ?pyval_same_refl; reflexivity
    | apply emits_bind; [ | intros ]
    | apply emits_try_except; [ | intros ]
    | apply emits_for_each; intros
    | progress prog_unfold
    | progress cbn [storage.exists_ storage.store storage.report_metadata
                    storage.report_listing storage.OracleStore
                    receipts.api_client receipts.document_store
                    letters.api_client letters.document_store]
    | match goal with
      | |- emits_only _ (if ?b then _ else _) => destruct b
      | |- emits_only _ (match ?x with _ => _ end) => destruct x
      | |- emits_only _ (let (_, _) := ?x in _) => destruct x
      end ].

Lemma fetch_pages_kivra client fuel :
  forall after acc,
    emits_only (kivra_request client)
      (letters.fetch_pages fuel
         (letters.mkLetterFetcher client storage.OracleStore) after acc).
Proof.
  induction fuel as [| fuel IH]; intros after acc; cbn [letters.fetch_pages].
  - apply emits_out_of_fuel.
  - cbv zeta. kivra_tac. apply IH.
Qed.

(** X3.  Whatever the server and the store answer, every HTTP request a fetch
    issues goes to one of the two Kivra hosts and carries the client's access
    token in its Authorization header: the fetchers contact no other host,
    and send no request without the token. *)
Theorem fetchers_talk_to_kivra_only client fuel max_count :
  emits_only (kivra_request client)
    (receipts.fetch_receipts
       (receipts.mkReceiptFetcher client storage.OracleStore) max_count)
  /\ emits_only (kivra_request client)
       (letters.fetch_letters fuel
          (letters.mkLetterFetcher client storage.OracleStore) max_count).
Proof.
  split.
  - unfold receipts.fetch_receipts, receipts._process_receipt,
      receipts.process_receipt_try.
    cbv zeta. kivra_tac.
  - unfold letters.fetch_letters, letters._process_letter,
      letters.process_letter_try.
    cbv zeta.
    apply emits_try_except; [| intros; kivra_tac].
    apply emits_bind; [apply fetch_pages_kivra | intros].
    kivra_tac.
Qed.

(** ** utils/helpers.py *)

Lemma split_T_head_spec (s : string) :
  exists rest,
    s = (helpers.split_T_head s ++ rest)%string
    /\ free_of "T" (helpers.split_T_head s) = true
    /\ (rest = EmptyString \/ exists r, rest = String "T" r).
Proof.
  induction s as [| c s (rest & Hs & Hfree & Hrest)]; cbn.
  - exists EmptyString. auto.
  - destruct (Ascii.eqb c "T") eqn:Hc.
    + apply Ascii.eqb_eq in Hc. subst c.
      exists (String "T" s). repeat apply conj; cbn; eauto.
    + exists rest. repeat apply conj.
      * cbn. f_equal. exact Hs.
      * unfold free_of in *. cbn. rewrite Hc. exact Hfree.
      * exact Hrest.
Qed.

(** X4.  format_date keeps of a non-empty date string what stands before its
    first T (all of it when there is none, nothing when it starts with T);
    every value that is not truthy (None, the empty string, 0) gives
    'unknown_date'; any other value that is not a str makes it raise. *)
Theorem format_date_keeps_the_day (iso_date : pyval) :
  (py_truthy iso_date = false ->
   helpers.format_date iso_date = Ok "unknown_date")
  /\ (forall s,
         iso_date = PStr s -> s <> EmptyString ->
         exists day rest,
           helpers.format_date iso_date = Ok day
           /\ s = (day ++ rest)%string
           /\ free_of "T" day = true
           /\ (rest = EmptyString \/ exists r, rest = String "T" r))
  /\ (py_truthy iso_date = true ->
      (forall s, iso_date <> PStr s) ->
      exists e, helpers.format_date iso_date = Err e).
Proof.
  repeat apply conj.
  - intros Hf. unfold helpers.format_date. rewrite Hf. reflexivity.
  - intros s -> Hs. unfold helpers.format_date. cbn [py_truthy].
    destruct (String.eqb s EmptyString) eqn:He;
      [apply String.eqb_eq in He; contradiction |].
    cbn [negb]. destruct (split_T_head_spec s) as (rest & H1 & H2 & H3).
    exists (helpers.split_T_head s), rest. auto.
  - intros Ht Hn. unfold helpers.format_date. rewrite Ht.
    destruct iso_date; eauto. exfalso. eapply Hn. reflexivity.
Qed.

Lemma format_date_keeps_the_day_witness :
  exists day rest,
    helpers.format_date (PStr "2024-03-01T09:30:00Z") = Ok day
    /\ "2024-03-01T09:30:00Z" = (day ++ rest)%string
    /\ free_of "T" day = true
    /\ (rest = EmptyString \/ exists r, rest = String "T" r).
Proof.
  apply (proj1 (proj2 (format_date_keeps_the_day
                         (PStr "2024-03-01T09:30:00Z")))
               "2024-03-01T09:30:00Z" eq_refl).
  discriminate.
Defined.

Lemma keep_whitelisted_all (whitelist s : string) :
  string_forall (fun c => clean.char_in c whitelist)
                (clean.keep_whitelisted whitelist s) = true.
Proof.
  induction s as [| c s IH]; cbn; [reflexivity |].
  destruct (clean.char_in c whitelist) eqn:Hc; [| exact IH].
  cbn. rewrite Hc. exact IH.
Qed.

Lemma substring_forall (P : ascii -> bool) (s : string) :
  string_forall P s = true ->
  forall n, string_forall P (String.substring 0 n s) = true.
Proof.
  induction s as [| c s IH]; intros H n.
  - destruct n; reflexivity.
  - cbn in H. apply andb_prop in H. destruct H as [Hc Hs].
    destruct n as [| n]; [reflexivity |].
    cbn. rewrite Hc. apply IH. exact Hs.
Qed.

Lemma substring_length_le (s : string) (n : nat) :
  String.length (String.substring 0 n s) <= n.
Proof.
  revert n. induction s as [| c s IH]; intros n.
  - destruct n; cbn; lia.
  - destruct n as [| n]; cbn; [lia |]. specialize (IH n). lia.
Qed.

Lemma string_forall_weaken (P Q : ascii -> bool) (s : string) :
  (forall c, P c = true -> Q c = true) ->
  string_forall P s = true -> string_forall Q s = true.
Proof.
  intros HPQ. induction s as [| c s IH]; cbn; [reflexivity |].
  intros H. apply andb_prop in H. destruct H as [Hc Hs].
  rewrite (HPQ c Hc), (IH Hs). reflexivity.
Qed.

Lemma char_in_free (c x : ascii) (whitelist : string) :
  free_of x whitelist = true -> clean.char_in c whitelist = true ->
  negb (Ascii.eqb c x) = true.
Proof.
  unfold free_of. induction whitelist as [| w whitelist IH]; cbn;
    [discriminate |].
  intros Hf Hc. apply andb_prop in Hf. destruct Hf as [Hw Hf].
  apply orb_prop in Hc. destruct Hc as [Hc | Hc]; [| auto].
  apply Ascii.eqb_eq in Hc. subst w. exact Hw.
Qed.

Lemma substring_all (s : string) (n : nat) :
  String.length s <= n -> String.substring 0 n s = s.
Proof.
  revert n. induction s as [| c s IH]; intros n H.
  - destruct n; reflexivity.
  - destruct n as [| n]; cbn in *; [lia |]. rewrite IH by lia. reflexivity.
Qed.

Lemma substring_length_exact (s : string) (n : nat) :
  n <= String.length s -> String.length (String.substring 0 n s) = n.
Proof.
  revert n. induction s as [| c s IH]; intros n H.
  - destruct n; cbn in *; [reflexivity | lia].
  - destruct n as [| n]; cbn in *; [reflexivity |]. rewrite IH by lia.
    reflexivity.
Qed.

(** X5.  What clean_filename returns is made of whitelisted characters only
    and is at most 255 characters long; a character that is not in the
    whitelist (the path separator, for the default whitelist) never occurs in
    it.  It is the folded name with the characters outside the whitelist
    removed: all of it, with nothing logged, when that has at most 255
    characters, and its first 255 characters, with exactly one warning
    logged, when it has more.  For a str it always returns. *)
Theorem clean_filename_is_whitelisted ascii_fold filename whitelist replace :
  (forall name log,
      clean.clean_filename ascii_fold filename whitelist replace
      = (Ok name, log) ->
      string_forall (fun c => clean.char_in c whitelist) name = true
      /\ String.length name <= 255
      /\ (forall x, free_of x whitelist = true -> free_of x name = true)
      /\ exists s,
           clean.replace_all filename replace = Ok (PStr s)
           /\ let full := clean.keep_whitelisted whitelist (ascii_fold s) in
              (String.length full <= 255 -> name = full /\ log = [])
              /\ (255 < String.length full ->
                  name = String.substring 0 255 full
                  /\ String.length name = 255
                  /\ log = [ELog WARNING
                      [Lit "Warning, filename truncated because it was over ";
                       Fmt (PInt 255);
                       Lit ". Filenames may no longer be unique"] None]))
  /\ free_of "/" clean.valid_filename_chars = true
  /\ (forall s, filename = PStr s ->
        exists name log,
          clean.clean_filename ascii_fold filename whitelist replace
          = (Ok name, log)).
Proof.
  set (warning := [ELog WARNING
                     [Lit "Warning, filename truncated because it was over ";
                      Fmt (PInt 255);
                      Lit ". Filenames may no longer be unique"] None]).
  assert (Hrun : forall s,
            clean.replace_all filename replace = Ok (PStr s) ->
            let full := clean.keep_whitelisted whitelist (ascii_fold s) in
            (String.length full <= 255 ->
             clean.clean_filename ascii_fold filename whitelist replace
             = (Ok full, []))
            /\ (255 < String.length full ->
                clean.clean_filename ascii_fold filename whitelist replace
                = (Ok (String.substring 0 255 full), warning))).
  { intros s Hs full. unfold clean.clean_filename. rewrite Hs.
    cbn [lbind lret]. fold full. unfold clean.char_limit, string_slice_to.
    split; intros Hlen.
    - destruct (Z.ltb_spec 255 (Z.of_nat (String.length full))); [lia |].
      cbn [llog lbind lret app fst snd].
      rewrite substring_all; [reflexivity |].
      unfold slice_stop. cbn [Z.ltb Z.compare].
      apply Nat.min_glb; [lia | apply Nat.le_refl].
    - destruct (Z.ltb_spec 255 (Z.of_nat (String.length full))); [| lia].
      cbn [llog lbind lret app fst snd].
      unfold slice_stop. cbn [Z.ltb Z.compare].
      replace (Nat.min (Z.to_nat 255) (String.length full)) with 255 by lia.
      reflexivity. }
  repeat apply conj.
  - intros name log H.
    destruct (clean.replace_all filename replace) as [[ | | | s | | | ] | e]
      eqn:Hr; try (unfold clean.clean_filename in H; rewrite Hr in H;
                   cbn in H; discriminate).
    destruct (Hrun s eq_refl) as [Hshort Hlong].
    set (full := clean.keep_whitelisted whitelist (ascii_fold s)) in *.
    assert (Hfull : string_forall (fun c => clean.char_in c whitelist) full
                    = true) by apply keep_whitelisted_all.
    assert (Hname : (String.length full <= 255 /\ name = full /\ log = [])
                    \/ (255 < String.length full
                        /\ name = String.substring 0 255 full
                        /\ log = warning)).
    { destruct (Nat.le_gt_cases (String.length full) 255) as [Hle | Hgt].
      - left. rewrite (Hshort Hle) in H.
        split; [exact Hle | split; congruence].
      - right. rewrite (Hlong Hgt) in H.
        split; [exact Hgt | split; congruence]. }
    assert (Hall : string_forall (fun c => clean.char_in c whitelist) name
                   = true).
    { destruct Hname as [(_ & -> & _) | (_ & -> & _)];
        [exact Hfull | apply substring_forall; exact Hfull]. }
    repeat apply conj.
    + exact Hall.
    + destruct Hname as [(Hle & -> & _) | (_ & -> & _)];
        [exact Hle | apply substring_length_le].
    + intros x Hx. unfold free_of.
      apply (string_forall_weaken _ _ _ (fun c => char_in_free c x _ Hx) Hall).
    + exists s. split; [reflexivity |]. cbv zeta. fold full. split.
      * intros Hle. destruct Hname as [(_ & Hn & Hl) | (Hgt & _)];
          [auto | lia].
      * intros Hgt. destruct Hname as [(Hle & _) | (_ & Hn & Hl)]; [lia |].
        repeat apply conj; [exact Hn | | exact Hl].
        rewrite Hn. apply substring_length_exact. lia.
  - reflexivity.
  - intros s ->.
    assert (Hr : exists s', clean.replace_all (PStr s) replace = Ok (PStr s')).
    { unfold clean.replace_all. destruct replace; eauto. }
    destruct Hr as (s' & Hr). destruct (Hrun s' Hr) as [Hshort Hlong].
    destruct (Nat.le_gt_cases
                (String.length
                   (clean.keep_whitelisted whitelist (ascii_fold s'))) 255)
      as [Hle | Hgt]; eauto.
Qed.

Lemma clean_filename_is_whitelisted_witness :
  (exists name log,
      clean.clean_filename (fun s => s) (PStr "Coop/Konsum Nord")
                           clean.valid_filename_chars " " = (Ok name, log)
      /\ string_forall (fun c => clean.char_in c clean.valid_filename_chars)
                       name = true
      /\ String.length name <= 255
      /\ free_of "/" name = true
      /\ log = [])
  /\ (exists name log,
         clean.clean_filename (fun s => s) (PStr demo_long_name)
                              clean.valid_filename_chars " " = (Ok name, log)
         /\ String.length name = 255
         /\ List.length log = 1).
Proof.
  split.
  - exists "CoopKonsum_Nord", [].
    assert (H : clean.clean_filename (fun s => s) (PStr "Coop/Konsum Nord")
                                     clean.valid_filename_chars " "
                = (Ok "CoopKonsum_Nord", [])) by (vm_compute; reflexivity).
    split; [exact H |].
    destruct (proj1 (clean_filename_is_whitelisted
                       (fun s => s) (PStr "Coop/Konsum Nord")
                       clean.valid_filename_chars " ") _ _ H)
      as (H1 & H2 & H3 & _).
    repeat apply conj; [exact H1 | exact H2 | apply H3; reflexivity
                       | reflexivity].
  - assert (H : exists name log,
               clean.clean_filename (fun s => s) (PStr demo_long_name)
                                    clean.valid_filename_chars " "
               = (Ok name, log))
      by (do 2 eexists; vm_compute; reflexivity).
    destruct H as (name & log & H). exists name, log.
    split; [exact H |].
    destruct (proj1 (clean_filename_is_whitelisted
                       (fun s => s) (PStr demo_long_name)
                       clean.valid_filename_chars " ") _ _ H)
      as (_ & _ & _ & s & Hs & _ & Hlong).
    injection Hs as <-.
    destruct Hlong as (_ & Hlen & ->); [vm_compute; lia | ].
    split; [exact Hlen | reflexivity].
Defined.

(** ** kivra/receipts.py and kivra/letters.py: what the per-item step does
    around its guarded block *)

Lemma receipt_step_writes client item stored E h :
  let r := receipts._process_receipt
             (receipts.mkReceiptFetcher client storage.OracleStore)
             item stored E h in
  forallb not_write (snd r) = true
  \/ exists key date store rest,
       readable_receipt item key date store
       /\ o_exists E h (receipt_fingerprint key date store) = Ok false
       /\ snd r = EExists (receipt_fingerprint key date store) (Ok false)
                  :: rest
       /\ forallb not_exists rest = true.
Proof.
  cbv zeta.
  destruct (receipt_kinds item) as [Hk | [(e & Hu) | (key & date & store & Hr)]].
  - rewrite (process_receipt_keyless client item stored E h Hk).
    left. reflexivity.
  - rewrite (receipt_step_unreadable client item stored E h e Hu).
    left. reflexivity.
  - rewrite (process_receipt_readable client item key date store stored E h Hr).
    cbv zeta.
    destruct (o_exists E h (receipt_fingerprint key date store))
      as [[|] | e] eqn:Ho; cbn [fst snd].
    + left. reflexivity.
    + right. exists key, date, store. eexists.
      split; [exact Hr | split; [exact Ho | split; [reflexivity |]]].
      apply receipt_try_no_exists.
    + left. reflexivity.
Qed.

Lemma letter_step_writes client item stored E h :
  let r := letters._process_letter
             (letters.mkLetterFetcher client storage.OracleStore)
             item stored E h in
  forallb not_write (snd r) = true
  \/ exists key date sender rest,
       readable_letter item key date sender
       /\ o_exists E h (letter_fingerprint key date sender) = Ok false
       /\ snd r = EExists (letter_fingerprint key date sender) (Ok false)
                  :: rest
       /\ forallb not_exists rest = true.
Proof.
  cbv zeta.
  destruct (letter_kinds item) as [Hk | [(e & Hu) | (key & date & sender & Hr)]].
  - rewrite (process_letter_keyless client item stored E h Hk).
    left. reflexivity.
  - rewrite (letter_step_unreadable client item stored E h e Hu).
    left. reflexivity.
  - rewrite (process_letter_readable client item key date sender stored E h Hr).
    cbv zeta.
    destruct (o_exists E h (letter_fingerprint key date sender))
      as [[|] | e] eqn:Ho; cbn [fst snd].
    + left. reflexivity.
    + right. exists key, date, sender. eexists.
      split; [exact Hr | split; [exact Ho | split; [reflexivity |]]].
      apply letter_try_no_exists.
    + left. reflexivity.
Qed.

(** X6.  Nothing of an item is written to the store unless the store was
    asked about that item first and answered that it does not have it:
    whatever the item and the environment, the events of a per-item step
    either contain no store and no report_metadata call at all, or the item
    can be read and the events start with the existence check of the item's
    own JSON-metadata fingerprint, answered False by the store, and contain
    no other existence check. *)
Theorem store_is_written_only_after_a_negative_check client item stored E h :
  (forallb not_write
     (snd (receipts._process_receipt
             (receipts.mkReceiptFetcher client storage.OracleStore)
             item stored E h)) = true
   \/ exists key date store rest,
       readable_receipt item key date store
       /\ o_exists E h (receipt_fingerprint key date store) = Ok false
       /\ snd (receipts._process_receipt
                 (receipts.mkReceiptFetcher client storage.OracleStore)
                 item stored E h)
          = EExists (receipt_fingerprint key date store) (Ok false) :: rest
       /\ forallb not_exists rest = true)
  /\ (forallb not_write
        (snd (letters._process_letter
                (letters.mkLetterFetcher client storage.OracleStore)
                item stored E h)) = true
      \/ exists key date sender rest,
          readable_letter item key date sender
          /\ o_exists E h (letter_fingerprint key date sender) = Ok false
          /\ snd (letters._process_letter
                    (letters.mkLetterFetcher client storage.OracleStore)
                    item stored E h)
             = EExists (letter_fingerprint key date sender) (Ok false) :: rest
          /\ forallb not_exists rest = true).
Proof.
  split; [apply receipt_step_writes | apply letter_step_writes].
Qed.

Lemma store_is_written_only_after_a_negative_check_witness :
  let E := demo_env [demo_receipt "r1"] [] in
  exists rest,
    snd (receipts._process_receipt receipt_fetcher (demo_receipt "r1")
                                   (PInt 0) E [])
    = EExists (receipt_fingerprint (PStr "r1") "2024-03-01" (PStr "Grocer"))
              (Ok false) :: rest
    /\ count_events is_store rest = 1.
Proof.
  intros E.
  destruct (proj1 (store_is_written_only_after_a_negative_check
                     the_client (demo_receipt "r1") (PInt 0) E []))
    as [Hn | (key & date & store & rest & (Hk & _ & Hd & Hs) & _ & Hev & _)].
  - vm_compute in Hn. discriminate.
  - injection Hk as <-. injection Hd as <-. injection Hs as <-.
    exists rest. split; [exact Hev |].
    vm_compute in Hev. injection Hev as <-. reflexivity.
Defined.

(** X7.  The per-item guard does not cover the reading of the listed item.
    A listed item that has a key but whose date or counterparty cannot be
    read (a store or sender that is null, a date that is not a string), or
    that is no object at all, makes the per-item step raise without any
    event; the exception ends the loop, and the fetch logs it and raises it
    again: the items after it are not processed and no statistics are
    returned.  Each fetcher on its own. *)
Theorem unreadable_item_aborts_the_fetch client fuel max_count E h :
  let RF := receipts.mkReceiptFetcher client storage.OracleStore in
  let LF := letters.mkLetterFetcher client storage.OracleStore in
  (forall item stored h' e,
      (unreadable_receipt item e ->
       receipts._process_receipt RF item stored E h'
       = (Raise (Exception e), []))
      /\ (unreadable_letter item e ->
          letters._process_letter LF item stored E h'
          = (Raise (Exception e), [])))
  /\ (forall ritems total rev rbefore rbad rafter rstored revs re,
         receipts_listed RF E h ritems total rev ->
         truncated ritems max_count = rbefore ++ rbad :: rafter ->
         for_each rbefore (receipts._process_receipt RF) (PInt 0) E (h ++ rev)
         = (Ret rstored, revs) ->
         unreadable_receipt rbad re ->
         receipts.fetch_receipts RF max_count E h
         = (Raise (Exception re),
            (rev ++ revs)
            ++ [ELog ERROR [Lit "Error fetching receipts: "] (Some re)]))
  /\ (forall litems lev lbefore lbad lafter lstored levs le,
         letters_listed fuel LF E h litems lev ->
         truncated litems max_count = lbefore ++ lbad :: lafter ->
         for_each lbefore (letters._process_letter LF) (PInt 0) E (h ++ lev)
         = (Ret lstored, levs) ->
         unreadable_letter lbad le ->
         letters.fetch_letters fuel LF max_count E h
         = (Raise (Exception le),
            (lev ++ levs)
            ++ [ELog ERROR [Lit "Error fetching letters: "] (Some le)])).
Proof.
  intros RF LF. split; [| split].
  - intros item stored h' e. split.
    + apply receipt_step_unreadable.
    + apply letter_step_unreadable.
  - intros ritems total rev rbefore rbad rafter rstored revs re
      Hrl Hrt Hrb Hru.
    apply (fetch_receipts_loop_raises RF max_count E h ritems total rev re revs
             Hrl).
    rewrite Hrt.
    rewrite <- (app_nil_r revs) at 1.
    apply (for_each_raises_after rbefore rafter rbad _ (PInt 0) E (h ++ rev)
             rstored revs _ [] Hrb).
    apply receipt_step_unreadable. exact Hru.
  - intros litems lev lbefore lbad lafter lstored levs le Hll Hlt Hlb Hlu.
    apply (fetch_letters_loop_raises fuel LF max_count E h litems lev le levs
             Hll).
    rewrite Hlt.
    rewrite <- (app_nil_r levs) at 1.
    apply (for_each_raises_after lbefore lafter lbad _ (PInt 0) E (h ++ lev)
             lstored levs _ [] Hlb).
    apply letter_step_unreadable. exact Hlu.
Qed.

(** The receipts fetch is aborted by a receipt whose store is null while the
    letters listing is down, and the letters fetch by a letter whose sender
    is null. *)
Lemma unreadable_item_aborts_the_fetch_witness :
  let rs := [demo_receipt "r1"; demo_receipt_null_store "r2";
             demo_receipt "r3"] in
  let ls := [demo_letter "l1"; demo_letter_null_sender "l2";
             demo_letter "l3"] in
  let E := demo_env rs ls in
  let E' := with_post (fun h url body hd =>
                         if py_eq_str (operation_of body) "ContentList"
                         then Ok (status_response 500)
                         else demo_post rs [] h url body hd) E in
  exists rev revs lev levs,
    (receipts_listed receipt_fetcher E' [] rs (PInt 3) rev
     /\ unreadable_receipt (demo_receipt_null_store "r2") AttributeError
     /\ letters_listed 1 letter_fetcher E [] ls lev
     /\ unreadable_letter (demo_letter_null_sender "l2") AttributeError)
    /\ receipts.fetch_receipts receipt_fetcher None E' []
       = (Raise (Exception AttributeError),
          (rev ++ revs)
          ++ [ELog ERROR [Lit "Error fetching receipts: "]
                   (Some AttributeError)])
    /\ letters.fetch_letters 1 letter_fetcher None E []
       = (Raise (Exception AttributeError),
          (lev ++ levs)
          ++ [ELog ERROR [Lit "Error fetching letters: "]
                   (Some AttributeError)]).
Proof.
  intros rs ls E E'.
  assert (H1 : { rev | receipts_listed receipt_fetcher E' [] rs (PInt 3) rev }).
  { eexists. solve_listed_phase. }
  assert (H2 : unreadable_receipt (demo_receipt_null_store "r2")
                                  AttributeError).
  { right. exists (PStr "r2"). repeat split. }
  assert (H3 : { lev | letters_listed 1 letter_fetcher E [] ls lev }).
  { eexists. solve_listed_phase. }
  assert (H4 : unreadable_letter (demo_letter_null_sender "l2")
                                 AttributeError).
  { right. exists (PStr "l2"). repeat split. }
  destruct H1 as [rev H1]. destruct H3 as [lev H3].
  assert (H5 : exists rstored revs, forall h,
            for_each [demo_receipt "r1"]
                     (receipts._process_receipt receipt_fetcher) (PInt 0) E' h
            = (Ret rstored, revs)).
  { do 2 eexists. intros h. vm_compute. reflexivity. }
  assert (H6 : exists lstored levs, forall h,
            for_each [demo_letter "l1"]
                     (letters._process_letter letter_fetcher) (PInt 0) E h
            = (Ret lstored, levs)).
  { do 2 eexists. intros h. vm_compute. reflexivity. }
  destruct H5 as (rstored & revs & H5). destruct H6 as (lstored & levs & H6).
  exists rev, revs, lev, levs.
  split; [exact (conj H1 (conj H2 (conj H3 H4))) |].
  split.
  - exact (proj1 (proj2 (unreadable_item_aborts_the_fetch the_client 1 None
                           E' []))
             rs (PInt 3) rev [demo_receipt "r1"] (demo_receipt_null_store "r2")
             [demo_receipt "r3"] rstored revs AttributeError
             H1 eq_refl (H5 _) H2).
  - exact (proj2 (proj2 (unreadable_item_aborts_the_fetch the_client 1 None
                           E []))
             ls lev [demo_letter "l1"] (demo_letter_null_sender "l2")
             [demo_letter "l3"] lstored levs AttributeError
             H3 eq_refl (H6 _) H4).
Defined.




(** X8.  A letter whose content details carry no parts (the member is absent,
    null or empty) is not counted and nothing of its content is stored, yet
    its metadata has been handed to the store before the parts were looked
    at: the events of the step are the existence check, the details request,
    the report_metadata call and the error log. *)
Theorem letter_without_parts_is_not_counted
        client item key date sender stored E h r content_data parts item' b :
  let LF := letters.mkLetterFetcher client storage.OracleStore in
  let md := letter_fingerprint key date sender in
  let checked := EExists md (Ok false) in
  let fetched := EGet (details_url key) (details_headers client) (Ok r) in
  readable_letter item key date sender ->
  o_exists E h md = Ok false ->
  o_get E (h ++ [checked]) (details_url key) (details_headers client) = Ok r ->
  status_code r = 200%Z ->
  json_body r = Some content_data ->
  py_get content_data "parts" (PList []) = Ok parts ->
  py_truthy parts = false ->
  letters.py_dict_with item "content" content_data = Ok item' ->
  o_report_metadata E ((h ++ [checked]) ++ [fetched]) item' md = Ok b ->
  letters._process_letter LF item stored E h
  = (Ret stored,
     [checked; fetched; EReportMetadata item' md (Ok b);
      ELog ERROR [Lit "Letter "; Fmt key; Lit " has no parts"] None]).
Proof.
  intros LF md checked fetched Hr Hex Hget Hs Hj Hp Ht Hd Hm. subst LF.
  rewrite (process_letter_readable client item key date sender stored E h Hr).
  cbv zeta. fold md. rewrite Hex. fold checked.
  assert (Hbody :
    letters.process_letter_try
      (letters.mkLetterFetcher client storage.OracleStore) item
      (models.mkKivraLetter key date sender None) md stored E (h ++ [checked])
    = (Ret stored,
       [fetched; EReportMetadata item' md (Ok b);
        ELog ERROR [Lit "Letter "; Fmt key; Lit " has no parts"] None])).
  { unfold letters.process_letter_try. apply try_except_ret.
    cbn [letters.api_client letters.document_store models.letter_key].
    rewrite (bind_ret _ _ E _ _ _
               (get_content_details_ok client key E (h ++ [checked]) r
                  content_data Hget Hs Hj)).
    fold fetched. rewrite Hd, lift_ok_bind.
    cbn [storage.report_metadata storage.OracleStore].
    rewrite ask_bind, Hm.
    assert (Hparts : forall hh,
              letters._process_letter_parts
                (letters.mkLetterFetcher client storage.OracleStore)
                (models.mkKivraLetter key date sender None) content_data E hh
              = (Ret 0%Z,
                 [ELog ERROR [Lit "Letter "; Fmt key; Lit " has no parts"]
                       None])).
    { intros hh. unfold letters._process_letter_parts.
      rewrite Hp, lift_ok_bind, Ht. cbn [negb].
      unfold logging_error. rewrite emit_bind. reflexivity. }
    rewrite (bind_ret _ _ E _ _ _ (Hparts _)).
    reflexivity. }
  rewrite Hbody. reflexivity.
Qed.

Lemma letter_without_parts_is_not_counted_witness :
  exists r item' evs,
    letters._process_letter letter_fetcher (demo_letter "l1") (PInt 0)
                            demo_env_no_parts [] = (Ret (PInt 0), evs)
    /\ evs = [EExists (letter_fingerprint (PStr "l1") "2024-03-02"
                                          (PStr "Agency")) (Ok false);
              EGet (details_url (PStr "l1")) (details_headers the_client)
                   (Ok r);
              EReportMetadata item'
                (letter_fingerprint (PStr "l1") "2024-03-02" (PStr "Agency"))
                (Ok true);
              ELog ERROR [Lit "Letter "; Fmt (PStr "l1");
                          Lit " has no parts"] None].
Proof.
  do 3 eexists. split; [| reflexivity].
  eapply (letter_without_parts_is_not_counted the_client (demo_letter "l1")
            (PStr "l1") "2024-03-02" (PStr "Agency") (PInt 0)
            demo_env_no_parts [] _ (PDict [("subject", PStr "Hej")])
            (PList []) _ true);
    [ repeat split | reflexivity | reflexivity | reflexivity | reflexivity
    | reflexivity | reflexivity | reflexivity | reflexivity ].
Defined.

(** ** kivra/letters.py: where the pagination stops *)

(** X9.  A page that is empty ends the pagination even when it announces more:
    no further listing request is made, the letters accumulated so far are
    the listing, and the fetch goes on with them. *)
Theorem empty_page_ends_pagination client E h fuel total max_count :
  let LF := letters.mkLetterFetcher client storage.OracleStore in
  let asked := list_request client PNone (page_answer [] true total) in
  o_post E h api.graphql_url (list_body PNone) (api.get_headers client)
  = Ok (page_answer [] true total) ->
  o_report_listing E (h ++ [asked]) "letters" (PList []) = Ok tt ->
  letters.fetch_letters (S fuel) LF max_count E h
  = (Ret (letter_stats 0 0 (PInt 0)),
     [asked; EReportListing "letters" (PList []) (Ok tt)]).
Proof.
  intros LF asked Ho Hr. subst LF.
  assert (Hp : letters.fetch_pages (S fuel)
                 (letters.mkLetterFetcher client storage.OracleStore) PNone []
                 E h
               = (Ret [], [asked])).
  { cbn [letters.fetch_pages]. fold (list_variables PNone).
    cbn [letters.api_client].
    rewrite (bind_ret _ _ E h _ _ (list_query_ok client PNone E h [] true total
                                     Ho)).
    unfold graphql_data. run_pure. reflexivity. }
  assert (Ht : truncated (@nil pyval) max_count = []).
  { destruct max_count as [n |]; [| reflexivity].
    unfold truncated, list_slice_to. apply firstn_nil. }
  rewrite (fetch_letters_completes
             (letters.mkLetterFetcher client storage.OracleStore)
             (S fuel) max_count E h [] [asked]
             [EReportListing "letters" (PList []) (Ok tt)] (PInt 0) []).
  - rewrite !Ht. reflexivity.
  - exact Hp.
  - cbn [storage.report_listing letters.document_store storage.OracleStore].
    unfold ask. rewrite Hr. reflexivity.
  - rewrite Ht. reflexivity.
Qed.

Lemma empty_page_ends_pagination_witness :
  let E := with_post (endless_server [] 7) quiet_env in
  exists evs,
    letters.fetch_letters 5 letter_fetcher None E []
    = (Ret (letter_stats 0 0 (PInt 0)), evs)
    /\ count_events is_post evs = 1.
Proof.
  intros E. eexists. split.
  - apply (empty_page_ends_pagination the_client E [] 4 7 None);
      reflexivity.
  - reflexivity.
Defined.

Lemma endless_pages client E page total k :
  (forall h after,
      o_post E h api.graphql_url (list_body after) (api.get_headers client)
      = Ok (page_answer page true total)) ->
  last_key page = Some k ->
  forall fuel after acc h,
  exists evs,
    letters.fetch_pages fuel
      (letters.mkLetterFetcher client storage.OracleStore) after acc E h
    = (OutOfFuel, evs)
    /\ List.length evs = fuel /\ forallb is_post evs = true.
Proof.
  intros Hserver Hk. induction fuel as [| fuel IH]; intros after acc h.
  - exists []. repeat split.
  - rewrite (fetch_pages_more client fuel after acc E h page total k
               (Hserver h after) Hk).
    cbv zeta.
    destruct (IH (PStr k) (acc ++ page)
                 (h ++ [list_request client after (page_answer page true total)]))
      as (evs & Hrun & Hlen & Hall).
    rewrite Hrun. cbn [fst snd].
    eexists. split; [reflexivity |]. split.
    + cbn [List.length]. rewrite Hlen. reflexivity.
    + cbn [forallb]. rewrite Hall. reflexivity.
Qed.

(** X10.  The pagination has no bound of its own.  Against a server that
    answers every listing request with a non-empty page and announces more,
    fetch_letters never gets past the list phase: however many iterations the
    loop is given it uses them all, each for one more listing request, and
    nothing is reported to the store. *)
Theorem pagination_has_no_page_bound client E page total k max_count :
  (forall h after,
      o_post E h api.graphql_url (list_body after) (api.get_headers client)
      = Ok (page_answer page true total)) ->
  last_key page = Some k ->
  forall fuel h,
  exists evs,
    letters.fetch_letters fuel
      (letters.mkLetterFetcher client storage.OracleStore) max_count E h
    = (OutOfFuel, evs)
    /\ List.length evs = fuel /\ forallb is_post evs = true.
Proof.
  intros Hserver Hk fuel h.
  destruct (endless_pages client E page total k Hserver Hk fuel PNone [] h)
    as (evs & Hrun & Hlen & Hall).
  exists evs. split; [| split; assumption].
  unfold letters.fetch_letters, try_except.
  rewrite (bind_out_of_fuel _ _ E h evs Hrun). reflexivity.
Qed.

Lemma pagination_has_no_page_bound_witness :
  let E := with_post (endless_server [demo_letter "a"] 7) quiet_env in
  exists evs,
    letters.fetch_letters 3 letter_fetcher None E [] = (OutOfFuel, evs)
    /\ List.length evs = 3 /\ forallb is_post evs = true.
Proof.
  intros E.
  apply (pagination_has_no_page_bound the_client E [demo_letter "a"] 7 "a"
           None); [intros h after; reflexivity | reflexivity].
Defined.

(** ** kivra/auth.py *)

Lemma sextet_url_safe (i : N) :
  (i < 64)%N -> url_safe (base64.b2a base64.urlsafe_alphabet i) = true.
Proof.
  intros Hi.
  assert (H : forallb (fun i => url_safe (base64.b2a base64.urlsafe_alphabet i))
                      (map N.of_nat (seq 0 64)) = true)
    by (vm_compute; reflexivity).
  rewrite forallb_forall in H. apply H.
  apply in_map_iff. exists (N.to_nat i). split.
  - apply N2Nat.id.
  - apply in_seq. lia.
Qed.

Lemma encode_nopad_url_safe (bs : list N) :
  Forall (fun b => (b < 256)%N) bs ->
  forallb url_safe (encode_nopad base64.urlsafe_alphabet bs) = true.
Proof.
  induction bs as [|a|a b|a b c rest IH] using triple_ind; intros Hbs.
  - reflexivity.
  - inversion Hbs as [|? ? Ha _]; subst.
    cbn [encode_nopad forallb].
    rewrite !sextet_url_safe by byte_lia. reflexivity.
  - inversion Hbs as [|? ? Ha Hbs']; subst.
    inversion Hbs' as [|? ? Hb _]; subst.
    cbn [encode_nopad forallb].
    rewrite !sextet_url_safe by byte_lia. reflexivity.
  - inversion Hbs as [|? ? Ha Hbs']; subst.
    inversion Hbs' as [|? ? Hb Hbs'']; subst.
    inversion Hbs'' as [|? ? Hc Hrest]; subst.
    cbn [encode_nopad forallb].
    rewrite !sextet_url_safe by byte_lia.
    rewrite (IH Hrest). reflexivity.
Qed.

Lemma encode_nopad_length_exact (alphabet : string) (bs : list N) :
  List.length (encode_nopad alphabet bs) = (4 * List.length bs + 2) / 3.
Proof.
  induction bs as [|a|a b|a b c rest IH] using triple_ind.
  - reflexivity.
  - reflexivity.
  - reflexivity.
  - cbn [encode_nopad List.length]. rewrite IH.
    replace (4 * S (S (S (List.length rest))) + 2)
      with (4 * 3 + (4 * List.length rest + 2)) by lia.
    rewrite (Nat.div_add_l 4 3) by lia. lia.
Qed.

Lemma string_forall_of_list (P : ascii -> bool) (l : list ascii) :
  string_forall P (string_of_list_ascii l) = forallb P l.
Proof.
  induction l as [| c l IH]; cbn; [reflexivity |]. rewrite IH. reflexivity.
Qed.

Lemma segment_url_safe (s : string) :
  string_forall url_safe (segment_of s) = true.
Proof.
  rewrite segment_of_nopad, string_forall_of_list.
  apply encode_nopad_url_safe. apply bytes_to_N_bounded.
Qed.

Lemma segment_length (s : string) :
  String.length (segment_of s) = (4 * String.length s + 2) / 3.
Proof.
  rewrite segment_of_nopad, length_string_of_list_ascii,
    encode_nopad_length_exact, length_bytes_to_N.
  reflexivity.
Qed.

(** X11.  The code challenge is made of characters of the URL-safe alphabet
    only (no padding, no [+], no [/]) and has 4n/3 characters, rounded up, for
    a digest of n bytes: 43 characters for the 32 bytes of SHA-256. *)
Theorem code_challenge_is_url_safe (sha256 : string -> string) (v : string) :
  string_forall url_safe (auth._generate_code_challenge sha256 v) = true
  /\ String.length (auth._generate_code_challenge sha256 v)
     = (4 * String.length (sha256 v) + 2) / 3
  /\ (String.length (sha256 v) = 32 ->
      String.length (auth._generate_code_challenge sha256 v) = 43).
Proof.
  unfold auth._generate_code_challenge. cbv zeta.
  fold (segment_of (sha256 v)). repeat apply conj.
  - apply segment_url_safe.
  - apply segment_length.
  - intros H. rewrite segment_length, H. reflexivity.
Qed.

Lemma code_challenge_is_url_safe_witness :
  String.length abc_digest = 32
  /\ String.length (auth._generate_code_challenge (fun _ => abc_digest) "abc")
     = 43.
Proof.
  assert (H : String.length abc_digest = 32) by reflexivity.
  split; [exact H |].
  exact (proj2 (proj2 (code_challenge_is_url_safe (fun _ => abc_digest) "abc"))
               H).
Defined.

Section TokenExchange.
Import auth interaction.
Variable temp : string.
Variable json_loads : string -> result pyval.
Let self := mkKivraAuth temp OracleInteraction.

Lemma exchange_token_returns auth_code code_verifier E h r token_info
      access_token id_token header segment rest payload jwt_data actor_key :
  o_post E h token_url (token_data auth_code code_verifier) token_headers
  = Ok r ->
  status_code r = 200%Z ->
  json_body r = Some token_info ->
  py_get token_info "access_token" PNone = Ok access_token ->
  py_get token_info "id_token" PNone = Ok id_token ->
  py_split_dot id_token = Ok (header :: segment :: rest) ->
  decode_segment segment = Ok payload ->
  json_loads payload = Ok jwt_data ->
  py_get jwt_data "kivra_user_id" PNone = Ok actor_key ->
  py_truthy actor_key = true ->
  exchange_token self json_loads auth_code code_verifier E h
  = (Ret (token_result access_token actor_key jwt_data),
     [EPost token_url (token_data auth_code code_verifier) token_headers
            (Ok r)]).
Proof.
  intros Ho Hs Hj Ha Hi Hsp Hd Hl Hk Ht.
  unfold exchange_token, api.session_post.
  fold token_url. fold (token_data auth_code code_verifier).
  fold token_headers.
  rewrite ask_bind, Ho, Hs. cbn [Z.eqb Pos.eqb negb].
  unfold api.response_json.
  rewrite Hj, lift_ok_bind, Ha, lift_ok_bind, Hi, lift_ok_bind,
    Hsp, lift_ok_bind, Hd, lift_ok_bind, Hl, lift_ok_bind, Hk, lift_ok_bind,
    Ht.
  reflexivity.
Qed.

Lemma exchange_token_inversion auth_code code_verifier E h v ev :
  exchange_token self json_loads auth_code code_verifier E h = (Ret v, ev) ->
  exists r token_info access_token id_token header segment rest payload
         jwt_data actor_key,
    o_post E h token_url (token_data auth_code code_verifier) token_headers
    = Ok r
    /\ status_code r = 200%Z
    /\ json_body r = Some token_info
    /\ py_get token_info "access_token" PNone = Ok access_token
    /\ py_get token_info "id_token" PNone = Ok id_token
    /\ py_split_dot id_token = Ok (header :: segment :: rest)
    /\ decode_segment segment = Ok payload
    /\ json_loads payload = Ok jwt_data
    /\ py_get jwt_data "kivra_user_id" PNone = Ok actor_key
    /\ py_truthy actor_key = true
    /\ v = token_result access_token actor_key jwt_data
    /\ ev = [EPost token_url (token_data auth_code code_verifier)
                   token_headers (Ok r)].
Proof.
  unfold exchange_token, api.session_post.
  fold token_url. fold (token_data auth_code code_verifier).
  fold token_headers.
  rewrite ask_bind.
  destruct (o_post E h token_url _ token_headers) as [r | e] eqn:Ho;
    [| discriminate].
  destruct (status_code r =? 200)%Z eqn:Hs; cbn [negb];
    [| unfold logging_error; rewrite emit_bind; cbn; discriminate].
  apply Z.eqb_eq in Hs. unfold api.response_json.
  destruct (json_body r) as [token_info |] eqn:Hj; [| cbn; discriminate].
  rewrite lift_ok_bind.
  destruct (py_get token_info "access_token" PNone) as [access_token | e]
    eqn:Ha; [| cbn; discriminate].
  rewrite lift_ok_bind.
  destruct (py_get token_info "id_token" PNone) as [id_token | e] eqn:Hi;
    [| cbn; discriminate].
  rewrite lift_ok_bind.
  destruct (py_split_dot id_token) as [parts | e] eqn:Hsp;
    [| cbn; discriminate].
  rewrite lift_ok_bind.
  destruct parts as [| header [| segment rest]];
    try (unfold logging_error; rewrite emit_bind; cbn; discriminate).
  destruct (decode_segment segment) as [payload | e] eqn:Hd;
    [| cbn; discriminate].
  rewrite lift_ok_bind.
  destruct (json_loads payload) as [jwt_data | e] eqn:Hl;
    [| cbn; discriminate].
  rewrite lift_ok_bind.
  destruct (py_get jwt_data "kivra_user_id" PNone) as [actor_key | e] eqn:Hk;
    [| cbn; discriminate].
  rewrite lift_ok_bind.
  destruct (py_truthy actor_key) eqn:Ht; cbn [negb];
    [| unfold logging_error; rewrite emit_bind; cbn; discriminate].
  cbn [ret fst snd]. intros H. injection H as <- <-.
  exists r, token_info, access_token, id_token, header, segment, rest,
    payload, jwt_data, actor_key.
  repeat apply conj; auto.
Qed.

End TokenExchange.

Lemma split_dot_app (a b : string) :
  free_of "." a = true ->
  auth.split_dot (a ++ String "." b) = a :: auth.split_dot b.
Proof.
  unfold free_of. induction a as [| c a IH]; cbn; [reflexivity |].
  intros H. apply andb_prop in H. destruct H as [Hc Ha].
  apply negb_true_iff in Hc. rewrite Hc, (IH Ha). reflexivity.
Qed.

Lemma url_safe_no_dot (c : ascii) :
  url_safe c = true -> negb (Ascii.eqb c ".") = true.
Proof.
  intros H. destruct (Ascii.eqb c ".") eqn:Hc; [| reflexivity].
  apply Ascii.eqb_eq in Hc. subst c. discriminate.
Qed.

Lemma id_token_segments (header payload signature : string) :
  free_of "." header = true ->
  exists rest,
    auth.split_dot (id_token_of header payload signature)
    = header :: segment_of payload :: rest.
Proof.
  intros Hh. unfold id_token_of.
  change (header ++ "." ++ segment_of payload ++ "." ++ signature)%string
    with (header ++ String "." (segment_of payload ++ String "." signature))%string.
  rewrite (split_dot_app _ _ Hh).
  rewrite split_dot_app.
  - eauto.
  - unfold free_of.
    apply (string_forall_weaken _ _ _ url_safe_no_dot (segment_url_safe payload)).
Qed.

(** X12.  What the token exchange returns, when it returns: the token endpoint
    answered 200 with a JSON object, the second dot-separated segment of its
    id_token decoded to a payload that json.loads accepted, and the actor
    key of the result is the kivra_user_id of that payload, which is truthy.
    The access token is handed on as the endpoint sent it, unchecked, and the
    only event is the one POST.  The converse holds as well. *)
Theorem token_exchange_returns_iff temp json_loads auth_code code_verifier
        E h v ev :
  auth.exchange_token (auth.mkKivraAuth temp interaction.OracleInteraction)
                      json_loads auth_code code_verifier E h = (Ret v, ev)
  <->
  exists r token_info access_token id_token header segment rest payload
         jwt_data actor_key,
    o_post E h token_url (token_data auth_code code_verifier) token_headers
    = Ok r
    /\ status_code r = 200%Z
    /\ json_body r = Some token_info
    /\ py_get token_info "access_token" PNone = Ok access_token
    /\ py_get token_info "id_token" PNone = Ok id_token
    /\ auth.py_split_dot id_token = Ok (header :: segment :: rest)
    /\ auth.decode_segment segment = Ok payload
    /\ json_loads payload = Ok jwt_data
    /\ py_get jwt_data "kivra_user_id" PNone = Ok actor_key
    /\ py_truthy actor_key = true
    /\ v = token_result access_token actor_key jwt_data
    /\ ev = [EPost token_url (token_data auth_code code_verifier)
                   token_headers (Ok r)].
Proof.
  split.
  - apply exchange_token_inversion.
  - intros (r & token_info & access_token & id_token & header & segment & rest
            & payload & jwt_data & actor_key & Ho & Hs & Hj & Ha & Hi & Hsp
            & Hd & Hl & Hk & Ht & -> & ->).
    eapply exchange_token_returns; eassumption.
Qed.

(** X13.  The token exchange succeeds on an identity token whose payload
    segment is the padding-stripped base64url encoding of the payload, as long
    as that segment contains neither [-] nor [_]: the payload is recovered,
    parsed, and its kivra_user_id becomes the actor key. *)
Theorem token_exchange_reads_the_user_id
        temp json_loads auth_code code_verifier E h r token_info access_token
        header payload signature jwt_data actor_key :
  o_post E h token_url (token_data auth_code code_verifier) token_headers
  = Ok r ->
  status_code r = 200%Z ->
  json_body r = Some token_info ->
  py_get token_info "access_token" PNone = Ok access_token ->
  py_get token_info "id_token" PNone
  = Ok (PStr (id_token_of header payload signature)) ->
  free_of "." header = true ->
  dash_free (segment_of payload) = true ->
  json_loads payload = Ok jwt_data ->
  py_get jwt_data "kivra_user_id" PNone = Ok actor_key ->
  py_truthy actor_key = true ->
  auth.exchange_token (auth.mkKivraAuth temp interaction.OracleInteraction)
                      json_loads auth_code code_verifier E h
  = (Ret (token_result access_token actor_key jwt_data),
     [EPost token_url (token_data auth_code code_verifier) token_headers
            (Ok r)]).
Proof.
  intros Ho Hs Hj Ha Hi Hh Hfree Hl Hk Ht.
  destruct (id_token_segments header payload signature Hh) as (rest & Hsp).
  eapply (exchange_token_returns temp json_loads auth_code code_verifier E h r
            token_info access_token _ header (segment_of payload) rest payload
            jwt_data actor_key); try eassumption.
  - cbn [auth.py_split_dot]. rewrite Hsp. reflexivity.
  - apply decode_segment_dash_free. exact Hfree.
Qed.

Lemma token_exchange_reads_the_user_id_witness :
  let E := with_post (fun _ _ _ _ => Ok demo_token_answer) quiet_env in
  dash_free (segment_of demo_good_payload) = true
  /\ auth.exchange_token (auth.mkKivraAuth "/tmp" interaction.OracleInteraction)
                         demo_good_json_loads (PStr "authcode") "verifier" E []
     = (Ret (token_result (PStr "token") (PStr "15")
                          (PDict [("kivra_user_id", PStr "15")])),
        [EPost token_url (token_data (PStr "authcode") "verifier")
               token_headers (Ok demo_token_answer)]).
Proof.
  intros E.
  assert (Hfree : dash_free (segment_of demo_good_payload) = true)
    by (vm_compute; reflexivity).
  split; [exact Hfree |].
  apply (token_exchange_reads_the_user_id "/tmp" demo_good_json_loads
           (PStr "authcode") "verifier" E [] demo_token_answer
           (PDict [("access_token", PStr "token");
                   ("id_token", PStr demo_good_token)])
           (PStr "token") "eyJhbGciOiJSUzI1NiJ9" demo_good_payload "c2ln"
           (PDict [("kivra_user_id", PStr "15")]) (PStr "15"));
    first [exact Hfree | reflexivity].
Defined.

Lemma token_exchange_returns_iff_witness :
  exists r token_info access_token id_token header segment rest payload
         jwt_data actor_key,
    o_post (with_post (fun _ _ _ _ => Ok demo_token_answer) quiet_env) []
           token_url (token_data (PStr "authcode") "verifier") token_headers
    = Ok r
    /\ status_code r = 200%Z
    /\ json_body r = Some token_info
    /\ py_get token_info "access_token" PNone = Ok access_token
    /\ py_get token_info "id_token" PNone = Ok id_token
    /\ auth.py_split_dot id_token = Ok (header :: segment :: rest)
    /\ auth.decode_segment segment = Ok payload
    /\ demo_good_json_loads payload = Ok jwt_data
    /\ py_get jwt_data "kivra_user_id" PNone = Ok actor_key
    /\ py_truthy actor_key = true
    /\ token_result (PStr "token") (PStr "15")
                    (PDict [("kivra_user_id", PStr "15")])
       = token_result access_token actor_key jwt_data
    /\ [EPost token_url (token_data (PStr "authcode") "verifier")
              token_headers (Ok demo_token_answer)]
       = [EPost token_url (token_data (PStr "authcode") "verifier")
                token_headers (Ok r)].
Proof.
  apply (proj1 (token_exchange_returns_iff
                  "/tmp" demo_good_json_loads (PStr "authcode") "verifier"
                  (with_post (fun _ _ _ _ => Ok demo_token_answer) quiet_env)
                  [] _ _)).
  vm_compute. reflexivity.
Defined.

(** X14.  When the authorization request is refused (any status but 201 and
    202) the authenticator logs the answer and exits with "Could not
    initialize OAuth2": it has made the session request, drawn the verifier
    and sent the one authorization request, and it neither draws a QR image
    nor polls. *)
Theorem authentication_stops_when_authorization_is_refused
        temp sha256 json_loads fuel ssn E h r0 resp :
  let self := auth.mkKivraAuth temp interaction.OracleInteraction in
  let h1 := h ++ [EGet home_url [] (Ok r0)] in
  let verifier := o_token_urlsafe E h1 32 in
  let challenge := auth._generate_code_challenge sha256 verifier in
  o_get E h home_url [] = Ok r0 ->
  o_post E (h1 ++ [ETokenUrlsafe 32 verifier]) authorize_url
         (authorize_params challenge) authorize_headers = Ok resp ->
  status_code resp <> 201%Z ->
  status_code resp <> 202%Z ->
  auth.authenticate fuel self sha256 json_loads ssn E h
  = (Raise (SystemExit "Could not initialize OAuth2"),
     [EGet home_url [] (Ok r0);
      ETokenUrlsafe 32 verifier;
      EPost authorize_url (authorize_params challenge) authorize_headers
            (Ok resp);
      ELog ERROR [Lit "OAuth2 authorization failed. Status: ";
                  Fmt (PInt (status_code resp)); Lit ", Response: ";
                  Fmt (PStr (text resp))] None]).
Proof.
  intros self h1 verifier challenge Hg Hp H1 H2.
  unfold auth.authenticate, api.session_get. fold home_url.
  rewrite ask_bind, Hg. fold h1.
  rewrite (bind_ret _ _ E h1 verifier [ETokenUrlsafe 32 verifier] eq_refl).
  fold challenge.
  assert (Hinit :
    auth._initialize_oauth2 self challenge E (h1 ++ [ETokenUrlsafe 32 verifier])
    = (Raise (SystemExit "Could not initialize OAuth2"),
       [EPost authorize_url (authorize_params challenge) authorize_headers
              (Ok resp);
        ELog ERROR [Lit "OAuth2 authorization failed. Status: ";
                    Fmt (PInt (status_code resp)); Lit ", Response: ";
                    Fmt (PStr (text resp))] None])).
  { unfold auth._initialize_oauth2, api.session_post.
    fold authorize_url. fold (authorize_params challenge).
    fold authorize_headers. rewrite ask_bind, Hp.
    apply Z.eqb_neq in H1. apply Z.eqb_neq in H2. rewrite H1, H2.
    cbn [orb negb]. unfold logging_error. rewrite emit_bind. reflexivity. }
  rewrite (bind_raise _ _ E _ _ _ Hinit). reflexivity.
Qed.

Lemma authentication_stops_when_authorization_is_refused_witness :
  exists evs,
    auth.authenticate 1 demo_auth demo_sha256 demo_json_loads "199001011234"
                      demo_env_refused []
    = (Raise (SystemExit "Could not initialize OAuth2"), evs)
    /\ count_events is_qr_save evs = 0
    /\ count_events is_get evs = 1.
Proof.
  eexists. split.
  - apply (authentication_stops_when_authorization_is_refused
             "/tmp" demo_sha256 demo_json_loads 1 "199001011234"
             demo_env_refused [] (json_response (PDict []))
             (status_response 403));
      [reflexivity | reflexivity | discriminate | discriminate].
  - split; reflexivity.
Defined.

(** X15.  The QR image is removed only when the polling has returned the token
    information: the removal is then the last event, and its failure is
    ignored.  When the polling ends any other way (sys.exit on a failed
    authentication or token exchange, an exception, an exhausted loop) the
    authenticator ends the same way and the image is left where it was
    saved. *)
Theorem qr_image_is_removed_only_after_success
        temp sha256 json_loads fuel ssn E h r0 resp d :
  let self := auth.mkKivraAuth temp interaction.OracleInteraction in
  let h1 := h ++ [EGet home_url [] (Ok r0)] in
  let verifier := o_token_urlsafe E h1 32 in
  let challenge := auth._generate_code_challenge sha256 verifier in
  let qr_code := dict_value d "qr_code" in
  let next_poll_url := dict_value d "next_poll_url" in
  let auth_code := dict_value d "code" in
  let temp_path := [temp; "kivra_qr.png"] in
  let pre := [EGet home_url [] (Ok r0); ETokenUrlsafe 32 verifier;
              EPost authorize_url (authorize_params challenge)
                    authorize_headers (Ok resp)] in
  let shown := pre ++ [EQrSave qr_code temp_path (Ok tt);
                       EDisplayQrCode temp_path (Ok tt)] in
  let poll := auth._poll_for_auth fuel self json_loads next_poll_url auth_code
                                  verifier E (h ++ shown) in
  o_get E h home_url [] = Ok r0 ->
  o_post E (h1 ++ [ETokenUrlsafe 32 verifier]) authorize_url
         (authorize_params challenge) authorize_headers = Ok resp ->
  status_code resp = 201%Z \/ status_code resp = 202%Z ->
  json_body resp = Some (PDict d) ->
  py_truthy qr_code = true ->
  py_truthy auth_code = true ->
  o_qr_save E (h ++ pre) qr_code temp_path = Ok tt ->
  o_display_qr_code E ((h ++ pre) ++ [EQrSave qr_code temp_path (Ok tt)])
                    temp_path = Ok tt ->
  auth.authenticate fuel self sha256 json_loads ssn E h
  = match fst poll with
    | Ret token_info =>
        (Ret token_info,
         shown ++ snd poll
         ++ [ERemove temp_path
                     (o_remove E ((h ++ shown) ++ snd poll) temp_path)])
    | other => (other, shown ++ snd poll)
    end.
Proof.
  intros self h1 verifier challenge qr_code next_poll_url auth_code temp_path
    pre shown poll Hg Hp Hs Hj Hq Ha Hsave Hshow.
  subst self.
  rewrite (authenticate_prefix temp sha256 json_loads fuel ssn E h r0 resp d
             Hg Hp Hs Hj).
  cbv zeta. fold h1 verifier challenge qr_code next_poll_url auth_code
    temp_path pre.
  rewrite Hq, Ha. cbn [negb orb].
  rewrite ask_bind, Hsave.
  cbn [interaction.display_qr_code interaction.OracleInteraction].
  rewrite ask_bind, Hshow.
  cbn [fst snd].
  assert (Hh : ((h ++ pre) ++ [EQrSave qr_code temp_path (Ok tt)])
               ++ [EDisplayQrCode temp_path (Ok tt)] = h ++ shown).
  { subst shown. rewrite <- !app_assoc. reflexivity. }
  rewrite Hh.
  unfold bind. fold poll.
  destruct poll as [[token_info | r |] evp]; cbn [fst snd].
  - unfold try_except_all, ask.
    destruct (o_remove E ((h ++ shown) ++ evp) temp_path) as [[] | e];
      cbn [fst snd ret app]; subst shown;
      rewrite <- ?app_assoc; cbn [app]; rewrite ?app_nil_r; reflexivity.
  - subst shown. rewrite <- ?app_assoc. reflexivity.
  - subst shown. rewrite <- ?app_assoc. reflexivity.
Qed.

Lemma qr_image_is_removed_only_after_success_witness :
  exists token_info evs,
    auth.authenticate 1 demo_auth demo_sha256 demo_good_json_loads
                      "199001011234" (demo_env_account [] []) []
    = (Ret token_info, evs)
    /\ List.last evs (ESleep 0) = ERemove ["/tmp"; "kivra_qr.png"] (Ok tt)
    /\ count_events is_display evs = 1.
Proof.
  do 2 eexists. split.
  - unfold demo_auth.
    rewrite (qr_image_is_removed_only_after_success
               "/tmp" demo_sha256 demo_good_json_loads 1 "199001011234"
               (demo_env_account [] []) []
               (mkResponse 200 (Some (PDict [("parts", demo_parts)]))
                           EmptyString "%PDF" (PDict []))
               demo_authorize_answer
               [("qr_code", PStr "bankid.qr");
                ("next_poll_url", PStr "/v2/oauth2/poll/1");
                ("code", PStr "authcode")]
               eq_refl eq_refl (or_introl eq_refl) eq_refl eq_refl eq_refl
               eq_refl eq_refl).
    vm_compute. reflexivity.
  - split; reflexivity.
Defined.

(** ** kivra_sync.py *)

Section FetchDocuments.
Import kivra_sync providers.
Variables (poll_fuel page_fuel : nat).
Variable sha256 : string -> string.
Variable json_loads : string -> result pyval.
Variable args : Args.
Variable interaction_provider : Provider.
Variable document_store : storage.DocumentStoreProvider.
Variable temp_dir : string.

Let run := fetch_documents poll_fuel page_fuel sha256 json_loads args
                           interaction_provider document_store temp_dir.

Lemma fetch_documents_outcome E h :
  exit_code_or_exit (fst (run E h))
  /\ (fst (run E h) = Ret 1%Z ->
      exists e evs, snd (run E h) = evs ++ [ELog ERROR [Lit "Error: "] (Some e)]).
Proof.
  unfold run, fetch_documents.
  match goal with
  | |- context [try_except ?b ?hd] =>
      assert (Hzero : ret_sat (fun z => z = 0%Z) b)
  end.
  { cbv zeta. repeat (apply ret_sat_bind; intros).
    apply ret_sat_ret. reflexivity. }
  unfold try_except.
  match goal with
  | |- context [match ?b E h with _ => _ end] =>
      specialize (Hzero E h); destruct (b E h) as [[a | [e | s] |] ev]
  end; cbn [fst snd] in *.
  - specialize (Hzero a eq_refl). subst a. split; [left; reflexivity |].
    discriminate.
  - unfold logging_error. rewrite emit_bind. cbn [fst snd ret].
    split; [right; reflexivity |]. intros _. eauto.
  - split; [exact I | discriminate].
  - split; [exact I | discriminate].
Qed.

Lemma fetch_documents_completes E h access_token actor_key jwt_data eva
      rtotal rfetched rstored evr ltotal lfetched lstored evl evc :
  let client := api.mkKivraApiClient access_token actor_key in
  fetch_receipts args = true ->
  fetch_letters args = true ->
  auth.authenticate poll_fuel
    (auth.mkKivraAuth temp_dir (for_auth interaction_provider))
    sha256 json_loads (ssn args) E h
  = (Ret (token_result access_token actor_key jwt_data), eva) ->
  receipts.fetch_receipts (receipts.mkReceiptFetcher client document_store)
                          (limit_of (max_receipts args)) E (h ++ eva)
  = (Ret (receipt_stats rtotal rfetched rstored), evr) ->
  letters.fetch_letters page_fuel
                        (letters.mkLetterFetcher client document_store)
                        (limit_of (max_letters args)) E ((h ++ eva) ++ evr)
  = (Ret (letter_stats ltotal lfetched lstored), evl) ->
  report_completion interaction_provider
    (run_stats rtotal rfetched rstored ltotal lfetched lstored) E
    (((h ++ eva) ++ evr) ++ evl)
  = (Ret tt, evc) ->
  run E h = (Ret 0%Z, eva ++ evr ++ evl ++ evc).
Proof.
  intros client Hfr Hfl Ha Hr Hl Hc.
  unfold run, fetch_documents. apply try_except_ret. cbv zeta.
  rewrite (bind_ret _ _ E h _ eva Ha).
  unfold token_result. cbn [py_getitem dict_get String.eqb Ascii.eqb Bool.eqb].
  rewrite !lift_ok_bind.
  rewrite Hfr, Hfl. fold client.
  match goal with
  | |- context [bind (bind ?m ?k) _ E (h ++ eva)] =>
      assert (Hrs : bind m k E (h ++ eva)
                    = (Ret (run_stats rtotal rfetched rstored 0 0 (PInt 0)),
                       evr))
  end.
  { rewrite (bind_ret _ _ E _ _ evr Hr). cbn. rewrite app_nil_r.
    reflexivity. }
  rewrite (bind_ret _ _ E _ _ evr Hrs).
  match goal with
  | |- context [bind (bind ?m ?k) _ E ((h ++ eva) ++ evr)] =>
      assert (Hls : bind m k E ((h ++ eva) ++ evr)
                    = (Ret (run_stats rtotal rfetched rstored ltotal lfetched
                                      lstored), evl))
  end.
  { rewrite (bind_ret _ _ E _ _ evl Hl). cbn. rewrite app_nil_r.
    reflexivity. }
  rewrite (bind_ret _ _ E _ _ evl Hls).
  rewrite (bind_ret _ _ E _ _ evc Hc).
  cbn [fst snd ret]. rewrite app_nil_r. reflexivity.
Qed.

Lemma fetch_documents_receipts_fail E h access_token actor_key jwt_data eva
      e evr :
  let client := api.mkKivraApiClient access_token actor_key in
  fetch_receipts args = true ->
  auth.authenticate poll_fuel
    (auth.mkKivraAuth temp_dir (for_auth interaction_provider))
    sha256 json_loads (ssn args) E h
  = (Ret (token_result access_token actor_key jwt_data), eva) ->
  receipts.fetch_receipts (receipts.mkReceiptFetcher client document_store)
                          (limit_of (max_receipts args)) E (h ++ eva)
  = (Raise (Exception e), evr) ->
  run E h = (Ret 1%Z, eva ++ evr ++ [ELog ERROR [Lit "Error: "] (Some e)]).
Proof.
  intros client Hfr Ha Hr.
  unfold run, fetch_documents.
  erewrite try_except_caught.
  2:{ cbv zeta. rewrite (bind_ret _ _ E h _ eva Ha).
      unfold token_result.
      cbn [py_getitem dict_get String.eqb Ascii.eqb Bool.eqb].
      rewrite !lift_ok_bind. rewrite Hfr. fold client.
      match goal with
      | |- context [bind (bind ?m ?k) _ E (h ++ eva)] =>
          assert (Hrs : bind m k E (h ++ eva) = (Raise (Exception e), evr))
      end.
      { rewrite (bind_raise _ _ E _ _ evr Hr). reflexivity. }
      rewrite (bind_raise _ _ E _ _ evr Hrs). cbn [fst snd]. reflexivity. }
  unfold logging_error. rewrite emit_bind. cbn [fst snd ret].
  rewrite <- app_assoc. reflexivity.
Qed.

End FetchDocuments.

(** X16.  fetch_documents never lets an exception out: whatever the
    environment, it returns exit code 0 or 1, unless the authentication ends
    the process with sys.exit (or a loop never ends).  When the exit code is
    1 the last event is the log of the exception that ended the run. *)
Theorem fetch_documents_ends_with_an_exit_code
        poll_fuel page_fuel sha256 json_loads args interaction_provider
        document_store temp_dir E h :
  exit_code_or_exit
    (fst (kivra_sync.fetch_documents poll_fuel page_fuel sha256 json_loads args
            interaction_provider document_store temp_dir E h))
  /\ (fst (kivra_sync.fetch_documents poll_fuel page_fuel sha256 json_loads
             args interaction_provider document_store temp_dir E h)
      = Ret 1%Z ->
      exists e evs,
        snd (kivra_sync.fetch_documents poll_fuel page_fuel sha256 json_loads
               args interaction_provider document_store temp_dir E h)
        = evs ++ [ELog ERROR [Lit "Error: "] (Some e)]).
Proof. apply fetch_documents_outcome. Qed.

(** X17.  A run in which the authentication and both fetches succeed hands the
    statistics of the two fetches, merged into one dict of six counters, to
    report_completion, and returns exit code 0 when that returns.  The
    fetchers get the client built from the token information, and the
    limits of the command line with 0 meaning no limit. *)
Theorem a_completed_run_reports_the_merged_statistics
        poll_fuel page_fuel sha256 json_loads args interaction_provider
        document_store temp_dir E h access_token actor_key jwt_data eva
        rtotal rfetched rstored evr ltotal lfetched lstored evl evc :
  let client := api.mkKivraApiClient access_token actor_key in
  kivra_sync.fetch_receipts args = true ->
  kivra_sync.fetch_letters args = true ->
  auth.authenticate poll_fuel
    (auth.mkKivraAuth temp_dir (providers.for_auth interaction_provider))
    sha256 json_loads (kivra_sync.ssn args) E h
  = (Ret (token_result access_token actor_key jwt_data), eva) ->
  receipts.fetch_receipts (receipts.mkReceiptFetcher client document_store)
    (kivra_sync.limit_of (kivra_sync.max_receipts args)) E (h ++ eva)
  = (Ret (receipt_stats rtotal rfetched rstored), evr) ->
  letters.fetch_letters page_fuel
    (letters.mkLetterFetcher client document_store)
    (kivra_sync.limit_of (kivra_sync.max_letters args)) E ((h ++ eva) ++ evr)
  = (Ret (letter_stats ltotal lfetched lstored), evl) ->
  providers.report_completion interaction_provider
    (run_stats rtotal rfetched rstored ltotal lfetched lstored) E
    (((h ++ eva) ++ evr) ++ evl)
  = (Ret tt, evc) ->
  kivra_sync.fetch_documents poll_fuel page_fuel sha256 json_loads args
    interaction_provider document_store temp_dir E h
  = (Ret 0%Z, eva ++ evr ++ evl ++ evc).
Proof. apply fetch_documents_completes. Qed.

Lemma a_completed_run_reports_the_merged_statistics_witness :
  exists evs,
    kivra_sync.fetch_documents 1 1 demo_sha256 demo_good_json_loads demo_args
      providers.LocalInteractionProvider storage.OracleStore "/tmp"
      demo_account []
    = (Ret 0%Z, evs).
Proof.
  assert (Ha : exists eva,
            auth.authenticate 1
              (auth.mkKivraAuth "/tmp"
                 (providers.for_auth providers.LocalInteractionProvider))
              demo_sha256 demo_good_json_loads (kivra_sync.ssn demo_args) demo_account []
            = (Ret (token_result (PStr "token") (PStr "15")
                                 (PDict [("kivra_user_id", PStr "15")])), eva))
    by (eexists; vm_compute; reflexivity).
  assert (Hr : exists rstored evr, forall hh,
            receipts.fetch_receipts
              (receipts.mkReceiptFetcher
                 (api.mkKivraApiClient (PStr "token") (PStr "15"))
                 storage.OracleStore)
              (kivra_sync.limit_of (kivra_sync.max_receipts demo_args)) demo_account hh
            = (Ret (receipt_stats (PInt 3) 3 rstored), evr))
    by (do 2 eexists; intros hh; vm_compute; reflexivity).
  assert (Hl : exists lstored evl, forall hh,
            letters.fetch_letters 1
              (letters.mkLetterFetcher
                 (api.mkKivraApiClient (PStr "token") (PStr "15"))
                 storage.OracleStore)
              (kivra_sync.limit_of (kivra_sync.max_letters demo_args)) demo_account hh
            = (Ret (letter_stats 3 2 lstored), evl))
    by (do 2 eexists; intros hh; vm_compute; reflexivity).
  destruct Ha as (eva & Ha). destruct Hr as (rstored & evr & Hr).
  destruct Hl as (lstored & evl & Hl).
  eexists.
  apply (a_completed_run_reports_the_merged_statistics
           1 1 demo_sha256 demo_good_json_loads demo_args
           providers.LocalInteractionProvider storage.OracleStore "/tmp" demo_account []
           (PStr "token") (PStr "15") (PDict [("kivra_user_id", PStr "15")])
           eva (PInt 3) 3 rstored evr 3 2 lstored evl []
           eq_refl eq_refl Ha (Hr _) (Hl _) eq_refl).
Defined.

(** X18.  When the receipts fetch raises, the run ends there with exit code 1:
    the exception is logged, the letters are not fetched and the completion
    is not reported. *)
Theorem a_failed_receipts_fetch_ends_the_run
        poll_fuel page_fuel sha256 json_loads args interaction_provider
        document_store temp_dir E h access_token actor_key jwt_data eva
        e evr :
  let client := api.mkKivraApiClient access_token actor_key in
  kivra_sync.fetch_receipts args = true ->
  auth.authenticate poll_fuel
    (auth.mkKivraAuth temp_dir (providers.for_auth interaction_provider))
    sha256 json_loads (kivra_sync.ssn args) E h
  = (Ret (token_result access_token actor_key jwt_data), eva) ->
  receipts.fetch_receipts (receipts.mkReceiptFetcher client document_store)
    (kivra_sync.limit_of (kivra_sync.max_receipts args)) E (h ++ eva)
  = (Raise (Exception e), evr) ->
  kivra_sync.fetch_documents poll_fuel page_fuel sha256 json_loads args
    interaction_provider document_store temp_dir E h
  = (Ret 1%Z, eva ++ evr ++ [ELog ERROR [Lit "Error: "] (Some e)]).
Proof. apply fetch_documents_receipts_fail. Qed.

Lemma a_failed_receipts_fetch_ends_the_run_witness :
  exists eva e evr,
    kivra_sync.fetch_documents 1 1 demo_sha256 demo_good_json_loads demo_args
      providers.LocalInteractionProvider storage.OracleStore "/tmp"
      demo_env_receipts_down []
    = (Ret 1%Z, eva ++ evr ++ [ELog ERROR [Lit "Error: "] (Some e)])
    /\ count_events is_list_request evr = 0.
Proof.
  assert (Ha : exists eva,
            auth.authenticate 1
              (auth.mkKivraAuth "/tmp"
                 (providers.for_auth providers.LocalInteractionProvider))
              demo_sha256 demo_good_json_loads (kivra_sync.ssn demo_args) demo_env_receipts_down []
            = (Ret (token_result (PStr "token") (PStr "15")
                                 (PDict [("kivra_user_id", PStr "15")])), eva))
    by (eexists; vm_compute; reflexivity).
  assert (Hr : exists e evr,
            (forall hh,
                receipts.fetch_receipts
                  (receipts.mkReceiptFetcher
                     (api.mkKivraApiClient (PStr "token") (PStr "15"))
                     storage.OracleStore)
                  (kivra_sync.limit_of (kivra_sync.max_receipts demo_args)) demo_env_receipts_down hh
                = (Raise (Exception e), evr))
            /\ count_events is_list_request evr = 0).
  { do 2 eexists. split; [intros hh; vm_compute; reflexivity | reflexivity]. }
  destruct Ha as (eva & Ha). destruct Hr as (e & evr & Hr & Hn).
  exists eva, e, evr. split; [| exact Hn].
  apply (a_failed_receipts_fetch_ends_the_run
           1 1 demo_sha256 demo_good_json_loads demo_args
           providers.LocalInteractionProvider storage.OracleStore "/tmp" demo_env_receipts_down []
           (PStr "token") (PStr "15") (PDict [("kivra_user_id", PStr "15")])
           eva e evr eq_refl Ha (Hr _)).
Defined.

Lemma fetch_documents_ends_with_an_exit_code_witness :
  exists e evs,
    snd (kivra_sync.fetch_documents 1 1 demo_sha256 demo_good_json_loads
           demo_args providers.LocalInteractionProvider storage.OracleStore
           "/tmp" demo_env_receipts_down [])
    = evs ++ [ELog ERROR [Lit "Error: "] (Some e)].
Proof.
  apply (proj2 (fetch_documents_ends_with_an_exit_code
                  1 1 demo_sha256 demo_good_json_loads demo_args
                  providers.LocalInteractionProvider storage.OracleStore
                  "/tmp" demo_env_receipts_down [])).
  vm_compute. reflexivity.
Defined.

(** ** storage/filesystem.py *)

Section FileSystemStore.
Import storage.
Context {fs : Type} `{OperatingSystem fs}.

Lemma ftry_answers {A} (body : FS fs A) (msg : fstring) (a : A) s :
  exists b, fs_result (ftry body (fun e => fbind (flog_error msg (Some e))
                                               (fun _ => fret a)) s) = Ok b.
Proof.
  unfold ftry. destruct (body s) as [[[b | e] s'] ev]; cbn; eauto.
Qed.

Lemma ftry_true (body : FS fs bool) (msg : fstring) s s' ev :
  ftry body (fun e => fbind (flog_error msg (Some e)) (fun _ => fret false)) s
  = (Ok true, s', ev) ->
  body s = (Ok true, s', ev).
Proof.
  unfold ftry. destruct (body s) as [[[b | e] s1] ev1]; cbn.
  - intros Hb. exact Hb.
  - discriminate.
Qed.

Lemma fbind_inv {A B} (m : FS fs A) (k : A -> FS fs B) s b s2 ev2 :
  fbind m k s = (Ok b, s2, ev2) ->
  exists a s1 ev1 ev',
    m s = (Ok a, s1, ev1) /\ k a s1 = (Ok b, s2, ev') /\ ev2 = ev1 ++ ev'.
Proof.
  unfold fbind. destruct (m s) as [[[a | e] s1] ev1]; [| discriminate].
  destruct (k a s1) as [[r s''] ev'] eqn:Hk. intros Hb.
  injection Hb as -> -> <-. eauto 10.
Qed.

Lemma fbind_ok {A B} (m : FS fs A) (k : A -> FS fs B) s a s1 ev1 :
  m s = (Ok a, s1, ev1) ->
  fbind m k s = (fs_result (k a s1), fs_state (k a s1), ev1 ++ fs_log (k a s1)).
Proof.
  intros Hm. unfold fbind. rewrite Hm.
  destruct (k a s1) as [[r s''] ev']. reflexivity.
Qed.

Lemma fbind_keeps {A B} (m : FS fs A) (k : A -> FS fs B) :
  (forall s, keeps s (fs_state (m s))) ->
  (forall a s, keeps s (fs_state (k a s))) ->
  forall s, keeps s (fs_state (fbind m k s)).
Proof.
  intros Hm Hk s p Hp. unfold fbind. specialize (Hm s p Hp).
  destruct (m s) as [[[a | e] s1] ev1]; cbn in *; [| exact Hm].
  specialize (Hk a s1 p Hm). destruct (k a s1) as [[r s''] ev']. exact Hk.
Qed.

Lemma ftry_keeps {A} (body : FS fs A) handler :
  (forall s, keeps s (fs_state (body s))) ->
  (forall e s, keeps s (fs_state (handler e s))) ->
  forall s, keeps s (fs_state (ftry body handler s)).
Proof.
  intros Hb Hh s p Hp. unfold ftry. specialize (Hb s p Hp).
  destruct (body s) as [[[a | e] s1] ev1]; cbn in *; [exact Hb |].
  specialize (Hh e s1 p Hb). destruct (handler e s1) as [[r s''] ev'].
  exact Hh.
Qed.

Lemma pure_keeps {A} (r : result A) (ev : list event) s :
  keeps s (fs_state ((fun s => (r, s, ev)) s)).
Proof. intros p Hp. exact Hp. Qed.

End FileSystemStore.

Section FilesStaying.
Import storage.
Context {fs : Type} `{FilesStay fs}.

Lemma fos_keeps {A} (op : fs -> result A * fs) :
  (forall s, keeps s (snd (op s))) ->
  forall s, keeps s (fs_state (fos op s)).
Proof.
  intros Hop s p Hp. specialize (Hop s p Hp). unfold fos.
  destruct (op s) as [r s']. exact Hop.
Qed.

Ltac keeps_tac :=
  intros;
  repeat first
    [ apply fbind_keeps; intros
    | apply ftry_keeps; intros
    | apply fos_keeps; intros;
      first [ apply makedirs_keeps | apply write_keeps | apply dump_keeps
            | intros ? ?; assumption ]
    | apply pure_keeps
    | match goal with
      | |- keeps _ (fs_state ((if ?b then _ else _) _)) => destruct b
      | |- keeps _ (fs_state ((match ?x with _ => _ end) _)) => destruct x
      end ].

Lemma get_filepath_keeps self metadata :
  forall s, keeps s (fs_state (filesystem._get_filepath self metadata s)).
Proof.
  unfold filesystem._get_filepath, flift, flogged, fret, fraise.
  keeps_tac.
Qed.

Lemma html_to_pdf_keeps data :
  forall s, keeps s (fs_state (html_to_pdf data s)).
Proof.
  unfold html_to_pdf, flog_error, fret. keeps_tac.
Qed.

Lemma store_methods_keep self data metadata :
  (forall s, keeps s (fs_state (filesystem._ensure_directories self s)))
  /\ (forall s, keeps s (fs_state (filesystem.exists_ self metadata s)))
  /\ (forall s, keeps s
                  (fs_state (filesystem.report_metadata self data metadata s)))
  /\ (forall s, keeps s (fs_state (filesystem.store self data metadata s))).
Proof.
  repeat apply conj.
  - unfold filesystem._ensure_directories. keeps_tac.
  - unfold filesystem.exists_, flift, fret, flog_error.
    apply ftry_keeps; [| keeps_tac].
    apply fbind_keeps; [apply get_filepath_keeps |].
    keeps_tac.
  - unfold filesystem.report_metadata, flift, fret, flog_error.
    apply ftry_keeps; [| keeps_tac].
    apply fbind_keeps; [apply get_filepath_keeps |].
    keeps_tac.
  - unfold filesystem.store, flift, fret, flog_error, flog_warning.
    apply ftry_keeps; [| keeps_tac].
    apply fbind_keeps; [apply get_filepath_keeps |].
    intros [[dir_path json_dir] filename_base].
    apply fbind_keeps; [keeps_tac |].
    intros content_type s.
    repeat match goal with
           | |- keeps _ (fs_state ((if ?b then _ else _) _)) => destruct b
           end; try solve [keeps_tac].
    all: apply fbind_keeps; [apply html_to_pdf_keeps | keeps_tac].
Qed.

End FilesStaying.

Section Paths.
Import storage.
Context {fs : Type} `{OperatingSystem fs}.

(** Where a document goes depends on its metadata, not on the state of the
    file system. *)
Lemma get_filepath_same_paths self metadata s p s' ev t q t' ev' :
  filesystem._get_filepath self metadata s = (Ok p, s', ev) ->
  filesystem._get_filepath self metadata t = (Ok q, t', ev') ->
  p = q.
Proof.
  unfold filesystem._get_filepath, fbind, flift, flogged, fos, fret, fraise.
  intros H1 H2.
  repeat match goal with
         | H : context [match ?x with _ => _ end] |- _ =>
             destruct x eqn:?; try discriminate
         end.
  all: congruence.
Qed.

End Paths.

Lemma py_get_present (metadata : pyval) (k c : string) :
  py_get metadata k (PStr EmptyString) = Ok (PStr c) ->
  c <> EmptyString ->
  py_get metadata k PNone = Ok (PStr c).
Proof.
  destruct metadata; cbn; try discriminate.
  destruct (dict_get d k); [auto |].
  intros Hc Hne. injection Hc as <-. contradiction.
Qed.

Lemma py_eq_str_eq (v : pyval) (s : string) :
  py_eq_str v s = true -> v = PStr s.
Proof.
  destruct v; cbn; try discriminate.
  intros Hs. apply String.eqb_eq in Hs. congruence.
Qed.

Section RoundTrip.
Import storage.
Context {fs : Type} `{FilesStay fs}.

(** [exists] on a file system that holds the file it looks for. *)
Lemma exists_finds self metadata s2 file_dir json_dir filename_base s3 ev'
      content_type suffix :
  filesystem._get_filepath self metadata s2
  = (Ok (file_dir, json_dir, filename_base), s3, ev') ->
  py_get metadata "content_type" PNone = Ok (PStr content_type) ->
  (content_type = "application/json"
   /\ path_exists (path_join json_dir (filename_base ++ suffix)) s3 = true
   /\ suffix = ".json")
  \/ (path_exists (path_join file_dir (filename_base ++ suffix)) s3 = true
      /\ ((content_type = "application/pdf" /\ suffix = ".pdf")
          \/ (content_type = "text/plain" /\ suffix = ".txt")
          \/ (content_type = "text/html" /\ suffix = "_html.pdf"))) ->
  filesystem.exists_ self metadata s2 = (Ok true, s3, ev').
Proof.
  intros Hg Hc Hfile. unfold filesystem.exists_, ftry.
  rewrite (fbind_ok _ _ s2 _ s3 ev' Hg).
  assert (Hc' : py_get metadata "content_type" (PStr EmptyString)
                = Ok (PStr content_type)).
  { destruct metadata; try discriminate. cbn in *.
    destruct (dict_get d "content_type"); [exact Hc | discriminate]. }
  unfold fbind, flift, fos, fret. rewrite Hc.
  destruct Hfile as [(-> & Hp & ->) | (Hp & [(-> & ->) | [(-> & ->) | (-> & ->)]])];
    cbn [py_eq_str String.eqb Ascii.eqb Bool.eqb];
    rewrite ?Hc'; cbn [py_eq_str String.eqb Ascii.eqb Bool.eqb];
    rewrite Hp; cbn; rewrite ?app_nil_r; reflexivity.
Qed.

Lemma reported_metadata_is_found self data metadata s s1 ev s2 paths s3 ev' :
  dry_run self = false ->
  py_get metadata "content_type" PNone = Ok (PStr "application/json") ->
  filesystem.report_metadata self data metadata s = (Ok true, s1, ev) ->
  keeps s1 s2 ->
  filesystem._get_filepath self metadata s2 = (Ok paths, s3, ev') ->
  filesystem.exists_ self metadata s2 = (Ok true, s3, ev').
Proof.
  intros Hdry Hc Hr Hk Hg.
  unfold filesystem.report_metadata in Hr. apply ftry_true in Hr.
  apply fbind_inv in Hr.
  destruct Hr as ([[d j] b] & sa & eva & evb & Hga & Hr & _).
  rewrite Hdry in Hr. apply fbind_inv in Hr.
  destruct Hr as ([] & sb & evc & evd & Hw & Hr & _).
  unfold fret in Hr. injection Hr as Hs _. subst sb.
  unfold fos in Hw.
  destruct (json_dump_file (path_join j (b ++ ".json")) data sa)
    as [r sc] eqn:Hd.
  injection Hw as Hr' Hs _. subst r sc.
  assert (Hp : path_exists (path_join j (b ++ ".json")) s1 = true)
    by (eapply dumped_exists; exact Hd).
  pose proof (get_filepath_same_paths self metadata s _ sa eva s2 paths s3 ev'
                Hga Hg) as <-.
  apply (exists_finds self metadata s2 d j b s3 ev' "application/json" ".json"
           Hg Hc).
  left. repeat split.
  pose proof (get_filepath_keeps self metadata s2) as Hk2.
  rewrite Hg in Hk2. apply Hk2. apply Hk. exact Hp.
Qed.

Lemma stored_content_is_found self data metadata s s1 ev s2 paths s3 ev' :
  dry_run self = false ->
  filesystem.store self data metadata s = (Ok true, s1, ev) ->
  keeps s1 s2 ->
  filesystem._get_filepath self metadata s2 = (Ok paths, s3, ev') ->
  filesystem.exists_ self metadata s2 = (Ok true, s3, ev').
Proof.
  intros Hdry Hr Hk Hg.
  unfold filesystem.store in Hr. apply ftry_true in Hr.
  apply fbind_inv in Hr.
  destruct Hr as ([[d j] b] & sa & eva & evb & Hga & Hr & _).
  apply fbind_inv in Hr.
  destruct Hr as (ct & sb & evc & evd & Hct & Hr & _).
  unfold flift in Hct. injection Hct as Hct Hs _. subst sb.
  rewrite Hdry in Hr.
  pose proof (get_filepath_same_paths self metadata s _ sa eva s2 paths s3 ev'
                Hga Hg) as <-.
  pose proof (get_filepath_keeps self metadata s2) as Hk2.
  rewrite Hg in Hk2. cbn [fs_state fst snd] in Hk2.
  assert (Hwritten : forall p binary v sw evw evx,
            fbind (fos (write_file p binary v)) (fun _ => fret true) sa
            = (Ok true, sw, evw ++ evx) \/
            fbind (fos (write_file p binary v)) (fun _ => fret true) sa
            = (Ok true, sw, evw) ->
            sw = s1 -> path_exists p s3 = true).
  { intros p binary v sw evw evx Hw ->.
    assert (Hw' : exists evy,
              fbind (fos (write_file p binary v)) (fun _ => fret true) sa
              = (Ok true, s1, evy)) by (destruct Hw; eauto).
    destruct Hw' as (evy & Hw'). apply fbind_inv in Hw'.
    destruct Hw' as ([] & sc & ? & ? & Hop & Hrt & _).
    unfold fret in Hrt. injection Hrt as Hs _. subst sc.
    unfold fos in Hop.
    destruct (write_file p binary v sa) as [r sd] eqn:Hd.
    injection Hop as Hr' Hs _. subst r sd.
    apply Hk2, Hk. eapply written_exists. exact Hd. }
  destruct (py_eq_str ct "application/pdf") eqn:Hpdf.
  { apply py_eq_str_eq in Hpdf. subst ct.
    apply (exists_finds self metadata s2 d j b s3 ev' "application/pdf" ".pdf"
             Hg (py_get_present _ _ _ Hct ltac:(discriminate))).
    right. split; [| auto].
    eapply (Hwritten _ _ _ s1 evd []); [right; exact Hr | reflexivity]. }
  destruct (py_eq_str ct "text/plain") eqn:Htxt.
  { apply py_eq_str_eq in Htxt. subst ct.
    apply (exists_finds self metadata s2 d j b s3 ev' "text/plain" ".txt"
             Hg (py_get_present _ _ _ Hct ltac:(discriminate))).
    right. split; [| auto].
    eapply (Hwritten _ _ _ s1 evd []); [right; exact Hr | reflexivity]. }
  destruct (py_eq_str ct "text/html") eqn:Hhtml.
  { apply py_eq_str_eq in Hhtml. subst ct.
    apply (exists_finds self metadata s2 d j b s3 ev' "text/html" "_html.pdf"
             Hg (py_get_present _ _ _ Hct ltac:(discriminate))).
    right. split; [| auto].
    apply fbind_inv in Hr.
    destruct Hr as (pdf & sp & evp & evq & Hconv & Hr & _).
    assert (sp = sa) as ->.
    { unfold html_to_pdf, fbind, flog_error, fret in Hconv.
      destruct (weasyprint data); injection Hconv; congruence. }
    destruct (py_truthy pdf).
    - eapply (Hwritten _ _ _ s1 evq []); [right; exact Hr | reflexivity].
    - apply fbind_inv in Hr.
      destruct Hr as (? & ? & ? & ? & _ & Hr & _). discriminate. }
  apply fbind_inv in Hr.
  destruct Hr as (? & ? & ? & ? & _ & Hr & _). discriminate.
Qed.

End RoundTrip.

#[local] Instance demo_os_files_stay : @FilesStay (list string) demo_os.
Proof.
  split.
  - intros p binary data s s' Hw. cbn in Hw. injection Hw as <-.
    cbn. rewrite String.eqb_refl. reflexivity.
  - intros p data s s' Hw. cbn in Hw. injection Hw as <-.
    cbn. rewrite String.eqb_refl. reflexivity.
  - intros p s q Hq. cbn in *. rewrite Hq. apply orb_true_r.
  - intros p binary data s q Hq. cbn in *. rewrite Hq. apply orb_true_r.
  - intros p data s q Hq. cbn in *. rewrite Hq. apply orb_true_r.
Qed.

(** X19.  The methods of the file-system store never raise: whatever the
    metadata and the state of the file system, exists, report_metadata and
    store return a bool; an error inside them is logged and answered with
    False. *)
Theorem filesystem_store_never_raises
        {fs : Type} `{OperatingSystem fs} self data metadata (s : fs) :
  (exists b, fs_result (filesystem.exists_ self metadata s) = Ok b)
  /\ (exists b,
         fs_result (filesystem.report_metadata self data metadata s) = Ok b)
  /\ (exists b, fs_result (filesystem.store self data metadata s) = Ok b).
Proof.
  repeat apply conj; apply ftry_answers.
Qed.

(** X20.  What the file-system store reported as kept is found by its existence
    check from then on.  After report_metadata (for JSON metadata) or store
    has returned True outside a dry run, exists answers True for the same
    metadata in every later state of the file system in which no path has
    disappeared and the directories of the document can be made. *)
Theorem what_the_store_kept_is_found_later
        {fs : Type} `{FilesStay fs} self data metadata
        (s s1 s2 s3 : fs) ev paths ev' :
  storage.dry_run self = false ->
  (filesystem.report_metadata self data metadata s = (Ok true, s1, ev)
   /\ py_get metadata "content_type" PNone = Ok (PStr "application/json"))
  \/ filesystem.store self data metadata s = (Ok true, s1, ev) ->
  keeps s1 s2 ->
  filesystem._get_filepath self metadata s2 = (Ok paths, s3, ev') ->
  filesystem.exists_ self metadata s2 = (Ok true, s3, ev').
Proof.
  intros Hdry [[Hr Hc] | Hr] Hk Hg.
  - eapply reported_metadata_is_found; eassumption.
  - eapply stored_content_is_found; eassumption.
Qed.

Lemma what_the_store_kept_is_found_later_witness :
  let md := receipt_fingerprint (PStr "r1") "2024-03-01" (PStr "Grocer") in
  exists s1 s3,
    filesystem.report_metadata demo_store (PDict []) md [] = (Ok true, s1, [])
    /\ filesystem.exists_ demo_store md s1 = (Ok true, s3, []).
Proof.
  intros md.
  exists ["/data/Receipts/json/Grocer/2024-03-01_Grocer_r1.json";
          "/data/Receipts/json/Grocer"; "/data/Receipts/Grocer"].
  eexists.
  assert (Hr : filesystem.report_metadata demo_store (PDict []) md []
               = (Ok true,
                  ["/data/Receipts/json/Grocer/2024-03-01_Grocer_r1.json";
                   "/data/Receipts/json/Grocer"; "/data/Receipts/Grocer"],
                  [])) by (vm_compute; reflexivity).
  split; [exact Hr |].
  eapply (what_the_store_kept_is_found_later demo_store (PDict []) md
            [] _ _ _ [] _ [] eq_refl (or_introl (conj Hr eq_refl))).
  - intros p Hp. exact Hp.
  - vm_compute. reflexivity.
Defined.

(** X21.  A dry run writes no file: report_metadata and store leave the file
    system as the computation of the document's path leaves it (which makes
    the directories of the document), whatever the content type, and
    report_metadata answers True as soon as the path can be computed. *)
Theorem a_dry_run_writes_no_file
        {fs : Type} `{OperatingSystem fs} self data metadata (s : fs) :
  storage.dry_run self = true ->
  fs_state (filesystem.report_metadata self data metadata s)
  = fs_state (filesystem._get_filepath self metadata s)
  /\ fs_state (filesystem.store self data metadata s)
     = fs_state (filesystem._get_filepath self metadata s)
  /\ (forall paths,
         fs_result (filesystem._get_filepath self metadata s) = Ok paths ->
         fs_result (filesystem.report_metadata self data metadata s) = Ok true).
Proof.
  intros Hdry. unfold filesystem.report_metadata, filesystem.store, ftry, fbind.
  rewrite Hdry.
  destruct (filesystem._get_filepath self metadata s)
    as [[[[[d j] b] | e] s'] ev]; cbn [fs_state fs_result fst snd].
  - repeat apply conj.
    + reflexivity.
    + unfold flift, fret, flog_error, flog_warning, html_to_pdf, fbind.
      destruct (py_get metadata "content_type" (PStr EmptyString))
        as [ct | e]; [| reflexivity].
      destruct (py_eq_str ct "application/pdf"); [reflexivity |].
      destruct (py_eq_str ct "text/plain"); [reflexivity |].
      destruct (py_eq_str ct "text/html"); [| reflexivity].
      destruct (weasyprint data) as [pdf | e]; cbn;
        repeat match goal with
               | |- context [if ?c then _ else _] => destruct c
               end; reflexivity.
    + reflexivity.
  - repeat apply conj; [reflexivity | reflexivity | discriminate].
Qed.

Lemma a_dry_run_writes_no_file_witness :
  let md := models.KivraReceipt_get_metadata
              (models.mkKivraReceipt (PStr "r1") "2024-03-01" (PStr "Grocer"))
              "application/pdf" in
  storage.dry_run demo_dry_store = true
  /\ fs_result (filesystem.store demo_dry_store (PBytes "%PDF") md []) = Ok true
  /\ fs_state (filesystem.store demo_dry_store (PBytes "%PDF") md [])
     = ["/data/Receipts/json/Grocer"; "/data/Receipts/Grocer"].
Proof.
  intros md. split; [reflexivity |]. split; [reflexivity |].
  rewrite (proj1 (proj2 (a_dry_run_writes_no_file demo_dry_store
                           (PBytes "%PDF") md [] eq_refl))).
  reflexivity.
Defined.

(** X22.  The file-system store deletes nothing: on a file system where
    making a directory and writing a file make no path disappear, every path
    that exists before a call of one of its methods exists after it. *)
Theorem the_store_deletes_nothing
        {fs : Type} `{FilesStay fs} self data metadata (s : fs) :
  keeps s (fs_state (filesystem._ensure_directories self s))
  /\ keeps s (fs_state (filesystem.exists_ self metadata s))
  /\ keeps s (fs_state (filesystem.report_metadata self data metadata s))
  /\ keeps s (fs_state (filesystem.store self data metadata s)).
Proof.
  destruct (store_methods_keep self data metadata) as (H1 & H2 & H3 & H4).
  repeat apply conj; auto.
Qed.

Lemma the_store_deletes_nothing_witness :
  let md := receipt_fingerprint (PStr "r1") "2024-03-01" (PStr "Grocer") in
  keeps ["/data/old.txt"]
        (fs_state (filesystem.report_metadata demo_store (PDict []) md
                                             ["/data/old.txt"])).
Proof.
  intros md.
  exact (proj1 (proj2 (proj2
           (the_store_deletes_nothing demo_store (PDict []) md
                                      ["/data/old.txt"])))).
Defined.

(** ** storage/paperless.py *)

(** X23.  The existence check of the paperless store never raises and never
    writes: it returns a bool after at most one GET.  It answers True exactly
    when the metadata carries a key, the one search for documents whose file
    name contains that key was answered with status 200, and the count of the
    answer is greater than 0; nothing but the key of the metadata enters the
    search. *)
Theorem paperless_exists_answers_by_key self metadata E h :
  (exists b ev, paperless.exists_ self metadata E h = (Ret b, ev)
                /\ count_events is_post ev = 0
                /\ count_events is_get ev <= 1)
  /\ (forall ev,
         paperless.exists_ self metadata E h = (Ret true, ev) <->
         exists doc_key r data count,
           py_get metadata "key" PNone = Ok doc_key
           /\ py_truthy doc_key = true
           /\ o_get E h (paperless.search_url self doc_key)
                    (paperless.session_headers self) = Ok r
           /\ status_code r = 200%Z
           /\ json_body r = Some data
           /\ py_getitem data "count" = Ok count
           /\ paperless.py_gt_zero count = Ok true
           /\ ev = [EGet (paperless.search_url self doc_key)
                         (paperless.session_headers self) (Ok r)]).
Proof.
  unfold paperless.exists_, try_except.
  destruct (py_get metadata "type" PNone) as [doc_type | e] eqn:Ht.
  2:{ destruct metadata; try discriminate; cbn; split;
        try (do 2 eexists; repeat split; try reflexivity; cbn; lia);
        intros ev; (split; [discriminate |]);
        intros (k & r & d & c & Hk & _); discriminate. }
  rewrite lift_ok_bind.
  destruct (py_get metadata "key" PNone) as [doc_key | e] eqn:Hk.
  2:{ destruct metadata; discriminate. }
  rewrite lift_ok_bind.
  destruct (py_truthy doc_key) eqn:Htr; cbn [negb].
  2:{ cbn. split; [do 2 eexists; repeat split; cbn; lia |].
      intros ev. split; [discriminate |].
      intros (k & r & d & c & Hk' & Ht' & _). congruence. }
  unfold api.session_get. rewrite ask_bind.
  destruct (o_get E h _ _) as [r | e] eqn:Ho.
  2:{ cbn. split; [do 2 eexists; repeat split; cbn; lia |].
      intros ev. split; [discriminate |].
      intros (k & r & d & c & Hk' & _ & Ho' & _).
      injection Hk' as <-. congruence. }
  destruct (status_code r =? 200)%Z eqn:Hs; cbn [negb].
  2:{ apply Z.eqb_neq in Hs. unfold logging_error. rewrite emit_bind. cbn.
      split; [do 2 eexists; repeat split; cbn; lia |].
      intros ev. split; [discriminate |].
      intros (k & r' & d & c & Hk' & _ & Ho' & Hs' & _).
      injection Hk' as <-. rewrite Ho in Ho'. injection Ho' as <-.
      contradiction. }
  apply Z.eqb_eq in Hs. unfold api.response_json.
  destruct (json_body r) as [data |] eqn:Hj.
  2:{ cbn. split; [do 2 eexists; repeat split; cbn; lia |].
      intros ev. split; [discriminate |].
      intros (k & r' & d & c & Hk' & _ & Ho' & _ & Hj' & _).
      injection Hk' as <-. rewrite Ho in Ho'. injection Ho' as <-.
      congruence. }
  rewrite lift_ok_bind.
  destruct (py_getitem data "count") as [count | e] eqn:Hc.
  2:{ cbn. split; [do 2 eexists; repeat split; cbn; lia |].
      intros ev. split; [discriminate |].
      intros (k & r' & d & c & Hk' & _ & Ho' & _ & Hj' & Hc' & _).
      injection Hk' as <-. rewrite Ho in Ho'. injection Ho' as <-.
      congruence. }
  rewrite lift_ok_bind.
  destruct (paperless.py_gt_zero count) as [found | e] eqn:Hg.
  2:{ cbn. split; [do 2 eexists; repeat split; cbn; lia |].
      intros ev. split; [discriminate |].
      intros (k & r' & d & c & Hk' & _ & Ho' & _ & Hj' & Hc' & Hg' & _).
      injection Hk' as <-. rewrite Ho in Ho'. injection Ho' as <-.
      congruence. }
  cbn. split; [do 2 eexists; repeat split; cbn; lia |].
  intros ev. split.
  - intros Hr. injection Hr as -> <-.
    exists doc_key, r, data, count. repeat apply conj; auto.
  - intros (k & r' & d & c & Hk' & _ & Ho' & _ & Hj' & Hc' & Hg' & ->).
    injection Hk' as <-. rewrite Ho in Ho'. injection Ho' as <-.
    congruence.
Qed.

Lemma paperless_exists_answers_by_key_witness :
  let md := receipt_fingerprint (PStr "r1") "2024-03-01" (PStr "Grocer") in
  paperless.exists_ demo_paperless md demo_env_paperless []
  = (Ret true,
     [EGet (paperless.search_url demo_paperless (PStr "r1"))
           (paperless.session_headers demo_paperless)
           (Ok (json_response (PDict [("count", PInt 1)])))]).
Proof.
  intros md.
  apply (proj2 (paperless_exists_answers_by_key
                  demo_paperless md demo_env_paperless [])).
  exists (PStr "r1"), (json_response (PDict [("count", PInt 1)])),
         (PDict [("count", PInt 1)]), (PInt 1).
  repeat apply conj; reflexivity.
Defined.
